(** * ms-approval: event-fed caches, consumers and the deletion workflow

    A shallow embedding of the TypeScript services of the repository
    (workflow-service, analytics-service, audit-service and
    organization-service) together with the properties of their event
    handling, caches and limit checks.

    Conventions.
    - An [async] function of the source is a computation in the monad [M]:
      it threads a [World] (the service's PostgreSQL tables, the outcome of
      the next I/O calls, the clock, the logger output and the messages handed
      to the Kafka producer) and either returns a value or throws.
    - A table is the list of its rows, in insertion order.  Column
      constraints of the migrations (NOT NULL, UUID syntax, VARCHAR lengths,
      INTEGER range, primary keys) are part of the statements' semantics: a
      statement that PostgreSQL would refuse throws.
    - Values read from the request or from a Kafka message are JSON values. *)

From Stdlib Require Import String Ascii List ZArith Bool Lia.
Import ListNotations.
Local Open Scope string_scope.
Local Open Scope Z_scope.

(* ===================================================================== *)
(** * JavaScript and JSON values                                          *)
(* ===================================================================== *)

#[local] Set Warnings "-register-all".

(** The result of [JSON.parse] / [express.json()].  Numbers are the integer
    counters the services exchange. *)
Inductive Json : Type :=
| JNull
| JBool (b : bool)
| JNum (n : Z)
| JStr (s : string)
| JArr (xs : list Json)
| JObj (fields : list (string * Json)).

(** [o.k] on the fields of an object, whose keys are distinct: [None] is
    JavaScript's [undefined]. *)
Fixpoint field (k : string) (fields : list (string * Json)) : option Json :=
  match fields with
  | [] => None
  | (k', v) :: rest => if String.eqb k k' then Some v else field k rest
  end.

(** JavaScript truthiness of a value that may be [undefined]. *)
Definition truthy (v : option Json) : bool :=
  match v with
  | None | Some JNull => false
  | Some (JBool b) => b
  | Some (JNum n) => negb (n =? 0)
  | Some (JStr s) => negb (String.eqb s "")
  | Some (JArr _) | Some (JObj _) => true
  end.

(** [a || b] *)
Definition js_or (a b : option Json) : option Json :=
  if truthy a then a else b.

(** A request header: absent or a string. *)
Definition header (h : option string) : option Json := option_map JStr h.

(** ** Characters and strings *)

Definition is_digit (c : ascii) : bool :=
  let n := nat_of_ascii c in (48 <=? n)%nat && (n <=? 57)%nat.

Definition is_hex (c : ascii) : bool :=
  let n := nat_of_ascii c in
  ((48 <=? n)%nat && (n <=? 57)%nat)
  || ((65 <=? n)%nat && (n <=? 70)%nat)
  || ((97 <=? n)%nat && (n <=? 102)%nat).

Definition lower_ascii (c : ascii) : ascii :=
  let n := nat_of_ascii c in
  if ((65 <=? n)%nat && (n <=? 90)%nat) then ascii_of_nat (n + 32) else c.

(** [s.toLowerCase()] on ASCII text. *)
Fixpoint toLowerCase (s : string) : string :=
  match s with
  | EmptyString => EmptyString
  | String c rest => String (lower_ascii c) (toLowerCase rest)
  end.

(** [s.startsWith(p)] *)
Definition startsWith (p s : string) : bool := String.prefix p s.

(** [s.includes(p)] *)
Fixpoint includes (p s : string) : bool :=
  String.prefix p s ||
  match s with
  | EmptyString => false
  | String _ rest => includes p rest
  end.

Fixpoint all_chars (f : ascii -> bool) (s : string) : bool :=
  match s with
  | EmptyString => true
  | String c rest => f c && all_chars f rest
  end.

(** The textual shape of a UUID, 8-4-4-4-12 hexadecimal digits, which
    zod's [z.string().uuid()] asks for. *)
Definition hex_group (n : nat) (s : string) : bool :=
  (String.length s =? n)%nat && all_chars is_hex s.

Definition is_uuid (s : string) : bool :=
  (String.length s =? 36)%nat
  && hex_group 8 (substring 0 8 s)
  && String.eqb (substring 8 1 s) "-"
  && hex_group 4 (substring 9 4 s)
  && String.eqb (substring 13 1 s) "-"
  && hex_group 4 (substring 14 4 s)
  && String.eqb (substring 18 1 s) "-"
  && hex_group 4 (substring 19 4 s)
  && String.eqb (substring 23 1 s) "-"
  && hex_group 12 (substring 24 12 s).

Definition digits (n : nat) (s : string) : bool :=
  (String.length s =? n)%nat && all_chars is_digit s.

(** zod's [z.string().datetime()]: [YYYY-MM-DDTHH:MM:SS], an optional
    fraction, and the UTC designator [Z]. *)
Definition is_datetime (s : string) : bool :=
  let n := String.length s in
  digits 4 (substring 0 4 s)
  && String.eqb (substring 4 1 s) "-"
  && digits 2 (substring 5 2 s)
  && String.eqb (substring 7 1 s) "-"
  && digits 2 (substring 8 2 s)
  && String.eqb (substring 10 1 s) "T"
  && digits 2 (substring 11 2 s)
  && String.eqb (substring 13 1 s) ":"
  && digits 2 (substring 14 2 s)
  && String.eqb (substring 16 1 s) ":"
  && digits 2 (substring 17 2 s)
  && (String.eqb (substring 19 (n - 19) s) "Z"
      || ((22 <=? n)%nat
          && String.eqb (substring 19 1 s) "."
          && all_chars is_digit (substring 20 (n - 21) s)
          && String.eqb (substring (n - 1) 1 s) "Z")).

(* ===================================================================== *)
(** * The runtime of a service: store, bus, clock, logger                 *)
(* ===================================================================== *)

(** What a JavaScript [throw] carries, by origin. *)
Inductive Exn : Type :=
| StoreError            (* pool.query rejected *)
| BusError              (* producer.send rejected *)
| SyntaxError           (* JSON.parse *)
| ZodError              (* schema.parse *)
| TypeError             (* property access on undefined or null *)
| Error (message : string).

Inductive Outcome (A : Type) : Type :=
| Return (a : A)
| Throw (e : Exn).
Arguments Return {A} a.
Arguments Throw {A} e.

Inductive Level : Type := LInfo | LError.

Record LogEntry : Type := mkLog { level : Level; text : string }.

(** The payloads of the [DomainEvent] union that the modelled services
    publish; instants are milliseconds since the epoch. *)
Inductive Payload : Type :=
| OrganizationDeletedData (organizationId deletedBy : string) (deletedAt : Z)
| ProjectCreatedData (organizationId projectId name createdBy : string) (createdAt : Z)
| TaskCreatedData (organizationId projectId taskId title createdBy : string) (createdAt : Z).

(** [createEvent]'s result. *)
Record DomainEvent : Type := mkEvent {
  ev_eventId : string;
  ev_eventType : string;
  ev_eventVersion : string;
  ev_timestamp : Z;
  ev_source : string;
  ev_correlationId : string;
  ev_userId : option string;
  ev_organizationId : option string;
  ev_data : Payload
}.

(** A message handed to [producer.send]. *)
Record Sent : Type := mkSent { sent_topic : string; sent_key : string; sent_event : DomainEvent }.

(** The world of one service with tables [D].
    - [faults]: the outcome of the coming I/O calls ([pool.query],
      [producer.send]), in call order; [true] is a call that fails because
      the store or the bus is unavailable, and past the end of the list every
      call goes through;
    - [now]: the clock ([CURRENT_TIMESTAMP], [new Date()]);
    - [uuids], [next]: the values [gen_random_uuid()] and [randomUUID()]
      produce, and how many were taken;
    - [logs]: what the logger has written;
    - [outbox]: what the Kafka producer has accepted. *)
Record World (D : Type) : Type := mkWorld {
  db : D;
  faults : list bool;
  now : Z;
  uuids : nat -> string;
  next : nat;
  logs : list LogEntry;
  outbox : list Sent
}.
Arguments mkWorld {D}.
Arguments db {D}.
Arguments faults {D}.
Arguments now {D}.
Arguments uuids {D}.
Arguments next {D}.
Arguments logs {D}.
Arguments outbox {D}.

Section Monad.
Context {D : Type}.

(** An [async] function body. *)
Definition M (A : Type) : Type := World D -> Outcome A * World D.

Definition ret {A} (a : A) : M A := fun w => (Return a, w).

Definition throw {A} (e : Exn) : M A := fun w => (Throw e, w).

Definition bind {A B} (m : M A) (k : A -> M B) : M B :=
  fun w =>
    match m w with
    | (Return a, w') => k a w'
    | (Throw e, w') => (Throw e, w')
    end.

(** [try { body } catch (error) { handler }] *)
Definition try_catch {A} (body : M A) (handler : Exn -> M A) : M A :=
  fun w =>
    match body w with
    | (Return a, w') => (Return a, w')
    | (Throw e, w') => handler e w'
    end.

(** [for (const x of xs) { await body(x) }] *)
Fixpoint for_of {A} (xs : list A) (body : A -> M unit) : M unit :=
  match xs with
  | [] => ret tt
  | x :: rest => bind (body x) (fun _ => for_of rest body)
  end.

(** Lifts a parser: [None] is a failed [schema.parse]. *)
Definition parse {A} (r : option A) : M A :=
  match r with
  | Some a => ret a
  | None => throw ZodError
  end.

Definition set_db (d : D) (w : World D) : World D :=
  mkWorld d (faults w) (now w) (uuids w) (next w) (logs w) (outbox w).

Definition set_faults (fs : list bool) (w : World D) : World D :=
  mkWorld (db w) fs (now w) (uuids w) (next w) (logs w) (outbox w).

(** [await pool.query(...)]: one SQL statement.  [stmt] is the statement's
    meaning on the tables at the current time; it is [None] when
    PostgreSQL refuses the statement (a constraint or a type error), and
    nothing is written then.  The call takes the next entry of [faults]. *)
Definition pool_query {A} (stmt : D -> Z -> option (A * D)) : M A :=
  fun w =>
    match faults w with
    | true :: fs => (Throw StoreError, set_faults fs w)
    | fs =>
        let w1 := set_faults (tl fs) w in
        match stmt (db w) (now w) with
        | Some (a, d') => (Return a, set_db d' w1)
        | None => (Throw StoreError, w1)
        end
    end.

(** [new Date()] *)
Definition new_Date : M Z := fun w => (Return (now w), w).

(** [crypto.randomUUID()] *)
Definition randomUUID : M string :=
  fun w =>
    (Return (uuids w (next w)),
     mkWorld (db w) (faults w) (now w) (uuids w) (S (next w)) (logs w) (outbox w)).

Definition log (l : Level) (msg : string) : M unit :=
  fun w =>
    (Return tt,
     mkWorld (db w) (faults w) (now w) (uuids w) (next w)
             (logs w ++ [mkLog l msg]) (outbox w)).

(** [logger.info(ctx, msg)] and [logger.error(ctx, msg)] *)
Definition logger_info (msg : string) : M unit := log LInfo msg.
Definition logger_error (msg : string) : M unit := log LError msg.

(** [await this.producer.send({topic, messages: [...]})] *)
Definition producer_send (m : Sent) : M unit :=
  fun w =>
    match faults w with
    | true :: fs => (Throw BusError, set_faults fs w)
    | fs =>
        (Return tt,
         mkWorld (db w) (tl fs) (now w) (uuids w) (next w) (logs w)
                 (outbox w ++ [m]))
    end.

(** [event.organizationId || event.userId || event.eventId] *)
Definition message_key (e : DomainEvent) : string :=
  match ev_organizationId e with
  | Some o => if String.eqb o "" then
                match ev_userId e with
                | Some u => if String.eqb u "" then ev_eventId e else u
                | None => ev_eventId e
                end
              else o
  | None =>
      match ev_userId e with
      | Some u => if String.eqb u "" then ev_eventId e else u
      | None => ev_eventId e
      end
  end.

(** [EventPublisher.publish] (workflow-service/src/events/event-publisher.ts). *)
Definition publish (topic : string) (e : DomainEvent) : M unit :=
  try_catch
    (bind (producer_send (mkSent topic (message_key e) e)) (fun _ =>
     logger_info "Event published"))
    (fun error =>
       bind (logger_error "Failed to publish event") (fun _ =>
       throw error)).

(** [createEvent] of the events package. *)
Definition createEvent (eventType eventVersion : string) (data : Payload)
    (source correlationId : string) (userId organizationId : option string)
    : M DomainEvent :=
  bind randomUUID (fun eventId =>
  bind new_Date (fun timestamp =>
  ret (mkEvent eventId eventType eventVersion timestamp source correlationId
               userId organizationId data))).

(** [correlationId || getCorrelationId()], where [getCorrelationId] of the
    observability package is [randomUUID()]. *)
Definition correlation (correlationId : option string) : M string :=
  match correlationId with
  | Some c => if String.eqb c "" then randomUUID else ret c
  | None => randomUUID
  end.

End Monad.

Arguments M D A : clear implicits.

Declare Scope m_scope.
Delimit Scope m_scope with m.
Notation "x <- m ;; k" := (bind m (fun x => k))
  (at level 61, m at next level, right associativity) : m_scope.
Notation "m ;;; k" := (bind m (fun _ => k))
  (at level 61, right associativity) : m_scope.

(* ===================================================================== *)
(** * PostgreSQL column types                                             *)
(* ===================================================================== *)

(** A text parameter bound to a UUID column, as PostgreSQL reads it
    ([string_to_uuid] of uuid.c): sixteen bytes of two hexadecimal digits
    each, an optional hyphen after every second byte but the last, optional
    braces around the whole.  [uuid_digits bytes i src] reads [bytes] bytes,
    the next one being the [i]-th, and returns the digits in lower case with
    what is left of [src]. *)
Fixpoint uuid_digits (bytes i : nat) (src : string) : option (string * string) :=
  match bytes with
  | O => Some ("", src)
  | S bytes' =>
      match src with
      | String a (String b rest) =>
          if is_hex a && is_hex b then
            let rest' :=
              match rest with
              | String c r =>
                  if Ascii.eqb c "-" && Nat.odd i && (i <? 15)%nat then r else rest
              | EmptyString => rest
              end in
            match uuid_digits bytes' (S i) rest' with
            | Some (ds, r) =>
                Some (String (lower_ascii a) (String (lower_ascii b) ds), r)
            | None => None
            end
          else None
      | _ => None
      end
  end.

(** The value of a UUID column prints as 8-4-4-4-12 digits in lower case;
    [None] is a text that PostgreSQL refuses. *)
Definition pg_uuid (s : string) : option string :=
  let braces :=
    match s with
    | String c _ => Ascii.eqb c "{"
    | EmptyString => false
    end in
  let src := if braces then substring 1 (String.length s - 1) s else s in
  match uuid_digits 16 0 src with
  | Some (ds, rest) =>
      if String.eqb rest (if braces then "}" else "")
      then Some (substring 0 8 ds ++ "-" ++ substring 8 4 ds ++ "-"
                 ++ substring 12 4 ds ++ "-" ++ substring 16 4 ds ++ "-"
                 ++ substring 20 12 ds)
      else None
  | None => None
  end.

Definition is_space (c : ascii) : bool := Ascii.eqb c " "%char.

(** PostgreSQL stores no text that holds the character U+0000, and refuses
    a text parameter that holds it. *)
Definition is_nul (c : ascii) : bool := Ascii.eqb c "000"%char.

Definition no_nul (s : string) : bool := all_chars (fun c => negb (is_nul c)) s.

(** A text parameter bound to a VARCHAR(n) column: refused when it holds
    U+0000, and when longer than [n], unless the excess is spaces, which
    are cut off. *)
Definition pg_varchar (n : nat) (s : string) : option string :=
  if no_nul s then
    if (String.length s <=? n)%nat then Some s
    else if all_chars is_space (substring n (String.length s - n) s)
         then Some (substring 0 n s)
         else None
  else None.

(** A text parameter bound to a TEXT column, or compared with a column. *)
Definition pg_text_param (s : string) : option string :=
  if no_nul s then Some s else None.

(** A parameter that is an array of texts, bound to a TEXT[] column. *)
Definition pg_text_array (xs : list string) : option (list string) :=
  if List.forallb no_nul xs then Some xs else None.

(** A JSON text bound to a JSONB column: JSONB holds no string, and no key,
    with U+0000 in it. *)
Fixpoint json_no_nul (j : Json) : bool :=
  match j with
  | JStr s => no_nul s
  | JArr xs =>
      (fix all (l : list Json) : bool :=
         match l with
         | [] => true
         | x :: rest => json_no_nul x && all rest
         end) xs
  | JObj fields =>
      (fix all (l : list (string * Json)) : bool :=
         match l with
         | [] => true
         | (k, v) :: rest => no_nul k && json_no_nul v && all rest
         end) fields
  | _ => true
  end.

(** A number bound to an INTEGER column. *)
Definition pg_integer (n : Z) : option Z :=
  if (-2147483648 <=? n) && (n <=? 2147483647) then Some n else None.

(** The text PostgreSQL receives for a truthy JavaScript value used as an
    identifier.  A string is sent as it is.  Any other value (a number, a
    boolean, an array, an object) is sent as text that never reads as a
    UUID and never equals one; the empty text stands for it. *)
Definition pg_text (v : Json) : string :=
  match v with
  | JStr s => s
  | _ => ""
  end.

(** The option monad, for parsers and statements. *)
Definition obind {A B} (o : option A) (k : A -> option B) : option B :=
  match o with
  | Some a => k a
  | None => None
  end.

Declare Scope opt_scope.
Delimit Scope opt_scope with opt.
Notation "x <-? o ;; k" := (obind o (fun x => k))
  (at level 61, o at next level, right associativity) : opt_scope.

(** An optional text bound to a TEXT column: [undefined] is sent as NULL. *)
Definition pg_text_param_opt (s : option string) : option (option string) :=
  match s with
  | None => Some None
  | Some v => obind (pg_text_param v) (fun x => Some (Some x))
  end.

(* ===================================================================== *)
(** * The events package: zod schemas                                     *)
(* ===================================================================== *)

Module Events.

Local Open Scope opt_scope.

Definition z_string (v : option Json) : option string :=
  match v with
  | Some (JStr s) => Some s
  | _ => None
  end.

Definition z_uuid (v : option Json) : option string :=
  s <-? z_string v ;; if is_uuid s then Some s else None.

Definition z_datetime (v : option Json) : option string :=
  s <-? z_string v ;; if is_datetime s then Some s else None.

Definition z_literal (lit : string) (v : option Json) : option string :=
  s <-? z_string v ;; if String.eqb s lit then Some s else None.

Definition z_number (v : option Json) : option Z :=
  match v with
  | Some (JNum n) => Some n
  | _ => None
  end.

Definition z_object (v : option Json) : option (list (string * Json)) :=
  match v with
  | Some (JObj o) => Some o
  | _ => None
  end.

Fixpoint z_strings (xs : list Json) : option (list string) :=
  match xs with
  | [] => Some []
  | x :: rest =>
      s <-? z_string (Some x) ;;
      ss <-? z_strings rest ;;
      Some (s :: ss)
  end.

Definition z_array_string (v : option Json) : option (list string) :=
  match v with
  | Some (JArr xs) => z_strings xs
  | _ => None
  end.

(** [schema.optional()]: the key may be missing. *)
Definition z_optional {A} (p : option Json -> option A) (v : option Json)
    : option (option A) :=
  match v with
  | None => Some None
  | Some _ => a <-? p v ;; Some (Some a)
  end.

(** [BaseEventSchema] with [eventType] and [eventVersion] narrowed to
    literals, as every [BaseEventSchema.extend] of the package does. *)
Record BaseEvent : Type := mkBase {
  eventId : string;
  eventType : string;
  eventVersion : string;
  timestamp : string;
  source : string;
  correlationId : string;
  traceId : option string;
  userId : option string;
  organizationId : option string
}.

Definition BaseEventSchema (type_literal : string) (o : list (string * Json))
    : option BaseEvent :=
  eventId <-? z_uuid (field "eventId" o) ;;
  eventType <-? z_literal type_literal (field "eventType" o) ;;
  eventVersion <-? z_literal "v1" (field "eventVersion" o) ;;
  timestamp <-? z_datetime (field "timestamp" o) ;;
  source <-? z_string (field "source" o) ;;
  correlationId <-? z_uuid (field "correlationId" o) ;;
  traceId <-? z_optional z_uuid (field "traceId" o) ;;
  userId <-? z_optional z_uuid (field "userId" o) ;;
  organizationId <-? z_optional z_uuid (field "organizationId" o) ;;
  _ <-? z_optional z_object (field "metadata" o) ;;
  Some (mkBase eventId eventType eventVersion timestamp source correlationId
               traceId userId organizationId).

(** A parsed event: the envelope and the event's [data]. *)
Record Validated (D : Type) : Type := mkValidated { base : BaseEvent; data : D }.
Arguments mkValidated {D}.
Arguments base {D}.
Arguments data {D}.

Definition extend {D} (type_literal : string)
    (data_schema : list (string * Json) -> option D) (event : Json)
    : option (Validated D) :=
  o <-? z_object (Some event) ;;
  b <-? BaseEventSchema type_literal o ;;
  d <-? z_object (field "data" o) ;;
  v <-? data_schema d ;;
  Some (mkValidated b v).

Record MemberAdded : Type := mkMemberAdded {
  ma_organizationId : string;
  ma_userId : string;
  ma_role : string;
  ma_addedBy : string;
  ma_addedAt : string
}.

Definition MemberAddedEventSchema : Json -> option (Validated MemberAdded) :=
  extend "MemberAdded" (fun d =>
    organizationId <-? z_uuid (field "organizationId" d) ;;
    userId <-? z_uuid (field "userId" d) ;;
    role <-? z_string (field "role" d) ;;
    addedBy <-? z_uuid (field "addedBy" d) ;;
    addedAt <-? z_datetime (field "addedAt" d) ;;
    Some (mkMemberAdded organizationId userId role addedBy addedAt)).

Record MemberRemoved : Type := mkMemberRemoved {
  mr_organizationId : string;
  mr_userId : string;
  mr_removedBy : string;
  mr_removedAt : string
}.

Definition MemberRemovedEventSchema : Json -> option (Validated MemberRemoved) :=
  extend "MemberRemoved" (fun d =>
    organizationId <-? z_uuid (field "organizationId" d) ;;
    userId <-? z_uuid (field "userId" d) ;;
    removedBy <-? z_uuid (field "removedBy" d) ;;
    removedAt <-? z_datetime (field "removedAt" d) ;;
    Some (mkMemberRemoved organizationId userId removedBy removedAt)).

Record RoleChanged : Type := mkRoleChanged {
  rc_organizationId : string;
  rc_userId : string;
  rc_oldRole : string;
  rc_newRole : string;
  rc_changedBy : string;
  rc_changedAt : string
}.

Definition RoleChangedEventSchema : Json -> option (Validated RoleChanged) :=
  extend "RoleChanged" (fun d =>
    organizationId <-? z_uuid (field "organizationId" d) ;;
    userId <-? z_uuid (field "userId" d) ;;
    oldRole <-? z_string (field "oldRole" d) ;;
    newRole <-? z_string (field "newRole" d) ;;
    changedBy <-? z_uuid (field "changedBy" d) ;;
    changedAt <-? z_datetime (field "changedAt" d) ;;
    Some (mkRoleChanged organizationId userId oldRole newRole changedBy changedAt)).

Record Entitlements : Type := mkEntitlements {
  en_maxProjects : Z;
  en_maxTasks : Z;
  en_maxMembers : Z;
  en_features : list string
}.

Record EntitlementsUpdated : Type := mkEntitlementsUpdated {
  eu_organizationId : string;
  eu_entitlements : Entitlements;
  eu_updatedAt : string
}.

Definition EntitlementsUpdatedEventSchema
    : Json -> option (Validated EntitlementsUpdated) :=
  extend "EntitlementsUpdated" (fun d =>
    organizationId <-? z_uuid (field "organizationId" d) ;;
    e <-? z_object (field "entitlements" d) ;;
    maxProjects <-? z_number (field "maxProjects" e) ;;
    maxTasks <-? z_number (field "maxTasks" e) ;;
    maxMembers <-? z_number (field "maxMembers" e) ;;
    features <-? z_array_string (field "features" e) ;;
    updatedAt <-? z_datetime (field "updatedAt" d) ;;
    Some (mkEntitlementsUpdated organizationId
            (mkEntitlements maxProjects maxTasks maxMembers features) updatedAt)).

Record OrganizationDeleted : Type := mkOrganizationDeleted {
  od_organizationId : string;
  od_deletedBy : string;
  od_deletedAt : string
}.

Definition OrganizationDeletedEventSchema
    : Json -> option (Validated OrganizationDeleted) :=
  extend "OrganizationDeleted" (fun d =>
    organizationId <-? z_uuid (field "organizationId" d) ;;
    deletedBy <-? z_uuid (field "deletedBy" d) ;;
    deletedAt <-? z_datetime (field "deletedAt" d) ;;
    Some (mkOrganizationDeleted organizationId deletedBy deletedAt)).

Record TaskCreated : Type := mkTaskCreated {
  tc_organizationId : string;
  tc_projectId : string;
  tc_taskId : string;
  tc_title : string;
  tc_createdBy : string;
  tc_createdAt : string
}.

Definition TaskCreatedEventSchema : Json -> option (Validated TaskCreated) :=
  extend "TaskCreated" (fun d =>
    organizationId <-? z_uuid (field "organizationId" d) ;;
    projectId <-? z_uuid (field "projectId" d) ;;
    taskId <-? z_uuid (field "taskId" d) ;;
    title <-? z_string (field "title" d) ;;
    createdBy <-? z_uuid (field "createdBy" d) ;;
    createdAt <-? z_datetime (field "createdAt" d) ;;
    Some (mkTaskCreated organizationId projectId taskId title createdBy createdAt)).

(** *** Schemas read by analytics-service *)

Record TaskStatusChanged : Type := mkTaskStatusChanged {
  ts_organizationId : string;
  ts_projectId : string;
  ts_taskId : string;
  ts_oldStatus : string;
  ts_newStatus : string;
  ts_changedBy : string;
  ts_changedAt : string
}.

Definition TaskStatusChangedEventSchema
    : Json -> option (Validated TaskStatusChanged) :=
  extend "TaskStatusChanged" (fun d =>
    organizationId <-? z_uuid (field "organizationId" d) ;;
    projectId <-? z_uuid (field "projectId" d) ;;
    taskId <-? z_uuid (field "taskId" d) ;;
    oldStatus <-? z_string (field "oldStatus" d) ;;
    newStatus <-? z_string (field "newStatus" d) ;;
    changedBy <-? z_uuid (field "changedBy" d) ;;
    changedAt <-? z_datetime (field "changedAt" d) ;;
    Some (mkTaskStatusChanged organizationId projectId taskId oldStatus newStatus
            changedBy changedAt)).

End Events.

(** The value of a Kafka message, as [JSON.parse(message.value.toString())]
    sees it. *)
Inductive MessageValue : Type :=
| NullValue               (* message.value is null: toString throws *)
| Garbled                 (* not JSON: JSON.parse throws *)
| Text (event : Json).

Record Message : Type := mkMessage { topic : string; value : MessageValue }.

Section ParseMessage.
Context {D : Type}.

(** [JSON.parse(message.value.toString())] *)
Definition JSON_parse (v : MessageValue) : M D Json :=
  match v with
  | NullValue => throw TypeError
  | Garbled => throw SyntaxError
  | Text j => ret j
  end.
End ParseMessage.

(* ===================================================================== *)
(** * workflow-service                                                    *)
(* ===================================================================== *)

Module Workflow.

Local Open Scope m_scope.

(** ** Tables (migrations/001_initial_schema.sql) and row types
       (types/workflow.types.ts) *)

Inductive ProjectStatus : Type := Active | Archived | Deleted.

Record Project : Type := mkProject {
  p_id : string;
  p_organizationId : string;
  p_name : string;
  p_description : option string;
  p_status : ProjectStatus;
  p_createdBy : string;
  p_createdAt : Z;
  p_updatedAt : Z;
  p_archivedAt : option Z
}.

Inductive TaskStatus : Type := Todo | InProgress | Done | Cancelled.

Record Task : Type := mkTask {
  t_id : string;
  t_organizationId : string;
  t_projectId : string;
  t_title : string;
  t_description : option string;
  t_status : TaskStatus;
  t_assignedTo : option string;
  t_createdBy : string;
  t_createdAt : Z;
  t_updatedAt : Z;
  t_completedAt : option Z
}.

Record MembershipCache : Type := mkMembership {
  mc_organizationId : string;
  mc_userId : string;
  mc_role : string;
  mc_cachedAt : Z
}.

Record EntitlementsCache : Type := mkEntitlementsCache {
  ec_organizationId : string;
  ec_maxProjects : option Z;
  ec_maxTasks : option Z;
  ec_maxMembers : option Z;
  ec_features : list string;
  ec_cachedAt : Z
}.

Record Db : Type := mkDb {
  projects : list Project;
  tasks : list Task;
  membership_cache : list MembershipCache;
  entitlements_cache : list EntitlementsCache
}.

Definition W : Type := World Db.

Definition set_projects (ps : list Project) (d : Db) : Db :=
  mkDb ps (tasks d) (membership_cache d) (entitlements_cache d).
Definition set_tasks (ts : list Task) (d : Db) : Db :=
  mkDb (projects d) ts (membership_cache d) (entitlements_cache d).
Definition set_membership_cache (ms : list MembershipCache) (d : Db) : Db :=
  mkDb (projects d) (tasks d) ms (entitlements_cache d).
Definition set_entitlements_cache (es : list EntitlementsCache) (d : Db) : Db :=
  mkDb (projects d) (tasks d) (membership_cache d) es.

Local Open Scope opt_scope.

(** ** CacheRepository (repositories/cache.repository.ts) *)

Definition membership_key (o u : string) (r : MembershipCache) : bool :=
  String.eqb (mc_organizationId r) o && String.eqb (mc_userId r) u.

(** [INSERT ... ON CONFLICT (organization_id, user_id) DO UPDATE SET
    role = EXCLUDED.role, cached_at = CURRENT_TIMESTAMP] on the rows. *)
Fixpoint upsert_membership_row (o u role : string) (t : Z)
    (rows : list MembershipCache) : list MembershipCache :=
  match rows with
  | [] => [mkMembership o u role t]
  | r :: rest =>
      if membership_key o u r
      then mkMembership (mc_organizationId r) (mc_userId r) role t :: rest
      else r :: upsert_membership_row o u role t rest
  end.

(** The statement binds [organizationId], [userId] and [role]; the
    [cachedAt] of the argument is not used. *)
Definition upsertMembership (membership : MembershipCache) : M Db unit :=
  pool_query (fun d t =>
    o <-? pg_uuid (mc_organizationId membership) ;;
    u <-? pg_uuid (mc_userId membership) ;;
    r <-? pg_varchar 50 (mc_role membership) ;;
    Some (tt, set_membership_cache
                (upsert_membership_row o u r t (membership_cache d)) d)).

Definition getMembership (organizationId userId : string)
    : M Db (option MembershipCache) :=
  pool_query (fun d _ =>
    o <-? pg_uuid organizationId ;;
    u <-? pg_uuid userId ;;
    Some (List.find (membership_key o u) (membership_cache d), d)).

Definition deleteMembership (organizationId userId : string) : M Db unit :=
  pool_query (fun d _ =>
    o <-? pg_uuid organizationId ;;
    u <-? pg_uuid userId ;;
    Some (tt, set_membership_cache
                (List.filter (fun r => negb (membership_key o u r))
                             (membership_cache d)) d)).

Definition entitlements_key (o : string) (r : EntitlementsCache) : bool :=
  String.eqb (ec_organizationId r) o.

Fixpoint upsert_entitlements_row (new : EntitlementsCache)
    (rows : list EntitlementsCache) : list EntitlementsCache :=
  match rows with
  | [] => [new]
  | r :: rest =>
      if entitlements_key (ec_organizationId new) r
      then mkEntitlementsCache (ec_organizationId r) (ec_maxProjects new)
             (ec_maxTasks new) (ec_maxMembers new) (ec_features new)
             (ec_cachedAt new) :: rest
      else r :: upsert_entitlements_row new rest
  end.

(** An optional number bound to an INTEGER column: [undefined] is NULL. *)
Definition pg_integer_opt (n : option Z) : option (option Z) :=
  match n with
  | None => Some None
  | Some v => i <-? pg_integer v ;; Some (Some i)
  end.

Definition upsertEntitlements (entitlements : EntitlementsCache) : M Db unit :=
  pool_query (fun d t =>
    o <-? pg_uuid (ec_organizationId entitlements) ;;
    mp <-? pg_integer_opt (ec_maxProjects entitlements) ;;
    mt <-? pg_integer_opt (ec_maxTasks entitlements) ;;
    mm <-? pg_integer_opt (ec_maxMembers entitlements) ;;
    fs <-? pg_text_array (ec_features entitlements) ;;
    Some (tt, set_entitlements_cache
                (upsert_entitlements_row
                   (mkEntitlementsCache o mp mt mm fs t)
                   (entitlements_cache d)) d)).

Definition getEntitlements (organizationId : string)
    : M Db (option EntitlementsCache) :=
  pool_query (fun d _ =>
    o <-? pg_uuid organizationId ;;
    Some (List.find (entitlements_key o) (entitlements_cache d), d)).

Definition deleteEntitlements (organizationId : string) : M Db unit :=
  pool_query (fun d _ =>
    o <-? pg_uuid organizationId ;;
    Some (tt, set_entitlements_cache
                (List.filter (fun r => negb (entitlements_key o r))
                             (entitlements_cache d)) d)).

(** ** ProjectRepository (repositories/project.repository.ts) *)

Record CreateProjectInput : Type := mkCreateProjectInput {
  cpi_organizationId : string;
  cpi_name : string;
  cpi_description : option string;
  cpi_createdBy : string
}.

Definition project_status_eqb (a b : ProjectStatus) : bool :=
  match a, b with
  | Active, Active | Archived, Archived | Deleted, Deleted => true
  | _, _ => false
  end.

Definition has_project_id (id : string) (p : Project) : bool :=
  String.eqb (p_id p) id.

(** [INSERT INTO projects (organization_id, name, description, created_by)
    ... RETURNING *]; the id is the column default [gen_random_uuid()]. *)
Definition ProjectRepository_create (input : CreateProjectInput) : M Db Project :=
  bind randomUUID (fun id =>
  pool_query (fun d t =>
    o <-? pg_uuid (cpi_organizationId input) ;;
    n <-? pg_varchar 255 (cpi_name input) ;;
    ds <-? pg_text_param_opt (cpi_description input) ;;
    c <-? pg_uuid (cpi_createdBy input) ;;
    if List.existsb (has_project_id id) (projects d) then None
    else
      let row := mkProject id o n ds Active c t t None in
      Some (row, set_projects (projects d ++ [row]) d))).

Definition ProjectRepository_findById (id : string) : M Db (option Project) :=
  pool_query (fun d _ =>
    i <-? pg_uuid id ;;
    Some (List.find (fun p => has_project_id i p
                              && negb (project_status_eqb (p_status p) Deleted))
                    (projects d), d)).

(** [ORDER BY created_at DESC]: insertion into a list sorted by decreasing
    creation time. *)
Fixpoint insert_by_created (p : Project) (sorted : list Project) : list Project :=
  match sorted with
  | [] => [p]
  | q :: rest =>
      if p_createdAt q <? p_createdAt p then p :: q :: rest
      else q :: insert_by_created p rest
  end.

Definition order_by_created_desc (ps : list Project) : list Project :=
  List.fold_right insert_by_created [] ps.

Definition ProjectRepository_findByOrganization (organizationId : string)
    : M Db (list Project) :=
  pool_query (fun d _ =>
    o <-? pg_uuid organizationId ;;
    Some (order_by_created_desc
            (List.filter (fun p => String.eqb (p_organizationId p) o
                                   && negb (project_status_eqb (p_status p) Deleted))
                         (projects d)), d)).

Definition ProjectRepository_countByOrganization (organizationId : string)
    : M Db Z :=
  pool_query (fun d _ =>
    o <-? pg_uuid organizationId ;;
    Some (Z.of_nat (List.length
            (List.filter (fun p => String.eqb (p_organizationId p) o
                                   && project_status_eqb (p_status p) Active)
                         (projects d))), d)).

Definition archive_row (id : string) (t : Z) (p : Project) : Project :=
  if has_project_id id p
  then mkProject (p_id p) (p_organizationId p) (p_name p) (p_description p)
                 Archived (p_createdBy p) (p_createdAt p) t (Some t)
  else p.

(** [UPDATE projects SET status = 'archived', ... WHERE id = $1 RETURNING *]
    followed by [mapRowToProject(result.rows[0])], which throws when no row
    was updated. *)
Definition ProjectRepository_archive (id : string) : M Db Project :=
  bind (pool_query (fun d t =>
          i <-? pg_uuid id ;;
          let ps := List.map (archive_row i t) (projects d) in
          Some (List.find (has_project_id i) ps, set_projects ps d)))
       (fun row =>
          match row with
          | Some p => ret p
          | None => throw TypeError
          end).

(** ** TaskRepository (repositories/task.repository.ts) *)

Record CreateTaskInput : Type := mkCreateTaskInput {
  cti_organizationId : string;
  cti_projectId : string;
  cti_title : string;
  cti_description : option string;
  cti_createdBy : string
}.

Definition task_status_eqb (a b : TaskStatus) : bool :=
  match a, b with
  | Todo, Todo | InProgress, InProgress | Done, Done | Cancelled, Cancelled => true
  | _, _ => false
  end.

Definition has_task_id (id : string) (t : Task) : bool := String.eqb (t_id t) id.

(** [INSERT INTO tasks (organization_id, project_id, title, description,
    created_by) ... RETURNING *]; [project_id] references [projects(id)]. *)
Definition TaskRepository_create (input : CreateTaskInput) : M Db Task :=
  bind randomUUID (fun id =>
  pool_query (fun d t =>
    o <-? pg_uuid (cti_organizationId input) ;;
    p <-? pg_uuid (cti_projectId input) ;;
    n <-? pg_varchar 255 (cti_title input) ;;
    ds <-? pg_text_param_opt (cti_description input) ;;
    c <-? pg_uuid (cti_createdBy input) ;;
    if List.existsb (has_task_id id) (tasks d)
       || negb (List.existsb (has_project_id p) (projects d))
    then None
    else
      let row := mkTask id o p n ds Todo None c t t None in
      Some (row, set_tasks (tasks d ++ [row]) d))).

Definition TaskRepository_countByOrganization (organizationId : string)
    : M Db Z :=
  pool_query (fun d _ =>
    o <-? pg_uuid organizationId ;;
    Some (Z.of_nat (List.length
            (List.filter (fun t => String.eqb (t_organizationId t) o
                                   && negb (task_status_eqb (t_status t) Cancelled))
                         (tasks d))), d)).

Local Open Scope m_scope.

(** ** WorkflowService (services/workflow.service.ts) *)

(** [limit && currentCount >= limit] *)
Definition limit_reached (limit : option Z) (currentCount : Z) : bool :=
  match limit with
  | None => false
  | Some l => negb (l =? 0) && (l <=? currentCount)
  end.

Definition createProject (input : CreateProjectInput)
    (correlationId : option string) : M Db Project :=
  entitlements <- getEntitlements (cpi_organizationId input) ;;
  match entitlements with
  | Some e =>
      currentCount <- ProjectRepository_countByOrganization (cpi_organizationId input) ;;
      if limit_reached (ec_maxProjects e) currentCount
      then throw (Error "Project limit reached for this organization")
      else ret tt
  | None => ret tt
  end ;;;
  project <- ProjectRepository_create input ;;
  cid <- correlation correlationId ;;
  event <- createEvent "ProjectCreated" "v1"
             (ProjectCreatedData (cpi_organizationId input) (p_id project)
                (p_name project) (p_createdBy project) (p_createdAt project))
             "workflow-service" cid
             (Some (p_createdBy project)) (Some (cpi_organizationId input)) ;;
  publish "workflow.project.created" event ;;;
  ret project.

Definition createTask (input : CreateTaskInput)
    (correlationId : option string) : M Db Task :=
  project <- ProjectRepository_findById (cti_projectId input) ;;
  match project with
  | None => throw (Error "Project not found")
  | Some p =>
      if negb (String.eqb (p_organizationId p) (cti_organizationId input))
      then throw (Error "Project does not belong to this organization")
      else ret tt
  end ;;;
  entitlements <- getEntitlements (cti_organizationId input) ;;
  match entitlements with
  | Some e =>
      currentCount <- TaskRepository_countByOrganization (cti_organizationId input) ;;
      if limit_reached (ec_maxTasks e) currentCount
      then throw (Error "Task limit reached for this organization")
      else ret tt
  | None => ret tt
  end ;;;
  task <- TaskRepository_create input ;;
  cid <- correlation correlationId ;;
  event <- createEvent "TaskCreated" "v1"
             (TaskCreatedData (cti_organizationId input) (cti_projectId input)
                (t_id task) (t_title task) (t_createdBy task) (t_createdAt task))
             "workflow-service" cid
             (Some (t_createdBy task)) (Some (cti_organizationId input)) ;;
  publish "workflow.task.created" event ;;;
  ret task.

Definition verifyMembership (organizationId userId : string) : M Db bool :=
  membership <- getMembership organizationId userId ;;
  ret (match membership with Some _ => true | None => false end).

(** ** Auth middleware (middleware/auth.middleware.ts) *)

(** An incoming request: the headers the service reads, the route
    parameter [organizationId] (no route of this router declares it, so it
    is [None] there) and the body produced by [express.json()], an object
    or an array. *)
Record Request : Type := mkRequest {
  authorization : option string;
  x_user_id : option string;
  x_organization_id : option string;
  x_correlation_id : option string;
  params_organizationId : option string;
  body : Json
}.

(** [AuthenticatedRequest]: the request with [userId] and
    [organizationId] set by the middleware. *)
Record AuthenticatedRequest : Type := mkAuthenticated {
  req : Request;
  req_userId : string;
  req_organizationId : option string
}.

Inductive ErrorBody : Type :=
| Msg (error : string)
| Validation                (* { error: 'Validation error', details } *)
| Thrown (e : Exn).         (* { error: error.message } of a library error *)

Inductive Response : Type :=
| Status (code : nat) (error : ErrorBody)
| CreatedProject (p : Project)      (* 201 *)
| CreatedTask (t : Task).           (* 201 *)

Inductive Middleware : Type :=
| Responded (r : Response)
| Next (r : AuthenticatedRequest).

(** A header or parameter that is present and not empty. *)
Definition present (h : option string) : option string :=
  match h with
  | Some s => if String.eqb s "" then None else Some s
  | None => None
  end.

(** [a || b] on optional strings *)
Definition or_else (a b : option string) : option string :=
  match present a with
  | Some s => Some s
  | None => b
  end.

Definition bearer (authHeader : option string) : bool :=
  match present authHeader with
  | Some h => startsWith "Bearer " h
  | None => false
  end.

Definition createAuthMiddleware (r : Request) : M Db Middleware :=
  try_catch
    (if negb (bearer (authorization r))
     then ret (Responded (Status 401 (Msg "Missing or invalid authorization header")))
     else
       let userId := x_user_id r in
       let organizationId := or_else (x_organization_id r) (params_organizationId r) in
       match present userId with
       | None => ret (Responded (Status 401 (Msg "User ID not found")))
       | Some u =>
           match present organizationId with
           | Some o =>
               isMember <- verifyMembership o u ;;
               if negb isMember
               then ret (Responded
                           (Status 403 (Msg "User is not a member of this organization")))
               else ret (Next (mkAuthenticated r u organizationId))
           | None => ret (Next (mkAuthenticated r u organizationId))
           end
       end)
    (fun _ => ret (Responded (Status 401 (Msg "Authentication failed")))).

(** ** Routes (routes/workflow.routes.ts) *)

(** [req.body.k] *)
Definition body_prop (k : string) (b : Json) : option Json :=
  match b with
  | JObj o => field k o
  | _ => None
  end.

Definition string_1_255 (v : option Json) : option string :=
  obind (Events.z_string v) (fun s =>
    if ((1 <=? String.length s) && (String.length s <=? 255))%nat
    then Some s else None).

Record ProjectBody : Type := mkProjectBody {
  pb_name : string;
  pb_description : option string
}.

Definition createProjectSchema (b : Json) : option ProjectBody :=
  obind (Events.z_object (Some b)) (fun o =>
  obind (string_1_255 (field "name" o)) (fun name =>
  obind (Events.z_optional Events.z_string (field "description" o)) (fun description =>
  Some (mkProjectBody name description)))).

Record TaskBody : Type := mkTaskBody {
  tb_title : string;
  tb_description : option string
}.

Definition createTaskSchema (b : Json) : option TaskBody :=
  obind (Events.z_object (Some b)) (fun o =>
  obind (string_1_255 (field "title" o)) (fun title =>
  obind (Events.z_optional Events.z_string (field "description" o)) (fun description =>
  Some (mkTaskBody title description)))).

(** [error.message || fallback] in a handler's [catch] *)
Definition error_reply (fallback : string) (e : Exn) : Response :=
  match e with
  | ZodError => Status 400 Validation
  | Error m => Status 400 (Msg (if String.eqb m "" then fallback else m))
  | other => Status 400 (Thrown other)
  end.

(** [req.headers['x-correlation-id'] as string || getCorrelationId()] *)
Definition request_correlation (r : Request) : M Db string :=
  correlation (x_correlation_id r).

(** [req.headers['x-organization-id'] as string || req.body.organizationId] *)
Definition request_organization (r : Request) : option Json :=
  js_or (header (x_organization_id r)) (body_prop "organizationId" (body r)).

(** The handler of [POST /projects]. *)
Definition post_projects (a : AuthenticatedRequest) : M Db Response :=
  try_catch
    (correlationId <- request_correlation (req a) ;;
     let organizationId := request_organization (req a) in
     input <- parse (createProjectSchema (body (req a))) ;;
     match organizationId with
     | Some o =>
         if negb (truthy organizationId)
         then ret (Status 400 (Msg "Organization ID required"))
         else
           project <- createProject
                        (mkCreateProjectInput (pg_text o) (pb_name input)
                           (pb_description input) (req_userId a))
                        (Some correlationId) ;;
           ret (CreatedProject project)
     | None => ret (Status 400 (Msg "Organization ID required"))
     end)
    (fun error => ret (error_reply "Failed to create project" error)).

(** The handler of [POST /tasks]. *)
Definition post_tasks (a : AuthenticatedRequest) : M Db Response :=
  try_catch
    (correlationId <- request_correlation (req a) ;;
     let organizationId := request_organization (req a) in
     let projectId := body_prop "projectId" (body (req a)) in
     input <- parse (createTaskSchema (body (req a))) ;;
     match organizationId, projectId with
     | Some o, Some p =>
         if negb (truthy organizationId) || negb (truthy projectId)
         then ret (Status 400 (Msg "Organization ID and Project ID required"))
         else
           task <- createTask
                     (mkCreateTaskInput (pg_text o) (pg_text p) (tb_title input)
                        (tb_description input) (req_userId a))
                     (Some correlationId) ;;
           ret (CreatedTask task)
     | _, _ => ret (Status 400 (Msg "Organization ID and Project ID required"))
     end)
    (fun error => ret (error_reply "Failed to create task" error)).

(** [router.post(path, authMiddleware, handler)] *)
Definition route (handler : AuthenticatedRequest -> M Db Response)
    (r : Request) : M Db Response :=
  m <- createAuthMiddleware r ;;
  match m with
  | Responded res => ret res
  | Next a => handler a
  end.

(** ** EventConsumer (events/event-consumer.ts) *)

Import Events.

Definition handleMemberAdded (event : Json) : M Db unit :=
  try_catch
    (validated <- parse (MemberAddedEventSchema event) ;;
     cachedAt <- new_Date ;;
     upsertMembership
       (mkMembership (ma_organizationId (data validated))
                     (ma_userId (data validated))
                     (ma_role (data validated))
                     cachedAt) ;;;
     logger_info "Membership cached")
    (fun _ => logger_error "Failed to handle MemberAdded event").

Definition handleMemberRemoved (event : Json) : M Db unit :=
  try_catch
    (validated <- parse (MemberRemovedEventSchema event) ;;
     deleteMembership (mr_organizationId (data validated))
                      (mr_userId (data validated)) ;;;
     logger_info "Membership removed from cache")
    (fun _ => logger_error "Failed to handle MemberRemoved event").

Definition handleRoleChanged (event : Json) : M Db unit :=
  try_catch
    (validated <- parse (RoleChangedEventSchema event) ;;
     cachedAt <- new_Date ;;
     upsertMembership
       (mkMembership (rc_organizationId (data validated))
                     (rc_userId (data validated))
                     (rc_newRole (data validated))
                     cachedAt) ;;;
     logger_info "Membership role updated in cache")
    (fun _ => logger_error "Failed to handle RoleChanged event").

Definition handleEntitlementsUpdated (event : Json) : M Db unit :=
  try_catch
    (validated <- parse (EntitlementsUpdatedEventSchema event) ;;
     cachedAt <- new_Date ;;
     let e := eu_entitlements (data validated) in
     upsertEntitlements
       (mkEntitlementsCache (eu_organizationId (data validated))
                            (Some (en_maxProjects e)) (Some (en_maxTasks e))
                            (Some (en_maxMembers e)) (en_features e)
                            cachedAt) ;;;
     logger_info "Entitlements cached")
    (fun _ => logger_error "Failed to handle EntitlementsUpdated event").

Definition handleOrganizationDeleted (event : Json) : M Db unit :=
  try_catch
    (validated <- parse (OrganizationDeletedEventSchema event) ;;
     (* Archive all projects for this organization *)
     projects <- ProjectRepository_findByOrganization
                   (od_organizationId (data validated)) ;;
     for_of projects (fun project =>
       ProjectRepository_archive (p_id project) ;;; ret tt) ;;;
     (* Clear caches *)
     deleteEntitlements (od_organizationId (data validated)) ;;;
     (* Note: Membership cache will be cleaned up by MemberRemoved events *)
     logger_info "Organization deleted - projects archived")
    (fun _ => logger_error "Failed to handle OrganizationDeleted event").

(** The [eachMessage] callback given to [consumer.run]. *)
Definition eachMessage (m : Message) : M Db unit :=
  try_catch
    (event <- JSON_parse (value m) ;;
     if String.eqb (topic m) "organization.member.added" then
       handleMemberAdded event
     else if String.eqb (topic m) "organization.member.removed" then
       handleMemberRemoved event
     else if String.eqb (topic m) "organization.role.changed" then
       handleRoleChanged event
     else if String.eqb (topic m) "billing.entitlements.updated" then
       handleEntitlementsUpdated event
     else if String.eqb (topic m) "organization.deleted" then
       handleOrganizationDeleted event
     else ret tt)
    (fun _ =>
       logger_error "Failed to process event"
       (* TODO: Send to dead-letter queue *)).

(** ** The other functions of TaskRepository and WorkflowService *)

Local Open Scope opt_scope.

(** An optional text bound to a VARCHAR(n) column, and an optional
    identifier bound to a UUID column: [undefined] is not sent. *)
Definition pg_varchar_opt (n : nat) (s : option string) : option (option string) :=
  match s with
  | None => Some None
  | Some v => x <-? pg_varchar n v ;; Some (Some x)
  end.

Definition pg_uuid_opt (s : option string) : option (option string) :=
  match s with
  | None => Some None
  | Some v => u <-? pg_uuid v ;; Some (Some u)
  end.

(** [SELECT * FROM tasks WHERE id = $1] *)
Definition TaskRepository_findById (id : string) : M Db (option Task) :=
  pool_query (fun d _ =>
    i <-? pg_uuid id ;;
    Some (List.find (has_task_id i) (tasks d), d)).





(** [UpdateTaskInput] of types/workflow.types.ts: every field may be
    [undefined]. *)
Record UpdateTaskInput : Type := mkUpdateTaskInput {
  uti_title : option string;
  uti_description : option string;
  uti_status : option TaskStatus;
  uti_assignedTo : option string
}.

(** The SET list that [update] builds, applied to the row with the id:
    a field that is [undefined] keeps its column; a status sets
    [completed_at] to the current time when it is ['done'] and to NULL
    otherwise; [updated_at] is always set. *)
Definition update_row (id : string) (title description : option string)
    (status : option TaskStatus) (assignedTo : option string) (now : Z) (t : Task)
    : Task :=
  if has_task_id id t
  then mkTask (t_id t) (t_organizationId t) (t_projectId t)
         (match title with Some n => n | None => t_title t end)
         (match description with Some s => Some s | None => t_description t end)
         (match status with Some s => s | None => t_status t end)
         (match assignedTo with Some a => Some a | None => t_assignedTo t end)
         (t_createdBy t) (t_createdAt t) now
         (match status with
          | Some Done => Some now
          | Some _ => None
          | None => t_completedAt t
          end)
  else t.

(** [UPDATE tasks SET ... WHERE id = $n RETURNING *] followed by
    [mapRowToTask(result.rows[0])], which throws when no row was updated. *)
Definition TaskRepository_update (id : string) (input : UpdateTaskInput)
    : M Db Task :=
  bind (pool_query (fun d t =>
          title <-? pg_varchar_opt 255 (uti_title input) ;;
          description <-? pg_text_param_opt (uti_description input) ;;
          assignedTo <-? pg_uuid_opt (uti_assignedTo input) ;;
          i <-? pg_uuid id ;;
          let ts := List.map (update_row i title description
                                (uti_status input) assignedTo t) (tasks d) in
          Some (List.find (has_task_id i) ts, set_tasks ts d)))
       (fun row =>
          match row with
          | Some t => ret t
          | None => throw TypeError
          end).

Local Open Scope m_scope.

(** [membership?.role || null] *)
Definition getMembershipRole (organizationId userId : string)
    : M Db (option string) :=
  membership <- getMembership organizationId userId ;;
  ret (match membership with
       | Some m => if String.eqb (mc_role m) "" then None else Some (mc_role m)
       | None => None
       end).

End Workflow.

(* ===================================================================== *)
(** * The Kafka consumer loop                                             *)
(* ===================================================================== *)


Section Consumer.
Context {D Msg : Type}.
Variable eachMessage : Msg -> M D unit.


(** The messages of one partition, in offset order: the runner awaits
    [eachMessage] for each and stops at the first that throws. *)
Definition consume (ms : list Msg) : M D unit := for_of ms eachMessage.

End Consumer.

(* ===================================================================== *)
(** * analytics-service                                                   *)
(* ===================================================================== *)

Module Analytics.

Local Open Scope m_scope.
Local Open Scope opt_scope.

(** A row of [task_metrics] ([TaskMetrics] of types/analytics.types.ts);
    [date] is a day number. *)
Record TaskMetrics : Type := mkTaskMetrics {
  tm_id : string;
  tm_organizationId : string;
  tm_projectId : option string;
  tm_date : Z;
  tm_tasksCreated : Z;
  tm_tasksCompleted : Z;
  tm_tasksInProgress : Z;
  tm_avgCompletionTimeHours : option Z;
  tm_createdAt : Z;
  tm_updatedAt : Z
}.

Record Db : Type := mkDb { task_metrics : list TaskMetrics }.

(** [Partial<TaskMetrics>] as [upsertTaskMetrics] reads it. *)
Record PartialTaskMetrics : Type := mkPartial {
  organizationId : option string;
  projectId : option string;
  date : option Z;
  tasksCreated : option Z;
  tasksCompleted : option Z;
  tasksInProgress : option Z;
  avgCompletionTimeHours : option Z
}.

(** [n || 0] *)
Definition or_zero (n : option Z) : Z :=
  match n with
  | Some v => v
  | None => 0
  end.

(** An optional UUID parameter: [undefined] is sent as NULL. *)
Definition pg_uuid_opt (s : option string) : option (option string) :=
  match s with
  | None => Some None
  | Some v => u <-? pg_uuid v ;; Some (Some u)
  end.

(** The arbiter of [ON CONFLICT (organization_id, project_id, date)]: a
    NULL [project_id] conflicts with nothing. *)
Definition metrics_conflict (o : string) (p : option string) (d : Z)
    (r : TaskMetrics) : bool :=
  String.eqb (tm_organizationId r) o
  && match p, tm_projectId r with
     | Some a, Some b => String.eqb a b
     | _, _ => false
     end
  && (tm_date r =? d).

(** [DO UPDATE SET tasks_created = task_metrics.tasks_created +
    EXCLUDED.tasks_created, ...] *)
Definition add_metrics (c cp ip : Z) (avg : option Z) (t : Z) (r : TaskMetrics)
    : option TaskMetrics :=
  c' <-? pg_integer (tm_tasksCreated r + c) ;;
  cp' <-? pg_integer (tm_tasksCompleted r + cp) ;;
  ip' <-? pg_integer (tm_tasksInProgress r + ip) ;;
  Some (mkTaskMetrics (tm_id r) (tm_organizationId r) (tm_projectId r) (tm_date r)
          c' cp' ip' avg (tm_createdAt r) t).

Fixpoint update_conflicting (o : string) (p : option string) (d : Z)
    (c cp ip : Z) (avg : option Z) (t : Z) (rows : list TaskMetrics)
    : option (TaskMetrics * list TaskMetrics) :=
  match rows with
  | [] => None
  | r :: rest =>
      if metrics_conflict o p d r
      then r' <-? add_metrics c cp ip avg t r ;; Some (r', r' :: rest)
      else
        res <-? update_conflicting o p d c cp ip avg t rest ;;
        Some (fst res, r :: snd res)
  end.

(** AnalyticsRepository.upsertTaskMetrics
    (repositories/analytics.repository.ts). *)
Definition upsertTaskMetrics (metrics : PartialTaskMetrics) : M Db TaskMetrics :=
  bind randomUUID (fun id =>
  pool_query (fun db t =>
    org <-? organizationId metrics ;;
    o <-? pg_uuid org ;;
    p <-? pg_uuid_opt (projectId metrics) ;;
    d <-? date metrics ;;
    c <-? pg_integer (or_zero (tasksCreated metrics)) ;;
    cp <-? pg_integer (or_zero (tasksCompleted metrics)) ;;
    ip <-? pg_integer (or_zero (tasksInProgress metrics)) ;;
    let avg := avgCompletionTimeHours metrics in
    if List.existsb (metrics_conflict o p d) (task_metrics db)
    then
      res <-? update_conflicting o p d c cp ip avg t (task_metrics db) ;;
      Some (fst res, mkDb (snd res))
    else if List.existsb (fun r => String.eqb (tm_id r) id) (task_metrics db)
    then None
    else
      let row := mkTaskMetrics id o p d c cp ip avg t t in
      Some (row, mkDb (task_metrics db ++ [row])))).

(** [const today = new Date(); today.setHours(0, 0, 0, 0)] bound to a DATE
    column, the process running in UTC: the day number of the instant. *)
Definition today (t : Z) : Z := t / 86400000.

(** AnalyticsService.processTaskCreated (services/analytics.service.ts). *)
Definition processTaskCreated (event : Json) : M Db unit :=
  try_catch
    (validated <- parse (Events.TaskCreatedEventSchema event) ;;
     t <- new_Date ;;
     upsertTaskMetrics
       (mkPartial (Some (Events.tc_organizationId (Events.data validated)))
                  (Some (Events.tc_projectId (Events.data validated)))
                  (Some (today t)) (Some 1) (Some 0) (Some 0) None) ;;;
     logger_info "Processed TaskCreated event")
    (fun _ => logger_error "Failed to process TaskCreated event").

(** ** The other functions on [task_metrics] *)

(** A [Date] bound to a DATE column or compared with one, the process
    running in UTC: the day number of the instant. *)
Definition pg_date (t : Z) : Z := t / 86400000.

(** [ORDER BY date DESC] *)
Fixpoint insert_by_date (r : TaskMetrics) (sorted : list TaskMetrics)
    : list TaskMetrics :=
  match sorted with
  | [] => [r]
  | q :: rest =>
      if tm_date q <? tm_date r then r :: q :: rest
      else q :: insert_by_date r rest
  end.

Definition order_by_date_desc (rs : list TaskMetrics) : list TaskMetrics :=
  List.fold_right insert_by_date [] rs.

(** AnalyticsRepository.getTaskMetrics, which AnalyticsService.getTaskMetrics
    hands its arguments to. *)
Definition getTaskMetrics (organizationId : string) (startDate endDate : Z)
    : M Db (list TaskMetrics) :=
  pool_query (fun db _ =>
    o <-? pg_uuid organizationId ;;
    Some (order_by_date_desc
            (List.filter (fun r => String.eqb (tm_organizationId r) o
                                   && (pg_date startDate <=? tm_date r)
                                   && (tm_date r <=? pg_date endDate))
                         (task_metrics db)), db)).

Definition count_defined {A} (o : option A) : nat :=
  match o with
  | Some _ => 1%nat
  | None => 0%nat
  end.

(** [Object.keys(updates).length] *)
Definition Object_keys_length (u : PartialTaskMetrics) : nat :=
  (count_defined (organizationId u) + count_defined (projectId u)
   + count_defined (date u) + count_defined (tasksCreated u)
   + count_defined (tasksCompleted u) + count_defined (tasksInProgress u)
   + count_defined (avgCompletionTimeHours u))%nat.

(** The [updates] object of [processTaskStatusChanged]: the organization,
    the day, and at most one counter. *)
Definition status_updates (organizationId oldStatus newStatus : string) (day : Z)
    : PartialTaskMetrics :=
  if String.eqb newStatus "done" && negb (String.eqb oldStatus "done")
  then mkPartial (Some organizationId) None (Some day) None (Some 1) None None
  else if String.eqb newStatus "in_progress" && String.eqb oldStatus "todo"
  then mkPartial (Some organizationId) None (Some day) None None (Some 1) None
  else if String.eqb oldStatus "in_progress"
          && negb (String.eqb newStatus "in_progress")
  then mkPartial (Some organizationId) None (Some day) None None (Some (-1)) None
  else mkPartial (Some organizationId) None (Some day) None None None None.

(** AnalyticsService.processTaskStatusChanged. *)
Definition processTaskStatusChanged (event : Json) : M Db unit :=
  try_catch
    (validated <- parse (Events.TaskStatusChangedEventSchema event) ;;
     t <- new_Date ;;
     let updates :=
       status_updates (Events.ts_organizationId (Events.data validated))
         (Events.ts_oldStatus (Events.data validated))
         (Events.ts_newStatus (Events.data validated)) (today t) in
     (if (2 <? Object_keys_length updates)%nat
      then upsertTaskMetrics updates ;;; ret tt
      else ret tt) ;;;
     logger_info "Processed TaskStatusChanged event")
    (fun _ => logger_error "Failed to process TaskStatusChanged event").

End Analytics.

(* ===================================================================== *)
(** * audit-service                                                       *)
(* ===================================================================== *)

Module Audit.

Local Open Scope m_scope.
Local Open Scope opt_scope.

(** [JSON.parse(...) as BaseEvent]: the cast checks nothing, so each
    envelope field is a string or missing; [raw] is the whole parsed
    value, which [JSON.stringify(event)] stores in [details]. *)
Record BaseEvent : Type := mkBaseEvent {
  eventId : option string;
  eventType : option string;
  eventVersion : option string;
  source : option string;
  correlationId : option string;
  traceId : option string;
  userId : option string;
  organizationId : option string;
  raw : Json
}.

(** A row of [audit_logs] ([AuditLog] of types/audit.types.ts).  The
    column [details] is NULL or holds the JSONB object of an event: the
    INSERT of [create] is the only statement of the service that writes the
    table, and what it stores had an [eventId], which of all JSON values
    only an object has. *)
Record AuditLog : Type := mkAuditLog {
  al_id : string;
  al_eventId : string;
  al_eventType : string;
  al_eventVersion : string;
  al_source : string;
  al_correlationId : string;
  al_traceId : option string;
  al_userId : option string;
  al_organizationId : option string;
  al_action : string;
  al_resourceType : string;
  al_resourceId : option string;
  al_details : option (list (string * Json));
  al_ipAddress : option string;
  al_userAgent : option string;
  al_createdAt : Z
}.

Record Db : Type := mkDb { audit_logs : list AuditLog }.

Definition pg_uuid_opt (s : option string) : option (option string) :=
  match s with
  | None => Some None
  | Some v => u <-? pg_uuid v ;; Some (Some u)
  end.

(** ** AuditRepository (repositories/audit.repository.ts) *)

Definition set_details (details : option (list (string * Json))) (r : AuditLog)
    : AuditLog :=
  mkAuditLog (al_id r) (al_eventId r) (al_eventType r) (al_eventVersion r)
    (al_source r) (al_correlationId r) (al_traceId r) (al_userId r)
    (al_organizationId r) (al_action r) (al_resourceType r) (al_resourceId r)
    details (al_ipAddress r) (al_userAgent r) (al_createdAt r).

(** [JSON.parse(row.details)] on the object that the driver hands over for
    a JSONB value.  [JSON.parse] turns its argument into a string first: an
    object with a member [toString] of its own, which is no function, cannot
    be converted (TypeError); any other object reads ["[object Object]"],
    which is no JSON text (SyntaxError).  So the call never returns. *)
Definition JSON_parse_object (o : list (string * Json))
    : M Db (list (string * Json)) :=
  match field "toString" o with
  | Some _ => throw TypeError
  | None => throw SyntaxError
  end.

(** [mapRowToAuditLog]: [details: row.details ? JSON.parse(row.details) : {}] *)
Definition mapRowToAuditLog (row : AuditLog) : M Db AuditLog :=
  match al_details row with
  | Some o =>
      bind (JSON_parse_object o) (fun details =>
      ret (set_details (Some details) row))
  | None => ret (set_details (Some []) row)
  end.

(** [result.rows.map(row => this.mapRowToAuditLog(row))] *)
Fixpoint map_rows (rows : list AuditLog) : M Db (list AuditLog) :=
  match rows with
  | [] => ret []
  | row :: rest =>
      bind (mapRowToAuditLog row) (fun r =>
      bind (map_rows rest) (fun rs =>
      ret (r :: rs)))
  end.

Definition has_event_id (e : string) (r : AuditLog) : bool :=
  String.eqb (al_eventId r) e.

(** [SELECT * FROM audit_logs WHERE event_id = $1]; a missing [eventId] is
    sent as NULL, which equals no row.  A row that is found goes through
    [mapRowToAuditLog]. *)
Definition findByEventId (eventId : option string) : M Db (option AuditLog) :=
  bind (pool_query (fun d _ =>
          match eventId with
          | None => Some (None, d)
          | Some e =>
              u <-? pg_uuid e ;; Some (List.find (has_event_id u) (audit_logs d), d)
          end))
       (fun found =>
          match found with
          | None => ret None
          | Some row => bind (mapRowToAuditLog row) (fun r => ret (Some r))
          end).

(** [JSON.stringify(event)] bound to the JSONB column [details]: refused
    when a string or a key of the event holds U+0000.  An event that has an
    [eventId] is an object. *)
Definition pg_jsonb_object (event : Json) : option (list (string * Json)) :=
  match event with
  | JObj o => if json_no_nul event then Some o else None
  | _ => None
  end.

(** [INSERT INTO audit_logs (...) ... RETURNING *], then
    [mapRowToAuditLog(result.rows[0])] on the row that was inserted. *)
Definition create (event : BaseEvent) (action resourceType : string)
    (resourceId : option string) : M Db AuditLog :=
  bind (bind randomUUID (fun id =>
  pool_query (fun d t =>
    e <-? eventId event ;;
    e <-? pg_uuid e ;;
    ty <-? eventType event ;;
    ty <-? pg_varchar 100 ty ;;
    v <-? eventVersion event ;;
    v <-? pg_varchar 10 v ;;
    s <-? source event ;;
    s <-? pg_varchar 100 s ;;
    c <-? correlationId event ;;
    c <-? pg_uuid c ;;
    tr <-? pg_uuid_opt (traceId event) ;;
    u <-? pg_uuid_opt (userId event) ;;
    o <-? pg_uuid_opt (organizationId event) ;;
    a <-? pg_varchar 100 action ;;
    rt <-? pg_varchar 100 resourceType ;;
    ri <-? pg_uuid_opt resourceId ;;
    details <-? pg_jsonb_object (raw event) ;;
    if List.existsb (has_event_id e) (audit_logs d)
       || List.existsb (fun r => String.eqb (al_id r) id) (audit_logs d)
    then None
    else
      let row := mkAuditLog id e ty v s c tr u o a rt ri (Some details) None None t in
      Some (row, mkDb (audit_logs d ++ [row])))))
  mapRowToAuditLog.

(** ** AuditService (services/audit.service.ts) *)

Definition parse_action (lower : string) : string :=
  if includes "created" lower then "created"
  else if includes "updated" lower then "updated"
  else if includes "deleted" lower then "deleted"
  else if includes "loggedin" lower then "login"
  else if includes "loggedout" lower then "logout"
  else if includes "assigned" lower then "assigned"
  else if includes "archived" lower then "archived"
  else if includes "cancelled" lower then "cancelled"
  else if includes "activated" lower then "activated"
  else if includes "changed" lower then "changed"
  else if includes "added" lower then "added"
  else if includes "removed" lower then "removed"
  else if includes "sent" lower then "sent"
  else "unknown".

Definition parse_resource (lower : string) : string :=
  if includes "user" lower then "user"
  else if includes "organization" lower then "organization"
  else if includes "project" lower then "project"
  else if includes "task" lower then "task"
  else if includes "subscription" lower then "subscription"
  else if includes "plan" lower then "plan"
  else if includes "member" lower then "membership"
  else if includes "invitation" lower then "invitation"
  else if includes "entitlement" lower then "entitlement"
  else "unknown".

(** [parseEventType]: [{ action, resourceType }]; [resourceId] is never
    set.  [eventType.toLowerCase()] throws on a missing [eventType]. *)
Definition parseEventType (eventType : option string) : M Db (string * string) :=
  match eventType with
  | None => throw TypeError
  | Some ty =>
      let lower := toLowerCase ty in
      ret (parse_action lower, parse_resource lower)
  end.

Definition recordEvent (event : BaseEvent) : M Db unit :=
  (* Check for duplicate (idempotency) *)
  existing <- findByEventId (eventId event) ;;
  match existing with
  | Some _ => logger_info "Event already audited (idempotent)"
  | None =>
      parsed <- parseEventType (eventType event) ;;
      create event (fst parsed) (snd parsed) None ;;;
      logger_info "Event audited"
  end.

(** ** EventConsumer (events/event-consumer.ts) *)

Inductive AuditValue : Type :=
| NullValue
| Garbled
| Parsed (event : BaseEvent).

Record AuditMessage : Type := mkAuditMessage {
  topic : string;
  value : AuditValue
}.

Definition JSON_parse (v : AuditValue) : M Db BaseEvent :=
  match v with
  | NullValue => throw TypeError
  | Garbled => throw SyntaxError
  | Parsed e => ret e
  end.

Definition eachMessage (m : AuditMessage) : M Db unit :=
  try_catch
    (event <- JSON_parse (value m) ;;
     recordEvent event)
    (fun _ =>
       logger_error "Failed to process event"
       (* Don't throw - continue processing other events *)).

(** ** AuditRepository.query and AuditService.query *)

(** [AuditQuery] of types/audit.types.ts; instants are milliseconds. *)
Record AuditQuery : Type := mkAuditQuery {
  aq_userId : option string;
  aq_organizationId : option string;
  aq_resourceType : option string;
  aq_resourceId : option string;
  aq_action : option string;
  aq_startDate : option Z;
  aq_endDate : option Z;
  aq_limit : option Z;
  aq_offset : option Z
}.

(** [if (query.field)] on an optional string: the empty string is no
    filter either. *)
Definition given (s : option string) : option string :=
  match s with
  | Some v => if String.eqb v "" then None else Some v
  | None => None
  end.

(** [query.limit || 100] and [query.offset || 0] *)
Definition number_or (n : option Z) (default : Z) : Z :=
  match n with
  | Some v => if v =? 0 then default else v
  | None => default
  end.

(** A number bound to LIMIT or OFFSET: a BIGINT that is not negative. *)
Definition pg_row_count (n : Z) : option nat :=
  if (0 <=? n) && (n <=? 9223372036854775807) then Some (Z.to_nat n) else None.

Definition eq_filter (wanted : option string) (column : option string) : bool :=
  match wanted with
  | None => true
  | Some v =>
      match column with
      | Some c => String.eqb c v
      | None => false
      end
  end.

(** The WHERE clause built from the conditions that were pushed. *)
Definition matches (u o rt ri a : option string) (startDate endDate : option Z)
    (r : AuditLog) : bool :=
  eq_filter u (al_userId r)
  && eq_filter o (al_organizationId r)
  && eq_filter rt (Some (al_resourceType r))
  && eq_filter ri (al_resourceId r)
  && eq_filter a (Some (al_action r))
  && match startDate with Some s => s <=? al_createdAt r | None => true end
  && match endDate with Some e => al_createdAt r <=? e | None => true end.

(** [ORDER BY created_at DESC] *)
Fixpoint insert_by_created (r : AuditLog) (sorted : list AuditLog) : list AuditLog :=
  match sorted with
  | [] => [r]
  | q :: rest =>
      if al_createdAt q <? al_createdAt r then r :: q :: rest
      else q :: insert_by_created r rest
  end.

Definition order_by_created_desc (rs : list AuditLog) : list AuditLog :=
  List.fold_right insert_by_created [] rs.

Definition query (q : AuditQuery) : M Db (list AuditLog) :=
  bind (pool_query (fun d _ =>
          u <-? pg_uuid_opt (given (aq_userId q)) ;;
          o <-? pg_uuid_opt (given (aq_organizationId q)) ;;
          rt <-? pg_text_param_opt (given (aq_resourceType q)) ;;
          ri <-? pg_uuid_opt (given (aq_resourceId q)) ;;
          a <-? pg_text_param_opt (given (aq_action q)) ;;
          limit <-? pg_row_count (number_or (aq_limit q) 100) ;;
          offset <-? pg_row_count (number_or (aq_offset q) 0) ;;
          Some (List.firstn limit
                  (List.skipn offset
                     (order_by_created_desc
                        (List.filter
                           (matches u o rt ri a (aq_startDate q) (aq_endDate q))
                           (audit_logs d)))), d)))
       map_rows.

Definition AuditService_query (q : AuditQuery) : M Db (list AuditLog) := query q.

End Audit.

(* ===================================================================== *)
(** * organization-service                                                *)
(* ===================================================================== *)

Module Organization.

Local Open Scope m_scope.
Local Open Scope opt_scope.

(** Rows of [organizations] and [memberships]
    (types/organization.types.ts). *)
Record OrganizationRow : Type := mkOrganization {
  o_id : string;
  o_name : string;
  o_createdBy : string;
  o_createdAt : Z;
  o_updatedAt : Z;
  o_deletedAt : option Z
}.

Record Membership : Type := mkMembership {
  m_id : string;
  m_organizationId : string;
  m_userId : string;
  m_role : string;
  m_createdAt : Z;
  m_updatedAt : Z;
  m_deletedAt : option Z
}.

Record Db : Type := mkDb {
  organizations : list OrganizationRow;
  memberships : list Membership
}.

Definition is_null {A} (o : option A) : bool :=
  match o with
  | None => true
  | Some _ => false
  end.

(** ** OrganizationRepository and MembershipRepository
       (repositories/organization.repository.ts) *)

Definition delete_organization_row (id : string) (t : Z) (o : OrganizationRow)
    : OrganizationRow :=
  if String.eqb (o_id o) id && is_null (o_deletedAt o)
  then mkOrganization (o_id o) (o_name o) (o_createdBy o) (o_createdAt o)
                      (o_updatedAt o) (Some t)
  else o.

Definition OrganizationRepository_softDelete (id deletedBy : string) : M Db unit :=
  pool_query (fun d t =>
    i <-? pg_uuid id ;;
    Some (tt, mkDb (List.map (delete_organization_row i t) (organizations d))
                   (memberships d))).

(** [ORDER BY created_at ASC] *)
Fixpoint insert_by_created (m : Membership) (sorted : list Membership)
    : list Membership :=
  match sorted with
  | [] => [m]
  | q :: rest =>
      if m_createdAt m <? m_createdAt q then m :: q :: rest
      else q :: insert_by_created m rest
  end.

Definition order_by_created_asc (ms : list Membership) : list Membership :=
  List.fold_right insert_by_created [] ms.

Definition MembershipRepository_findByOrganization (organizationId : string)
    : M Db (list Membership) :=
  pool_query (fun d _ =>
    o <-? pg_uuid organizationId ;;
    Some (order_by_created_asc
            (List.filter (fun m => String.eqb (m_organizationId m) o
                                   && is_null (m_deletedAt m))
                         (memberships d)), d)).

Definition delete_membership_row (id : string) (t : Z) (m : Membership)
    : Membership :=
  if String.eqb (m_id m) id && is_null (m_deletedAt m)
  then mkMembership (m_id m) (m_organizationId m) (m_userId m) (m_role m)
                    (m_createdAt m) (m_updatedAt m) (Some t)
  else m.

Definition MembershipRepository_softDelete (id : string) : M Db unit :=
  pool_query (fun d t =>
    i <-? pg_uuid id ;;
    Some (tt, mkDb (organizations d)
                   (List.map (delete_membership_row i t) (memberships d)))).

(** ** OrganizationService.deleteOrganization
       (services/organization.service.ts) *)

Section OrganizationService.

(** [this.eventPublisher.publish]: the publisher of organization-service is
    not among the sources, so the service takes it as a parameter; the
    publisher of workflow-service is [publish]. *)
Variable eventPublisher_publish : string -> DomainEvent -> M Db unit.

Definition deleteOrganization (organizationId deletedBy : string)
    (correlationId : option string) : M Db unit :=
  (* Soft delete organization *)
  OrganizationRepository_softDelete organizationId deletedBy ;;;
  (* Soft delete all memberships *)
  memberships <- MembershipRepository_findByOrganization organizationId ;;
  for_of memberships (fun membership =>
    MembershipRepository_softDelete (m_id membership)) ;;;
  (* Publish event *)
  deletedAt <- new_Date ;;
  cid <- correlation correlationId ;;
  event <- createEvent "OrganizationDeleted" "v1"
             (OrganizationDeletedData organizationId deletedBy deletedAt)
             "organization-service" cid (Some deletedBy) (Some organizationId) ;;
  eventPublisher_publish "organization.deleted" event.

End OrganizationService.

(** ** The other functions of the two repositories *)

Record CreateOrganizationInput : Type := mkCreateOrganizationInput {
  coi_name : string;
  coi_createdBy : string
}.

(** [INSERT INTO organizations (name, created_by) ... RETURNING *] *)
Definition OrganizationRepository_create (input : CreateOrganizationInput)
    : M Db OrganizationRow :=
  bind randomUUID (fun id =>
  pool_query (fun d t =>
    n <-? pg_varchar 255 (coi_name input) ;;
    c <-? pg_uuid (coi_createdBy input) ;;
    if List.existsb (fun o => String.eqb (o_id o) id) (organizations d) then None
    else
      let row := mkOrganization id n c t t None in
      Some (row, mkDb (organizations d ++ [row]) (memberships d)))).

Definition OrganizationRepository_findById (id : string)
    : M Db (option OrganizationRow) :=
  pool_query (fun d _ =>
    i <-? pg_uuid id ;;
    Some (List.find (fun o => String.eqb (o_id o) i && is_null (o_deletedAt o))
                    (organizations d), d)).

Record CreateMembershipInput : Type := mkCreateMembershipInput {
  cmi_organizationId : string;
  cmi_userId : string;
  cmi_role : string
}.

(** [INSERT INTO memberships (organization_id, user_id, role) ...
    RETURNING *]: [organization_id] references [organizations(id)], and
    [UNIQUE(organization_id, user_id)] counts the rows that were deleted
    softly too. *)
Definition MembershipRepository_create (input : CreateMembershipInput)
    : M Db Membership :=
  bind randomUUID (fun id =>
  pool_query (fun d t =>
    o <-? pg_uuid (cmi_organizationId input) ;;
    u <-? pg_uuid (cmi_userId input) ;;
    r <-? pg_varchar 50 (cmi_role input) ;;
    if List.existsb (fun m => String.eqb (m_id m) id) (memberships d)
       || negb (List.existsb (fun x => String.eqb (o_id x) o) (organizations d))
       || List.existsb (fun m => String.eqb (m_organizationId m) o
                                 && String.eqb (m_userId m) u) (memberships d)
    then None
    else
      let row := mkMembership id o u r t t None in
      Some (row, mkDb (organizations d) (memberships d ++ [row])))).

Definition MembershipRepository_findById (id : string) : M Db (option Membership) :=
  pool_query (fun d _ =>
    i <-? pg_uuid id ;;
    Some (List.find (fun m => String.eqb (m_id m) i && is_null (m_deletedAt m))
                    (memberships d), d)).

Definition MembershipRepository_findByOrganizationAndUser
    (organizationId userId : string) : M Db (option Membership) :=
  pool_query (fun d _ =>
    o <-? pg_uuid organizationId ;;
    u <-? pg_uuid userId ;;
    Some (List.find (fun m => String.eqb (m_organizationId m) o
                              && String.eqb (m_userId m) u
                              && is_null (m_deletedAt m))
                    (memberships d), d)).

Definition MembershipRepository_findByUser (userId : string)
    : M Db (list Membership) :=
  pool_query (fun d _ =>
    u <-? pg_uuid userId ;;
    Some (order_by_created_asc
            (List.filter (fun m => String.eqb (m_userId m) u
                                   && is_null (m_deletedAt m))
                         (memberships d)), d)).

Definition update_role_row (id newRole : string) (t : Z) (m : Membership)
    : Membership :=
  if String.eqb (m_id m) id && is_null (m_deletedAt m)
  then mkMembership (m_id m) (m_organizationId m) (m_userId m) newRole
                    (m_createdAt m) t (m_deletedAt m)
  else m.

(** [UPDATE memberships SET role = $1, updated_at = CURRENT_TIMESTAMP WHERE
    id = $2 AND deleted_at IS NULL RETURNING *] followed by
    [mapRowToMembership(result.rows[0])], which throws when no row was
    updated. *)
Definition MembershipRepository_updateRole (id newRole : string)
    : M Db Membership :=
  bind (pool_query (fun d t =>
          r <-? pg_varchar 50 newRole ;;
          i <-? pg_uuid id ;;
          Some (List.find (fun m => String.eqb (m_id m) i && is_null (m_deletedAt m))
                          (List.map (update_role_row i r t) (memberships d)),
                mkDb (organizations d)
                     (List.map (update_role_row i r t) (memberships d)))))
       (fun row =>
          match row with
          | Some m => ret m
          | None => throw TypeError
          end).

Definition delete_pair_row (o u : string) (t : Z) (m : Membership) : Membership :=
  if String.eqb (m_organizationId m) o && String.eqb (m_userId m) u
     && is_null (m_deletedAt m)
  then mkMembership (m_id m) (m_organizationId m) (m_userId m) (m_role m)
                    (m_createdAt m) (m_updatedAt m) (Some t)
  else m.

Definition MembershipRepository_softDeleteByOrganizationAndUser
    (organizationId userId : string) : M Db unit :=
  pool_query (fun d t =>
    o <-? pg_uuid organizationId ;;
    u <-? pg_uuid userId ;;
    Some (tt, mkDb (organizations d)
                   (List.map (delete_pair_row o u t) (memberships d)))).

End Organization.

(* ===================================================================== *)
(** * Concrete tenants, users, events and worlds                          *)
(* ===================================================================== *)

Module Sample.

(** A tenant, two users, and identifiers of events and projects. *)
Definition T : string := "11111111-1111-4111-8111-111111111111".
Definition U : string := "22222222-2222-4222-8222-222222222222".
Definition V : string := "33333333-3333-4333-8333-333333333333".
Definition E1 : string := "e1e1e1e1-0000-4000-8000-000000000001".
Definition K1 : string := "c0c0c0c0-0000-4000-8000-000000000001".
Definition P1 : string := "aaaaaaaa-0000-4000-8000-000000000001".
Definition P2 : string := "aaaaaaaa-0000-4000-8000-000000000002".

(** What [randomUUID()] and [gen_random_uuid()] return, call after call. *)
Definition generated (n : nat) : string :=
  List.nth n
    ["f0000000-0000-4000-8000-000000000000";
     "f0000000-0000-4000-8000-000000000001";
     "f0000000-0000-4000-8000-000000000002";
     "f0000000-0000-4000-8000-000000000003";
     "f0000000-0000-4000-8000-000000000004";
     "f0000000-0000-4000-8000-000000000005"]
    "f0000000-0000-4000-8000-00000000ffff".

Definition instant : string := "2024-01-01T00:00:00.000Z".

(** The wire form of an event published by [createEvent]. *)
Definition envelope (eventType source : string) (data : Json) : Json :=
  JObj [("eventId", JStr E1); ("eventType", JStr eventType);
        ("eventVersion", JStr "v1"); ("timestamp", JStr instant);
        ("source", JStr source); ("correlationId", JStr K1);
        ("userId", JStr U); ("organizationId", JStr T); ("data", data)].

Definition MemberAdded_admin : Json :=
  envelope "MemberAdded" "organization-service"
    (JObj [("organizationId", JStr T); ("userId", JStr U); ("role", JStr "admin");
           ("addedBy", JStr V); ("addedAt", JStr instant)]).

Definition MemberRemoved_U : Json :=
  envelope "MemberRemoved" "organization-service"
    (JObj [("organizationId", JStr T); ("userId", JStr U);
           ("removedBy", JStr V); ("removedAt", JStr instant)]).

Definition OrganizationDeleted_T : Json :=
  envelope "OrganizationDeleted" "organization-service"
    (JObj [("organizationId", JStr T); ("deletedBy", JStr V);
           ("deletedAt", JStr instant)]).

Definition TaskCreated_P1 : Json :=
  envelope "TaskCreated" "workflow-service"
    (JObj [("organizationId", JStr T); ("projectId", JStr P1);
           ("taskId", JStr P2); ("title", JStr "write the report");
           ("createdBy", JStr U); ("createdAt", JStr instant)]).

Definition member_added : Message :=
  mkMessage "organization.member.added" (Text MemberAdded_admin).
Definition member_removed : Message :=
  mkMessage "organization.member.removed" (Text MemberRemoved_U).
Definition organization_deleted : Message :=
  mkMessage "organization.deleted" (Text OrganizationDeleted_T).
Definition poison : Message :=
  mkMessage "organization.member.added" Garbled.

(** A world with the given tables, a store and a bus that answer, and
    nothing logged or sent yet. *)
Definition world {D : Type} (d : D) (t : Z) : World D :=
  mkWorld d [] t generated 0 [] [].

(** workflow-service with empty tables. *)
Definition workflow_empty : Workflow.W :=
  world (Workflow.mkDb [] [] [] []) 1000.

Definition project (id : string) (created : Z) : Workflow.Project :=
  Workflow.mkProject id T "roadmap" None Workflow.Active U created created None.

(** workflow-service with two active projects of tenant [T], its
    entitlements, and [U] cached as a member of [T]. *)
Definition workflow_T : Workflow.W :=
  world (Workflow.mkDb [project P1 10; project P2 20] []
           [Workflow.mkMembership T U "member" 30]
           [Workflow.mkEntitlementsCache T (Some 10) (Some 100) (Some 5) [] 40])
        1000.

(** [POST /projects] by [U], the organization named in a header. *)
Definition post_with_header : Workflow.Request :=
  Workflow.mkRequest (Some "Bearer token") (Some U) (Some T) None None
    (JObj [("name", JStr "roadmap")]).

(** A request by [U] that names the organization [T] and the project [P1]
    in the body only; the body suits [POST /projects] and [POST /tasks]. *)
Definition post_with_body : Workflow.Request :=
  Workflow.mkRequest (Some "Bearer token") (Some U) None None None
    (JObj [("organizationId", JStr T); ("projectId", JStr P1);
           ("name", JStr "roadmap"); ("title", JStr "write the report")]).

(** workflow-service with one project of tenant [T] and empty caches: no
    user is cached as a member of [T]. *)
Definition workflow_no_members : Workflow.W :=
  world (Workflow.mkDb [project P1 10] [] [] []) 1000.

(** The [n]-th identifier of a series, [n] below 1000. *)
Definition digit (n : nat) : ascii := ascii_of_nat (48 + n mod 10).

Definition numbered (n : nat) : string :=
  "aaaaaaaa-0000-4000-8000-000000000"
  ++ String (digit (n / 100)) (String (digit (n / 10)) (String (digit n) EmptyString)).

(** workflow-service with [n] active projects of tenant [T], the first of
    them holding [m] open tasks, and no row in either cache. *)
Definition task (n : nat) : Workflow.Task :=
  Workflow.mkTask (numbered (500 + n)) T (numbered 1) "chore" None Workflow.Todo
                  None U (Z.of_nat n) (Z.of_nat n) None.

Definition workflow_without_entitlements (n m : nat) : Workflow.W :=
  world (Workflow.mkDb
           (List.map (fun i => project (numbered i) (Z.of_nat i)) (List.seq 1 n))
           (List.map task (List.seq 1 m)) [] [])
        1000.

(** analytics-service and audit-service with empty tables. *)
Definition analytics_empty : World Analytics.Db :=
  world (Analytics.mkDb []) 1000.

Definition audit_empty : World Audit.Db :=
  world (Audit.mkDb []) 1000.

Definition audit_poison : Audit.AuditMessage :=
  Audit.mkAuditMessage "organization.member.added" Audit.Garbled.

Definition audit_member_added : Audit.AuditMessage :=
  Audit.mkAuditMessage "organization.member.added"
    (Audit.Parsed
       (Audit.mkBaseEvent (Some E1) (Some "MemberAdded") (Some "v1")
          (Some "organization-service") (Some K1) None (Some U) (Some T)
          MemberAdded_admin)).

(** organization-service with tenant [T] and its member [U]. *)
Definition organization_T : World Organization.Db :=
  world (Organization.mkDb
           [Organization.mkOrganization T "acme" V 5 5 None]
           [Organization.mkMembership P1 T U "admin" 6 6 None])
        1000.

(** The same world at a later time [t]. *)
Definition later {D : Type} (t : Z) (w : World D) : World D :=
  mkWorld (db w) (faults w) t (uuids w) (next w) (logs w) (outbox w).

(** The same world with the store about to fail as [fs] tells. *)
Definition failing {D : Type} (fs : list bool) (w : World D) : World D :=
  set_faults fs w.

(** Further events, and the messages that carry them. *)
Definition RoleChanged_owner : Json :=
  envelope "RoleChanged" "organization-service"
    (JObj [("organizationId", JStr T); ("userId", JStr U);
           ("oldRole", JStr "admin"); ("newRole", JStr "owner");
           ("changedBy", JStr V); ("changedAt", JStr instant)]).

Definition role_changed : Message :=
  mkMessage "organization.role.changed" (Text RoleChanged_owner).

(** workflow-service with the two active projects of tenant [T], [U]
    cached as a member, and entitlements that allow two projects and one
    task. *)
Definition workflow_T_limit_2 : Workflow.W :=
  world (Workflow.mkDb [project P1 10; project P2 20] []
           [Workflow.mkMembership T U "member" 30]
           [Workflow.mkEntitlementsCache T (Some 2) (Some 1) (Some 5) [] 40])
        1000.

(** The event billing-service publishes when a subscription is cancelled
    at once: every limit is 0. *)
Definition EntitlementsUpdated_cleared : Json :=
  envelope "EntitlementsUpdated" "billing-service"
    (JObj [("organizationId", JStr T);
           ("entitlements",
            JObj [("maxProjects", JNum 0); ("maxTasks", JNum 0);
                  ("maxMembers", JNum 0); ("features", JArr [])]);
           ("updatedAt", JStr instant)]).

Definition entitlements_cleared : Message :=
  mkMessage "billing.entitlements.updated" (Text EntitlementsUpdated_cleared).

(** [POST /projects] by [U] with the organization [T] in the header and
    another organization, [V], in the body. *)
Definition post_with_header_and_body : Workflow.Request :=
  Workflow.mkRequest (Some "Bearer token") (Some U) (Some T) None None
    (JObj [("organizationId", JStr V); ("name", JStr "roadmap")]).

(** A task of project [P1] that moves from one status to another. *)
Definition TaskStatusChanged_P1 (oldStatus newStatus : string) : Json :=
  envelope "TaskStatusChanged" "workflow-service"
    (JObj [("organizationId", JStr T); ("projectId", JStr P1);
           ("taskId", JStr P2); ("oldStatus", JStr oldStatus);
           ("newStatus", JStr newStatus);
           ("changedBy", JStr U); ("changedAt", JStr instant)]).

End Sample.

(* ===================================================================== *)
(** * The vocabulary of the properties                                    *)
(* ===================================================================== *)

Module Spec.

Import Workflow.

(** A computation [m] keeps the relation [R] between the world it starts
    in and the world it leaves. *)
Definition keeps {D A} (R : World D -> World D -> Prop) (m : M D A) : Prop :=
  forall w, R w (snd (m w)).

(** A relation on the tables, read on worlds. *)
Definition on_db {D} (Rdb : D -> D -> Prop) (w w' : World D) : Prop :=
  Rdb (db w) (db w').

(** The steps that leave the producer's outbox alone. *)
Definition same_outbox {D} (w w' : World D) : Prop := outbox w' = outbox w.

(** The steps that leave the logger alone. *)
Definition same_logs {D} (w w' : World D) : Prop := logs w' = logs w.

(** No row of the membership cache is for the organization and the user
    that the two identifiers denote. *)
Definition no_membership (organizationId userId : string) (d : Db) : Prop :=
  forall r, In r (membership_cache d) ->
            ~ (pg_uuid organizationId = Some (mc_organizationId r) /\
               pg_uuid userId = Some (mc_userId r)).

(** The project limit of the cached entitlements, if any, is not reached. *)
Definition project_limit_ok (o : string) (d : Db) : Prop :=
  match List.find (entitlements_key o) (entitlements_cache d) with
  | None => True
  | Some e =>
      limit_reached (ec_maxProjects e)
        (Z.of_nat (List.length
           (List.filter (fun p => String.eqb (p_organizationId p) o
                                  && project_status_eqb (p_status p) Active)
                        (projects d)))) = false
  end.

Definition task_limit_ok (o : string) (d : Db) : Prop :=
  match List.find (entitlements_key o) (entitlements_cache d) with
  | None => True
  | Some e =>
      limit_reached (ec_maxTasks e)
        (Z.of_nat (List.length
           (List.filter (fun t => String.eqb (t_organizationId t) o
                                  && negb (task_status_eqb (t_status t) Cancelled))
                        (tasks d)))) = false
  end.

(** [gen_random_uuid()] never returns the id of an existing row. *)
Definition fresh_ids (w : W) : Prop :=
  forall n, List.existsb (has_project_id (uuids w n)) (projects (db w)) = false
            /\ List.existsb (has_task_id (uuids w n)) (tasks (db w)) = false.

(** The primary key of [membership_cache]. *)
Definition membership_pk_of (r : MembershipCache) : string * string :=
  (mc_organizationId r, mc_userId r).

Definition membership_pk (rows : list MembershipCache) : Prop :=
  List.NoDup (List.map membership_pk_of rows).

(** A step leaves [membership_cache] as it is. *)
Definition membership_same (d d' : Db) : Prop :=
  membership_cache d' = membership_cache d.

(** A step keeps the primary key of [membership_cache]. *)
Definition pk_kept (d d' : Db) : Prop :=
  membership_pk (membership_cache d) -> membership_pk (membership_cache d').

(** What may happen to a project row while [OrganizationDeleted] is
    handled: nothing, or it is archived.  An archived row stays archived. *)
Definition row_step (p p' : Project) : Prop :=
  p' = p \/
  (p_id p' = p_id p /\ p_organizationId p' = p_organizationId p /\
   p_status p' = Archived).

Definition archive_only (d d' : Db) : Prop :=
  List.Forall2 row_step (projects d) (projects d') /\
  tasks d' = tasks d /\
  membership_cache d' = membership_cache d /\
  entitlements_cache d' = entitlements_cache d.

(** The loop of [handleOrganizationDeleted]. *)
Definition archive_each (found : list Project) : M Db unit :=
  for_of found (fun project =>
    bind (ProjectRepository_archive (p_id project)) (fun _ => ret tt)).


(** The ids of the table are UUIDs in their stored form. *)
Definition stored_ids (d : Db) : Prop :=
  List.Forall (fun p => pg_uuid (p_id p) = Some (p_id p)) (projects d).

Definition is_OrganizationDeleted (s : Sent) : Prop :=
  sent_topic s = "organization.deleted" /\
  ev_eventType (sent_event s) = "OrganizationDeleted".

(** Every message in the outbox after was there before, or is an
    [OrganizationDeleted] event on [organization.deleted]. *)
Definition only_OrganizationDeleted {D} (w w' : World D) : Prop :=
  forall s, In s (outbox w') -> In s (outbox w) \/ is_OrganizationDeleted s.

(** Everything but the schedule of faults is as before: what a step that
    fails at the store leaves. *)
Definition untouched {D} (w w' : World D) : Prop :=
  db w' = db w /\ now w' = now w /\ uuids w' = uuids w /\ next w' = next w /\
  logs w' = logs w /\ outbox w' = outbox w.

(** The tables, the log and the outbox are as before. *)
Definition unwritten {D} (w w' : World D) : Prop :=
  db w' = db w /\ logs w' = logs w /\ outbox w' = outbox w.

(** Every task belongs to a project of the task's own organization. *)
Definition task_in_project (d : Db) (t : Task) : Prop :=
  exists p, In p (projects d) /\ p_id p = t_projectId t /\
            p_organizationId p = t_organizationId t.

Definition tasks_within_projects (d : Db) : Prop :=
  forall t, In t (tasks d) -> task_in_project d t.

(** The organizations of the projects are UUIDs in their stored form. *)
Definition stored_organizations (d : Db) : Prop :=
  List.Forall (fun p => pg_uuid (p_organizationId p) = Some (p_organizationId p))
              (projects d).

(** A step leaves the tasks alone and, of the projects, their ids and
    organizations. *)
Definition project_owner (p : Project) : string * string :=
  (p_id p, p_organizationId p).

Definition same_owners (d d' : Db) : Prop :=
  tasks d' = tasks d /\
  List.map project_owner (projects d') = List.map project_owner (projects d).

(** A hexadecimal digit as PostgreSQL prints it. *)
Definition low_hex (c : ascii) : bool :=
  is_hex c && Ascii.eqb (lower_ascii c) c.

(** The invariant of the tables of workflow-service, and what a step must
    do to keep it. *)
Definition workflow_invariant (d : Db) : Prop :=
  tasks_within_projects d /\ stored_organizations d.

Definition invariant_kept (d d' : Db) : Prop :=
  workflow_invariant d -> workflow_invariant d'.

(** What happens to the service: calls of its service and repository
    functions, requests to its two POST routes, and messages delivered to
    its consumer. *)
Inductive Operation : Type :=
| CreateProject (input : CreateProjectInput) (correlationId : option string)
| CreateTask (input : CreateTaskInput) (correlationId : option string)
| UpdateTask (id : string) (input : UpdateTaskInput)
| ArchiveProject (id : string)
| PostProjects (r : Request)
| PostTasks (r : Request)
| Consume (m : Message).

Definition perform (op : Operation) (w : W) : W :=
  match op with
  | CreateProject input c => snd (createProject input c w)
  | CreateTask input c => snd (createTask input c w)
  | UpdateTask id input => snd (TaskRepository_update id input w)
  | ArchiveProject id => snd (ProjectRepository_archive id w)
  | PostProjects r => snd (route post_projects r w)
  | PostTasks r => snd (route post_tasks r w)
  | Consume m => snd (eachMessage m w)
  end.

(** The worlds the service can be in: it starts without projects and
    tasks; between two operations the clock, the availability of the store
    and of the bus, and the identifiers to come may be anything. *)
Inductive reachable : W -> Prop :=
| reachable_start (w : W) :
    projects (db w) = [] -> tasks (db w) = [] -> reachable w
| reachable_environment (w w' : W) :
    reachable w -> db w' = db w -> reachable w'
| reachable_step (w : W) (op : Operation) :
    reachable w -> reachable (perform op w).


(** [UNIQUE(event_id)] on [audit_logs]. *)
Definition unique_events (d : Audit.Db) : Prop :=
  List.NoDup (List.map Audit.al_eventId (Audit.audit_logs d)).

Definition unique_events_kept (d d' : Audit.Db) : Prop :=
  unique_events d -> unique_events d'.

(** A step only adds rows at the end of [audit_logs]: the rows that were
    there are as before. *)
Definition append_only (d d' : Audit.Db) : Prop :=
  exists added, Audit.audit_logs d' = (Audit.audit_logs d ++ added)%list.

(** The ids of [memberships] are UUIDs in their stored form. *)
Definition stored_membership_ids (d : Organization.Db) : Prop :=
  List.Forall (fun m => pg_uuid (Organization.m_id m) = Some (Organization.m_id m))
              (Organization.memberships d).

(** What may happen to a membership row while memberships are deleted: it
    keeps its id and its organization, and a deleted row stays deleted. *)
Definition membership_step (a b : Organization.Membership) : Prop :=
  Organization.m_id b = Organization.m_id a /\
  Organization.m_organizationId b = Organization.m_organizationId a /\
  (Organization.m_deletedAt a <> None -> Organization.m_deletedAt b <> None).

(** The event type that the handler of a topic accepts: the literal of the
    schema it parses the event with. *)
Definition topic_event_type (topic : string) : option string :=
  if String.eqb topic "organization.member.added" then Some "MemberAdded"
  else if String.eqb topic "organization.member.removed" then Some "MemberRemoved"
  else if String.eqb topic "organization.role.changed" then Some "RoleChanged"
  else if String.eqb topic "billing.entitlements.updated"
       then Some "EntitlementsUpdated"
  else if String.eqb topic "organization.deleted" then Some "OrganizationDeleted"
  else None.

(** The [eventType] member of an event, when the event is an object. *)
Definition event_type (event : Json) : option Json :=
  match event with
  | JObj o => field "eventType" o
  | _ => None
  end.

(** The rows after [archive] has run for each of [ids] at time [t]. *)
Definition archive_all (ids : list string) (t : Z) (ps : list Project)
    : list Project :=
  List.fold_left (fun rows i => List.map (archive_row i t) rows) ids ps.


(** The [try] blocks of the five handlers of workflow-service. *)
Definition tryMemberAdded (event : Json) : M Db unit :=
  bind (parse (Events.MemberAddedEventSchema event)) (fun validated =>
  bind new_Date (fun cachedAt =>
  bind (upsertMembership
          (mkMembership (Events.ma_organizationId (Events.data validated))
                        (Events.ma_userId (Events.data validated))
                        (Events.ma_role (Events.data validated))
                        cachedAt)) (fun _ =>
  logger_info "Membership cached"))).

Definition tryMemberRemoved (event : Json) : M Db unit :=
  bind (parse (Events.MemberRemovedEventSchema event)) (fun validated =>
  bind (deleteMembership (Events.mr_organizationId (Events.data validated))
                         (Events.mr_userId (Events.data validated))) (fun _ =>
  logger_info "Membership removed from cache")).

Definition tryRoleChanged (event : Json) : M Db unit :=
  bind (parse (Events.RoleChangedEventSchema event)) (fun validated =>
  bind new_Date (fun cachedAt =>
  bind (upsertMembership
          (mkMembership (Events.rc_organizationId (Events.data validated))
                        (Events.rc_userId (Events.data validated))
                        (Events.rc_newRole (Events.data validated))
                        cachedAt)) (fun _ =>
  logger_info "Membership role updated in cache"))).

Definition tryEntitlementsUpdated (event : Json) : M Db unit :=
  bind (parse (Events.EntitlementsUpdatedEventSchema event)) (fun validated =>
  bind new_Date (fun cachedAt =>
  let e := Events.eu_entitlements (Events.data validated) in
  bind (upsertEntitlements
          (mkEntitlementsCache (Events.eu_organizationId (Events.data validated))
                               (Some (Events.en_maxProjects e))
                               (Some (Events.en_maxTasks e))
                               (Some (Events.en_maxMembers e))
                               (Events.en_features e)
                               cachedAt)) (fun _ =>
  logger_info "Entitlements cached"))).

Definition tryOrganizationDeleted (event : Json) : M Db unit :=
  bind (parse (Events.OrganizationDeletedEventSchema event)) (fun validated =>
  bind (ProjectRepository_findByOrganization
          (Events.od_organizationId (Events.data validated))) (fun projects =>
  bind (for_of projects (fun project =>
          bind (ProjectRepository_archive (p_id project)) (fun _ => ret tt)))
       (fun _ =>
  bind (deleteEntitlements (Events.od_organizationId (Events.data validated)))
       (fun _ =>
  logger_info "Organization deleted - projects archived")))).

(** The handler that [eachMessage] calls for a topic: its [try] block and
    the line its [catch] logs. *)
Definition handler_of (topic : string) : option ((Json -> M Db unit) * string) :=
  if String.eqb topic "organization.member.added"
  then Some (tryMemberAdded, "Failed to handle MemberAdded event")
  else if String.eqb topic "organization.member.removed"
  then Some (tryMemberRemoved, "Failed to handle MemberRemoved event")
  else if String.eqb topic "organization.role.changed"
  then Some (tryRoleChanged, "Failed to handle RoleChanged event")
  else if String.eqb topic "billing.entitlements.updated"
  then Some (tryEntitlementsUpdated, "Failed to handle EntitlementsUpdated event")
  else if String.eqb topic "organization.deleted"
  then Some (tryOrganizationDeleted, "Failed to handle OrganizationDeleted event")
  else None.

(** The [try] block of [eachMessage] in audit-service. *)
Definition tryRecordEvent (m : Audit.AuditMessage) : M Audit.Db unit :=
  bind (Audit.JSON_parse (Audit.value m)) (fun event =>
  Audit.recordEvent event).

(** What a [try] block followed by a [catch] that logs [line] leaves. *)
Definition caught_and_logged {D} (block : M D unit) (line : string)
    (w : World D) : Outcome unit * World D :=
  match block w with
  | (Return _, w1) => (Return tt, w1)
  | (Throw _, w1) => (Return tt, snd (logger_error line w1))
  end.



End Spec.

(* ===================================================================== *)
(** * Properties                                                          *)
(* ===================================================================== *)

Import Spec.

(** ** The runtime *)

Section MonadFacts.
Context {D : Type}.

Lemma pool_query_available {A} (stmt : D -> Z -> option (A * D)) (w : World D) :
  hd false (faults w) = false ->
  pool_query stmt w =
    match stmt (db w) (now w) with
    | Some (a, d') => (Return a, set_db d' (set_faults (tl (faults w)) w))
    | None => (Throw StoreError, set_faults (tl (faults w)) w)
    end.
Proof.
  intros H. unfold pool_query.
  destruct (faults w) as [|[|] fs]; simpl in *; try discriminate; reflexivity.
Qed.

(** A statement never touches the logger or the producer. *)
Lemma pool_query_frame {A} (stmt : D -> Z -> option (A * D)) (w : World D) :
  let w' := snd (pool_query stmt w) in
  logs w' = logs w /\ outbox w' = outbox w /\ now w' = now w.
Proof.
  unfold pool_query.
  destruct (faults w) as [|[|] fs]; simpl;
    try (destruct (stmt (db w) (now w)) as [[a d']|]); simpl; auto.
Qed.

(** A statement that fails writes nothing. *)
Lemma pool_query_throw_db {A} (stmt : D -> Z -> option (A * D)) (w : World D) e :
  fst (pool_query stmt w) = Throw e -> db (snd (pool_query stmt w)) = db w.
Proof.
  unfold pool_query.
  destruct (faults w) as [|[|] fs]; simpl;
    try (destruct (stmt (db w) (now w)) as [[a d']|]); simpl; auto; discriminate.
Qed.

End MonadFacts.

Lemma bind_run {D A B} (m : M D A) (k : A -> M D B) (w w1 : World D) (a : A) :
  m w = (Return a, w1) -> bind m k w = k a w1.
Proof. intros H. unfold bind. rewrite H. reflexivity. Qed.

Lemma bind_unfold {D A B} (m : M D A) (k : A -> M D B) (w : World D) :
  bind m k w =
    match m w with
    | (Return a, w') => k a w'
    | (Throw e, w') => (Throw e, w')
    end.
Proof. reflexivity. Qed.

Lemma try_catch_run {D A} (body : M D A) (h : Exn -> M D A) (w w1 : World D) (a : A) :
  body w = (Return a, w1) -> try_catch body h w = (Return a, w1).
Proof. intros H. unfold try_catch. rewrite H. reflexivity. Qed.

(** Unfolds the monad's operations and lets the world's fields compute. *)
Ltac run :=
  lazy beta iota zeta delta
    [bind ret throw try_catch pool_query obind randomUUID correlation
     createEvent new_Date publish producer_send logger_info logger_error log
     set_faults set_db parse JSON_parse];
  cbn [faults db now uuids next logs outbox tl hd fst snd].

(** ** Frame rules

    A relation [R] between the world before and the world after that is
    reflexive and transitive holds of a computation as soon as it holds of
    the I/O steps the computation is made of. *)

Section Frame.
Context {D : Type}.
Variable R : World D -> World D -> Prop.
Hypothesis R_refl : forall w, R w w.
Hypothesis R_trans : forall a b c, R a b -> R b c -> R a c.

Lemma keeps_ret {A} (a : A) : keeps R (ret a).
Proof. intros w. apply R_refl. Qed.

Lemma keeps_throw {A} (e : Exn) : keeps R (@throw D A e).
Proof. intros w. apply R_refl. Qed.

Lemma keeps_bind {A B} (m : M D A) (k : A -> M D B) :
  keeps R m -> (forall a, keeps R (k a)) -> keeps R (bind m k).
Proof.
  intros Hm Hk w. unfold bind. specialize (Hm w).
  destruct (m w) as [[a|e] w1]; cbn [snd] in *.
  - exact (R_trans _ _ _ Hm (Hk a w1)).
  - exact Hm.
Qed.

Lemma keeps_try_catch {A} (body : M D A) (h : Exn -> M D A) :
  keeps R body -> (forall e, keeps R (h e)) -> keeps R (try_catch body h).
Proof.
  intros Hb Hh w. unfold try_catch. specialize (Hb w).
  destruct (body w) as [[a|e] w1]; cbn [snd] in *.
  - exact Hb.
  - exact (R_trans _ _ _ Hb (Hh e w1)).
Qed.

Lemma keeps_for_of {A} (xs : list A) (body : A -> M D unit) :
  (forall x, keeps R (body x)) -> keeps R (for_of xs body).
Proof.
  intros Hb. induction xs as [|x rest IH]; cbn [for_of].
  - apply keeps_ret.
  - apply keeps_bind; [apply Hb|]. intros _. exact IH.
Qed.

Lemma keeps_parse {A} (r : option A) : keeps R (parse r).
Proof. destruct r; [apply keeps_ret|apply keeps_throw]. Qed.

Lemma keeps_new_Date : keeps R new_Date.
Proof. intros w. apply R_refl. Qed.

Lemma keeps_if {A} (b : bool) (m1 m2 : M D A) :
  keeps R m1 -> keeps R m2 -> keeps R (if b then m1 else m2).
Proof. destruct b; auto. Qed.

End Frame.

Lemma keeps_weaken {D A} (R R' : World D -> World D -> Prop) (m : M D A) :
  (forall w w', R w w' -> R' w w') -> keeps R m -> keeps R' m.
Proof. intros H Hm w. apply H, Hm. Qed.

Lemma pool_query_quiet {D A} (stmt : D -> Z -> option (A * D)) (w : World D)
    (a : A) (d' : D) :
  faults w = [] ->
  stmt (db w) (now w) = Some (a, d') ->
  pool_query stmt w = (Return a, set_db d' w).
Proof.
  intros Hf Hs. destruct w as [d fs t g k l ob]. cbn [faults db now] in *. subst fs.
  unfold pool_query. cbn [faults db now tl]. rewrite Hs. reflexivity.
Qed.

Lemma same_outbox_refl {D} (w : World D) : same_outbox w w.
Proof. reflexivity. Qed.

Lemma same_outbox_trans {D} (a b c : World D) :
  same_outbox a b -> same_outbox b c -> same_outbox a c.
Proof. unfold same_outbox. congruence. Qed.

Lemma pool_query_same_outbox {D A} (stmt : D -> Z -> option (A * D)) :
  keeps same_outbox (pool_query stmt).
Proof. intros w. apply pool_query_frame. Qed.

Lemma log_same_outbox {D} (l : Level) (s : string) :
  keeps (D := D) same_outbox (log l s).
Proof. intros w. reflexivity. Qed.

Lemma randomUUID_same_outbox {D} : keeps (D := D) same_outbox randomUUID.
Proof. intros w. reflexivity. Qed.

Lemma same_logs_refl {D} (w : World D) : same_logs w w.
Proof. reflexivity. Qed.

Lemma same_logs_trans {D} (a b c : World D) :
  same_logs a b -> same_logs b c -> same_logs a c.
Proof. unfold same_logs. congruence. Qed.

Lemma pool_query_same_logs {D A} (stmt : D -> Z -> option (A * D)) :
  keeps same_logs (pool_query stmt).
Proof. intros w. apply pool_query_frame. Qed.

(** A relation on the tables, lifted to worlds. *)
Section OnDb.
Context {D : Type}.
Variable Rdb : D -> D -> Prop.
Hypothesis Rdb_refl : forall d, Rdb d d.
Hypothesis Rdb_trans : forall a b c, Rdb a b -> Rdb b c -> Rdb a c.

Lemma on_db_refl (w : World D) : on_db Rdb w w.
Proof. apply Rdb_refl. Qed.

Lemma on_db_trans (a b c : World D) : on_db Rdb a b -> on_db Rdb b c -> on_db Rdb a c.
Proof. apply Rdb_trans. Qed.

Lemma pool_query_on_db {A} (stmt : D -> Z -> option (A * D)) :
  (forall d t a d', stmt d t = Some (a, d') -> Rdb d d') ->
  keeps (on_db Rdb) (pool_query stmt).
Proof.
  intros H w. unfold on_db, pool_query.
  destruct (faults w) as [|[|] fs]; cbn [snd db set_faults];
    try apply Rdb_refl;
    destruct (stmt (db w) (now w)) as [[a d']|] eqn:E; cbn [snd db set_db set_faults];
    try apply Rdb_refl; exact (H _ _ _ _ E).
Qed.

Lemma log_on_db (l : Level) (s : string) : keeps (on_db Rdb) (log l s).
Proof. intros w. apply Rdb_refl. Qed.

End OnDb.

Lemma correlation_run {D} (c : option string) (w : World D) :
  exists cid w1,
    correlation c w = (Return cid, w1) /\
    db w1 = db w /\ faults w1 = faults w /\ now w1 = now w /\
    uuids w1 = uuids w /\ logs w1 = logs w /\ outbox w1 = outbox w.
Proof.
  destruct c as [c|]; [destruct (String.eqb c "") eqn:E|];
    unfold correlation; try rewrite E;
    do 2 eexists; (split; [reflexivity|]); cbn; repeat split.
Qed.

Lemma is_uuid_not_empty s : is_uuid s = true -> String.eqb s "" = false.
Proof.
  destruct s; [discriminate|reflexivity].
Qed.

(** ** workflow-service: the membership cache is fail-closed *)

(** A text that PostgreSQL accepts is stored as it was sent. *)
Lemma pg_text_param_some s r : pg_text_param s = Some r -> r = s.
Proof. unfold pg_text_param. destruct (no_nul s); congruence. Qed.

Lemma pg_text_param_opt_some s r : pg_text_param_opt s = Some r -> r = s.
Proof.
  unfold pg_text_param_opt, obind. destruct s as [v|]; [|congruence].
  destruct (pg_text_param v) as [x|] eqn:E; [|discriminate].
  apply pg_text_param_some in E. congruence.
Qed.

Lemma pg_text_array_some xs ys : pg_text_array xs = Some ys -> ys = xs.
Proof. unfold pg_text_array. destruct (List.forallb no_nul xs); congruence. Qed.

(** ** The schedule of faults *)







Module WorkflowFacts.

Import Workflow.

Lemma membership_key_true o u r :
  membership_key o u r = true <-> mc_organizationId r = o /\ mc_userId r = u.
Proof.
  unfold membership_key. rewrite andb_true_iff, !String.eqb_eq. tauto.
Qed.

Lemma no_membership_find o u o' u' d :
  no_membership o u d ->
  pg_uuid o = Some o' -> pg_uuid u = Some u' ->
  List.find (membership_key o' u') (membership_cache d) = None.
Proof.
  intros H Ho Hu.
  destruct (List.find (membership_key o' u') (membership_cache d)) as [r|] eqn:F;
    [|reflexivity].
  apply List.find_some in F. destruct F as [Hin Hk].
  apply membership_key_true in Hk. destruct Hk as [Eo Eu].
  exfalso. apply (H r Hin). rewrite Eo, Eu. auto.
Qed.

Lemma hex_not_hyphen c : is_hex c = true -> Ascii.eqb c "-" = false.
Proof. destruct c as [[] [] [] [] [] [] [] []]; vm_compute; congruence. Qed.

Lemma hex_not_brace c : is_hex c = true -> Ascii.eqb c "{" = false.
Proof. destruct c as [[] [] [] [] [] [] [] []]; vm_compute; congruence. Qed.

(** An identifier that zod accepts is read by PostgreSQL as itself, in
    lower case. *)
Lemma pg_uuid_some s : is_uuid s = true -> pg_uuid s = Some (toLowerCase s).
Proof.
  intros H.
  do 36 (destruct s as [|? s]; [discriminate|]).
  destruct s; [|discriminate].
  cbv [is_uuid hex_group substring String.length Nat.eqb all_chars String.eqb] in H.
  repeat match goal with
         | H : _ && _ = true |- _ =>
             apply andb_true_iff in H; let H' := fresh "H" in destruct H as [H H']
         | H : true = true |- _ => clear H
         end.
  repeat match goal with
         | H : (if Ascii.eqb ?x ?y then true else false) = true |- _ =>
             destruct (Ascii.eqb_spec x y); [subst|discriminate H]; clear H
         | H : Ascii.eqb _ _ = true |- _ => apply Ascii.eqb_eq in H; subst
         end.
  repeat match goal with
         | H : is_hex ?c = true |- _ =>
             pose proof (hex_not_hyphen c H); pose proof (hex_not_brace c H);
             revert H
         end.
  intros.
  unfold pg_uuid.
  repeat (progress
            (rewrite ?Ascii.eqb_refl;
             repeat match goal with
                    | H : _ = _ |- _ => rewrite H
                    end;
             cbv [uuid_digits substring String.length Nat.sub Nat.odd Nat.even
                  Nat.ltb Nat.leb negb andb])).
  reflexivity.
Qed.

(** The lookup behind [verifyMembership], whatever the store does. *)
Lemma verifyMembership_denies (w : W) (o u : string) :
  no_membership o u (db w) ->
  fst (verifyMembership o u w) <> Return true.
Proof.
  intros H. unfold verifyMembership, getMembership, bind, pool_query.
  destruct (faults w) as [|[|] fs]; simpl; try discriminate.
  - destruct (pg_uuid o) as [o'|] eqn:Ho; simpl; try discriminate.
    destruct (pg_uuid u) as [u'|] eqn:Hu; simpl; try discriminate.
    rewrite (no_membership_find _ _ _ _ _ H Ho Hu). simpl. discriminate.
  - destruct (pg_uuid o) as [o'|] eqn:Ho; simpl; try discriminate.
    destruct (pg_uuid u) as [u'|] eqn:Hu; simpl; try discriminate.
    rewrite (no_membership_find _ _ _ _ _ H Ho Hu). simpl. discriminate.
Qed.

Lemma verifyMembership_false (w : W) (o u o' u' : string) :
  no_membership o u (db w) ->
  pg_uuid o = Some o' -> pg_uuid u = Some u' -> hd false (faults w) = false ->
  verifyMembership o u w = (Return false, set_faults (tl (faults w)) w).
Proof.
  intros H Ho Hu Hf. unfold verifyMembership, getMembership, bind.
  rewrite pool_query_available by exact Hf.
  rewrite Ho, Hu. simpl.
  rewrite (no_membership_find _ _ _ _ _ H Ho Hu). simpl.
  unfold set_db, set_faults. simpl. reflexivity.
Qed.

(** C2.  For every organization and user with no row in the membership
    cache, the authorization check denies: the auth middleware never calls
    [next()] for a request made for that organization by that user; and,
    the store answering and both identifiers reading as UUIDs,
    [verifyMembership] returns [false] and the middleware answers 403. *)
Theorem membership_cache_miss_is_denied (w : W) (r : Request) (o u : string) :
  no_membership o u (db w) ->
  bearer (authorization r) = true ->
  present (x_user_id r) = Some u ->
  present (or_else (x_organization_id r) (params_organizationId r)) = Some o ->
  (forall a, fst (createAuthMiddleware r w) <> Return (Next a)) /\
  (pg_uuid o <> None -> pg_uuid u <> None -> hd false (faults w) = false ->
     fst (verifyMembership o u w) = Return false /\
     fst (createAuthMiddleware r w) =
       Return (Responded
                 (Status 403 (Msg "User is not a member of this organization")))).
Proof.
  intros Hno Hb Hu Ho. split.
  - intros a. unfold createAuthMiddleware, try_catch.
    rewrite Hb, Hu, Ho. simpl. unfold bind at 1.
    pose proof (verifyMembership_denies w o u Hno) as Hd.
    destruct (verifyMembership o u w) as [[[|]|e] w']; simpl in *;
      try discriminate. congruence.
  - intros Uo Uu Hf.
    destruct (pg_uuid o) as [o'|] eqn:Eo; [|congruence].
    destruct (pg_uuid u) as [u'|] eqn:Eu; [|congruence].
    pose proof (verifyMembership_false w o u o' u' Hno Eo Eu Hf) as E.
    split; [rewrite E; reflexivity|].
    unfold createAuthMiddleware, try_catch.
    rewrite Hb, Hu, Ho. simpl. unfold bind at 1. rewrite E. reflexivity.
Qed.

End WorkflowFacts.


(** ** workflow-service: the organization named in the body *)

Module RouteFacts.

Import Workflow WorkflowFacts.

Lemma createProject_ok (input : CreateProjectInput) (c : option string) (w : W) :
  faults w = [] ->
  is_uuid (cpi_organizationId input) = true ->
  is_uuid (cpi_createdBy input) = true ->
  pg_varchar 255 (cpi_name input) <> None ->
  pg_text_param_opt (cpi_description input) <> None ->
  project_limit_ok (toLowerCase (cpi_organizationId input)) (db w) ->
  List.existsb (has_project_id (uuids w (next w))) (projects (db w)) = false ->
  exists p w',
    createProject input c w = (Return p, w') /\
    p_organizationId p = toLowerCase (cpi_organizationId input) /\
    p_createdBy p = toLowerCase (cpi_createdBy input) /\
    p_status p = Active /\
    db w' = set_projects (projects (db w) ++ [p]) (db w).
Proof.
  intros Hf Ho Hc Hn Hds Hl Hfresh.
  destruct w as [d fs t g k l ob]. cbn [faults db uuids next] in *. subst fs.
  unfold project_limit_ok in Hl.
  destruct (pg_varchar 255 (cpi_name input)) as [n|] eqn:En; [|contradiction].
  destruct (pg_text_param_opt (cpi_description input)) as [ds|] eqn:Eds;
    [|contradiction].
  unfold createProject, getEntitlements, ProjectRepository_countByOrganization,
    ProjectRepository_create.
  run. rewrite (pg_uuid_some _ Ho), (pg_uuid_some _ Hc), En, Eds. run.
  destruct (find _ (entitlements_cache d)) as [e|] eqn:F.
  - run. rewrite Hl. run. rewrite Hfresh.
    destruct c as [c|]; [destruct (String.eqb c "")|]; run;
      do 2 eexists; repeat split.
  - run. rewrite Hfresh.
    destruct c as [c|]; [destruct (String.eqb c "")|]; run;
      do 2 eexists; repeat split.
Qed.

Lemma createTask_ok (input : CreateTaskInput) (c : option string) (w : W)
    (proj : Project) :
  faults w = [] ->
  is_uuid (cti_organizationId input) = true ->
  is_uuid (cti_projectId input) = true ->
  is_uuid (cti_createdBy input) = true ->
  pg_varchar 255 (cti_title input) <> None ->
  pg_text_param_opt (cti_description input) <> None ->
  List.find (fun p => has_project_id (toLowerCase (cti_projectId input)) p
                      && negb (project_status_eqb (p_status p) Deleted))
            (projects (db w)) = Some proj ->
  p_organizationId proj = cti_organizationId input ->
  task_limit_ok (toLowerCase (cti_organizationId input)) (db w) ->
  List.existsb (has_task_id (uuids w (next w))) (tasks (db w)) = false ->
  exists t w',
    createTask input c w = (Return t, w') /\
    t_organizationId t = toLowerCase (cti_organizationId input) /\
    t_createdBy t = toLowerCase (cti_createdBy input) /\
    db w' = set_tasks (tasks (db w) ++ [t]) (db w).
Proof.
  intros Hf Ho Hp Hc Hn Hds Hfind Hsame Hl Hfresh.
  destruct w as [d fs t g k l ob]. cbn [faults db uuids next] in *. subst fs.
  unfold task_limit_ok in Hl.
  destruct (pg_varchar 255 (cti_title input)) as [n|] eqn:En; [|contradiction].
  destruct (pg_text_param_opt (cti_description input)) as [ds|] eqn:Eds;
    [|contradiction].
  assert (Hex : List.existsb (has_project_id (toLowerCase (cti_projectId input)))
                  (projects d) = true).
  { apply List.find_some in Hfind. destruct Hfind as [Hin Hk].
    apply andb_true_iff in Hk. destruct Hk as [Hk _].
    apply List.existsb_exists. exists proj. split; assumption. }
  unfold createTask, ProjectRepository_findById, getEntitlements,
    TaskRepository_countByOrganization, TaskRepository_create.
  run. rewrite (pg_uuid_some _ Ho), (pg_uuid_some _ Hp), (pg_uuid_some _ Hc),
         En, Eds. run.
  rewrite Hfind. rewrite Hsame, String.eqb_refl. cbn [negb]. run.
  destruct (find _ (entitlements_cache d)) as [e|] eqn:F.
  - run. rewrite Hl. run. rewrite Hfresh, Hex. cbn [negb orb].
    destruct c as [c|]; [destruct (String.eqb c "")|]; run;
      do 2 eexists; repeat split.
  - run. rewrite Hfresh, Hex. cbn [negb orb].
    destruct c as [c|]; [destruct (String.eqb c "")|]; run;
      do 2 eexists; repeat split.
Qed.

Lemma header_absent (h : option string) :
  present h = None -> truthy (header h) = false.
Proof.
  destruct h as [s|]; [|reflexivity].
  unfold present. cbn. destruct (String.eqb s ""); [reflexivity|discriminate].
Qed.

(** The middleware alone: [next()], and the world is left as it was, so no
    statement was sent to the store. *)
Lemma middleware_without_organization (w : W) (r : Request) (u : string) :
  bearer (authorization r) = true ->
  present (x_user_id r) = Some u ->
  present (x_organization_id r) = None ->
  present (params_organizationId r) = None ->
  createAuthMiddleware r w =
    (Return (Next (mkAuthenticated r u
                     (or_else (x_organization_id r) (params_organizationId r)))), w).
Proof.
  intros Hb Hu Hh Hp. unfold createAuthMiddleware, try_catch.
  rewrite Hb, Hu. cbn [negb].
  assert (E : present (or_else (x_organization_id r) (params_organizationId r)) = None).
  { unfold or_else. rewrite Hh. exact Hp. }
  rewrite E. reflexivity.
Qed.

(** C3.  A request with a Bearer authorization header and an [x-user-id]
    header, but neither an [x-organization-id] header nor an
    [organizationId] route parameter, passes the auth middleware with
    [next()] and without any lookup in the membership cache: the world is
    returned as it was, also when the next call to the store would fail,
    and whatever the membership cache holds.  The handlers of
    [POST /projects] and [POST /tasks] then take the organization from the
    body: when PostgreSQL accepts the texts of the body (no U+0000 in the
    name, the title or the description), the project or the task is created
    for that organization, for which the user's membership was never looked
    up. *)
Theorem organization_in_body_is_not_verified (w : W) (r : Request) (u : string) :
  bearer (authorization r) = true ->
  present (x_user_id r) = Some u ->
  present (x_organization_id r) = None ->
  present (params_organizationId r) = None ->
  createAuthMiddleware r w =
    (Return (Next (mkAuthenticated r u
                     (or_else (x_organization_id r) (params_organizationId r)))), w)
  /\
  (forall (o : string) (input : ProjectBody),
     body_prop "organizationId" (body r) = Some (JStr o) ->
     createProjectSchema (body r) = Some input ->
     pg_varchar 255 (pb_name input) <> None ->
     pg_text_param_opt (pb_description input) <> None ->
     is_uuid o = true -> is_uuid u = true ->
     faults w = [] -> fresh_ids w ->
     project_limit_ok (toLowerCase o) (db w) ->
     exists p w',
       route post_projects r w = (Return (CreatedProject p), w') /\
       p_organizationId p = toLowerCase o /\
       p_createdBy p = toLowerCase u /\
       projects (db w') = (projects (db w) ++ [p])%list /\
       membership_cache (db w') = membership_cache (db w))
  /\
  (forall (o pid : string) (input : TaskBody) (proj : Project),
     body_prop "organizationId" (body r) = Some (JStr o) ->
     body_prop "projectId" (body r) = Some (JStr pid) ->
     createTaskSchema (body r) = Some input ->
     pg_varchar 255 (tb_title input) <> None ->
     pg_text_param_opt (tb_description input) <> None ->
     is_uuid o = true -> is_uuid pid = true -> is_uuid u = true ->
     faults w = [] -> fresh_ids w ->
     List.find (fun p => has_project_id (toLowerCase pid) p
                         && negb (project_status_eqb (p_status p) Deleted))
               (projects (db w)) = Some proj ->
     p_organizationId proj = o ->
     task_limit_ok (toLowerCase o) (db w) ->
     exists t w',
       route post_tasks r w = (Return (CreatedTask t), w') /\
       t_organizationId t = toLowerCase o /\
       t_createdBy t = toLowerCase u /\
       tasks (db w') = (tasks (db w) ++ [t])%list /\
       membership_cache (db w') = membership_cache (db w)).
Proof.
  intros Hb Hu Hh Hp.
  pose proof (middleware_without_organization w r u Hb Hu Hh Hp) as Hmw.
  split; [exact Hmw|]. split.
  - intros o input Hbody Hschema Hname Hdesc Ho Hu' Hf Hfresh Hlimit.
    unfold route. rewrite (bind_run _ _ _ _ _ Hmw).
    destruct (correlation_run (x_correlation_id r) w)
      as (cid & w1 & Hc & Hdb & Hfs & Hnow & Hgen & _ & _).
    destruct (createProject_ok
                (mkCreateProjectInput o (pb_name input) (pb_description input) u)
                (Some cid) w1) as (p & w' & Hrun & Hpo & Hpc & _ & Hdb');
      cbn [cpi_organizationId cpi_createdBy cpi_name cpi_description];
      try assumption.
    + congruence.
    + rewrite Hdb. exact Hlimit.
    + rewrite Hdb, Hgen. apply Hfresh.
    + exists p, w'. split.
      * unfold post_projects. apply try_catch_run.
        cbn [req req_userId]. unfold request_correlation.
        rewrite (bind_run _ _ _ _ _ Hc).
        unfold request_organization, js_or.
        rewrite (header_absent _ Hh), Hbody, Hschema.
        cbn [parse]. unfold bind at 1. cbn [ret truthy].
        rewrite (is_uuid_not_empty _ Ho). cbn [negb pg_text].
        rewrite (bind_run _ _ _ _ _ Hrun). reflexivity.
      * rewrite Hdb', Hdb. cbn. auto.
  - intros o pid input proj Hbody Hpid Hschema Htitle Hdesc Ho Hp' Hu' Hf Hfresh Hfind
      Hsame Hlimit.
    unfold route. rewrite (bind_run _ _ _ _ _ Hmw).
    destruct (correlation_run (x_correlation_id r) w)
      as (cid & w1 & Hc & Hdb & Hfs & Hnow & Hgen & _ & _).
    destruct (createTask_ok
                (mkCreateTaskInput o pid (tb_title input) (tb_description input) u)
                (Some cid) w1 proj) as (t & w' & Hrun & Hto & Htc & Hdb');
      cbn [cti_organizationId cti_projectId cti_createdBy cti_title cti_description];
      try assumption.
    + congruence.
    + rewrite Hdb. exact Hfind.
    + rewrite Hdb. exact Hlimit.
    + rewrite Hdb, Hgen. apply Hfresh.
    + exists t, w'. split.
      * unfold post_tasks. apply try_catch_run.
        cbn [req req_userId]. unfold request_correlation.
        rewrite (bind_run _ _ _ _ _ Hc).
        unfold request_organization, js_or.
        rewrite (header_absent _ Hh), Hbody, Hpid, Hschema.
        cbn [parse]. unfold bind at 1. cbn [ret truthy].
        rewrite (is_uuid_not_empty _ Ho), (is_uuid_not_empty _ Hp').
        cbn [negb orb pg_text].
        rewrite (bind_run _ _ _ _ _ Hrun). reflexivity.
      * rewrite Hdb', Hdb. cbn. auto.
Qed.

End RouteFacts.

(** ** workflow-service: the event consumer *)

Module ConsumerFacts.

Import Workflow WorkflowFacts Events.

Lemma membership_key_false o u r :
  membership_key o u r = false <-> membership_pk_of r <> (o, u).
Proof.
  unfold membership_pk_of. split.
  - intros H E. inversion E; subst.
    unfold membership_key in H. rewrite !String.eqb_refl in H. discriminate.
  - intros H. destruct (membership_key o u r) eqn:K; [|reflexivity].
    apply membership_key_true in K. destruct K; subst. congruence.
Qed.

Lemma filter_key_absent o u rows :
  ~ In (o, u) (List.map membership_pk_of rows) ->
  List.filter (membership_key o u) rows = [].
Proof.
  induction rows as [|r rest IH]; intros H; [reflexivity|].
  cbn [List.filter]. cbn [List.map In] in H.
  destruct (membership_key o u r) eqn:K.
  - apply membership_key_true in K. destruct K as [<- <-].
    exfalso. apply H. left. reflexivity.
  - apply IH. tauto.
Qed.

Lemma filter_not_key_absent o u rows :
  ~ In (o, u) (List.map membership_pk_of rows) ->
  List.filter (fun r => negb (membership_key o u r)) rows = rows.
Proof.
  induction rows as [|r rest IH]; intros H; [reflexivity|].
  cbn [List.filter]. cbn [List.map In] in H.
  destruct (membership_key o u r) eqn:K.
  - apply membership_key_true in K. destruct K as [<- <-].
    exfalso. apply H. left. reflexivity.
  - cbn [negb]. f_equal. apply IH. tauto.
Qed.

(** After the upsert the key is held by exactly one row, the new one. *)
Lemma upsert_membership_row_unique o u role t rows :
  membership_pk rows ->
  List.filter (membership_key o u) (upsert_membership_row o u role t rows)
  = [mkMembership o u role t].
Proof.
  unfold membership_pk.
  induction rows as [|r rest IH]; intros H; cbn [upsert_membership_row].
  - cbn [List.filter]. unfold membership_key. cbn [mc_organizationId mc_userId].
    rewrite !String.eqb_refl. reflexivity.
  - cbn [List.map] in H. inversion H as [|k ks Hnot Hrest]; subst.
    destruct (membership_key o u r) eqn:K.
    + pose proof K as K'. apply membership_key_true in K'. destruct K' as [Eo Eu].
      rewrite Eo, Eu. cbn [List.filter].
      unfold membership_key at 1. cbn [mc_organizationId mc_userId].
      rewrite !String.eqb_refl. cbn [andb]. f_equal.
      apply filter_key_absent. unfold membership_pk_of in Hnot.
      rewrite Eo, Eu in Hnot. exact Hnot.
    + cbn [List.filter]. rewrite K. apply IH. exact Hrest.
Qed.

Lemma upsert_membership_row_keys o u role t rows :
  List.map membership_pk_of (upsert_membership_row o u role t rows) =
  if List.existsb (membership_key o u) rows
  then List.map membership_pk_of rows
  else (List.map membership_pk_of rows ++ [(o, u)])%list.
Proof.
  induction rows as [|r rest IH]; cbn [upsert_membership_row List.existsb].
  - reflexivity.
  - destruct (membership_key o u r) eqn:K; cbn [orb List.map].
    + reflexivity.
    + rewrite IH. destruct (List.existsb (membership_key o u) rest); reflexivity.
Qed.

Lemma existsb_key_false o u rows :
  List.existsb (membership_key o u) rows = false ->
  ~ In (o, u) (List.map membership_pk_of rows).
Proof.
  induction rows as [|r rest IH]; cbn [List.existsb List.map In]; [tauto|].
  intros H. apply orb_false_iff in H. destruct H as [K E].
  apply membership_key_false in K. intros [F|F]; [congruence|].
  exact (IH E F).
Qed.

Lemma NoDup_snoc {A} (l : list A) (a : A) :
  List.NoDup l -> ~ In a l -> List.NoDup (l ++ [a]).
Proof.
  induction l as [|x xs IH]; intros H Hn; cbn.
  - constructor; [tauto|constructor].
  - inversion H as [|y ys Hx Hxs]; subst. constructor.
    + rewrite in_app_iff. cbn. cbn in Hn. intros [F|[F|[]]]; [tauto|].
      apply Hn. left. symmetry. exact F.
    + apply IH; [exact Hxs|]. cbn in Hn. tauto.
Qed.

(** The upsert keeps the primary key. *)
Lemma upsert_membership_row_pk o u role t rows :
  membership_pk rows -> membership_pk (upsert_membership_row o u role t rows).
Proof.
  unfold membership_pk. intros H. rewrite upsert_membership_row_keys.
  destruct (List.existsb (membership_key o u) rows) eqn:E; [exact H|].
  apply NoDup_snoc; [exact H|]. exact (existsb_key_false _ _ _ E).
Qed.

(** A handler's [catch] logs and returns: the handler never throws. *)
Lemma caught {D} (body : M D unit) (s : string) (w : World D) :
  fst (try_catch body (fun _ => logger_error s) w) = Return tt.
Proof.
  unfold try_catch. destruct (body w) as [[[]|e] w']; reflexivity.
Qed.

Lemma eachMessage_returns (m : Message) (w : W) :
  fst (eachMessage m w) = Return tt.
Proof. apply caught. Qed.

(** What a delivered [MemberAdded] event does when the store answers. *)
Lemma member_added_applies (event : Json) (v : Validated MemberAdded)
    (role : string) (w : W) :
  MemberAddedEventSchema event = Some v ->
  pg_varchar 50 (ma_role (data v)) = Some role ->
  hd false (faults w) = false ->
  db (snd (eachMessage (mkMessage "organization.member.added" (Text event)) w)) =
    set_membership_cache
      (upsert_membership_row (toLowerCase (ma_organizationId (data v)))
         (toLowerCase (ma_userId (data v))) role (now w)
         (membership_cache (db w))) (db w).
Proof.
  intros Hv Hr Hf.
  assert (Uo : is_uuid (ma_organizationId (data v)) = true /\
               is_uuid (ma_userId (data v)) = true).
  { revert Hv. unfold MemberAddedEventSchema, extend, obind.
    destruct (z_object (Some event)) as [o|]; [|discriminate].
    destruct (BaseEventSchema "MemberAdded" o) as [b|]; [|discriminate].
    destruct (z_object (field "data" o)) as [d|]; [|discriminate].
    unfold z_uuid, obind.
    destruct (z_string (field "organizationId" d)) as [x|]; [|discriminate].
    destruct (is_uuid x) eqn:Ex; [|discriminate].
    destruct (z_string (field "userId" d)) as [y|]; [|discriminate].
    destruct (is_uuid y) eqn:Ey; [|discriminate].
    destruct (z_string (field "role" d)) as [z|]; [|discriminate].
    destruct (z_string (field "addedBy" d)) as [a|]; [|discriminate].
    destruct (is_uuid a); [|discriminate].
    destruct (z_datetime (field "addedAt" d)) as [c|]; [|discriminate].
    intros H. inversion H; subst. cbn. auto. }
  destruct Uo as [Uo Uu].
  destruct w as [d fs t g k l ob]. cbn [faults hd db now] in *.
  unfold eachMessage, handleMemberAdded, upsertMembership.
  cbn [topic value String.eqb Ascii.eqb Bool.eqb].
  destruct fs as [|[|] fs]; try discriminate; run;
    rewrite Hv; run; cbn [mc_organizationId mc_userId mc_role];
    rewrite (pg_uuid_some _ Uo), (pg_uuid_some _ Uu), Hr; run; reflexivity.
Qed.

(** The primary key of the membership cache is an invariant of the
    consumer: no message breaks it. *)
Lemma pk_kept_refl d : pk_kept d d.
Proof. intros H. exact H. Qed.

Lemma pk_kept_trans a b c : pk_kept a b -> pk_kept b c -> pk_kept a c.
Proof. unfold pk_kept. auto. Qed.

Lemma pk_kept_same d d' :
  membership_cache d' = membership_cache d -> pk_kept d d'.
Proof. intros E H. rewrite E. exact H. Qed.

Lemma NoDup_map_filter {A B} (f : A -> B) (g : A -> bool) (l : list A) :
  List.NoDup (List.map f l) -> List.NoDup (List.map f (List.filter g l)).
Proof.
  induction l as [|x xs IH]; cbn [List.map List.filter]; intros H; [exact H|].
  inversion H as [|y ys Hx Hxs]; subst.
  destruct (g x); cbn [List.map]; [|exact (IH Hxs)].
  constructor; [|exact (IH Hxs)].
  intros F. apply Hx. apply in_map_iff in F. destruct F as (z & Ez & Hz).
  apply List.filter_In in Hz. apply in_map_iff. exists z. tauto.
Qed.

(** Reads a statement: every way in which it yields [Some (a, d')]. *)
Ltac statement :=
  let d := fresh "d" in
  let t := fresh "t" in
  let a := fresh "a" in
  let d' := fresh "d'" in
  let H := fresh "H" in
  intros d t a d'; unfold obind;
  repeat match goal with
         | |- context [match ?x with _ => _ end] => destruct x
         end;
  try discriminate; intros H; inversion H; subst; clear H.

(** Walks a handler down to its statements for a relation on the tables
    with the given reflexivity and transitivity. *)
Ltac frame_on refl trans :=
  repeat first
    [ apply log_on_db; exact refl
    | apply keeps_ret; exact (on_db_refl _ refl)
    | apply keeps_throw; exact (on_db_refl _ refl)
    | apply keeps_parse; exact (on_db_refl _ refl)
    | apply keeps_new_Date; exact (on_db_refl _ refl)
    | apply keeps_try_catch; [exact (on_db_trans _ trans)| |intros ?]
    | apply keeps_for_of;
        [exact (on_db_refl _ refl)|exact (on_db_trans _ trans)|intros ?]
    | apply keeps_bind; [exact (on_db_trans _ trans)| |intros ?]
    | apply keeps_if
    | apply pool_query_on_db; [exact refl|statement]
    | match goal with
      | |- keeps _ (match ?x with _ => _ end) => destruct x
      end ].

Lemma eachMessage_keeps_membership_pk (m : Message) (w : W) :
  membership_pk (membership_cache (db w)) ->
  membership_pk (membership_cache (db (snd (eachMessage m w)))).
Proof.
  revert w. change (keeps (on_db pk_kept) (eachMessage m)).
  unfold eachMessage, handleMemberAdded, handleMemberRemoved, handleRoleChanged,
    handleEntitlementsUpdated, handleOrganizationDeleted,
    upsertMembership, deleteMembership, upsertEntitlements, deleteEntitlements,
    ProjectRepository_findByOrganization, ProjectRepository_archive,
    logger_info, logger_error, JSON_parse.
  frame_on pk_kept_refl pk_kept_trans;
    try (apply pk_kept_same; reflexivity);
    try (intros Hpk; cbn [membership_cache set_membership_cache];
         first [ apply upsert_membership_row_pk; exact Hpk
               | apply NoDup_map_filter; exact Hpk ]).
Qed.

(** C5.  A [MemberAdded] event for tenant [T], user [U] and a role,
    delivered twice, leaves the membership cache with exactly one row for
    [(T, U)], holding that role: the upsert overwrites the row of the first
    delivery.  The second delivery happens in any later world whose store
    is the one the first delivery left.  The primary key
    [(organization_id, user_id)] holds of the table afterwards, and no
    message handled by the consumer ever breaks it: there is at most one
    row per tenant and user. *)
Theorem duplicate_MemberAdded_leaves_one_entry
    (event : Json) (v : Validated MemberAdded) (role : string) (w w2 : W) :
  MemberAddedEventSchema event = Some v ->
  pg_varchar 50 (ma_role (data v)) = Some role ->
  membership_pk (membership_cache (db w)) ->
  hd false (faults w) = false ->
  db w2 = db (snd (eachMessage (mkMessage "organization.member.added" (Text event)) w)) ->
  hd false (faults w2) = false ->
  let T := toLowerCase (ma_organizationId (data v)) in
  let U := toLowerCase (ma_userId (data v)) in
  let cache :=
    membership_cache
      (db (snd (eachMessage (mkMessage "organization.member.added" (Text event)) w2))) in
  List.filter (membership_key T U) cache = [mkMembership T U role (now w2)]
  /\ membership_pk cache
  /\ (forall (m : Message) (w' : W),
        membership_pk (membership_cache (db w')) ->
        membership_pk (membership_cache (db (snd (eachMessage m w'))))).
Proof.
  intros Hv Hr Hpk Hf Hdb Hf2 T U cache. subst cache.
  rewrite (member_added_applies event v role w2 Hv Hr Hf2).
  rewrite Hdb, (member_added_applies event v role w Hv Hr Hf).
  cbn [membership_cache set_membership_cache]. fold T U. split; [|split].
  - apply upsert_membership_row_unique. apply upsert_membership_row_pk. exact Hpk.
  - apply upsert_membership_row_pk. apply upsert_membership_row_pk. exact Hpk.
  - exact eachMessage_keeps_membership_pk.
Qed.

Lemma no_membership_pk o u o' u' d :
  no_membership o u d ->
  pg_uuid o = Some o' -> pg_uuid u = Some u' ->
  ~ In (o', u') (List.map membership_pk_of (membership_cache d)).
Proof.
  intros H Ho Hu F. apply in_map_iff in F. destruct F as (r & E & Hin).
  apply (H r Hin). unfold membership_pk_of in E. inversion E. subst. auto.
Qed.

Lemma MemberRemoved_ids (event : Json) (v : Validated MemberRemoved) :
  MemberRemovedEventSchema event = Some v ->
  is_uuid (mr_organizationId (data v)) = true /\
  is_uuid (mr_userId (data v)) = true.
Proof.
  unfold MemberRemovedEventSchema, extend, obind.
  destruct (z_object (Some event)) as [o|]; [|discriminate].
  destruct (BaseEventSchema "MemberRemoved" o) as [b|]; [|discriminate].
  destruct (z_object (field "data" o)) as [d|]; [|discriminate].
  unfold z_uuid, obind.
  destruct (z_string (field "organizationId" d)) as [x|]; [|discriminate].
  destruct (is_uuid x) eqn:Ex; [|discriminate].
  destruct (z_string (field "userId" d)) as [y|]; [|discriminate].
  destruct (is_uuid y) eqn:Ey; [|discriminate].
  destruct (z_string (field "removedBy" d)) as [a|]; [|discriminate].
  destruct (is_uuid a); [|discriminate].
  destruct (z_datetime (field "removedAt" d)) as [c|]; [|discriminate].
  intros H. inversion H; subst. cbn. auto.
Qed.

(** C9 (as amended).  A [MemberRemoved] event for a tenant and a user with
    no row in the membership cache creates no row and raises no error to the
    dispatch loop: [eachMessage] returns, and every table of the service is
    exactly as before, so the store holds no record that the event was
    processed; when the store answers, the handler logs the removal. *)
Theorem MemberRemoved_without_entry_changes_nothing
    (event : Json) (v : Validated MemberRemoved) (w : W) :
  MemberRemovedEventSchema event = Some v ->
  no_membership (mr_organizationId (data v)) (mr_userId (data v)) (db w) ->
  let after := eachMessage (mkMessage "organization.member.removed" (Text event)) w in
  fst after = Return tt /\
  db (snd after) = db w /\
  (hd false (faults w) = false ->
   logs (snd after) = (logs w ++ [mkLog LInfo "Membership removed from cache"])%list).
Proof.
  intros Hv Hno after. subst after.
  destruct (MemberRemoved_ids event v Hv) as [Uo Uu].
  pose proof (filter_not_key_absent _ _ _
                (no_membership_pk _ _ _ _ _ Hno (pg_uuid_some _ Uo) (pg_uuid_some _ Uu)))
    as Hsame.
  split; [apply eachMessage_returns|].
  destruct w as [[ps ts ms es] fs t g k l ob]. cbn [faults hd db now logs] in *.
  cbn [membership_cache] in Hsame.
  unfold eachMessage, handleMemberRemoved, deleteMembership.
  cbn [topic value String.eqb Ascii.eqb Bool.eqb].
  destruct fs as [|[|] fs]; run; rewrite Hv; run;
    try (rewrite (pg_uuid_some _ Uo), (pg_uuid_some _ Uu); run;
         unfold set_membership_cache; cbn [membership_cache projects tasks
           entitlements_cache]; rewrite Hsame);
    (split; [reflexivity|]); intros H; try discriminate; reflexivity.
Qed.

(** ** The dispatch loop *)


Lemma audit_eachMessage_returns (m : Audit.AuditMessage) (w : World Audit.Db) :
  fst (Audit.eachMessage m w) = Return tt.
Proof. apply caught. Qed.

Lemma consume_returns {D Msg} (f : Msg -> M D unit) :
  (forall m w, fst (f m w) = Return tt) ->
  forall ms w, fst (consume f ms w) = Return tt.
Proof.
  intros Hf ms. induction ms as [|m rest IH]; intros w; [reflexivity|].
  unfold consume in *. cbn [for_of]. unfold bind at 1.
  specialize (Hf m w). destruct (f m w) as [[[]|e] w']; cbn in Hf;
    [apply IH|discriminate].
Qed.

Lemma consume_cons {D Msg} (f : Msg -> M D unit) (m : Msg) (ms : list Msg)
    (w : World D) :
  fst (f m w) = Return tt ->
  consume f (m :: ms) w = consume f ms (snd (f m w)).
Proof.
  intros H. unfold consume. cbn [for_of]. unfold bind at 1.
  destruct (f m w) as [[[]|e] w']; cbn in H; [reflexivity|discriminate].
Qed.

Lemma consume_app {D Msg} (f : Msg -> M D unit) :
  (forall m w, fst (f m w) = Return tt) ->
  forall before after w,
    consume f (before ++ after) w = consume f after (snd (consume f before w)).
Proof.
  intros Hf before after. induction before as [|m rest IH]; intros w.
  - reflexivity.
  - cbn [app]. rewrite !consume_cons by apply Hf. apply IH.
Qed.

(** No handler of the workflow consumer hands anything to the producer. *)
Ltac silent :=
  repeat first
    [ apply pool_query_same_outbox
    | apply log_same_outbox
    | apply randomUUID_same_outbox
    | apply keeps_ret; exact same_outbox_refl
    | apply keeps_throw; exact same_outbox_refl
    | apply keeps_parse; exact same_outbox_refl
    | apply keeps_new_Date; exact same_outbox_refl
    | apply keeps_try_catch; [exact same_outbox_trans| |intros ?]
    | apply keeps_for_of; [exact same_outbox_refl|exact same_outbox_trans|intros ?]
    | apply keeps_bind; [exact same_outbox_trans| |intros ?]
    | apply keeps_if
    | match goal with
      | |- keeps _ (match ?x with _ => _ end) => destruct x
      end ].

Lemma eachMessage_sends_nothing (m : Message) (w : W) :
  outbox (snd (eachMessage m w)) = outbox w.
Proof.
  revert w. change (keeps same_outbox (eachMessage m)).
  unfold eachMessage, handleMemberAdded, handleMemberRemoved, handleRoleChanged,
    handleEntitlementsUpdated, handleOrganizationDeleted,
    upsertMembership, deleteMembership, upsertEntitlements, deleteEntitlements,
    ProjectRepository_findByOrganization, ProjectRepository_archive,
    logger_info, logger_error, JSON_parse.
  silent.
Qed.

Lemma audit_eachMessage_sends_nothing (m : Audit.AuditMessage) (w : World Audit.Db) :
  outbox (snd (Audit.eachMessage m w)) = outbox w.
Proof.
  revert w. change (keeps same_outbox (Audit.eachMessage m)).
  unfold Audit.eachMessage, Audit.recordEvent, Audit.findByEventId, Audit.create,
    Audit.mapRowToAuditLog, Audit.JSON_parse_object,
    Audit.parseEventType, Audit.JSON_parse, logger_info, logger_error.
  silent.
Qed.

Lemma consume_sends_nothing {D Msg} (f : Msg -> M D unit) :
  (forall m w, outbox (snd (f m w)) = outbox w) ->
  forall ms w, outbox (snd (consume f ms w)) = outbox w.
Proof.
  intros Hf ms. change (keeps same_outbox (consume f ms)). unfold consume.
  apply keeps_for_of; [exact same_outbox_refl|exact same_outbox_trans|].
  intros m w. apply Hf.
Qed.

End ConsumerFacts.

(** ** The deletion workflow *)

Module DeletionFacts.

Import Workflow WorkflowFacts ConsumerFacts Events.

Lemma row_step_refl p : row_step p p.
Proof. left. reflexivity. Qed.

Lemma row_step_trans a b c : row_step a b -> row_step b c -> row_step a c.
Proof.
  intros [->|(I1 & O1 & S1)] [->|(I2 & O2 & S2)].
  - left. reflexivity.
  - right. auto.
  - right. auto.
  - right. repeat split; congruence.
Qed.

Lemma Forall2_row_step_refl ps : List.Forall2 row_step ps ps.
Proof. induction ps; constructor; [apply row_step_refl|assumption]. Qed.

Lemma Forall2_row_step_trans xs : forall ys zs,
  List.Forall2 row_step xs ys -> List.Forall2 row_step ys zs ->
  List.Forall2 row_step xs zs.
Proof.
  induction xs as [|x xs IH]; intros ys zs H1 H2.
  - inversion H1; subst. inversion H2; subst. constructor.
  - inversion H1 as [|? y ? ys' Hxy Hrest]; subst.
    inversion H2 as [|? z ? zs' Hyz Hrest']; subst.
    constructor; [exact (row_step_trans _ _ _ Hxy Hyz)|].
    exact (IH _ _ Hrest Hrest').
Qed.

Lemma archive_only_refl d : archive_only d d.
Proof. repeat split. apply Forall2_row_step_refl. Qed.

Lemma archive_only_trans a b c :
  archive_only a b -> archive_only b c -> archive_only a c.
Proof.
  intros (P1 & T1 & M1 & E1) (P2 & T2 & M2 & E2). repeat split; try congruence.
  exact (Forall2_row_step_trans _ _ _ P1 P2).
Qed.

Lemma archive_row_step i t p : row_step p (archive_row i t p).
Proof.
  unfold archive_row. destruct (has_project_id i p); [right|left]; cbn; auto.
Qed.

Lemma map_archive_row_step i t ps :
  List.Forall2 row_step ps (List.map (archive_row i t) ps).
Proof.
  induction ps; cbn; constructor; [apply archive_row_step|assumption].
Qed.

(** The statements of [findByOrganization] and [archive] only archive. *)
Lemma findByOrganization_archive_only o :
  keeps (on_db archive_only) (ProjectRepository_findByOrganization o).
Proof.
  apply pool_query_on_db; [exact archive_only_refl|].
  intros d t a d'. unfold obind. destruct (pg_uuid o); [|discriminate].
  intros H. inversion H; subst. apply archive_only_refl.
Qed.

Lemma archive_archive_only i :
  keeps (on_db archive_only) (ProjectRepository_archive i).
Proof.
  unfold ProjectRepository_archive.
  apply keeps_bind; [exact (on_db_trans _ archive_only_trans)| |].
  - apply pool_query_on_db; [exact archive_only_refl|].
    intros d t a d'. unfold obind. destruct (pg_uuid i) as [u|]; [|discriminate].
    intros H. inversion H; subst. repeat split. cbn.
    apply map_archive_row_step.
  - intros [p|]; [apply keeps_ret|apply keeps_throw];
      exact (on_db_refl _ archive_only_refl).
Qed.

Lemma archive_each_archive_only found :
  keeps (on_db archive_only) (archive_each found).
Proof.
  apply keeps_for_of;
    [exact (on_db_refl _ archive_only_refl)
    |exact (on_db_trans _ archive_only_trans)|].
  intros p. apply keeps_bind; [exact (on_db_trans _ archive_only_trans)| |].
  - apply archive_archive_only.
  - intros _. apply keeps_ret. exact (on_db_refl _ archive_only_refl).
Qed.

Lemma archive_each_same_logs found : keeps same_logs (archive_each found).
Proof.
  apply keeps_for_of; [exact same_logs_refl|exact same_logs_trans|].
  intros p. apply keeps_bind; [exact same_logs_trans| |].
  - unfold ProjectRepository_archive.
    apply keeps_bind; [exact same_logs_trans| |].
    + apply pool_query_same_logs.
    + intros [q|]; [apply keeps_ret|apply keeps_throw]; exact same_logs_refl.
  - intros _. apply keeps_ret. exact same_logs_refl.
Qed.


Lemma OrganizationDeleted_id (event : Json) (v : Validated OrganizationDeleted) :
  OrganizationDeletedEventSchema event = Some v ->
  is_uuid (od_organizationId (data v)) = true.
Proof.
  unfold OrganizationDeletedEventSchema, extend, obind.
  destruct (z_object (Some event)) as [o|]; [|discriminate].
  destruct (BaseEventSchema "OrganizationDeleted" o) as [b|]; [|discriminate].
  destruct (z_object (field "data" o)) as [d|]; [|discriminate].
  unfold z_uuid, obind.
  destruct (z_string (field "organizationId" d)) as [x|]; [|discriminate].
  destruct (is_uuid x) eqn:Ex; [|discriminate].
  destruct (z_string (field "deletedBy" d)) as [y|]; [|discriminate].
  destruct (is_uuid y) eqn:Ey; [|discriminate].
  destruct (z_datetime (field "deletedAt" d)) as [c|]; [|discriminate].
  intros H. inversion H; subst. cbn. exact Ex.
Qed.



(** A handler is its [try] block followed by the [catch] that logs. *)
Lemma try_catch_logged {D} (block : M D unit) (line : string) (w : World D) :
  try_catch block (fun _ => logger_error line) w = caught_and_logged block line w.
Proof.
  unfold try_catch, caught_and_logged.
  destruct (block w) as [[[]|e] w1]; reflexivity.
Qed.





(** *** A handled [OrganizationDeleted] event *)

Lemma In_insert_by_created p q sorted :
  In p (insert_by_created q sorted) -> p = q \/ In p sorted.
Proof.
  induction sorted as [|x rest IH]; cbn [insert_by_created].
  - intros [H|[]]. left. auto.
  - destruct (p_createdAt x <? p_createdAt q); cbn [In].
    + intros [H|[H|H]]; auto.
    + intros [H|H]; auto. destruct (IH H); auto.
Qed.

Lemma In_order_by_created_desc p ps :
  In p (order_by_created_desc ps) -> In p ps.
Proof.
  unfold order_by_created_desc.
  induction ps as [|x rest IH]; cbn [List.fold_right]; [tauto|].
  intros H. apply In_insert_by_created in H. destruct H as [->|H].
  - left. reflexivity.
  - right. exact (IH H).
Qed.

Lemma archive_row_id i t p : p_id (archive_row i t p) = p_id p.
Proof. unfold archive_row. destruct (has_project_id i p); reflexivity. Qed.

Lemma map_id_archive_row i t ps :
  List.map p_id (List.map (archive_row i t) ps) = List.map p_id ps.
Proof.
  induction ps as [|p rest IH]; cbn [List.map]; [reflexivity|].
  rewrite archive_row_id, IH. reflexivity.
Qed.

Lemma find_by_id i ps :
  In i (List.map p_id ps) -> exists p, List.find (has_project_id i) ps = Some p.
Proof.
  induction ps as [|p rest IH]; cbn [List.map In List.find]; [tauto|].
  intros H. unfold has_project_id at 1.
  destruct (String.eqb (p_id p) i) eqn:E; [eauto|].
  destruct H as [H|H]; [|exact (IH H)].
  rewrite H, String.eqb_refl in E. discriminate.
Qed.

Lemma archive_ok (i : string) (w : W) :
  faults w = [] ->
  pg_uuid i = Some i ->
  In i (List.map p_id (projects (db w))) ->
  exists p w',
    ProjectRepository_archive i w = (Return p, w') /\
    faults w' = [] /\
    List.map p_id (projects (db w')) = List.map p_id (projects (db w)) /\
    membership_cache (db w') = membership_cache (db w) /\
    entitlements_cache (db w') = entitlements_cache (db w).
Proof.
  intros Hf Hu Hin.
  assert (Hin' : In i (List.map p_id (List.map (archive_row i (now w)) (projects (db w))))).
  { rewrite map_id_archive_row. exact Hin. }
  destruct (find_by_id _ _ Hin') as [p Hp].
  exists p.
  exists (set_db (set_projects (List.map (archive_row i (now w)) (projects (db w)))
                               (db w)) w).
  split.
  - unfold ProjectRepository_archive.
    rewrite (bind_run _ _ w
               (set_db (set_projects (List.map (archive_row i (now w))
                                               (projects (db w))) (db w)) w)
               (Some p)); [reflexivity|].
    apply pool_query_quiet; [exact Hf|].
    unfold obind. rewrite Hu, Hp. reflexivity.
  - cbn [faults db set_db set_projects projects membership_cache entitlements_cache].
    repeat split; [exact Hf|apply map_id_archive_row].
Qed.

Lemma archive_each_ok (found : list Project) : forall (w : W),
  faults w = [] ->
  (forall p, In p found ->
             pg_uuid (p_id p) = Some (p_id p) /\
             In (p_id p) (List.map p_id (projects (db w)))) ->
  exists w',
    archive_each found w = (Return tt, w') /\
    faults w' = [] /\
    membership_cache (db w') = membership_cache (db w) /\
    entitlements_cache (db w') = entitlements_cache (db w).
Proof.
  induction found as [|p rest IH]; intros w Hf Hall.
  - exists w. repeat split. exact Hf.
  - destruct (Hall p (or_introl eq_refl)) as [Hu Hin].
    destruct (archive_ok (p_id p) w Hf Hu Hin) as (q & w1 & Hrun & Hf1 & Hids & Hm & He).
    destruct (IH w1 Hf1) as (w2 & Hrest & Hf2 & Hm2 & He2).
    { intros x Hx. destruct (Hall x (or_intror Hx)) as [Hxu Hxin].
      split; [exact Hxu|]. rewrite Hids. exact Hxin. }
    exists w2. split.
    + unfold archive_each in *. cbn [for_of].
      rewrite (bind_run _ _ w w1 tt).
      2:{ rewrite (bind_run _ _ _ _ _ Hrun). reflexivity. }
      exact Hrest.
    + repeat split; [exact Hf2|congruence|congruence].
Qed.

Lemma find_after_delete o rows :
  List.find (entitlements_key o)
            (List.filter (fun r => negb (entitlements_key o r)) rows) = None.
Proof.
  induction rows as [|r rest IH]; cbn [List.filter List.find]; [reflexivity|].
  destruct (entitlements_key o r) eqn:K; cbn [negb]; [exact IH|].
  cbn [List.find]. rewrite K. exact IH.
Qed.

Lemma handleOrganizationDeleted_ok (event : Json)
    (v : Validated OrganizationDeleted) (w : W) :
  OrganizationDeletedEventSchema event = Some v ->
  faults w = [] ->
  stored_ids (db w) ->
  exists w',
    handleOrganizationDeleted event w = (Return tt, w') /\
    faults w' = [] /\
    membership_cache (db w') = membership_cache (db w) /\
    List.find (entitlements_key (toLowerCase (od_organizationId (data v))))
              (entitlements_cache (db w')) = None.
Proof.
  intros Hv Hf Hids.
  pose proof (OrganizationDeleted_id event v Hv) as Ho.
  set (o := od_organizationId (data v)) in *.
  set (found := order_by_created_desc
                  (List.filter
                     (fun p => String.eqb (p_organizationId p) (toLowerCase o)
                               && negb (project_status_eqb (p_status p) Deleted))
                     (projects (db w)))).
  assert (Hfind : ProjectRepository_findByOrganization o w = (Return found, w)).
  { unfold ProjectRepository_findByOrganization.
    rewrite (pool_query_quiet _ w found (db w) Hf).
    - destruct w; reflexivity.
    - unfold obind. rewrite (pg_uuid_some _ Ho). reflexivity. }
  destruct (archive_each_ok found w Hf) as (w2 & Hloop & Hf2 & Hm2 & He2).
  { intros p Hp. apply In_order_by_created_desc in Hp.
    apply List.filter_In in Hp. destruct Hp as [Hp _]. split.
    - unfold stored_ids in Hids. rewrite List.Forall_forall in Hids. exact (Hids p Hp).
    - apply List.in_map. exact Hp. }
  set (d3 := set_entitlements_cache
               (List.filter (fun r => negb (entitlements_key (toLowerCase o) r))
                            (entitlements_cache (db w2))) (db w2)).
  assert (Hdel : deleteEntitlements o w2 = (Return tt, set_db d3 w2)).
  { unfold deleteEntitlements. apply pool_query_quiet; [exact Hf2|].
    unfold obind. rewrite (pg_uuid_some _ Ho). reflexivity. }
  exists (snd (logger_info "Organization deleted - projects archived" (set_db d3 w2))).
  split.
  - unfold handleOrganizationDeleted. apply try_catch_run.
    rewrite Hv. cbn [parse]. unfold bind at 1. cbn [ret]. fold o.
    rewrite (bind_run _ _ _ _ _ Hfind).
    fold (archive_each found).
    rewrite (bind_run _ _ _ _ _ Hloop).
    rewrite (bind_run _ _ _ _ _ Hdel). reflexivity.
  - unfold logger_info, log, d3.
    cbn [snd faults db set_db set_entitlements_cache membership_cache
         entitlements_cache].
    repeat split; [exact Hf2|exact Hm2|apply find_after_delete].
Qed.

(** *** organization-service: what [deleteOrganization] publishes *)

Lemma only_OrganizationDeleted_trans {D} (a b c : World D) :
  only_OrganizationDeleted a b -> only_OrganizationDeleted b c ->
  only_OrganizationDeleted a c.
Proof.
  intros H1 H2 s Hs. destruct (H2 s Hs) as [H|H]; [|right; exact H].
  exact (H1 s H).
Qed.

Lemma same_outbox_only {D} (w w' : World D) :
  same_outbox w w' -> only_OrganizationDeleted w w'.
Proof. intros H s Hs. left. rewrite <- H. exact Hs. Qed.

Lemma publish_OrganizationDeleted (organizationId deletedBy : string)
    (correlationId : option string) :
  keeps (D := Organization.Db) only_OrganizationDeleted
    (bind new_Date (fun deletedAt =>
     bind (correlation correlationId) (fun cid =>
     bind (createEvent "OrganizationDeleted" "v1"
             (OrganizationDeletedData organizationId deletedBy deletedAt)
             "organization-service" cid (Some deletedBy) (Some organizationId))
          (fun event => publish "organization.deleted" event)))).
Proof.
  intros w s. destruct w as [d fs t g k l ob].
  destruct correlationId as [c|]; [destruct (String.eqb c "") eqn:E|];
    destruct fs as [|[|] fs]; run; try rewrite E; run; cbn [outbox];
    try (intros H; left; exact H);
    rewrite in_app_iff; cbn [In];
    (intros [H|[H|[]]]; [left; exact H|right; subst s; split; reflexivity]).
Qed.

Lemma deleteOrganization_publishes (organizationId deletedBy : string)
    (correlationId : option string) (w : World Organization.Db) :
  only_OrganizationDeleted w
    (snd (Organization.deleteOrganization publish organizationId deletedBy
            correlationId w)).
Proof.
  revert w.
  change (keeps only_OrganizationDeleted
            (Organization.deleteOrganization publish organizationId deletedBy
               correlationId)).
  unfold Organization.deleteOrganization.
  apply keeps_bind; [exact only_OrganizationDeleted_trans| |intros _].
  { apply (keeps_weaken same_outbox); [exact same_outbox_only|].
    apply pool_query_same_outbox. }
  apply keeps_bind; [exact only_OrganizationDeleted_trans| |intros ms].
  { apply (keeps_weaken same_outbox); [exact same_outbox_only|].
    apply pool_query_same_outbox. }
  apply keeps_bind; [exact only_OrganizationDeleted_trans| |intros _].
  { apply (keeps_weaken same_outbox); [exact same_outbox_only|].
    apply keeps_for_of; [exact same_outbox_refl|exact same_outbox_trans|].
    intros m. apply pool_query_same_outbox. }
  apply publish_OrganizationDeleted.
Qed.

Lemma getMembership_quiet (o u : string) (w : W) :
  faults w = [] ->
  fst (getMembership o u w) =
    match pg_uuid o, pg_uuid u with
    | Some o', Some u' =>
        Return (List.find (membership_key o' u') (membership_cache (db w)))
    | _, _ => Throw StoreError
    end.
Proof.
  intros Hf. destruct w as [d fs t g k l ob]. cbn [faults db] in *. subst fs.
  unfold getMembership. run.
  destruct (pg_uuid o); [destruct (pg_uuid u)|]; reflexivity.
Qed.

(** Whatever the store does, handling [OrganizationDeleted] writes nothing
    to the membership cache. *)
Lemma membership_same_refl d : membership_same d d.
Proof. reflexivity. Qed.

Lemma membership_same_trans a b c :
  membership_same a b -> membership_same b c -> membership_same a c.
Proof. unfold membership_same. congruence. Qed.

Lemma handleOrganizationDeleted_membership (event : Json) (w : W) :
  membership_cache (db (snd (handleOrganizationDeleted event w)))
  = membership_cache (db w).
Proof.
  revert w. change (keeps (on_db membership_same) (handleOrganizationDeleted event)).
  unfold handleOrganizationDeleted, deleteEntitlements,
    ProjectRepository_findByOrganization, ProjectRepository_archive,
    logger_info, logger_error.
  frame_on membership_same_refl membership_same_trans; reflexivity.
Qed.

(** C10.  Handling [OrganizationDeleted] for tenant [T] deletes [T]'s row
    of the entitlements cache and leaves the membership cache as it was
    (the handler never writes it, whatever the store does), so for every
    user [getMembership(T, U)] returns after the deletion what it returned
    before; and [deleteOrganization], publishing through a Kafka
    publisher like [publish], hands the producer nothing but the
    [OrganizationDeleted] event: no [MemberRemoved] event is published for
    the memberships it soft-deletes. *)
Theorem OrganizationDeleted_keeps_membership_cache
    (event : Json) (v : Validated OrganizationDeleted) (w : W)
    (deletedBy : string) (correlationId : option string)
    (ow : World Organization.Db) :
  OrganizationDeletedEventSchema event = Some v ->
  faults w = [] ->
  stored_ids (db w) ->
  let T := od_organizationId (data v) in
  let after := snd (eachMessage (mkMessage "organization.deleted" (Text event)) w) in
  List.find (entitlements_key (toLowerCase T)) (entitlements_cache (db after)) = None
  /\ membership_cache (db after) = membership_cache (db w)
  /\ (forall w0 : W,
        membership_cache (db (snd (handleOrganizationDeleted event w0)))
        = membership_cache (db w0))
  /\ (forall U, fst (getMembership T U after) = fst (getMembership T U w))
  /\ (forall s,
        In s (outbox (snd (Organization.deleteOrganization publish T deletedBy
                             correlationId ow))) ->
        In s (outbox ow) \/
        (sent_topic s = "organization.deleted" /\
         ev_eventType (sent_event s) = "OrganizationDeleted")).
Proof.
  intros Hv Hf Hids T after.
  destruct (handleOrganizationDeleted_ok event v w Hv Hf Hids)
    as (w' & Hrun & Hf' & Hm & He).
  assert (Ha : after = w').
  { subst after. unfold eachMessage.
    cbn [topic value JSON_parse String.eqb Ascii.eqb Bool.eqb].
    unfold try_catch, bind at 1. cbn [ret]. rewrite Hrun. reflexivity. }
  rewrite Ha. repeat split.
  - exact He.
  - exact Hm.
  - intros w0. apply handleOrganizationDeleted_membership.
  - intros U. rewrite (getMembership_quiet T U w' Hf'), (getMembership_quiet T U w Hf).
    rewrite Hm. reflexivity.
  - apply deleteOrganization_publishes.
Qed.

End DeletionFacts.

(** ** Where the code departs from the repository's own documents *)

Module Divergence.

Import Workflow RouteFacts.

(** Without a row in the entitlements cache, neither limit applies. *)
Lemma cache_miss_means_no_limit (o : string) (d : Db) :
  List.find (entitlements_key o) (entitlements_cache d) = None ->
  project_limit_ok o d /\ task_limit_ok o d.
Proof.
  intros H. unfold project_limit_ok, task_limit_ok. rewrite H. split; exact I.
Qed.

(** Whatever the number of projects, [createProject] goes through for a
    tenant without a row in the entitlements cache, when PostgreSQL accepts
    the name and the description. *)
Lemma createProject_unlimited_on_cache_miss
    (input : CreateProjectInput) (c : option string) (w : W) :
  faults w = [] ->
  is_uuid (cpi_organizationId input) = true ->
  is_uuid (cpi_createdBy input) = true ->
  pg_varchar 255 (cpi_name input) <> None ->
  pg_text_param_opt (cpi_description input) <> None ->
  List.find (entitlements_key (toLowerCase (cpi_organizationId input)))
            (entitlements_cache (db w)) = None ->
  List.existsb (has_project_id (uuids w (next w))) (projects (db w)) = false ->
  exists p w',
    createProject input c w = (Return p, w') /\
    projects (db w') = (projects (db w) ++ [p])%list.
Proof.
  intros Hf Ho Hc Hn Hd Hmiss Hfresh.
  destruct (createProject_ok input c w Hf Ho Hc Hn Hd
              (proj1 (cache_miss_means_no_limit _ _ Hmiss)) Hfresh)
    as (p & w' & Hrun & _ & _ & _ & Hdb).
  exists p, w'. split; [exact Hrun|]. rewrite Hdb. reflexivity.
Qed.

(** C1 (the code at the failing input).  Tenant [T] has no row in the
    entitlements cache, ten active projects and a hundred open tasks: the
    default limits of docs/data-ownership-matrix.md ([maxProjects: 10],
    [maxTasks: 100]) are reached.  [createProject] and [createTask] do not
    apply them, or any limit: both succeed, and the tenant then has eleven
    active projects and a hundred and one open tasks. *)
Lemma cache_miss_skips_the_limit_check :
  let w := Sample.workflow_without_entitlements 10 100 in
  let project := mkCreateProjectInput Sample.T "eleventh" None Sample.U in
  let task := mkCreateTaskInput Sample.T (Sample.numbered 1) "one more" None Sample.U in
  fst (getEntitlements Sample.T w) = Return None /\
  fst (ProjectRepository_countByOrganization Sample.T w) = Return 10 /\
  fst (TaskRepository_countByOrganization Sample.T w) = Return 100 /\
  (exists p, fst (createProject project None w) = Return p) /\
  fst (ProjectRepository_countByOrganization Sample.T
         (snd (createProject project None w))) = Return 11 /\
  (exists t, fst (createTask task None w) = Return t) /\
  fst (TaskRepository_countByOrganization Sample.T
         (snd (createTask task None w))) = Return 101.
Proof.
  repeat split; try (vm_compute; reflexivity);
    eexists; vm_compute; reflexivity.
Qed.

(** C4 (the code at the failing input).  The same [TaskCreated] event
    delivered twice to analytics-service on one day is counted twice:
    [tasks_created] is 1 after the first delivery and 2 after the second. *)
Lemma duplicate_TaskCreated_is_counted_twice :
  let once :=
    snd (Analytics.processTaskCreated Sample.TaskCreated_P1 Sample.analytics_empty) in
  let twice := snd (Analytics.processTaskCreated Sample.TaskCreated_P1 once) in
  List.map Analytics.tm_tasksCreated (Analytics.task_metrics (db once)) = [1] /\
  List.map Analytics.tm_tasksCreated (Analytics.task_metrics (db twice)) = [2] /\
  logs twice = [mkLog LInfo "Processed TaskCreated event";
                mkLog LInfo "Processed TaskCreated event"].
Proof.
  vm_compute. repeat split.
Qed.

(** audit-service, by contrast, looks the event id up first: an event
    whose id is already in [audit_logs] changes nothing, whatever the
    store does. *)
Lemma audited_event_is_not_recorded_again
    (tp : string) (event : Audit.BaseEvent) (e : string) (w : World Audit.Db) :
  Audit.eventId event = Some e ->
  is_uuid e = true ->
  List.existsb (Audit.has_event_id (toLowerCase e)) (Audit.audit_logs (db w)) = true ->
  db (snd (Audit.eachMessage (Audit.mkAuditMessage tp (Audit.Parsed event)) w)) = db w.
Proof.
  intros He Hu Hex.
  assert (Hfind : exists row,
            List.find (Audit.has_event_id (toLowerCase e)) (Audit.audit_logs (db w))
            = Some row).
  { apply List.existsb_exists in Hex. destruct Hex as (x & Hin & Hx).
    destruct (List.find (Audit.has_event_id (toLowerCase e))
                        (Audit.audit_logs (db w))) as [row|] eqn:F; [eauto|].
    pose proof (List.find_none _ _ F x Hin) as N. congruence. }
  destruct Hfind as [row Hrow].
  destruct w as [d fs t g k l ob]. cbn [db] in *.
  unfold Audit.eachMessage, Audit.recordEvent, Audit.findByEventId,
    Audit.mapRowToAuditLog, Audit.JSON_parse_object, Audit.JSON_parse.
  cbn [Audit.value].
  destruct fs as [|[|] fs]; run; try rewrite He;
    try (rewrite (WorkflowFacts.pg_uuid_some _ Hu); run; rewrite Hrow; run;
         destruct (Audit.al_details row) as [o|];
         [destruct (field "toString" o)|]; run);
    reflexivity.
Qed.

End Divergence.

(** ** Store failures and messages whose handling throws *)

Module FailureFacts.

Import Workflow WorkflowFacts ConsumerFacts DeletionFacts Events.






(** [eachMessage] on a message of a topic with a handler: the handler's
    [try] block and its [catch]. *)
Lemma eachMessage_handler (m : Message) (event : Json)
    (block : Json -> M Db unit) (line : string) (w : W) :
  value m = Text event ->
  handler_of (topic m) = Some (block, line) ->
  eachMessage m w = caught_and_logged (block event) line w.
Proof.
  intros Hv H. destruct m as [tp val]. cbn [value topic] in *. subst val.
  rewrite <- try_catch_logged. unfold handler_of in H.
  change (eachMessage (mkMessage tp (Text event)) w) with
    (try_catch
       (if String.eqb tp "organization.member.added" then handleMemberAdded event
        else if String.eqb tp "organization.member.removed"
             then handleMemberRemoved event
        else if String.eqb tp "organization.role.changed"
             then handleRoleChanged event
        else if String.eqb tp "billing.entitlements.updated"
             then handleEntitlementsUpdated event
        else if String.eqb tp "organization.deleted"
             then handleOrganizationDeleted event
        else ret tt)
       (fun _ => logger_error "Failed to process event") w).
  destruct (String.eqb tp "organization.member.added");
    [|destruct (String.eqb tp "organization.member.removed");
      [|destruct (String.eqb tp "organization.role.changed");
        [|destruct (String.eqb tp "billing.entitlements.updated");
          [|destruct (String.eqb tp "organization.deleted"); [|discriminate]]]]];
    injection H as <- <-;
    match goal with
    | |- try_catch ?h _ w = try_catch ?b ?c w =>
        change h with (try_catch b c);
        unfold try_catch; destruct (b w) as [[[]|e] w1]; reflexivity
    end.
Qed.


(** A message that cannot be parsed leaves one line in the log. *)
Lemma unparsable_message (m : Message) (w : W) :
  (forall event, value m <> Text event) ->
  eachMessage m w = logger_error "Failed to process event" w.
Proof.
  intros H. unfold eachMessage. destruct m as [tp [| |event]]; cbn [value topic] in *.
  - reflexivity.
  - reflexivity.
  - exfalso. exact (H event eq_refl).
Qed.

(** audit-service: [eachMessage] is its [try] block and its [catch]. *)
Lemma audit_eachMessage_block (m : Audit.AuditMessage) (w : World Audit.Db) :
  Audit.eachMessage m w =
    caught_and_logged (tryRecordEvent m) "Failed to process event" w.
Proof. apply try_catch_logged. Qed.



(** C8 (as amended).  A message whose handling throws does not stop the
    dispatch loop of workflow-service or audit-service.  Whatever the
    message, the loop returns; the message is handled once, by the one call
    of [eachMessage] in the world that the messages before it left, and the
    loop goes on with the messages that follow; nothing is handed to the
    producer, so the message reaches no dead-letter topic.  When the value
    is not JSON, [eachMessage] adds one error line to the log and changes
    nothing else.  When a handler's [try] block throws (the event is not of
    the handler's schema, a statement is refused or finds the store
    unavailable, an update finds no row), [eachMessage] returns in the
    world the block left, with the handler's error line added to the log.
    In audit-service the same holds of the [try] block of [eachMessage],
    which parses the value and records the event. *)
Theorem poison_message_is_logged_and_skipped
    (before after : list Message) (poison : Message) (w : W)
    (abefore aafter : list Audit.AuditMessage) (apoison : Audit.AuditMessage)
    (aw : World Audit.Db) :
  let w0 := snd (consume eachMessage before w) in
  let aw0 := snd (consume Audit.eachMessage abefore aw) in
  (fst (consume eachMessage (before ++ poison :: after) w) = Return tt /\
   consume eachMessage (before ++ poison :: after) w =
     consume eachMessage after (snd (eachMessage poison w0)) /\
   outbox (snd (consume eachMessage (before ++ poison :: after) w)) = outbox w /\
   ((forall event, value poison <> Text event) ->
    eachMessage poison w0 =
      (Return tt, snd (logger_error "Failed to process event" w0))) /\
   (forall event block line e w1,
      value poison = Text event ->
      handler_of (topic poison) = Some (block, line) ->
      block event w0 = (Throw e, w1) ->
      eachMessage poison w0 = (Return tt, snd (logger_error line w1))))
  /\
  (fst (consume Audit.eachMessage (abefore ++ apoison :: aafter) aw) = Return tt /\
   consume Audit.eachMessage (abefore ++ apoison :: aafter) aw =
     consume Audit.eachMessage aafter (snd (Audit.eachMessage apoison aw0)) /\
   outbox (snd (consume Audit.eachMessage (abefore ++ apoison :: aafter) aw))
     = outbox aw /\
   (forall e w1,
      tryRecordEvent apoison aw0 = (Throw e, w1) ->
      Audit.eachMessage apoison aw0 =
        (Return tt, snd (logger_error "Failed to process event" w1)))).
Proof.
  intros w0 aw0. split; repeat split.
  - apply consume_returns. exact eachMessage_returns.
  - rewrite (consume_app eachMessage eachMessage_returns).
    rewrite (consume_cons eachMessage) by apply eachMessage_returns.
    reflexivity.
  - apply consume_sends_nothing. exact eachMessage_sends_nothing.
  - intros Hp. rewrite (unparsable_message poison _ Hp). reflexivity.
  - intros event block line e w1 Hv Hh Hb.
    rewrite (eachMessage_handler poison event block line w0 Hv Hh).
    unfold caught_and_logged. rewrite Hb. reflexivity.
  - apply consume_returns. exact audit_eachMessage_returns.
  - rewrite (consume_app Audit.eachMessage audit_eachMessage_returns).
    rewrite (consume_cons Audit.eachMessage) by apply audit_eachMessage_returns.
    reflexivity.
  - apply consume_sends_nothing. exact audit_eachMessage_sends_nothing.
  - intros e w1 Hb. rewrite audit_eachMessage_block.
    unfold caught_and_logged. rewrite Hb. reflexivity.
Qed.

End FailureFacts.

(* ===================================================================== *)
(** * The theorems at concrete inputs                                     *)
(* ===================================================================== *)

Module Witness.

Import Workflow WorkflowFacts RouteFacts ConsumerFacts DeletionFacts FailureFacts.

Lemma generated_fresh : fresh_ids Sample.workflow_no_members.
Proof.
  intros n. do 7 (destruct n as [|n]; [split; reflexivity|]). split; reflexivity.
Defined.

Lemma membership_cache_miss_is_denied_witness :
  (forall a, fst (createAuthMiddleware Sample.post_with_header Sample.workflow_empty)
             <> Return (Next a)) /\
  fst (verifyMembership Sample.T Sample.U Sample.workflow_empty) = Return false /\
  fst (createAuthMiddleware Sample.post_with_header Sample.workflow_empty) =
    Return (Responded (Status 403 (Msg "User is not a member of this organization"))).
Proof.
  destruct (membership_cache_miss_is_denied Sample.workflow_empty
              Sample.post_with_header Sample.T Sample.U) as [Hnever Hfalse].
  - intros r [].
  - reflexivity.
  - reflexivity.
  - reflexivity.
  - split; [exact Hnever|].
    apply Hfalse; [discriminate|discriminate|reflexivity].
Defined.

Lemma organization_in_body_is_not_verified_witness :
  no_membership Sample.T Sample.U (db Sample.workflow_no_members) /\
  createAuthMiddleware Sample.post_with_body Sample.workflow_no_members =
    (Return (Next (mkAuthenticated Sample.post_with_body Sample.U None)),
     Sample.workflow_no_members) /\
  (exists p w',
     route post_projects Sample.post_with_body Sample.workflow_no_members =
       (Return (CreatedProject p), w') /\
     p_organizationId p = Sample.T /\ p_createdBy p = Sample.U) /\
  (exists t w',
     route post_tasks Sample.post_with_body Sample.workflow_no_members =
       (Return (CreatedTask t), w') /\
     t_organizationId t = Sample.T /\ t_createdBy t = Sample.U).
Proof.
  destruct (organization_in_body_is_not_verified Sample.workflow_no_members
              Sample.post_with_body Sample.U) as (Hmw & Hproject & Htask);
    try reflexivity.
  split; [intros r []|]. split; [exact Hmw|]. split.
  - destruct (Hproject Sample.T (mkProjectBody "roadmap" None)
                eq_refl eq_refl ltac:(vm_compute; discriminate)
                ltac:(vm_compute; discriminate)
                eq_refl eq_refl eq_refl generated_fresh I)
      as (p & w' & Hrun & Ho & Hu & _).
    exists p, w'. repeat split; assumption.
  - destruct (Htask Sample.T Sample.P1 (mkTaskBody "write the report" None)
                (Sample.project Sample.P1 10)
                eq_refl eq_refl eq_refl ltac:(vm_compute; discriminate)
                ltac:(vm_compute; discriminate)
                eq_refl eq_refl eq_refl eq_refl
                generated_fresh eq_refl eq_refl I)
      as (t & w' & Hrun & Ho & Hu & _).
    exists t, w'. repeat split; assumption.
Defined.

Lemma duplicate_MemberAdded_leaves_one_entry_witness :
  let first := snd (eachMessage Sample.member_added Sample.workflow_empty) in
  let second := snd (eachMessage Sample.member_added (Sample.later 2000 first)) in
  List.filter (membership_key Sample.T Sample.U) (membership_cache (db second))
    = [mkMembership Sample.T Sample.U "admin" 2000]
  /\ membership_pk (membership_cache (db second))
  /\ (forall (m : Message) (w' : W),
        membership_pk (membership_cache (db w')) ->
        membership_pk (membership_cache (db (snd (eachMessage m w'))))).
Proof.
  exact (duplicate_MemberAdded_leaves_one_entry Sample.MemberAdded_admin _ "admin"
           Sample.workflow_empty
           (Sample.later 2000
              (snd (eachMessage Sample.member_added Sample.workflow_empty)))
           eq_refl eq_refl (List.NoDup_nil _) eq_refl eq_refl eq_refl).
Defined.

Lemma MemberRemoved_without_entry_changes_nothing_witness :
  let after := eachMessage Sample.member_removed Sample.workflow_empty in
  fst after = Return tt /\
  db (snd after) = db Sample.workflow_empty /\
  (hd false (faults Sample.workflow_empty) = false ->
   logs (snd after) =
     (logs Sample.workflow_empty ++ [mkLog LInfo "Membership removed from cache"])%list).
Proof.
  refine (MemberRemoved_without_entry_changes_nothing Sample.MemberRemoved_U _
            Sample.workflow_empty eq_refl _).
  intros r [].
Defined.


Lemma poison_message_is_logged_and_skipped_witness :
  let mismatched :=
    mkMessage "organization.member.added" (Text Sample.MemberRemoved_U) in
  let w0 := snd (consume eachMessage [Sample.member_removed] Sample.workflow_empty) in
  (fst (consume eachMessage [Sample.member_removed; mismatched; Sample.member_added]
          Sample.workflow_empty) = Return tt /\
   consume eachMessage [Sample.member_removed; mismatched; Sample.member_added]
     Sample.workflow_empty =
     consume eachMessage [Sample.member_added] (snd (eachMessage mismatched w0)) /\
   eachMessage mismatched w0 =
     (Return tt, snd (logger_error "Failed to handle MemberAdded event" w0)) /\
   eachMessage Sample.poison w0 =
     (Return tt, snd (logger_error "Failed to process event" w0)))
  /\
  (fst (consume Audit.eachMessage [Sample.audit_member_added; Sample.audit_poison]
          Sample.audit_empty) = Return tt /\
   Audit.eachMessage Sample.audit_member_added Sample.audit_empty =
     (Return tt,
      snd (logger_error "Failed to process event"
             (snd (tryRecordEvent Sample.audit_member_added Sample.audit_empty))))).
Proof.
  intros mismatched w0.
  destruct (poison_message_is_logged_and_skipped
              [Sample.member_removed] [Sample.member_added]
              (mkMessage "organization.member.added" (Text Sample.MemberRemoved_U))
              Sample.workflow_empty
              [] [Sample.audit_poison] Sample.audit_member_added Sample.audit_empty)
    as ((Hret & Hgo & _ & _ & Hthrows) & (Haret & _ & _ & Hathrows)).
  destruct (poison_message_is_logged_and_skipped
              [Sample.member_removed] [Sample.member_added] Sample.poison
              Sample.workflow_empty
              [] [Sample.audit_poison] Sample.audit_member_added Sample.audit_empty)
    as ((_ & _ & _ & Hgarbled & _) & _).
  split; [split; [exact Hret|split; [exact Hgo|split]]|split; [exact Haret|]].
  - exact (Hthrows Sample.MemberRemoved_U tryMemberAdded
             "Failed to handle MemberAdded event" ZodError w0
             eq_refl eq_refl eq_refl).
  - apply Hgarbled. intros event H. discriminate H.
  - exact (Hathrows SyntaxError
             (snd (tryRecordEvent Sample.audit_member_added Sample.audit_empty))
             eq_refl).
Defined.

Lemma workflow_T_stored_ids : stored_ids (db Sample.workflow_T).
Proof. repeat constructor. Defined.

Lemma OrganizationDeleted_keeps_membership_cache_witness :
  let after := snd (eachMessage Sample.organization_deleted Sample.workflow_T) in
  List.find (entitlements_key Sample.T) (entitlements_cache (db after)) = None
  /\ membership_cache (db after) = [mkMembership Sample.T Sample.U "member" 30]
  /\ (forall w0 : W,
        membership_cache
          (db (snd (handleOrganizationDeleted Sample.OrganizationDeleted_T w0)))
        = membership_cache (db w0))
  /\ (forall U, fst (getMembership Sample.T U after)
                = fst (getMembership Sample.T U Sample.workflow_T))
  /\ (forall s,
        In s (outbox (snd (Organization.deleteOrganization publish Sample.T
                             Sample.V None Sample.organization_T))) ->
        In s (outbox Sample.organization_T) \/
        (sent_topic s = "organization.deleted" /\
         ev_eventType (sent_event s) = "OrganizationDeleted")).
Proof.
  exact (OrganizationDeleted_keeps_membership_cache Sample.OrganizationDeleted_T _
           Sample.workflow_T Sample.V None Sample.organization_T
           eq_refl eq_refl workflow_T_stored_ids).
Defined.

End Witness.

(* ===================================================================== *)
(** * Where the code does otherwise                                       *)
(* ===================================================================== *)

Module Counterexample.

Import Workflow.



(** C8.  A message that is not JSON is handled once and dropped: one
    error line in the log, no second attempt, nothing handed to the
    producer or written to a table; the next message is then handled. *)
Lemma poison_message_is_neither_retried_nor_dead_lettered :
  let after :=
    snd (consume eachMessage [Sample.poison; Sample.member_added]
           Sample.workflow_empty) in
  logs after = [mkLog LError "Failed to process event";
                mkLog LInfo "Membership cached"] /\
  outbox after = [] /\
  db (snd (eachMessage Sample.poison Sample.workflow_empty))
    = db Sample.workflow_empty.
Proof.
  vm_compute. repeat split.
Qed.

(** C9.  The store is the same before and after a [MemberRemoved] event:
    no reading of its tables can tell that the event was processed. *)
Lemma no_ledger_records_MemberRemoved :
  ~ exists hasProcessed : Db -> string -> bool,
      hasProcessed (db Sample.workflow_empty) Sample.E1 = false /\
      hasProcessed
        (db (snd (eachMessage Sample.member_removed Sample.workflow_empty)))
        Sample.E1 = true.
Proof.
  intros (hasProcessed & Hbefore & Hafter).
  change (db (snd (eachMessage Sample.member_removed Sample.workflow_empty)))
    with (db Sample.workflow_empty) in Hafter.
  rewrite Hbefore in Hafter. discriminate.
Qed.

End Counterexample.

(* ===================================================================== *)
(** * Further properties of the code                                      *)
(* ===================================================================== *)

(** ** PostgreSQL reads back what it stored *)

Module StoredForm.

Import WorkflowFacts.

Lemma low_hex_lower c : is_hex c = true -> low_hex (lower_ascii c) = true.
Proof. destruct c as [[] [] [] [] [] [] [] []]; vm_compute; congruence. Qed.

Lemma low_hex_is_hex c : low_hex c = true -> is_hex c = true.
Proof. unfold low_hex. intros H. apply andb_true_iff in H. tauto. Qed.

Lemma low_hex_fixed c : low_hex c = true -> lower_ascii c = c.
Proof.
  unfold low_hex. intros H. apply andb_true_iff in H. destruct H as [_ H].
  apply Ascii.eqb_eq. exact H.
Qed.

Lemma uuid_digits_low bytes : forall i src ds rest,
  uuid_digits bytes i src = Some (ds, rest) ->
  String.length ds = (2 * bytes)%nat /\ all_chars low_hex ds = true.
Proof.
  induction bytes as [|bytes IH]; intros i src ds rest H; cbn [uuid_digits] in H.
  - inversion H; subst. split; reflexivity.
  - destruct src as [|a [|b tail]]; try discriminate.
    destruct (is_hex a) eqn:Ha; [|discriminate].
    destruct (is_hex b) eqn:Hb; [|discriminate]. cbn [andb] in H.
    match type of H with
    | match uuid_digits bytes (S i) ?r with _ => _ end = _ =>
        destruct (uuid_digits bytes (S i) r) as [[ds' r']|] eqn:E; [|discriminate]
    end.
    inversion H; subst. destruct (IH _ _ _ _ E) as [Hl Hall].
    split.
    + cbn [String.length]. rewrite Hl. rewrite Nat.mul_succ_r, Nat.add_comm. reflexivity.
    + cbn [all_chars]. rewrite (low_hex_lower _ Ha), (low_hex_lower _ Hb), Hall.
      reflexivity.
Qed.

(** The printed form of thirty-two digits is a UUID that zod accepts, and
    it is in lower case already. *)
Lemma printed_uuid ds :
  String.length ds = 32%nat -> all_chars low_hex ds = true ->
  let o := (substring 0 8 ds ++ "-" ++ substring 8 4 ds ++ "-"
            ++ substring 12 4 ds ++ "-" ++ substring 16 4 ds ++ "-"
            ++ substring 20 12 ds)%string in
  is_uuid o = true /\ toLowerCase o = o.
Proof.
  intros Hl Hall. cbv zeta.
  do 32 (destruct ds as [|? ds]; [discriminate|]).
  destruct ds; [|discriminate]. clear Hl.
  cbn [all_chars] in Hall.
  repeat match goal with
         | H : _ && _ = true |- _ =>
             apply andb_true_iff in H; let H' := fresh "H" in destruct H as [H H']
         | H : true = true |- _ => clear H
         end.
  cbn [substring String.append]. split.
  - cbv [is_uuid hex_group substring String.length Nat.eqb all_chars String.eqb
         Ascii.eqb Bool.eqb].
    repeat match goal with
           | H : low_hex ?c = true |- _ =>
               rewrite (low_hex_is_hex c H); clear H
           end.
    reflexivity.
  - cbn [toLowerCase].
    repeat match goal with
           | H : low_hex ?c = true |- _ =>
               rewrite (low_hex_fixed c H); clear H
           end.
    reflexivity.
Qed.

(** A stored UUID is read back as itself. *)
Lemma pg_uuid_stored s o : pg_uuid s = Some o -> pg_uuid o = Some o.
Proof.
  unfold pg_uuid at 1.
  match goal with
  | |- match uuid_digits 16 0 ?src with _ => _ end = _ -> _ =>
      destruct (uuid_digits 16 0 src) as [[ds rest]|] eqn:E; [|discriminate]
  end.
  destruct (String.eqb rest _); [|discriminate].
  intros H. inversion H; subst o. clear H.
  destruct (uuid_digits_low _ _ _ _ _ E) as [Hl Hall].
  destruct (printed_uuid ds Hl Hall) as [Hu Hlow]. cbv zeta in Hu, Hlow.
  etransitivity; [exact (pg_uuid_some _ Hu)|]. f_equal. exact Hlow.
Qed.

End StoredForm.

(** ** Statements, whatever the store does *)

(** A statement either fails, leaving everything but the schedule of
    faults, or it is answered by its meaning on the tables. *)
Lemma pool_query_cases {D A} (stmt : D -> Z -> option (A * D)) (w : World D) :
  (exists w1, pool_query stmt w = (Throw StoreError, w1) /\ untouched w w1) \/
  (exists a d', stmt (db w) (now w) = Some (a, d') /\
                hd false (faults w) = false /\
                pool_query stmt w =
                  (Return a, set_db d' (set_faults (tl (faults w)) w))).
Proof.
  unfold pool_query, untouched.
  destruct (faults w) as [|[|] fs] eqn:F; cbn [tl hd].
  - destruct (stmt (db w) (now w)) as [[a d']|].
    + right. exists a, d'. repeat split.
    + left. eexists. split; [reflexivity|]. cbn. repeat split.
  - left. eexists. split; [reflexivity|]. cbn. repeat split.
  - destruct (stmt (db w) (now w)) as [[a d']|].
    + right. exists a, d'. repeat split.
    + left. eexists. split; [reflexivity|]. cbn. repeat split.
Qed.

Lemma pool_query_returns {D A} (stmt : D -> Z -> option (A * D)) (w w1 : World D)
    (a : A) :
  pool_query stmt w = (Return a, w1) ->
  exists d', stmt (db w) (now w) = Some (a, d') /\
             hd false (faults w) = false /\
             w1 = set_db d' (set_faults (tl (faults w)) w).
Proof.
  intros H. destruct (pool_query_cases stmt w) as [(w2 & E & _)|(b & d' & Hs & Hf & E)];
    rewrite E in H; inversion H; subst.
  exists d'. auto.
Qed.

Lemma obind_some {A B} (o : option A) (k : A -> option B) (b : B) :
  obind o k = Some b -> exists a, o = Some a /\ k a = Some b.
Proof. destruct o as [a|]; cbn; [eauto|discriminate]. Qed.

(** ** workflow-service: the two caches as key-value stores *)

Module CacheFacts.

Import Workflow WorkflowFacts.

Lemma find_upsert_membership_row o u role t rows :
  List.find (membership_key o u) (upsert_membership_row o u role t rows)
  = Some (mkMembership o u role t).
Proof.
  induction rows as [|r rest IH]; cbn [upsert_membership_row].
  - cbn [List.find]. unfold membership_key. cbn [mc_organizationId mc_userId].
    rewrite !String.eqb_refl. reflexivity.
  - destruct (membership_key o u r) eqn:K.
    + pose proof K as K'. apply membership_key_true in K'. destruct K' as [Eo Eu].
      rewrite Eo, Eu. cbn [List.find]. unfold membership_key.
      cbn [mc_organizationId mc_userId]. rewrite !String.eqb_refl. reflexivity.
    + cbn [List.find]. rewrite K. exact IH.
Qed.

Lemma membership_key_other o u o2 u2 r :
  (o2, u2) <> (o, u) -> membership_key o u r = true -> membership_key o2 u2 r = false.
Proof.
  intros N K. apply membership_key_true in K. destruct K as [<- <-].
  destruct (membership_key o2 u2 r) eqn:K2; [|reflexivity].
  apply membership_key_true in K2. destruct K2 as [E1 E2]. congruence.
Qed.

Lemma find_upsert_membership_row_other o u o2 u2 role t rows :
  (o2, u2) <> (o, u) ->
  List.find (membership_key o2 u2) (upsert_membership_row o u role t rows)
  = List.find (membership_key o2 u2) rows.
Proof.
  intros N. induction rows as [|r rest IH]; cbn [upsert_membership_row].
  - cbn [List.find].
    rewrite (membership_key_other o u o2 u2 (mkMembership o u role t) N);
      [reflexivity|].
    unfold membership_key. cbn. rewrite !String.eqb_refl. reflexivity.
  - destruct (membership_key o u r) eqn:K.
    + cbn [List.find]. rewrite (membership_key_other _ _ _ _ _ N K).
      rewrite (membership_key_other o u o2 u2
                 (mkMembership (mc_organizationId r) (mc_userId r) role t) N);
        [reflexivity|].
      apply membership_key_true in K. apply membership_key_true. exact K.
    + cbn [List.find]. destruct (membership_key o2 u2 r); [reflexivity|exact IH].
Qed.

Lemma find_filter_membership o u rows :
  List.find (membership_key o u)
            (List.filter (fun r => negb (membership_key o u r)) rows) = None.
Proof.
  induction rows as [|r rest IH]; cbn [List.filter List.find]; [reflexivity|].
  destruct (membership_key o u r) eqn:K; cbn [negb]; [exact IH|].
  cbn [List.find]. rewrite K. exact IH.
Qed.

Lemma find_filter_membership_other o u o2 u2 rows :
  (o2, u2) <> (o, u) ->
  List.find (membership_key o2 u2)
            (List.filter (fun r => negb (membership_key o u r)) rows)
  = List.find (membership_key o2 u2) rows.
Proof.
  intros N. induction rows as [|r rest IH]; cbn [List.filter List.find]; [reflexivity|].
  destruct (membership_key o u r) eqn:K; cbn [negb].
  - rewrite (membership_key_other _ _ _ _ _ N K). exact IH.
  - cbn [List.find]. destruct (membership_key o2 u2 r); [reflexivity|exact IH].
Qed.

(** What a successful [upsertMembership] has done. *)
Lemma upsertMembership_returns (m : MembershipCache) (w w1 : W) :
  upsertMembership m w = (Return tt, w1) ->
  exists o u role,
    pg_uuid (mc_organizationId m) = Some o /\
    pg_uuid (mc_userId m) = Some u /\
    pg_varchar 50 (mc_role m) = Some role /\
    db w1 = set_membership_cache
              (upsert_membership_row o u role (now w) (membership_cache (db w)))
              (db w).
Proof.
  intros H. unfold upsertMembership in H.
  apply pool_query_returns in H. destruct H as (d' & Hs & _ & ->).
  apply obind_some in Hs. destruct Hs as (o & Ho & Hs).
  apply obind_some in Hs. destruct Hs as (u & Hu & Hs).
  apply obind_some in Hs. destruct Hs as (role & Hr & Hs).
  inversion Hs; subst. exists o, u, role. repeat split; assumption.
Qed.

Lemma deleteMembership_returns (o u : string) (w w1 : W) :
  deleteMembership o u w = (Return tt, w1) ->
  exists o' u',
    pg_uuid o = Some o' /\ pg_uuid u = Some u' /\
    db w1 = set_membership_cache
              (List.filter (fun r => negb (membership_key o' u' r))
                           (membership_cache (db w))) (db w).
Proof.
  intros H. unfold deleteMembership in H.
  apply pool_query_returns in H. destruct H as (d' & Hs & _ & ->).
  apply obind_some in Hs. destruct Hs as (o' & Ho & Hs).
  apply obind_some in Hs. destruct Hs as (u' & Hu & Hs).
  inversion Hs; subst. exists o', u'. repeat split; assumption.
Qed.

(** The lookup, when the store answers. *)
Lemma getMembership_available (o u o' u' : string) (w : W) :
  pg_uuid o = Some o' -> pg_uuid u = Some u' -> hd false (faults w) = false ->
  getMembership o u w =
    (Return (List.find (membership_key o' u') (membership_cache (db w))),
     set_faults (tl (faults w)) w).
Proof.
  intros Ho Hu Hf. unfold getMembership.
  rewrite pool_query_available by exact Hf.
  unfold obind. rewrite Ho, Hu. destruct w; reflexivity.
Qed.

(** X1.  Insert and lookup on the membership cache: once
    [upsertMembership] has returned, [getMembership] for the same
    organization and user, the store answering, finds a row; the row holds
    the two identifiers as PostgreSQL stores them, the role that was sent (as
    VARCHAR(50) keeps it) and, as [cachedAt], the time of the statement, not
    the [cachedAt] of the argument.  This holds whether or not the pair was
    cached before. *)
Theorem cached_membership_is_found (m : MembershipCache) (w w1 w2 : W) :
  upsertMembership m w = (Return tt, w1) ->
  db w2 = db w1 ->
  hd false (faults w2) = false ->
  exists row,
    fst (getMembership (mc_organizationId m) (mc_userId m) w2) = Return (Some row) /\
    pg_uuid (mc_organizationId m) = Some (mc_organizationId row) /\
    pg_uuid (mc_userId m) = Some (mc_userId row) /\
    pg_varchar 50 (mc_role m) = Some (mc_role row) /\
    mc_cachedAt row = now w.
Proof.
  intros Hup Hdb Hf.
  destruct (upsertMembership_returns m w w1 Hup) as (o & u & role & Ho & Hu & Hr & Hd).
  exists (mkMembership o u role (now w)).
  rewrite (getMembership_available _ _ o u w2 Ho Hu Hf).
  rewrite Hdb, Hd. cbn [membership_cache set_membership_cache fst].
  rewrite find_upsert_membership_row. repeat split; assumption.
Qed.

Lemma cached_membership_is_found_witness :
  exists row,
    fst (getMembership Sample.T Sample.V
           (snd (upsertMembership (mkMembership Sample.T Sample.V "viewer" 0)
                   Sample.workflow_T))) = Return (Some row) /\
    mc_role row = "viewer" /\ mc_cachedAt row = 1000.
Proof.
  destruct (cached_membership_is_found (mkMembership Sample.T Sample.V "viewer" 0)
              Sample.workflow_T
              (snd (upsertMembership (mkMembership Sample.T Sample.V "viewer" 0)
                      Sample.workflow_T))
              (snd (upsertMembership (mkMembership Sample.T Sample.V "viewer" 0)
                      Sample.workflow_T))
              eq_refl eq_refl eq_refl)
    as (row & Hget & _ & _ & Hrole & Hat).
  exists row. split; [exact Hget|]. split; [|exact Hat].
  change (Some "viewer" = Some (mc_role row)) in Hrole. congruence.
Defined.

(** X2.  Delete and lookup on the membership cache: once
    [deleteMembership] has returned, no later [getMembership] for the same
    organization and user finds a row, whatever the store does, and
    [verifyMembership] answers [false] when the store answers. *)
Theorem deleted_membership_is_not_found (o u : string) (w w1 w2 : W) :
  deleteMembership o u w = (Return tt, w1) ->
  db w2 = db w1 ->
  (forall row, fst (getMembership o u w2) <> Return (Some row)) /\
  (hd false (faults w2) = false -> fst (verifyMembership o u w2) = Return false).
Proof.
  intros Hdel Hdb.
  destruct (deleteMembership_returns o u w w1 Hdel) as (o' & u' & Ho & Hu & Hd).
  assert (Hnone : List.find (membership_key o' u') (membership_cache (db w2)) = None).
  { rewrite Hdb, Hd. cbn [membership_cache set_membership_cache].
    apply find_filter_membership. }
  split.
  - intros row. unfold getMembership.
    destruct (pool_query_cases
                (fun (d : Db) (_ : Z) =>
                   obind (pg_uuid o) (fun o0 =>
                   obind (pg_uuid u) (fun u0 =>
                   Some (List.find (membership_key o0 u0) (membership_cache d), d))))
                w2) as [(w3 & E & _)|(a & d' & Hs & _ & E)];
      rewrite E; cbn [fst]; [discriminate|].
    unfold obind in Hs. rewrite Ho, Hu, Hnone in Hs. inversion Hs. discriminate.
  - intros Hf. unfold verifyMembership.
    rewrite (bind_run _ _ _ _ _ (getMembership_available _ _ o' u' w2 Ho Hu Hf)).
    rewrite Hnone. reflexivity.
Qed.

Lemma deleted_membership_is_not_found_witness :
  fst (verifyMembership Sample.T Sample.U Sample.workflow_T) = Return true /\
  fst (verifyMembership Sample.T Sample.U
         (snd (deleteMembership Sample.T Sample.U Sample.workflow_T))) = Return false.
Proof.
  split; [reflexivity|].
  apply (deleted_membership_is_not_found Sample.T Sample.U Sample.workflow_T
           (snd (deleteMembership Sample.T Sample.U Sample.workflow_T))
           (snd (deleteMembership Sample.T Sample.U Sample.workflow_T))
           eq_refl eq_refl).
  reflexivity.
Defined.

(** The lookup of one pair after a write for another pair. *)
Lemma getMembership_same_find (o2 u2 : string) (a b : W) :
  faults a = faults b ->
  (forall o' u', pg_uuid o2 = Some o' -> pg_uuid u2 = Some u' ->
     List.find (membership_key o' u') (membership_cache (db b))
     = List.find (membership_key o' u') (membership_cache (db a))) ->
  fst (getMembership o2 u2 b) = fst (getMembership o2 u2 a).
Proof.
  intros Hf Hfind. unfold getMembership, pool_query. rewrite Hf.
  destruct (faults b) as [|[|] fs]; cbn [fst]; try reflexivity;
    unfold obind;
    destruct (pg_uuid o2) as [o'|]; try reflexivity;
    destruct (pg_uuid u2) as [u'|]; try reflexivity;
    rewrite (Hfind o' u' eq_refl eq_refl); reflexivity.
Qed.

(** X3.  A write to the membership cache for one organization and user,
    by [upsertMembership] or by [deleteMembership], changes the lookup of no
    other pair: [getMembership] for identifiers that PostgreSQL does not read
    as the same two UUIDs answers after the write what it answered before.
    The other three tables are left as they were. *)
Theorem other_memberships_are_untouched (o u : string) (w w1 : W) :
  ((exists role t,
      upsertMembership (mkMembership o u role t) w = (Return tt, w1))
   \/ deleteMembership o u w = (Return tt, w1)) ->
  (forall (o2 u2 : string) (a b : W),
     (pg_uuid o2, pg_uuid u2) <> (pg_uuid o, pg_uuid u) ->
     db a = db w -> db b = db w1 -> faults a = faults b ->
     fst (getMembership o2 u2 b) = fst (getMembership o2 u2 a)) /\
  projects (db w1) = projects (db w) /\
  tasks (db w1) = tasks (db w) /\
  entitlements_cache (db w1) = entitlements_cache (db w).
Proof.
  intros [(role & t & Hup)|Hdel].
  - destruct (upsertMembership_returns _ w w1 Hup)
      as (o' & u' & role' & Ho & Hu & Hr & Hd).
    cbn [mc_organizationId mc_userId mc_role] in *.
    split; [|rewrite Hd; auto].
    intros o2 u2 a b N Ha Hb Hf. apply getMembership_same_find; [exact Hf|].
    intros o2' u2' Ho2 Hu2. rewrite Ha, Hb, Hd.
    cbn [membership_cache set_membership_cache].
    apply find_upsert_membership_row_other.
    intros E. apply N. inversion E; subst. rewrite Ho, Hu, Ho2, Hu2. reflexivity.
  - destruct (deleteMembership_returns o u w w1 Hdel) as (o' & u' & Ho & Hu & Hd).
    split; [|rewrite Hd; auto].
    intros o2 u2 a b N Ha Hb Hf. apply getMembership_same_find; [exact Hf|].
    intros o2' u2' Ho2 Hu2. rewrite Ha, Hb, Hd.
    cbn [membership_cache set_membership_cache].
    apply find_filter_membership_other.
    intros E. apply N. inversion E; subst. rewrite Ho, Hu, Ho2, Hu2. reflexivity.
Qed.

Lemma other_memberships_are_untouched_witness :
  fst (getMembership Sample.T Sample.U
         (snd (deleteMembership Sample.T Sample.V Sample.workflow_T)))
  = fst (getMembership Sample.T Sample.U Sample.workflow_T).
Proof.
  apply (other_memberships_are_untouched Sample.T Sample.V Sample.workflow_T
           (snd (deleteMembership Sample.T Sample.V Sample.workflow_T))
           (or_intror eq_refl)).
  - vm_compute. discriminate.
  - reflexivity.
  - reflexivity.
  - reflexivity.
Defined.

Lemma find_upsert_entitlements_row new rows :
  exists row,
    List.find (entitlements_key (ec_organizationId new))
              (upsert_entitlements_row new rows) = Some row /\
    ec_organizationId row = ec_organizationId new /\
    ec_maxProjects row = ec_maxProjects new /\
    ec_maxTasks row = ec_maxTasks new /\
    ec_maxMembers row = ec_maxMembers new /\
    ec_features row = ec_features new /\
    ec_cachedAt row = ec_cachedAt new.
Proof.
  induction rows as [|r rest IH]; cbn [upsert_entitlements_row].
  - exists new. cbn [List.find]. unfold entitlements_key.
    rewrite String.eqb_refl. repeat split.
  - destruct (entitlements_key (ec_organizationId new) r) eqn:K.
    + eexists. cbn [List.find]. unfold entitlements_key in *.
      cbn [ec_organizationId]. rewrite K. split; [reflexivity|].
      cbn. apply String.eqb_eq in K. repeat split. exact K.
    + cbn [List.find]. rewrite K. exact IH.
Qed.

Lemma pg_integer_opt_some n i : pg_integer_opt n = Some i -> i = n.
Proof.
  destruct n as [v|]; cbn; [|congruence].
  unfold pg_integer. destruct ((-2147483648 <=? v) && (v <=? 2147483647)); cbn;
    congruence.
Qed.

Lemma getEntitlements_available (o o' : string) (w : W) :
  pg_uuid o = Some o' -> hd false (faults w) = false ->
  getEntitlements o w =
    (Return (List.find (entitlements_key o') (entitlements_cache (db w))),
     set_faults (tl (faults w)) w).
Proof.
  intros Ho Hf. unfold getEntitlements.
  rewrite pool_query_available by exact Hf.
  unfold obind. rewrite Ho. destruct w; reflexivity.
Qed.

(** X4.  Insert, delete and lookup on the entitlements cache.  Once
    [upsertEntitlements] has returned, [getEntitlements] for the same
    organization, the store answering, finds a row with the three limits and
    the features that were sent, cached at the time of the statement.  Once
    [deleteEntitlements] has returned, [getEntitlements] answers [null]. *)
Theorem cached_entitlements_are_found (w w1 w2 : W) :
  db w2 = db w1 ->
  hd false (faults w2) = false ->
  (forall e : EntitlementsCache,
     upsertEntitlements e w = (Return tt, w1) ->
     exists row,
       fst (getEntitlements (ec_organizationId e) w2) = Return (Some row) /\
       pg_uuid (ec_organizationId e) = Some (ec_organizationId row) /\
       ec_maxProjects row = ec_maxProjects e /\
       ec_maxTasks row = ec_maxTasks e /\
       ec_maxMembers row = ec_maxMembers e /\
       ec_features row = ec_features e /\
       ec_cachedAt row = now w) /\
  (forall o : string,
     deleteEntitlements o w = (Return tt, w1) ->
     fst (getEntitlements o w2) = Return None).
Proof.
  intros Hdb Hf. split.
  - intros e Hup. unfold upsertEntitlements in Hup.
    apply pool_query_returns in Hup. destruct Hup as (d' & Hs & _ & ->).
    apply obind_some in Hs. destruct Hs as (o & Ho & Hs).
    apply obind_some in Hs. destruct Hs as (mp & Hmp & Hs).
    apply obind_some in Hs. destruct Hs as (mt & Hmt & Hs).
    apply obind_some in Hs. destruct Hs as (mm & Hmm & Hs).
    apply obind_some in Hs. destruct Hs as (fs & Hfs & Hs).
    inversion Hs; subst d'. clear Hs.
    apply pg_integer_opt_some in Hmp, Hmt, Hmm. subst mp mt mm.
    apply pg_text_array_some in Hfs. subst fs.
    destruct (find_upsert_entitlements_row
                (mkEntitlementsCache o (ec_maxProjects e) (ec_maxTasks e)
                   (ec_maxMembers e) (ec_features e) (now w))
                (entitlements_cache (db w)))
      as (row & Hfind & Eo & Ep & Et & Em & Efe & Ec).
    cbn [ec_organizationId ec_maxProjects ec_maxTasks ec_maxMembers ec_features
         ec_cachedAt] in *.
    exists row. rewrite (getEntitlements_available _ o w2 Ho Hf).
    rewrite Hdb. cbn [db set_db set_faults entitlements_cache set_entitlements_cache fst].
    rewrite Hfind. repeat split; try assumption. rewrite Eo. exact Ho.
  - intros o Hdel. unfold deleteEntitlements in Hdel.
    apply pool_query_returns in Hdel. destruct Hdel as (d' & Hs & _ & ->).
    apply obind_some in Hs. destruct Hs as (o' & Ho & Hs).
    inversion Hs; subst d'. clear Hs.
    rewrite (getEntitlements_available _ o' w2 Ho Hf).
    rewrite Hdb. cbn [db set_db set_faults entitlements_cache set_entitlements_cache fst].
    rewrite DeletionFacts.find_after_delete. reflexivity.
Qed.

Lemma cached_entitlements_are_found_witness :
  (exists row,
     fst (getEntitlements Sample.T
            (snd (upsertEntitlements
                    (mkEntitlementsCache Sample.T (Some 3) (Some 50) None ["sso"] 0)
                    Sample.workflow_T))) = Return (Some row) /\
     ec_maxProjects row = Some 3 /\ ec_cachedAt row = 1000) /\
  fst (getEntitlements Sample.T
         (snd (deleteEntitlements Sample.T Sample.workflow_T))) = Return None.
Proof.
  split.
  - destruct (cached_entitlements_are_found Sample.workflow_T
                (snd (upsertEntitlements
                        (mkEntitlementsCache Sample.T (Some 3) (Some 50) None ["sso"] 0)
                        Sample.workflow_T)) _ eq_refl eq_refl) as [Hup _].
    destruct (Hup (mkEntitlementsCache Sample.T (Some 3) (Some 50) None ["sso"] 0)
                eq_refl) as (row & Hget & _ & Hp & _ & _ & _ & Hc).
    exists row. repeat split; assumption.
  - destruct (cached_entitlements_are_found Sample.workflow_T
                (snd (deleteEntitlements Sample.T Sample.workflow_T)) _
                eq_refl eq_refl) as [_ Hdel].
    exact (Hdel Sample.T eq_refl).
Defined.

End CacheFacts.

(** ** workflow-service: membership events and the auth middleware *)

Module AccessFacts.

Import Workflow WorkflowFacts ConsumerFacts CacheFacts Events.

(** The middleware for a request that names an organization, the store
    answering: the answer is the lookup in the membership cache. *)
Lemma middleware_by_lookup (r : Request) (w : W) (o u o' u' : string) :
  bearer (authorization r) = true ->
  present (x_user_id r) = Some u ->
  present (or_else (x_organization_id r) (params_organizationId r)) = Some o ->
  pg_uuid o = Some o' -> pg_uuid u = Some u' ->
  hd false (faults w) = false ->
  fst (createAuthMiddleware r w) =
    match List.find (membership_key o' u') (membership_cache (db w)) with
    | Some _ =>
        Return (Next (mkAuthenticated r u
                        (or_else (x_organization_id r) (params_organizationId r))))
    | None =>
        Return (Responded
                  (Status 403 (Msg "User is not a member of this organization")))
    end.
Proof.
  intros Hb Hu Ho Eo Eu Hf. unfold createAuthMiddleware, try_catch.
  rewrite Hb, Hu, Ho. cbn [negb]. unfold verifyMembership.
  rewrite (bind_run _ _ _ _ _
             (bind_run _ _ _ _ _ (getMembership_available _ _ o' u' w Eo Eu Hf))).
  destruct (List.find (membership_key o' u') (membership_cache (db w)));
    reflexivity.
Qed.

Lemma present_some (s : string) : String.eqb s "" = false -> present (Some s) = Some s.
Proof. intros H. unfold present. rewrite H. reflexivity. Qed.

Lemma or_else_header (h : string) (p : option string) :
  String.eqb h "" = false -> or_else (Some h) p = Some h.
Proof. intros H. unfold or_else. rewrite (present_some _ H). reflexivity. Qed.

(** The middleware for a request whose two headers are identifiers that
    zod accepts. *)
Lemma middleware_by_headers (r : Request) (w : W) (o u : string) :
  bearer (authorization r) = true ->
  x_user_id r = Some u ->
  x_organization_id r = Some o ->
  is_uuid o = true -> is_uuid u = true ->
  hd false (faults w) = false ->
  fst (createAuthMiddleware r w) =
    match List.find (membership_key (toLowerCase o) (toLowerCase u))
                    (membership_cache (db w)) with
    | Some _ => Return (Next (mkAuthenticated r u (Some o)))
    | None =>
        Return (Responded
                  (Status 403 (Msg "User is not a member of this organization")))
    end.
Proof.
  intros Hb Hu Ho Uo Uu Hf.
  pose proof (is_uuid_not_empty _ Uo) as No.
  pose proof (is_uuid_not_empty _ Uu) as Nu.
  rewrite (middleware_by_lookup r w o u (toLowerCase o) (toLowerCase u) Hb).
  - rewrite Ho, (or_else_header _ _ No). reflexivity.
  - rewrite Hu. exact (present_some _ Nu).
  - rewrite Ho, (or_else_header _ _ No). exact (present_some _ No).
  - exact (pg_uuid_some _ Uo).
  - exact (pg_uuid_some _ Uu).
  - exact Hf.
Qed.

Lemma MemberAdded_ids (event : Json) (v : Validated MemberAdded) :
  MemberAddedEventSchema event = Some v ->
  is_uuid (ma_organizationId (data v)) = true /\
  is_uuid (ma_userId (data v)) = true.
Proof.
  unfold MemberAddedEventSchema, extend, obind.
  destruct (z_object (Some event)) as [o|]; [|discriminate].
  destruct (BaseEventSchema "MemberAdded" o) as [b|]; [|discriminate].
  destruct (z_object (field "data" o)) as [d|]; [|discriminate].
  unfold z_uuid, obind.
  destruct (z_string (field "organizationId" d)) as [x|]; [|discriminate].
  destruct (is_uuid x) eqn:Ex; [|discriminate].
  destruct (z_string (field "userId" d)) as [y|]; [|discriminate].
  destruct (is_uuid y) eqn:Ey; [|discriminate].
  destruct (z_string (field "role" d)) as [z|]; [|discriminate].
  destruct (z_string (field "addedBy" d)) as [a|]; [|discriminate].
  destruct (is_uuid a); [|discriminate].
  destruct (z_datetime (field "addedAt" d)) as [c|]; [|discriminate].
  intros H. inversion H; subst. cbn. auto.
Qed.

Lemma RoleChanged_ids (event : Json) (v : Validated RoleChanged) :
  RoleChangedEventSchema event = Some v ->
  is_uuid (rc_organizationId (data v)) = true /\
  is_uuid (rc_userId (data v)) = true.
Proof.
  unfold RoleChangedEventSchema, extend, obind.
  destruct (z_object (Some event)) as [o|]; [|discriminate].
  destruct (BaseEventSchema "RoleChanged" o) as [b|]; [|discriminate].
  destruct (z_object (field "data" o)) as [d|]; [|discriminate].
  unfold z_uuid, obind.
  destruct (z_string (field "organizationId" d)) as [x|]; [|discriminate].
  destruct (is_uuid x) eqn:Ex; [|discriminate].
  destruct (z_string (field "userId" d)) as [y|]; [|discriminate].
  destruct (is_uuid y) eqn:Ey; [|discriminate].
  destruct (z_string (field "oldRole" d)) as [z|]; [|discriminate].
  destruct (z_string (field "newRole" d)) as [z'|]; [|discriminate].
  destruct (z_string (field "changedBy" d)) as [a|]; [|discriminate].
  destruct (is_uuid a); [|discriminate].
  destruct (z_datetime (field "changedAt" d)) as [c|]; [|discriminate].
  intros H. inversion H; subst. cbn. auto.
Qed.

(** What a delivered [MemberRemoved] and a delivered [RoleChanged] event do
    when the store answers. *)
Lemma member_removed_applies (event : Json) (v : Validated MemberRemoved) (w : W) :
  MemberRemovedEventSchema event = Some v ->
  hd false (faults w) = false ->
  db (snd (eachMessage (mkMessage "organization.member.removed" (Text event)) w)) =
    set_membership_cache
      (List.filter
         (fun r => negb (membership_key (toLowerCase (mr_organizationId (data v)))
                           (toLowerCase (mr_userId (data v))) r))
         (membership_cache (db w))) (db w).
Proof.
  intros Hv Hf. destruct (MemberRemoved_ids event v Hv) as [Uo Uu].
  destruct w as [d fs t g k l ob]. cbn [faults hd db now] in *.
  unfold eachMessage, handleMemberRemoved, deleteMembership.
  cbn [topic value String.eqb Ascii.eqb Bool.eqb].
  destruct fs as [|[|] fs]; try discriminate; run;
    rewrite Hv; run;
    rewrite (pg_uuid_some _ Uo), (pg_uuid_some _ Uu); run; reflexivity.
Qed.

Lemma role_changed_applies (event : Json) (v : Validated RoleChanged)
    (role : string) (w : W) :
  RoleChangedEventSchema event = Some v ->
  pg_varchar 50 (rc_newRole (data v)) = Some role ->
  hd false (faults w) = false ->
  db (snd (eachMessage (mkMessage "organization.role.changed" (Text event)) w)) =
    set_membership_cache
      (upsert_membership_row (toLowerCase (rc_organizationId (data v)))
         (toLowerCase (rc_userId (data v))) role (now w)
         (membership_cache (db w))) (db w).
Proof.
  intros Hv Hr Hf. destruct (RoleChanged_ids event v Hv) as [Uo Uu].
  destruct w as [d fs t g k l ob]. cbn [faults hd db now] in *.
  unfold eachMessage, handleRoleChanged, upsertMembership.
  cbn [topic value String.eqb Ascii.eqb Bool.eqb].
  destruct fs as [|[|] fs]; try discriminate; run;
    rewrite Hv; run; cbn [mc_organizationId mc_userId mc_role];
    rewrite (pg_uuid_some _ Uo), (pg_uuid_some _ Uu), Hr; run; reflexivity.
Qed.

(** X5.  Membership events open and close the middleware.  After a
    [MemberAdded] event for an organization and a user has been handled, the
    store answering, a request by that user for that organization passes the
    auth middleware; after a [MemberRemoved] event for the same pair has
    then been handled, the same request is answered 403. *)
Theorem membership_events_open_and_close_the_middleware
    (added removed : Json) (va : Validated MemberAdded)
    (vr : Validated MemberRemoved) (role : string) (r : Request) (w w2 w4 : W) :
  MemberAddedEventSchema added = Some va ->
  MemberRemovedEventSchema removed = Some vr ->
  mr_organizationId (data vr) = ma_organizationId (data va) ->
  mr_userId (data vr) = ma_userId (data va) ->
  pg_varchar 50 (ma_role (data va)) = Some role ->
  bearer (authorization r) = true ->
  x_user_id r = Some (ma_userId (data va)) ->
  x_organization_id r = Some (ma_organizationId (data va)) ->
  hd false (faults w) = false ->
  db w2 = db (snd (eachMessage (mkMessage "organization.member.added" (Text added)) w)) ->
  hd false (faults w2) = false ->
  db w4 = db (snd (eachMessage (mkMessage "organization.member.removed" (Text removed))
                     w2)) ->
  hd false (faults w4) = false ->
  fst (createAuthMiddleware r w2) =
    Return (Next (mkAuthenticated r (ma_userId (data va))
                    (Some (ma_organizationId (data va))))) /\
  fst (createAuthMiddleware r w4) =
    Return (Responded (Status 403 (Msg "User is not a member of this organization"))).
Proof.
  intros Ha Hr Eo Eu Hrole Hb Hu Ho Hf Hw2 Hf2 Hw4 Hf4.
  destruct (MemberAdded_ids added va Ha) as [Uo Uu].
  split.
  - rewrite (middleware_by_headers r w2 _ _ Hb Hu Ho Uo Uu Hf2).
    rewrite Hw2, (member_added_applies added va role w Ha Hrole Hf).
    cbn [membership_cache set_membership_cache].
    rewrite find_upsert_membership_row. reflexivity.
  - rewrite (middleware_by_headers r w4 _ _ Hb Hu Ho Uo Uu Hf4).
    rewrite Hw4, (member_removed_applies removed vr w2 Hr Hf2).
    cbn [membership_cache set_membership_cache]. rewrite Eo, Eu.
    rewrite find_filter_membership. reflexivity.
Qed.

Lemma membership_events_open_and_close_the_middleware_witness :
  let w2 := snd (eachMessage Sample.member_added Sample.workflow_empty) in
  let w4 := snd (eachMessage Sample.member_removed w2) in
  fst (createAuthMiddleware Sample.post_with_header Sample.workflow_empty) =
    Return (Responded (Status 403 (Msg "User is not a member of this organization"))) /\
  fst (createAuthMiddleware Sample.post_with_header w2) =
    Return (Next (mkAuthenticated Sample.post_with_header Sample.U (Some Sample.T))) /\
  fst (createAuthMiddleware Sample.post_with_header w4) =
    Return (Responded (Status 403 (Msg "User is not a member of this organization"))).
Proof.
  intros w2 w4. split; [reflexivity|].
  exact (membership_events_open_and_close_the_middleware
           Sample.MemberAdded_admin Sample.MemberRemoved_U _ _ "admin"
           Sample.post_with_header Sample.workflow_empty w2 w4
           eq_refl eq_refl eq_refl eq_refl eq_refl eq_refl eq_refl eq_refl
           eq_refl eq_refl eq_refl eq_refl eq_refl).
Defined.

(** X6.  [handleRoleChanged] upserts: a [RoleChanged] event for an
    organization and a user is enough to make the user a cached member with
    the new role, whether or not the pair was cached before.  So a
    [RoleChanged] event that is handled after the [MemberRemoved] event of
    the same pair puts the membership back, and the middleware lets the user
    through again. *)
Theorem RoleChanged_caches_the_membership
    (event : Json) (v : Validated RoleChanged) (role : string) (r : Request)
    (w w2 : W) :
  RoleChangedEventSchema event = Some v ->
  pg_varchar 50 (rc_newRole (data v)) = Some role ->
  hd false (faults w) = false ->
  db w2 = db (snd (eachMessage (mkMessage "organization.role.changed" (Text event)) w)) ->
  hd false (faults w2) = false ->
  fst (getMembershipRole (rc_organizationId (data v)) (rc_userId (data v)) w2) =
    Return (if String.eqb role "" then None else Some role) /\
  (bearer (authorization r) = true ->
   x_user_id r = Some (rc_userId (data v)) ->
   x_organization_id r = Some (rc_organizationId (data v)) ->
   fst (createAuthMiddleware r w2) =
     Return (Next (mkAuthenticated r (rc_userId (data v))
                     (Some (rc_organizationId (data v)))))).
Proof.
  intros Hv Hrole Hf Hw2 Hf2.
  destruct (RoleChanged_ids event v Hv) as [Uo Uu].
  assert (Hfind : List.find (membership_key (toLowerCase (rc_organizationId (data v)))
                               (toLowerCase (rc_userId (data v))))
                            (membership_cache (db w2))
                  = Some (mkMembership (toLowerCase (rc_organizationId (data v)))
                            (toLowerCase (rc_userId (data v))) role (now w))).
  { rewrite Hw2, (role_changed_applies event v role w Hv Hrole Hf).
    cbn [membership_cache set_membership_cache].
    apply find_upsert_membership_row. }
  split.
  - unfold getMembershipRole.
    rewrite (bind_run _ _ _ _ _
               (getMembership_available _ _ _ _ w2 (pg_uuid_some _ Uo)
                  (pg_uuid_some _ Uu) Hf2)).
    rewrite Hfind. reflexivity.
  - intros Hb Hu Ho.
    rewrite (middleware_by_headers r w2 _ _ Hb Hu Ho Uo Uu Hf2).
    rewrite Hfind. reflexivity.
Qed.

Lemma RoleChanged_caches_the_membership_witness :
  let removed := snd (eachMessage Sample.member_removed Sample.workflow_T) in
  let changed := snd (eachMessage Sample.role_changed removed) in
  fst (verifyMembership Sample.T Sample.U removed) = Return false /\
  fst (getMembershipRole Sample.T Sample.U changed) = Return (Some "owner") /\
  fst (createAuthMiddleware Sample.post_with_header changed) =
    Return (Next (mkAuthenticated Sample.post_with_header Sample.U (Some Sample.T))).
Proof.
  intros removed changed. split; [reflexivity|].
  destruct (RoleChanged_caches_the_membership Sample.RoleChanged_owner _ "owner"
              Sample.post_with_header removed changed
              eq_refl eq_refl eq_refl eq_refl eq_refl) as [Hrole Hmw].
  split; [exact Hrole|]. exact (Hmw eq_refl eq_refl eq_refl).
Defined.

(** X7.  A request without a Bearer authorization header, or without an
    [x-user-id] header, is answered 401 by the middleware of every route
    before anything else happens: the handler does not run and the world is
    left exactly as it was, so the store was not asked, whatever
    organization the request names. *)
Theorem request_without_credentials_is_rejected_unread
    (handler : AuthenticatedRequest -> M Db Response) (r : Request) (w : W) :
  (bearer (authorization r) = false ->
   route handler r w =
     (Return (Status 401 (Msg "Missing or invalid authorization header")), w)) /\
  (bearer (authorization r) = true -> present (x_user_id r) = None ->
   route handler r w = (Return (Status 401 (Msg "User ID not found")), w)).
Proof.
  split.
  - intros Hb. unfold route, createAuthMiddleware, bind, try_catch.
    rewrite Hb. reflexivity.
  - intros Hb Hu. unfold route, createAuthMiddleware, bind, try_catch.
    rewrite Hb, Hu. reflexivity.
Qed.

Lemma request_without_credentials_is_rejected_unread_witness :
  route post_projects
    (mkRequest (Some "Basic dXNlcjpwdw==") (Some Sample.U) (Some Sample.T) None None
       (JObj [("name", JStr "roadmap")]))
    Sample.workflow_T =
  (Return (Status 401 (Msg "Missing or invalid authorization header")),
   Sample.workflow_T) /\
  route post_tasks
    (mkRequest (Some "Bearer token") None (Some Sample.T) None None (JObj []))
    Sample.workflow_T =
  (Return (Status 401 (Msg "User ID not found")), Sample.workflow_T).
Proof.
  split.
  - apply (request_without_credentials_is_rejected_unread post_projects). reflexivity.
  - apply (request_without_credentials_is_rejected_unread post_tasks); reflexivity.
Defined.

(** X8.  The middleware fails closed on the lookup itself.  For a request
    with credentials that names an organization, when the lookup in the
    membership cache cannot be made - the store is unavailable, or one of
    the two identifiers is not a UUID for PostgreSQL - the middleware
    answers 401 "Authentication failed": it never calls [next()], and no
    table changes. *)
Theorem failed_membership_lookup_is_answered_401 (r : Request) (w : W) (o u : string) :
  bearer (authorization r) = true ->
  present (x_user_id r) = Some u ->
  present (or_else (x_organization_id r) (params_organizationId r)) = Some o ->
  hd false (faults w) = true \/ pg_uuid o = None \/ pg_uuid u = None ->
  fst (createAuthMiddleware r w) =
    Return (Responded (Status 401 (Msg "Authentication failed"))) /\
  db (snd (createAuthMiddleware r w)) = db w.
Proof.
  intros Hb Hu Ho Hfail.
  unfold createAuthMiddleware, try_catch. rewrite Hb, Hu, Ho. cbn [negb].
  unfold verifyMembership, getMembership, bind, pool_query.
  destruct w as [d fs t g k l ob]. cbn [faults hd db now] in *.
  destruct fs as [|[|] fs]; cbn [hd] in Hfail.
  - destruct Hfail as [F|[F|F]]; [discriminate| |]; unfold obind; rewrite F;
      [|destruct (pg_uuid o)]; split; reflexivity.
  - split; reflexivity.
  - destruct Hfail as [F|[F|F]]; [discriminate| |]; unfold obind; rewrite F;
      [|destruct (pg_uuid o)]; split; reflexivity.
Qed.

Lemma failed_membership_lookup_is_answered_401_witness :
  fst (createAuthMiddleware Sample.post_with_header
         (Sample.failing [true] Sample.workflow_T)) =
    Return (Responded (Status 401 (Msg "Authentication failed"))) /\
  fst (createAuthMiddleware
         (mkRequest (Some "Bearer token") (Some Sample.U) (Some "acme") None None
            (JObj [("name", JStr "roadmap")]))
         Sample.workflow_T) =
    Return (Responded (Status 401 (Msg "Authentication failed"))).
Proof.
  split.
  - apply (failed_membership_lookup_is_answered_401 Sample.post_with_header
             (Sample.failing [true] Sample.workflow_T) Sample.T Sample.U);
      try reflexivity.
    left. reflexivity.
  - apply (failed_membership_lookup_is_answered_401
             (mkRequest (Some "Bearer token") (Some Sample.U) (Some "acme") None None
                (JObj [("name", JStr "roadmap")]))
             Sample.workflow_T "acme" Sample.U); try reflexivity.
    right. left. reflexivity.
Defined.

End AccessFacts.

(** ** workflow-service: limits and what [createProject] leaves behind *)

Lemma bind_fails {D A B} (m : M D A) (k : A -> M D B) (w w1 : World D) (e : Exn) :
  m w = (Throw e, w1) -> bind m k w = (Throw e, w1).
Proof. intros H. unfold bind. rewrite H. reflexivity. Qed.

Lemma untouched_refl {D} (w : World D) : untouched w w.
Proof. unfold untouched. repeat split. Qed.

Lemma untouched_trans {D} (a b c : World D) :
  untouched a b -> untouched b c -> untouched a c.
Proof. unfold untouched. intuition congruence. Qed.

Lemma untouched_faults {D} (fs : list bool) (w : World D) :
  untouched w (set_faults fs w).
Proof. unfold untouched. repeat split. Qed.

Module LimitFacts.

Import Workflow WorkflowFacts RouteFacts CacheFacts Events.

Lemma getEntitlements_cases (organizationId : string) (w : W) :
  (exists w1, getEntitlements organizationId w = (Throw StoreError, w1) /\
              untouched w w1) \/
  (exists o, pg_uuid organizationId = Some o /\ hd false (faults w) = false /\
             getEntitlements organizationId w =
               (Return (List.find (entitlements_key o) (entitlements_cache (db w))),
                set_faults (tl (faults w)) w)).
Proof.
  destruct (pool_query_cases
              (fun (d : Db) (_ : Z) =>
                 obind (pg_uuid organizationId) (fun o =>
                 Some (List.find (entitlements_key o) (entitlements_cache d), d))) w)
    as [H|(a & d' & Hs & Hf & E)]; [left; exact H|].
  right. apply obind_some in Hs. destruct Hs as (o & Ho & Hs).
  inversion Hs; subst. exists o. split; [exact Ho|]. split; [exact Hf|].
  unfold getEntitlements. rewrite E. destruct w; reflexivity.
Qed.

Lemma countProjects_cases (organizationId : string) (w : W) :
  (exists w1, ProjectRepository_countByOrganization organizationId w
              = (Throw StoreError, w1) /\ untouched w w1) \/
  (exists o, pg_uuid organizationId = Some o /\ hd false (faults w) = false /\
             ProjectRepository_countByOrganization organizationId w =
               (Return (Z.of_nat (List.length
                          (List.filter
                             (fun p => String.eqb (p_organizationId p) o
                                       && project_status_eqb (p_status p) Active)
                             (projects (db w))))),
                set_faults (tl (faults w)) w)).
Proof.
  destruct (pool_query_cases
              (fun (d : Db) (_ : Z) =>
                 obind (pg_uuid organizationId) (fun o =>
                 Some (Z.of_nat (List.length
                         (List.filter
                            (fun p => String.eqb (p_organizationId p) o
                                      && project_status_eqb (p_status p) Active)
                            (projects d))), d))) w)
    as [H|(a & d' & Hs & Hf & E)]; [left; exact H|].
  right. apply obind_some in Hs. destruct Hs as (o & Ho & Hs).
  inversion Hs; subst. exists o. split; [exact Ho|]. split; [exact Hf|].
  unfold ProjectRepository_countByOrganization. rewrite E. destruct w; reflexivity.
Qed.

Lemma countTasks_cases (organizationId : string) (w : W) :
  (exists w1, TaskRepository_countByOrganization organizationId w
              = (Throw StoreError, w1) /\ untouched w w1) \/
  (exists o, pg_uuid organizationId = Some o /\ hd false (faults w) = false /\
             TaskRepository_countByOrganization organizationId w =
               (Return (Z.of_nat (List.length
                          (List.filter
                             (fun t => String.eqb (t_organizationId t) o
                                       && negb (task_status_eqb (t_status t) Cancelled))
                             (tasks (db w))))),
                set_faults (tl (faults w)) w)).
Proof.
  destruct (pool_query_cases
              (fun (d : Db) (_ : Z) =>
                 obind (pg_uuid organizationId) (fun o =>
                 Some (Z.of_nat (List.length
                         (List.filter
                            (fun t => String.eqb (t_organizationId t) o
                                      && negb (task_status_eqb (t_status t) Cancelled))
                            (tasks d))), d))) w)
    as [H|(a & d' & Hs & Hf & E)]; [left; exact H|].
  right. apply obind_some in Hs. destruct Hs as (o & Ho & Hs).
  inversion Hs; subst. exists o. split; [exact Ho|]. split; [exact Hf|].
  unfold TaskRepository_countByOrganization. rewrite E. destruct w; reflexivity.
Qed.

Lemma findProject_cases (id : string) (w : W) :
  (exists w1, ProjectRepository_findById id w = (Throw StoreError, w1) /\
              untouched w w1) \/
  (exists i, pg_uuid id = Some i /\ hd false (faults w) = false /\
             ProjectRepository_findById id w =
               (Return (List.find
                          (fun p => has_project_id i p
                                    && negb (project_status_eqb (p_status p) Deleted))
                          (projects (db w))),
                set_faults (tl (faults w)) w)).
Proof.
  destruct (pool_query_cases
              (fun (d : Db) (_ : Z) =>
                 obind (pg_uuid id) (fun i =>
                 Some (List.find
                         (fun p => has_project_id i p
                                   && negb (project_status_eqb (p_status p) Deleted))
                         (projects d), d))) w)
    as [H|(a & d' & Hs & Hf & E)]; [left; exact H|].
  right. apply obind_some in Hs. destruct Hs as (i & Hi & Hs).
  inversion Hs; subst. exists i. split; [exact Hi|]. split; [exact Hf|].
  unfold ProjectRepository_findById. rewrite E. destruct w; reflexivity.
Qed.

(** The limit check of [createProject] when the limit is reached. *)
Lemma project_limit_stops (input : CreateProjectInput) (c : option string)
    (w : W) (o : string) :
  pg_uuid (cpi_organizationId input) = Some o ->
  ~ project_limit_ok o (db w) ->
  exists e w1,
    createProject input c w = (Throw e, w1) /\ untouched w w1 /\
    (faults w = [] -> e = Error "Project limit reached for this organization").
Proof.
  intros Ho Hno. unfold project_limit_ok in Hno. unfold createProject.
  destruct (getEntitlements_cases (cpi_organizationId input) w)
    as [(w1 & E & U)|(o1 & Ho1 & Hf & E)].
  { exists StoreError, w1. rewrite (bind_fails _ _ _ _ _ E).
    repeat split; try apply U. intros F. exfalso.
    unfold getEntitlements in E. rewrite pool_query_available in E by (rewrite F; reflexivity).
    unfold obind in E. rewrite Ho in E. discriminate. }
  rewrite Ho in Ho1. inversion Ho1; subst o1. clear Ho1.
  rewrite (bind_run _ _ _ _ _ E).
  destruct (List.find (entitlements_key o) (entitlements_cache (db w))) as [row|];
    [|exfalso; apply Hno; exact I].
  set (w1 := set_faults (tl (faults w)) w) in *.
  destruct (countProjects_cases (cpi_organizationId input) w1)
    as [(w2 & E2 & U2)|(o2 & Ho2 & Hf2 & E2)].
  { exists StoreError, w2.
    rewrite (bind_fails _ _ _ _ _ (bind_fails _ _ _ _ _ E2)).
    split; [reflexivity|]. split.
    - exact (untouched_trans _ _ _ (untouched_faults _ w) U2).
    - intros F. exfalso.
      unfold ProjectRepository_countByOrganization in E2.
      rewrite pool_query_available in E2 by (subst w1; cbn; rewrite F; reflexivity).
      unfold obind in E2. rewrite Ho in E2. discriminate. }
  rewrite Ho in Ho2. inversion Ho2; subst o2. clear Ho2.
  exists (Error "Project limit reached for this organization").
  exists (set_faults (tl (faults w1)) w1).
  split; [|split; [|reflexivity]].
  - apply bind_fails. rewrite (bind_run _ _ _ _ _ E2).
    subst w1. cbn [db set_faults].
    destruct (limit_reached (ec_maxProjects row) _) eqn:L; [reflexivity|].
    exfalso. apply Hno. reflexivity.
  - exact (untouched_trans _ _ _ (untouched_faults _ w) (untouched_faults _ w1)).
Qed.

(** X9.  A reached project limit is enforced whatever the store does.  When
    the entitlements cached for the organization hold a project limit that
    the active projects have reached, [createProject] never returns a
    project: it throws, no table changes, nothing is logged and nothing is
    handed to the producer; with the store answering, the error is "Project
    limit reached for this organization". *)
Theorem reached_project_limit_refuses_the_project
    (input : CreateProjectInput) (c : option string) (w : W) (o : string) :
  pg_uuid (cpi_organizationId input) = Some o ->
  ~ project_limit_ok o (db w) ->
  (forall p, fst (createProject input c w) <> Return p) /\
  untouched w (snd (createProject input c w)) /\
  (faults w = [] ->
   fst (createProject input c w) =
     Throw (Error "Project limit reached for this organization")).
Proof.
  intros Ho Hno.
  destruct (project_limit_stops input c w o Ho Hno) as (e & w1 & E & U & Hmsg).
  rewrite E. cbn [fst snd]. split; [discriminate|]. split; [exact U|].
  intros F. rewrite (Hmsg F). reflexivity.
Qed.

Lemma reached_project_limit_refuses_the_project_witness :
  fst (createProject (mkCreateProjectInput Sample.T "third" None Sample.U) None
         Sample.workflow_T_limit_2) =
    Throw (Error "Project limit reached for this organization") /\
  db (snd (createProject (mkCreateProjectInput Sample.T "third" None Sample.U) None
             Sample.workflow_T_limit_2)) = db Sample.workflow_T_limit_2.
Proof.
  destruct (reached_project_limit_refuses_the_project
              (mkCreateProjectInput Sample.T "third" None Sample.U) None
              Sample.workflow_T_limit_2 Sample.T eq_refl) as (_ & U & Hmsg).
  - vm_compute. discriminate.
  - split; [exact (Hmsg eq_refl)|apply U].
Defined.

Lemma EntitlementsUpdated_id (event : Json) (v : Validated EntitlementsUpdated) :
  EntitlementsUpdatedEventSchema event = Some v ->
  is_uuid (eu_organizationId (data v)) = true.
Proof.
  unfold EntitlementsUpdatedEventSchema, extend, obind.
  destruct (z_object (Some event)) as [o|]; [|discriminate].
  destruct (BaseEventSchema "EntitlementsUpdated" o) as [b|]; [|discriminate].
  destruct (z_object (field "data" o)) as [d|]; [|discriminate].
  unfold z_uuid, obind.
  destruct (z_string (field "organizationId" d)) as [x|]; [|discriminate].
  destruct (is_uuid x) eqn:Ex; [|discriminate].
  destruct (z_object (field "entitlements" d)) as [e|]; [|discriminate].
  destruct (z_number (field "maxProjects" e)); [|discriminate].
  destruct (z_number (field "maxTasks" e)); [|discriminate].
  destruct (z_number (field "maxMembers" e)); [|discriminate].
  destruct (z_array_string (field "features" e)); [|discriminate].
  destruct (z_datetime (field "updatedAt" d)); [|discriminate].
  intros H. inversion H; subst. cbn. exact Ex.
Qed.

(** What a delivered [EntitlementsUpdated] event does when the store
    answers and the three limits are INTEGERs. *)
Lemma entitlements_updated_applies (event : Json)
    (v : Validated EntitlementsUpdated) (w : W) :
  EntitlementsUpdatedEventSchema event = Some v ->
  pg_integer (en_maxProjects (eu_entitlements (data v))) <> None ->
  pg_integer (en_maxTasks (eu_entitlements (data v))) <> None ->
  pg_integer (en_maxMembers (eu_entitlements (data v))) <> None ->
  pg_text_array (en_features (eu_entitlements (data v))) <> None ->
  hd false (faults w) = false ->
  db (snd (eachMessage (mkMessage "billing.entitlements.updated" (Text event)) w)) =
    set_entitlements_cache
      (upsert_entitlements_row
         (mkEntitlementsCache (toLowerCase (eu_organizationId (data v)))
            (Some (en_maxProjects (eu_entitlements (data v))))
            (Some (en_maxTasks (eu_entitlements (data v))))
            (Some (en_maxMembers (eu_entitlements (data v))))
            (en_features (eu_entitlements (data v))) (now w))
         (entitlements_cache (db w))) (db w).
Proof.
  intros Hv Hp Ht Hm Hfe Hf. pose proof (EntitlementsUpdated_id event v Hv) as Uo.
  assert (I3 : forall n, pg_integer n <> None -> pg_integer n = Some n).
  { intros n. unfold pg_integer.
    destruct ((-2147483648 <=? n) && (n <=? 2147483647)); congruence. }
  assert (Efe : pg_text_array (en_features (eu_entitlements (data v)))
                = Some (en_features (eu_entitlements (data v)))).
  { destruct (pg_text_array (en_features (eu_entitlements (data v))))
      as [fe|] eqn:E; [|contradiction].
    apply pg_text_array_some in E. congruence. }
  destruct w as [d fs t g k l ob]. cbn [faults hd db now] in *.
  unfold eachMessage, handleEntitlementsUpdated, upsertEntitlements.
  cbn [topic value String.eqb Ascii.eqb Bool.eqb].
  destruct fs as [|[|] fs]; try discriminate; run;
    rewrite Hv; run;
    cbn [ec_organizationId ec_maxProjects ec_maxTasks ec_maxMembers ec_features
         pg_integer_opt];
    rewrite (pg_uuid_some _ Uo), (I3 _ Hp), (I3 _ Ht), (I3 _ Hm), Efe; run;
    reflexivity.
Qed.

(** X10.  A limit of 0 is no limit.  After an [EntitlementsUpdated] event
    whose [maxProjects] is 0 has been handled - the event billing-service
    publishes when a subscription is cancelled at once - the cached
    entitlements of the organization hold the limit 0, and [createProject]
    for that organization goes through however many active projects the
    organization has: [entitlements.maxProjects && ...] reads 0 as "no
    limit".  This is for texts that PostgreSQL accepts: the features of the
    event, and the name and the description of the project (no U+0000, and
    a name that fits VARCHAR(255)). *)
Theorem zero_project_limit_never_refuses
    (event : Json) (v : Validated EntitlementsUpdated)
    (input : CreateProjectInput) (c : option string) (w w2 : W) :
  EntitlementsUpdatedEventSchema event = Some v ->
  en_maxProjects (eu_entitlements (data v)) = 0 ->
  pg_integer (en_maxTasks (eu_entitlements (data v))) <> None ->
  pg_integer (en_maxMembers (eu_entitlements (data v))) <> None ->
  pg_text_array (en_features (eu_entitlements (data v))) <> None ->
  hd false (faults w) = false ->
  db w2 = db (snd (eachMessage
                     (mkMessage "billing.entitlements.updated" (Text event)) w)) ->
  faults w2 = [] ->
  cpi_organizationId input = eu_organizationId (data v) ->
  is_uuid (cpi_createdBy input) = true ->
  pg_varchar 255 (cpi_name input) <> None ->
  pg_text_param_opt (cpi_description input) <> None ->
  List.existsb (has_project_id (uuids w2 (next w2))) (projects (db w2)) = false ->
  (exists row,
     fst (getEntitlements (cpi_organizationId input) w2) = Return (Some row) /\
     ec_maxProjects row = Some 0) /\
  (exists p w3,
     createProject input c w2 = (Return p, w3) /\
     projects (db w3) = (projects (db w2) ++ [p])%list).
Proof.
  intros Hv Hz Ht Hm Hfe Hf Hw2 Hf2 Ho Hc Hn Hds Hfresh.
  pose proof (EntitlementsUpdated_id event v Hv) as Uo.
  assert (Hp : pg_integer (en_maxProjects (eu_entitlements (data v))) <> None).
  { rewrite Hz. discriminate. }
  pose proof (entitlements_updated_applies event v w Hv Hp Ht Hm Hfe Hf) as Hdb.
  rewrite <- Hw2 in Hdb.
  destruct (find_upsert_entitlements_row
              (mkEntitlementsCache (toLowerCase (eu_organizationId (data v)))
                 (Some (en_maxProjects (eu_entitlements (data v))))
                 (Some (en_maxTasks (eu_entitlements (data v))))
                 (Some (en_maxMembers (eu_entitlements (data v))))
                 (en_features (eu_entitlements (data v))) (now w))
              (entitlements_cache (db w)))
    as (row & Hfind & _ & Ep & _).
  cbn [ec_organizationId ec_maxProjects] in Hfind, Ep.
  assert (Hfind2 : List.find (entitlements_key (toLowerCase (cpi_organizationId input)))
                             (entitlements_cache (db w2)) = Some row).
  { rewrite Hdb, Ho. exact Hfind. }
  split.
  - exists row. split; [|rewrite Ep, Hz; reflexivity].
    rewrite (getEntitlements_available _ (toLowerCase (cpi_organizationId input)) w2).
    + cbn [fst]. rewrite Hfind2. reflexivity.
    + rewrite Ho. exact (pg_uuid_some _ Uo).
    + rewrite Hf2. reflexivity.
  - destruct (createProject_ok input c w2 Hf2) as (p & w3 & Hrun & _ & _ & _ & Hd3);
      try assumption.
    + rewrite Ho. exact Uo.
    + unfold project_limit_ok. rewrite Hfind2, Ep, Hz. reflexivity.
    + exists p, w3. split; [exact Hrun|]. rewrite Hd3. reflexivity.
Qed.

Lemma zero_project_limit_never_refuses_witness :
  let cleared := snd (eachMessage Sample.entitlements_cleared Sample.workflow_T_limit_2) in
  (exists e, fst (createProject (mkCreateProjectInput Sample.T "third" None Sample.U)
                    None Sample.workflow_T_limit_2) = Throw e) /\
  (exists p w3,
     createProject (mkCreateProjectInput Sample.T "third" None Sample.U) None
       (Sample.world (db cleared) 2000) = (Return p, w3) /\
     projects (db w3) = (projects (db cleared) ++ [p])%list).
Proof.
  intros cleared. split; [eexists; reflexivity|].
  destruct (zero_project_limit_never_refuses Sample.EntitlementsUpdated_cleared _
              (mkCreateProjectInput Sample.T "third" None Sample.U) None
              Sample.workflow_T_limit_2 (Sample.world (db cleared) 2000)
              eq_refl eq_refl) as [_ Hcreate];
    try reflexivity; try (vm_compute; discriminate).
  exact Hcreate.
Defined.

(** *** Every way in which [createProject] ends *)

Lemma unwritten_refl {D} (w : World D) : unwritten w w.
Proof. unfold unwritten. auto. Qed.

Lemma unwritten_trans {D} (a b c : World D) :
  unwritten a b -> unwritten b c -> unwritten a c.
Proof. unfold unwritten. intuition congruence. Qed.

Lemma untouched_unwritten {D} (w w' : World D) : untouched w w' -> unwritten w w'.
Proof. unfold untouched, unwritten. tauto. Qed.

(** The limit check of [createProject]: it throws something other than a
    bus error, or it passes; it only reads. *)
Lemma project_limit_check (organizationId : string) (w : W) :
  let check :=
    bind (getEntitlements organizationId) (fun entitlements =>
      match entitlements with
      | Some e =>
          bind (ProjectRepository_countByOrganization organizationId)
               (fun currentCount =>
                  if limit_reached (ec_maxProjects e) currentCount
                  then throw (Error "Project limit reached for this organization")
                  else ret tt)
      | None => ret tt
      end) in
  untouched w (snd (check w)) /\
  fst (check w) <> Throw BusError.
Proof.
  intros check. subst check.
  destruct (getEntitlements_cases organizationId w)
    as [(w1 & E & U)|(o1 & Ho1 & Hf & E)].
  { rewrite (bind_fails _ _ _ _ _ E). split; [exact U|discriminate]. }
  rewrite (bind_run _ _ _ _ _ E).
  destruct (List.find (entitlements_key o1) (entitlements_cache (db w))) as [row|].
  2:{ split; [apply untouched_faults|discriminate]. }
  destruct (countProjects_cases organizationId (set_faults (tl (faults w)) w))
    as [(w2 & E2 & U2)|(o2 & Ho2 & Hf2 & E2)].
  { rewrite (bind_fails _ _ _ _ _ E2). split; [|discriminate].
    exact (untouched_trans _ _ _ (untouched_faults _ w) U2). }
  rewrite (bind_run _ _ _ _ _ E2).
  destruct (limit_reached (ec_maxProjects row) _); cbn [fst snd throw ret];
    (split; [|discriminate]);
    exact (untouched_trans _ _ _ (untouched_faults _ w) (untouched_faults _ _)).
Qed.

(** The INSERT of [ProjectRepository.create]. *)
Lemma ProjectRepository_create_cases (input : CreateProjectInput) (w : W) :
  (exists w1, ProjectRepository_create input w = (Throw StoreError, w1) /\
              unwritten w w1) \/
  (exists o n c w1,
     pg_uuid (cpi_organizationId input) = Some o /\
     pg_varchar 255 (cpi_name input) = Some n /\
     pg_uuid (cpi_createdBy input) = Some c /\
     let row := mkProject (uuids w (next w)) o n (cpi_description input) Active c
                          (now w) (now w) None in
     ProjectRepository_create input w = (Return row, w1) /\
     db w1 = set_projects (projects (db w) ++ [row]) (db w) /\
     logs w1 = logs w /\ outbox w1 = outbox w /\ now w1 = now w).
Proof.
  unfold ProjectRepository_create. unfold bind at 1. unfold randomUUID at 1.
  match goal with
  | |- context [pool_query ?s ?w1] => destruct (pool_query_cases s w1)
      as [(w2 & E & U)|(row & d' & Hs & Hf & E)]
  end.
  - left. exists w2. split; [exact E|].
    destruct U as (Ud & _ & _ & _ & Ul & Uo). cbn in Ud, Ul, Uo.
    unfold unwritten. auto.
  - right. cbn [db now] in Hs.
    apply obind_some in Hs. destruct Hs as (o & Ho & Hs).
    apply obind_some in Hs. destruct Hs as (n & Hn & Hs).
    apply obind_some in Hs. destruct Hs as (ds & Hds & Hs).
    apply pg_text_param_opt_some in Hds. subst ds.
    apply obind_some in Hs. destruct Hs as (c & Hc & Hs).
    destruct (List.existsb _ (projects (db w))); [discriminate|].
    inversion Hs; subst row d'. clear Hs.
    exists o, n, c. eexists. split; [exact Ho|]. split; [exact Hn|].
    split; [exact Hc|]. cbn zeta. split; [exact E|].
    cbn. repeat split.
Qed.

(** [EventPublisher.publish]: the message is appended to the outbox and the
    publication is logged, or the send fails, the failure is logged and the
    error is thrown again. *)
Lemma publish_cases {D} (topic : string) (e : DomainEvent) (w : World D) :
  (exists w1, publish topic e w = (Throw BusError, w1) /\
              db w1 = db w /\ outbox w1 = outbox w /\
              logs w1 = (logs w ++ [mkLog LError "Failed to publish event"])%list) \/
  (exists w1, publish topic e w = (Return tt, w1) /\
              db w1 = db w /\
              outbox w1 = (outbox w ++ [mkSent topic (message_key e) e])%list /\
              logs w1 = (logs w ++ [mkLog LInfo "Event published"])%list).
Proof.
  destruct w as [d fs t g k l ob].
  destruct fs as [|[|] fs]; run.
  - right. eexists. split; [reflexivity|]. cbn. auto.
  - left. eexists. split; [reflexivity|]. cbn. auto.
  - right. eexists. split; [reflexivity|]. cbn. auto.
Qed.

(** [correlationId || getCorrelationId()] followed by [createEvent]. *)
Lemma event_made {D} (c : option string) (eventType : string) (data : Payload)
    (source : string) (userId organizationId : option string) (w : World D) :
  exists ev w1,
    bind (correlation c) (fun cid =>
      createEvent eventType "v1" data source cid userId organizationId) w
    = (Return ev, w1) /\
    ev_eventType ev = eventType /\ ev_eventVersion ev = "v1" /\
    ev_timestamp ev = now w /\ ev_source ev = source /\
    ev_userId ev = userId /\ ev_organizationId ev = organizationId /\
    ev_data ev = data /\
    (forall x, c = Some x -> String.eqb x "" = false -> ev_correlationId ev = x) /\
    db w1 = db w /\ logs w1 = logs w /\ outbox w1 = outbox w /\
    faults w1 = faults w.
Proof.
  destruct w as [d fs t g k l ob].
  destruct c as [x|]; [destruct (String.eqb x "") eqn:E|]; run; try rewrite E; run;
    do 2 eexists; (split; [reflexivity|]); cbn; repeat split;
    try (intros y Hy N; congruence).
Qed.

Lemma createProject_shape (input : CreateProjectInput) (c : option string) (w : W) :
  createProject input c w =
  bind
    (bind (getEntitlements (cpi_organizationId input)) (fun entitlements =>
       match entitlements with
       | Some e =>
           bind (ProjectRepository_countByOrganization (cpi_organizationId input))
                (fun currentCount =>
                   if limit_reached (ec_maxProjects e) currentCount
                   then throw (Error "Project limit reached for this organization")
                   else ret tt)
       | None => ret tt
       end))
    (fun _ =>
       bind (ProjectRepository_create input) (fun project =>
       bind (bind (correlation c) (fun cid =>
               createEvent "ProjectCreated" "v1"
                 (ProjectCreatedData (cpi_organizationId input) (p_id project)
                    (p_name project) (p_createdBy project) (p_createdAt project))
                 "workflow-service" cid
                 (Some (p_createdBy project)) (Some (cpi_organizationId input))))
            (fun event =>
               bind (publish "workflow.project.created" event) (fun _ =>
               ret project)))) w.
Proof.
  unfold createProject, bind.
  destruct (getEntitlements (cpi_organizationId input) w) as [[[e|]|x] w1];
    try reflexivity.
  - destruct (ProjectRepository_countByOrganization (cpi_organizationId input) w1)
      as [[n|x] w2]; try reflexivity.
    destruct (limit_reached (ec_maxProjects e) n); cbn [throw ret]; try reflexivity.
    destruct (ProjectRepository_create input w2) as [[p|x] w3]; try reflexivity.
    destruct (correlation c w3) as [[cid|x] w4]; reflexivity.
  - cbn [ret].
    destruct (ProjectRepository_create input w1) as [[p|x] w3]; try reflexivity.
    destruct (correlation c w3) as [[cid|x] w4]; reflexivity.
Qed.

Lemma pg_uuid_not_empty s o : pg_uuid s = Some o -> String.eqb s "" = false.
Proof. destruct s; [discriminate|reflexivity]. Qed.

Lemma message_key_organization (e : DomainEvent) (o : string) :
  ev_organizationId e = Some o -> String.eqb o "" = false -> message_key e = o.
Proof. intros H N. unfold message_key. rewrite H, N. reflexivity. Qed.

(** [createProject] ends in one of three ways. *)
Lemma createProject_outcomes (input : CreateProjectInput) (c : option string) (w : W) :
  (exists e w1, createProject input c w = (Throw e, w1) /\ e <> BusError /\
                unwritten w w1) \/
  (exists row w1 o,
     pg_uuid (cpi_organizationId input) = Some o /\
     (createProject input c w = (Throw BusError, w1) /\
      outbox w1 = outbox w /\
      logs w1 = (logs w ++ [mkLog LError "Failed to publish event"])%list
      \/
      exists ev,
        createProject input c w = (Return row, w1) /\
        outbox w1 = (outbox w ++ [mkSent "workflow.project.created"
                                    (cpi_organizationId input) ev])%list /\
        logs w1 = (logs w ++ [mkLog LInfo "Event published"])%list /\
        ev_eventType ev = "ProjectCreated" /\
        ev_source ev = "workflow-service" /\
        ev_data ev = ProjectCreatedData (cpi_organizationId input) (p_id row)
                       (p_name row) (p_createdBy row) (p_createdAt row)) /\
     db w1 = set_projects (projects (db w) ++ [row]) (db w) /\
     p_organizationId row = o /\ p_status row = Active /\
     pg_varchar 255 (cpi_name input) = Some (p_name row) /\
     pg_uuid (cpi_createdBy input) = Some (p_createdBy row) /\
     p_createdAt row = now w).
Proof.
  rewrite createProject_shape.
  destruct (project_limit_check (cpi_organizationId input) w) as [U Hnb].
  cbv zeta in U, Hnb.
  match type of U with
  | untouched _ (snd (?m w)) => destruct (m w) as [[[]|e] w1] eqn:Echeck
  end; cbn [fst snd] in U, Hnb.
  2:{ left. exists e, w1. rewrite (bind_fails _ _ _ _ _ Echeck).
      split; [reflexivity|]. split; [congruence|]. exact (untouched_unwritten _ _ U). }
  rewrite (bind_run _ _ _ _ _ Echeck).
  destruct (ProjectRepository_create_cases input w1)
    as [(w2 & E & W2)|(o & n & cb & w2 & Ho & Hn & Hc & E & Hd & Hl & Hob & Hnow)].
  { left. exists StoreError, w2. rewrite (bind_fails _ _ _ _ _ E).
    split; [reflexivity|]. split; [discriminate|].
    exact (unwritten_trans _ _ _ (untouched_unwritten _ _ U) W2). }
  cbv zeta in E, Hd.
  set (row := mkProject (uuids w1 (next w1)) o n (cpi_description input) Active cb
                        (now w1) (now w1) None) in *.
  rewrite (bind_run _ _ _ _ _ E).
  destruct (event_made c "ProjectCreated"
              (ProjectCreatedData (cpi_organizationId input) (p_id row)
                 (p_name row) (p_createdBy row) (p_createdAt row))
              "workflow-service" (Some (p_createdBy row))
              (Some (cpi_organizationId input)) w2)
    as (ev & w3 & Eev & Ety & _ & _ & Esrc & _ & Eorg & Edata & _ & Hd3 & Hl3 & Hob3 & _).
  rewrite (bind_run _ _ _ _ _ Eev).
  destruct U as (Ud & Unow & _ & _ & Ul & Uo).
  right. exists row.
  destruct (publish_cases "workflow.project.created" ev w3)
    as [(w4 & Ep & Hd4 & Hob4 & Hl4)|(w4 & Ep & Hd4 & Hob4 & Hl4)].
  - exists w4, o. split; [exact Ho|]. split.
    + left. rewrite (bind_fails _ _ _ _ _ Ep). split; [reflexivity|].
      split; congruence.
    + subst row. cbn [p_organizationId p_status p_name p_createdBy p_createdAt].
      repeat split; try assumption; congruence.
  - exists w4, o. split; [exact Ho|]. split.
    + right. exists ev. rewrite (bind_run _ _ _ _ _ Ep). split; [reflexivity|].
      rewrite (message_key_organization ev _ Eorg (pg_uuid_not_empty _ _ Ho)) in Hob4.
      repeat split; try assumption; congruence.
    + subst row. cbn [p_organizationId p_status p_name p_createdBy p_createdAt].
      repeat split; try assumption; congruence.
Qed.

(** X11.  The row and the event are two writes, and the first is not
    undone.  When [createProject] throws the error of the producer, the
    project row has been inserted and stays: the table holds the new active
    project although the caller gets an error and no [ProjectCreated] event
    was handed to the producer; the failure is logged.  Any other error of
    [createProject] leaves the tables, the log and the outbox as they were. *)
Theorem failed_publish_leaves_the_project_row
    (input : CreateProjectInput) (c : option string) (w : W) (e : Exn) :
  fst (createProject input c w) = Throw e ->
  let w1 := snd (createProject input c w) in
  (e = BusError ->
   exists row,
     db w1 = set_projects (projects (db w) ++ [row]) (db w) /\
     p_status row = Active /\
     pg_uuid (cpi_organizationId input) = Some (p_organizationId row) /\
     outbox w1 = outbox w /\
     logs w1 = (logs w ++ [mkLog LError "Failed to publish event"])%list) /\
  (e <> BusError -> unwritten w w1).
Proof.
  intros Hthrow w1. subst w1.
  destruct (createProject_outcomes input c w)
    as [(x & w1 & E & Hx & U)
       |(row & w1 & o & Ho & [(E & Hob & Hl)|(ev & E & _)] & Hd & Hro & Hst & _)];
    rewrite E in *; cbn [fst snd] in *.
  - inversion Hthrow; subst x. split; [congruence|]. intros _. exact U.
  - inversion Hthrow; subst e. split; [|congruence].
    intros _. exists row. rewrite Hro. auto.
  - discriminate.
Qed.

Lemma failed_publish_leaves_the_project_row_witness :
  let w := Sample.failing [false; false; false; true] Sample.workflow_T in
  let after := createProject (mkCreateProjectInput Sample.T "third" None Sample.U)
                 None w in
  fst after = Throw BusError /\
  List.map p_name (projects (db (snd after))) = ["roadmap"; "roadmap"; "third"] /\
  outbox (snd after) = [].
Proof.
  intros w after.
  destruct (failed_publish_leaves_the_project_row
              (mkCreateProjectInput Sample.T "third" None Sample.U) None w BusError
              eq_refl) as [Hbus _].
  destruct (Hbus eq_refl) as (row & Hd & _ & _ & Hob & _).
  split; [reflexivity|]. split; [reflexivity|]. exact Hob.
Defined.

(** X12.  A project that [createProject] returns has been inserted as a
    new active row for the organization of the input, and exactly one
    message has been handed to the producer for it: a [ProjectCreated] event
    of [workflow-service] on [workflow.project.created], keyed by the
    organization, whose data name the organization, the project, its name,
    its creator and its creation time. *)
Theorem created_project_is_stored_and_published_once
    (input : CreateProjectInput) (c : option string) (w w1 : W) (p : Project) :
  createProject input c w = (Return p, w1) ->
  db w1 = set_projects (projects (db w) ++ [p]) (db w) /\
  p_status p = Active /\
  pg_uuid (cpi_organizationId input) = Some (p_organizationId p) /\
  pg_uuid (cpi_createdBy input) = Some (p_createdBy p) /\
  exists ev,
    outbox w1 = (outbox w ++ [mkSent "workflow.project.created"
                                (cpi_organizationId input) ev])%list /\
    ev_eventType ev = "ProjectCreated" /\
    ev_source ev = "workflow-service" /\
    ev_data ev = ProjectCreatedData (cpi_organizationId input) (p_id p) (p_name p)
                   (p_createdBy p) (p_createdAt p).
Proof.
  intros Hrun.
  destruct (createProject_outcomes input c w)
    as [(x & w2 & E & _)
       |(row & w2 & o & Ho & [(E & _)|(ev & E & Hob & _ & Ety & Esrc & Edata)]
         & Hd & Hro & Hst & _ & Hcb & _)];
    rewrite E in Hrun; inversion Hrun; subst.
  rewrite Ho. repeat split; try assumption.
  exists ev. auto.
Qed.

Lemma created_project_is_stored_and_published_once_witness :
  exists p w1 ev,
    createProject (mkCreateProjectInput Sample.T "third" None Sample.U)
      (Some Sample.K1) Sample.workflow_T = (Return p, w1) /\
    List.map p_name (projects (db w1)) = ["roadmap"; "roadmap"; "third"] /\
    outbox w1 = [mkSent "workflow.project.created" Sample.T ev] /\
    ev_eventType ev = "ProjectCreated".
Proof.
  destruct (createProject (mkCreateProjectInput Sample.T "third" None Sample.U)
              (Some Sample.K1) Sample.workflow_T) as [[p|e] w1] eqn:E;
    [|vm_compute in E; discriminate].
  destruct (created_project_is_stored_and_published_once _ _ _ _ _ E)
    as (Hd & _ & _ & _ & ev & Hob & Hty & _).
  exists p, w1, ev. split; [reflexivity|]. split; [|split; assumption].
  rewrite Hd. vm_compute in E. inversion E. reflexivity.
Defined.

(** The row that [createProject] returns, read off the input. *)
Lemma created_project_ids
    (input : CreateProjectInput) (c : option string) (w w1 : W) (p : Project) :
  createProject input c w = (Return p, w1) ->
  pg_uuid (cpi_organizationId input) = Some (p_organizationId p) /\
  pg_uuid (cpi_createdBy input) = Some (p_createdBy p).
Proof.
  intros Hrun.
  destruct (createProject_outcomes input c w)
    as [(x & w2 & E & _)
       |(row & w2 & o & Ho & [(E & _)|(ev & E & _)] & _ & Hro & _ & _ & Hcb & _)];
    rewrite E in Hrun; inversion Hrun; subst.
  split; [exact Ho|exact Hcb].
Qed.

End LimitFacts.

(** ** workflow-service: tasks and the projects they belong to *)

Module TaskFacts.

Import Workflow WorkflowFacts RouteFacts CacheFacts LimitFacts ConsumerFacts Events.

Lemma createTask_shape (input : CreateTaskInput) (c : option string) (w : W) :
  createTask input c w =
  bind
    (bind (ProjectRepository_findById (cti_projectId input)) (fun project =>
       match project with
       | None => throw (Error "Project not found")
       | Some p =>
           if negb (String.eqb (p_organizationId p) (cti_organizationId input))
           then throw (Error "Project does not belong to this organization")
           else ret tt
       end))
    (fun _ =>
       bind
         (bind (getEntitlements (cti_organizationId input)) (fun entitlements =>
            match entitlements with
            | Some e =>
                bind (TaskRepository_countByOrganization (cti_organizationId input))
                     (fun currentCount =>
                        if limit_reached (ec_maxTasks e) currentCount
                        then throw (Error "Task limit reached for this organization")
                        else ret tt)
            | None => ret tt
            end))
         (fun _ =>
            bind (TaskRepository_create input) (fun task =>
            bind (bind (correlation c) (fun cid =>
                    createEvent "TaskCreated" "v1"
                      (TaskCreatedData (cti_organizationId input) (cti_projectId input)
                         (t_id task) (t_title task) (t_createdBy task)
                         (t_createdAt task))
                      "workflow-service" cid
                      (Some (t_createdBy task)) (Some (cti_organizationId input))))
                 (fun event =>
                    bind (publish "workflow.task.created" event) (fun _ =>
                    ret task))))) w.
Proof.
  unfold createTask, bind.
  destruct (ProjectRepository_findById (cti_projectId input) w) as [[[p|]|x] w1];
    try reflexivity.
  destruct (negb (String.eqb (p_organizationId p) (cti_organizationId input)));
    cbn [throw ret]; try reflexivity.
  destruct (getEntitlements (cti_organizationId input) w1) as [[[e|]|x] w2];
    try reflexivity.
  - destruct (TaskRepository_countByOrganization (cti_organizationId input) w2)
      as [[n|x] w3]; try reflexivity.
    destruct (limit_reached (ec_maxTasks e) n); cbn [throw ret]; try reflexivity.
    destruct (TaskRepository_create input w3) as [[t|x] w4]; try reflexivity.
    destruct (correlation c w4) as [[cid|x] w5]; reflexivity.
  - cbn [ret].
    destruct (TaskRepository_create input w2) as [[t|x] w4]; try reflexivity.
    destruct (correlation c w4) as [[cid|x] w5]; reflexivity.
Qed.

(** The first step of [createTask]: the project is looked up, and the
    organization of the input is compared with the project's. *)
Lemma project_guard (input : CreateTaskInput) (w : W) :
  let guard :=
    bind (ProjectRepository_findById (cti_projectId input)) (fun project =>
      match project with
      | None => throw (Error "Project not found")
      | Some p =>
          if negb (String.eqb (p_organizationId p) (cti_organizationId input))
          then throw (Error "Project does not belong to this organization")
          else ret tt
      end) in
  untouched w (snd (guard w)) /\
  fst (guard w) <> Throw BusError /\
  (fst (guard w) = Return tt ->
   exists i proj,
     pg_uuid (cti_projectId input) = Some i /\
     In proj (projects (db w)) /\ p_id proj = i /\
     p_status proj <> Deleted /\
     p_organizationId proj = cti_organizationId input).
Proof.
  intros guard. subst guard.
  destruct (findProject_cases (cti_projectId input) w)
    as [(w1 & E & U)|(i & Hi & Hf & E)].
  { rewrite (bind_fails _ _ _ _ _ E). cbn [fst snd].
    split; [exact U|]. split; discriminate. }
  rewrite (bind_run _ _ _ _ _ E).
  destruct (List.find _ (projects (db w))) as [proj|] eqn:F.
  2:{ cbn [fst snd throw]. split; [apply untouched_faults|]. split; discriminate. }
  apply List.find_some in F. destruct F as [Hin Hk].
  apply andb_true_iff in Hk. destruct Hk as [Hid Hnd].
  unfold has_project_id in Hid. apply String.eqb_eq in Hid.
  destruct (String.eqb (p_organizationId proj) (cti_organizationId input)) eqn:Eo;
    cbn [negb fst snd throw ret].
  - split; [apply untouched_faults|]. split; [discriminate|]. intros _.
    exists i, proj. apply String.eqb_eq in Eo. repeat split; try assumption.
    intros D. rewrite D in Hnd. discriminate.
  - split; [apply untouched_faults|]. split; discriminate.
Qed.

Lemma task_limit_check (organizationId : string) (w : W) :
  let check :=
    bind (getEntitlements organizationId) (fun entitlements =>
      match entitlements with
      | Some e =>
          bind (TaskRepository_countByOrganization organizationId)
               (fun currentCount =>
                  if limit_reached (ec_maxTasks e) currentCount
                  then throw (Error "Task limit reached for this organization")
                  else ret tt)
      | None => ret tt
      end) in
  untouched w (snd (check w)) /\
  fst (check w) <> Throw BusError.
Proof.
  intros check. subst check.
  destruct (getEntitlements_cases organizationId w)
    as [(w1 & E & U)|(o1 & Ho1 & Hf & E)].
  { rewrite (bind_fails _ _ _ _ _ E). split; [exact U|discriminate]. }
  rewrite (bind_run _ _ _ _ _ E).
  destruct (List.find (entitlements_key o1) (entitlements_cache (db w))) as [row|].
  2:{ split; [apply untouched_faults|discriminate]. }
  destruct (countTasks_cases organizationId (set_faults (tl (faults w)) w))
    as [(w2 & E2 & U2)|(o2 & Ho2 & Hf2 & E2)].
  { rewrite (bind_fails _ _ _ _ _ E2). split; [|discriminate].
    exact (untouched_trans _ _ _ (untouched_faults _ w) U2). }
  rewrite (bind_run _ _ _ _ _ E2).
  destruct (limit_reached (ec_maxTasks row) _); cbn [fst snd throw ret];
    (split; [|discriminate]);
    exact (untouched_trans _ _ _ (untouched_faults _ w) (untouched_faults _ _)).
Qed.

Lemma TaskRepository_create_cases (input : CreateTaskInput) (w : W) :
  (exists w1, TaskRepository_create input w = (Throw StoreError, w1) /\
              unwritten w w1) \/
  (exists o p n c w1,
     pg_uuid (cti_organizationId input) = Some o /\
     pg_uuid (cti_projectId input) = Some p /\
     pg_varchar 255 (cti_title input) = Some n /\
     pg_uuid (cti_createdBy input) = Some c /\
     let row := mkTask (uuids w (next w)) o p n (cti_description input) Todo None c
                       (now w) (now w) None in
     TaskRepository_create input w = (Return row, w1) /\
     db w1 = set_tasks (tasks (db w) ++ [row]) (db w) /\
     logs w1 = logs w /\ outbox w1 = outbox w /\ now w1 = now w).
Proof.
  unfold TaskRepository_create. unfold bind at 1. unfold randomUUID at 1.
  match goal with
  | |- context [pool_query ?s ?w1] => destruct (pool_query_cases s w1)
      as [(w2 & E & U)|(row & d' & Hs & Hf & E)]
  end.
  - left. exists w2. split; [exact E|].
    destruct U as (Ud & _ & _ & _ & Ul & Uo). cbn in Ud, Ul, Uo.
    unfold unwritten. auto.
  - right. cbn [db now] in Hs.
    apply obind_some in Hs. destruct Hs as (o & Ho & Hs).
    apply obind_some in Hs. destruct Hs as (p & Hp & Hs).
    apply obind_some in Hs. destruct Hs as (n & Hn & Hs).
    apply obind_some in Hs. destruct Hs as (ds & Hds & Hs).
    apply pg_text_param_opt_some in Hds. subst ds.
    apply obind_some in Hs. destruct Hs as (c & Hc & Hs).
    destruct (List.existsb _ (tasks (db w)) || _); [discriminate|].
    inversion Hs; subst row d'. clear Hs.
    exists o, p, n, c. eexists. split; [exact Ho|]. split; [exact Hp|].
    split; [exact Hn|]. split; [exact Hc|]. cbn zeta. split; [exact E|].
    cbn. repeat split.
Qed.

(** What [createTask] can do to the tables: nothing, or one new task in a
    project that the lookup found for the organization of the input. *)
Lemma createTask_writes (input : CreateTaskInput) (c : option string) (w : W) :
  let after := createTask input c w in
  (db (snd after) = db w /\ forall t, fst after <> Return t) \/
  (exists row proj,
     db (snd after) = set_tasks (tasks (db w) ++ [row]) (db w) /\
     (fst after = Return row \/ fst after = Throw BusError) /\
     In proj (projects (db w)) /\
     p_status proj <> Deleted /\
     p_id proj = t_projectId row /\
     p_organizationId proj = cti_organizationId input /\
     pg_uuid (cti_organizationId input) = Some (t_organizationId row) /\
     t_status row = Todo).
Proof.
  intros after. subst after. rewrite createTask_shape.
  destruct (project_guard input w) as (U & Hnb & Hfound). cbv zeta in U, Hnb, Hfound.
  match type of U with
  | untouched _ (snd (?m w)) => destruct (m w) as [[[]|e] w1] eqn:Eg
  end; cbn [fst snd] in U, Hnb, Hfound.
  2:{ left. rewrite (bind_fails _ _ _ _ _ Eg). cbn [fst snd].
      split; [apply U|discriminate]. }
  destruct (Hfound eq_refl) as (i & proj & Hi & Hin & Hid & Hnd & Horg).
  rewrite (bind_run _ _ _ _ _ Eg).
  destruct (task_limit_check (cti_organizationId input) w1) as [U1 Hnb1].
  cbv zeta in U1, Hnb1.
  match type of U1 with
  | untouched _ (snd (?m w1)) => destruct (m w1) as [[[]|e] w2] eqn:Ec
  end; cbn [fst snd] in U1, Hnb1.
  2:{ left. rewrite (bind_fails _ _ _ _ _ Ec). cbn [fst snd].
      split; [|discriminate]. destruct U as [Ud _]. destruct U1 as [Ud1 _].
      congruence. }
  rewrite (bind_run _ _ _ _ _ Ec).
  assert (Hdb2 : db w2 = db w).
  { destruct U as [Ud _]. destruct U1 as [Ud1 _]. congruence. }
  destruct (TaskRepository_create_cases input w2)
    as [(w3 & E & W3)
       |(o & p & n & cb & w3 & Ho & Hp & Hn & Hc & E & Hd & Hl & Hob & Hnow)].
  { left. rewrite (bind_fails _ _ _ _ _ E). cbn [fst snd].
    split; [|discriminate]. destruct W3 as [Wd _]. congruence. }
  cbv zeta in E, Hd.
  set (row := mkTask (uuids w2 (next w2)) o p n (cti_description input) Todo None cb
                     (now w2) (now w2) None) in *.
  rewrite (bind_run _ _ _ _ _ E).
  destruct (event_made c "TaskCreated"
              (TaskCreatedData (cti_organizationId input) (cti_projectId input)
                 (t_id row) (t_title row) (t_createdBy row) (t_createdAt row))
              "workflow-service" (Some (t_createdBy row))
              (Some (cti_organizationId input)) w3)
    as (ev & w4 & Eev & _ & _ & _ & _ & _ & _ & _ & _ & Hd4 & _).
  rewrite (bind_run _ _ _ _ _ Eev).
  right. exists row, proj.
  assert (Hrow : p_id proj = t_projectId row /\
                 pg_uuid (cti_organizationId input) = Some (t_organizationId row)).
  { subst row. cbn [t_projectId t_organizationId]. split; [congruence|exact Ho]. }
  destruct Hrow as [Hrp Hro].
  destruct (publish_cases "workflow.task.created" ev w4)
    as [(w5 & Ep & Hd5 & _)|(w5 & Ep & Hd5 & _)].
  - rewrite (bind_fails _ _ _ _ _ Ep). cbn [fst snd].
    split; [rewrite Hd5, Hd4, Hd, Hdb2; reflexivity|].
    split; [right; reflexivity|]. repeat split; assumption.
  - rewrite (bind_run _ _ _ _ _ Ep). cbn [fst snd ret].
    split; [rewrite Hd5, Hd4, Hd, Hdb2; reflexivity|].
    split; [left; reflexivity|]. repeat split; assumption.
Qed.

(** *** The invariant *)

Lemma invariant_kept_refl d : invariant_kept d d.
Proof. intros H. exact H. Qed.

Lemma invariant_kept_trans a b c :
  invariant_kept a b -> invariant_kept b c -> invariant_kept a c.
Proof. unfold invariant_kept. auto. Qed.

Lemma same_owners_task_in_project d d' t :
  List.map project_owner (projects d') = List.map project_owner (projects d) ->
  task_in_project d t -> task_in_project d' t.
Proof.
  intros Hm (p & Hin & Hid & Ho).
  assert (Hpo : In (project_owner p) (List.map project_owner (projects d'))).
  { rewrite Hm. apply List.in_map. exact Hin. }
  apply in_map_iff in Hpo. destruct Hpo as (q & Eq & Hq).
  exists q. unfold project_owner in Eq. inversion Eq.
  repeat split; [exact Hq|congruence|congruence].
Qed.

Lemma same_owners_stored d d' :
  List.map project_owner (projects d') = List.map project_owner (projects d) ->
  stored_organizations d -> stored_organizations d'.
Proof.
  unfold stored_organizations. rewrite !List.Forall_forall. intros Hm H q Hq.
  assert (Hpo : In (project_owner q) (List.map project_owner (projects d))).
  { rewrite <- Hm. apply List.in_map. exact Hq. }
  apply in_map_iff in Hpo. destruct Hpo as (p & Ep & Hp).
  pose proof (H p Hp) as Hs. cbv beta in Hs.
  unfold project_owner in Ep. inversion Ep. congruence.
Qed.

(** A step that leaves the tasks, and the ids and organizations of the
    projects, keeps the invariant. *)
Lemma same_owners_kept d d' : same_owners d d' -> invariant_kept d d'.
Proof.
  intros [Ht Hm] [Hin Hst]. split.
  - intros t Hi. rewrite Ht in Hi.
    exact (same_owners_task_in_project d d' t Hm (Hin t Hi)).
  - exact (same_owners_stored d d' Hm Hst).
Qed.

Lemma same_tables_kept d d' :
  tasks d' = tasks d -> projects d' = projects d -> invariant_kept d d'.
Proof.
  intros Ht Hp. apply same_owners_kept. split; [exact Ht|]. rewrite Hp. reflexivity.
Qed.

Lemma archive_row_owner i t p : project_owner (archive_row i t p) = project_owner p.
Proof. unfold archive_row. destruct (has_project_id i p); reflexivity. Qed.

Lemma map_owner_archive_row i t ps :
  List.map project_owner (List.map (archive_row i t) ps) = List.map project_owner ps.
Proof.
  induction ps as [|p rest IH]; cbn [List.map]; [reflexivity|].
  rewrite archive_row_owner, IH. reflexivity.
Qed.

(** A new project keeps the invariant when its organization is in stored
    form. *)
Lemma new_project_kept d row :
  pg_uuid (p_organizationId row) = Some (p_organizationId row) ->
  invariant_kept d (set_projects (projects d ++ [row]) d).
Proof.
  intros Hrow [Hin Hst]. split.
  - intros t Hi. cbn [tasks set_projects] in Hi.
    destruct (Hin t Hi) as (p & Hp & Hid & Ho).
    exists p. cbn [projects set_projects]. rewrite in_app_iff. auto.
  - unfold stored_organizations in *. cbn [projects set_projects].
    apply List.Forall_app. split; [exact Hst|]. constructor; [exact Hrow|constructor].
Qed.

Lemma update_row_owner i title description status assignedTo now t :
  t_projectId (update_row i title description status assignedTo now t) = t_projectId t /\
  t_organizationId (update_row i title description status assignedTo now t)
  = t_organizationId t /\
  t_id (update_row i title description status assignedTo now t) = t_id t.
Proof. unfold update_row. destruct (has_task_id i t); cbn; auto. Qed.

(** An update of a task keeps the invariant. *)
Lemma updated_tasks_kept d i title description status assignedTo now :
  invariant_kept d
    (set_tasks (List.map (update_row i title description status assignedTo now)
                         (tasks d)) d).
Proof.
  intros [Hin Hst]. split; [|exact Hst].
  intros t' Hi. cbn [tasks set_tasks] in Hi.
  apply in_map_iff in Hi. destruct Hi as (t & Et & Ht).
  destruct (update_row_owner i title description status assignedTo now t)
    as (Ep & Eo & _).
  destruct (Hin t Ht) as (p & Hp & Hid & Ho).
  exists p. cbn [projects set_tasks]. subst t'. rewrite Ep, Eo. auto.
Qed.

(** A computation that leaves the tables alone keeps any reflexive
    relation on them. *)
Lemma keeps_same_db {A} (R : Db -> Db -> Prop) (m : M Db A) :
  (forall d, R d d) -> (forall w, db (snd (m w)) = db w) -> keeps (on_db R) m.
Proof. intros Hr H w. unfold on_db. rewrite H. apply Hr. Qed.

Lemma correlation_same_db {D} (c : option string) (w : World D) :
  db (snd (correlation c w)) = db w.
Proof.
  destruct (correlation_run c w) as (cid & w1 & E & Hd & _). rewrite E. exact Hd.
Qed.

Lemma createEvent_same_db {D} eventType eventVersion data source cid userId
    organizationId (w : World D) :
  db (snd (createEvent eventType eventVersion data source cid userId organizationId w))
  = db w.
Proof. reflexivity. Qed.

Lemma publish_same_db {D} (topic : string) (e : DomainEvent) (w : World D) :
  db (snd (publish topic e w)) = db w.
Proof.
  destruct (publish_cases topic e w) as [(w1 & E & Hd & _)|(w1 & E & Hd & _)];
    rewrite E; exact Hd.
Qed.

Lemma randomUUID_same_db {D} (w : World D) : db (snd (randomUUID w)) = db w.
Proof. reflexivity. Qed.

(** [createTask] keeps the invariant: the new task is in a project of the
    organization it is created for. *)
Lemma createTask_keeps (input : CreateTaskInput) (c : option string) :
  keeps (on_db invariant_kept) (createTask input c).
Proof.
  intros w. unfold on_db.
  destruct (createTask_writes input c w)
    as [[Hd _]|(row & proj & Hd & _ & Hin & _ & Hid & Ho & Hrow & _)];
    cbv zeta in Hd; rewrite Hd; [apply invariant_kept_refl|].
  intros [Hinv Hst]. split; [|exact Hst].
  intros t Hi. cbn [tasks set_tasks] in Hi. apply in_app_iff in Hi.
  destruct Hi as [Hi|[<-|[]]].
  - destruct (Hinv t Hi) as (p & Hp & Ep & Eo). exists p. auto.
  - exists proj. cbn [projects set_tasks]. split; [exact Hin|]. split; [exact Hid|].
    unfold stored_organizations in Hst. rewrite List.Forall_forall in Hst.
    pose proof (Hst proj Hin) as Hs. rewrite Ho in Hs. congruence.
Qed.

(** Walks a computation down to its statements, for the invariant. *)
Ltac invariant_frame_with known read :=
  repeat first
    [ known
    | apply createTask_keeps
    | apply log_on_db; exact invariant_kept_refl
    | apply keeps_ret; exact (on_db_refl _ invariant_kept_refl)
    | apply keeps_throw; exact (on_db_refl _ invariant_kept_refl)
    | apply keeps_parse; exact (on_db_refl _ invariant_kept_refl)
    | apply keeps_new_Date; exact (on_db_refl _ invariant_kept_refl)
    | apply keeps_same_db; [exact invariant_kept_refl|apply correlation_same_db]
    | apply keeps_same_db; [exact invariant_kept_refl|apply createEvent_same_db]
    | apply keeps_same_db; [exact invariant_kept_refl|apply publish_same_db]
    | apply keeps_same_db; [exact invariant_kept_refl|apply randomUUID_same_db]
    | apply keeps_try_catch; [exact (on_db_trans _ invariant_kept_trans)| |intros ?]
    | apply keeps_for_of;
        [exact (on_db_refl _ invariant_kept_refl)
        |exact (on_db_trans _ invariant_kept_trans)|intros ?]
    | apply keeps_bind; [exact (on_db_trans _ invariant_kept_trans)| |intros ?]
    | apply keeps_if
    | apply pool_query_on_db; [exact invariant_kept_refl|read]
    | match goal with
      | |- keeps _ (match ?x with _ => _ end) => destruct x
      end ].

Ltac invariant_frame := invariant_frame_with fail ltac:(idtac; statement).

Lemma createProject_keeps (input : CreateProjectInput) (c : option string) :
  keeps (on_db invariant_kept) (createProject input c).
Proof.
  unfold createProject, getEntitlements, ProjectRepository_countByOrganization,
    ProjectRepository_create.
  invariant_frame_with fail fail; try apply invariant_kept_refl.
  - apply pool_query_on_db; [exact invariant_kept_refl|statement].
    apply invariant_kept_refl.
  - apply pool_query_on_db; [exact invariant_kept_refl|statement].
    apply invariant_kept_refl.
  - apply pool_query_on_db; [exact invariant_kept_refl|].
    intros d t row d'. unfold obind.
    destruct (pg_uuid (cpi_organizationId input)) as [o|] eqn:Eo; [|discriminate].
    destruct (pg_varchar 255 (cpi_name input)); [|discriminate].
    destruct (pg_text_param_opt (cpi_description input)); [|discriminate].
    destruct (pg_uuid (cpi_createdBy input)); [|discriminate].
    destruct (List.existsb _ (projects d)); [discriminate|].
    intros H. inversion H; subst. apply new_project_kept. cbn [p_organizationId].
    exact (StoredForm.pg_uuid_stored _ _ Eo).
Qed.

Lemma update_keeps (id : string) (input : UpdateTaskInput) :
  keeps (on_db invariant_kept) (TaskRepository_update id input).
Proof.
  unfold TaskRepository_update.
  invariant_frame. apply updated_tasks_kept.
Qed.

Lemma archive_keeps (id : string) :
  keeps (on_db invariant_kept) (ProjectRepository_archive id).
Proof.
  unfold ProjectRepository_archive.
  invariant_frame. apply same_owners_kept. split; [reflexivity|].
  cbn [projects set_projects]. apply map_owner_archive_row.
Qed.

Lemma eachMessage_keeps (m : Message) :
  keeps (on_db invariant_kept) (eachMessage m).
Proof.
  unfold eachMessage, handleMemberAdded, handleMemberRemoved, handleRoleChanged,
    handleEntitlementsUpdated, handleOrganizationDeleted,
    upsertMembership, deleteMembership, upsertEntitlements, deleteEntitlements,
    ProjectRepository_findByOrganization, ProjectRepository_archive,
    logger_info, logger_error, JSON_parse.
  invariant_frame;
    try (apply same_tables_kept; reflexivity).
  apply same_owners_kept. split; [reflexivity|].
  cbn [projects set_projects]. apply map_owner_archive_row.
Qed.

Lemma route_keeps (handler : AuthenticatedRequest -> M Db Response) (r : Request) :
  (forall a, keeps (on_db invariant_kept) (handler a)) ->
  keeps (on_db invariant_kept) (route handler r).
Proof.
  intros Hh. unfold route, createAuthMiddleware, verifyMembership, getMembership.
  invariant_frame; try apply invariant_kept_refl; apply Hh.
Qed.

Lemma post_projects_keeps (a : AuthenticatedRequest) :
  keeps (on_db invariant_kept) (post_projects a).
Proof.
  unfold post_projects, request_correlation.
  invariant_frame_with ltac:(idtac; apply createProject_keeps) fail.
Qed.

Lemma post_tasks_keeps (a : AuthenticatedRequest) :
  keeps (on_db invariant_kept) (post_tasks a).
Proof.
  unfold post_tasks, request_correlation.
  invariant_frame.
Qed.

(** X13.  Tasks never leave their organization.  In every world that
    workflow-service reaches from empty [projects] and [tasks] tables -
    through calls of [createProject], [createTask], [TaskRepository.update]
    and [ProjectRepository.archive], requests to [POST /projects] and
    [POST /tasks], and messages delivered to its consumer, with the store and
    the bus failing whenever they like - every task belongs to a project in
    the table whose organization is the task's own, and the organizations of
    the projects are stored UUIDs. *)
Theorem tasks_stay_within_their_organization (w : W) :
  reachable w -> workflow_invariant (db w).
Proof.
  intros H. induction H as [w Hp Ht|w w' _ IH Hd|w op _ IH].
  - split.
    + intros t Hi. rewrite Ht in Hi. destruct Hi.
    + unfold stored_organizations. rewrite Hp. constructor.
  - rewrite Hd. exact IH.
  - revert IH. change (on_db invariant_kept w (perform op w)).
    destruct op as [input c|input c|id input|id|r|r|m]; cbn [perform].
    + apply createProject_keeps.
    + apply createTask_keeps.
    + apply update_keeps.
    + apply archive_keeps.
    + apply route_keeps. exact post_projects_keeps.
    + apply route_keeps. exact post_tasks_keeps.
    + apply eachMessage_keeps.
Qed.

Lemma tasks_stay_within_their_organization_witness :
  let w :=
    perform (PostTasks Sample.post_with_body)
      (perform (Consume Sample.organization_deleted)
         (perform (CreateTask
                     (mkCreateTaskInput Sample.T (Sample.generated 0) "write" None
                        Sample.U) None)
            (perform (CreateProject
                        (mkCreateProjectInput Sample.T "roadmap" None Sample.U) None)
               Sample.workflow_empty))) in
  List.length (tasks (db w)) = 1%nat /\ workflow_invariant (db w).
Proof.
  intros w. split; [reflexivity|].
  apply (tasks_stay_within_their_organization w).
  do 4 apply reachable_step. apply reachable_start; reflexivity.
Defined.

Lemma ProjectRepository_findById_available (id i : string) (w : W) :
  pg_uuid id = Some i -> hd false (faults w) = false ->
  ProjectRepository_findById id w =
    (Return (List.find
               (fun p => has_project_id i p
                         && negb (project_status_eqb (p_status p) Deleted))
               (projects (db w))),
     set_faults (tl (faults w)) w).
Proof.
  intros Hi Hf. unfold ProjectRepository_findById.
  rewrite pool_query_available by exact Hf.
  unfold obind. rewrite Hi. destruct w; reflexivity.
Qed.

(** X14.  [createTask] asks for a project of the organization it is called
    for.  The store answering the lookup, a project id that no row has, or
    only a row marked deleted, gives "Project not found"; a project whose
    organization is not, as text, the organization of the input gives
    "Project does not belong to this organization" - also when the input
    spells the project's own organization differently, in upper case for
    instance.  In both cases nothing but the lookup has happened. *)
Theorem task_needs_a_project_of_its_organization
    (input : CreateTaskInput) (c : option string) (w : W) (i : string) :
  pg_uuid (cti_projectId input) = Some i ->
  hd false (faults w) = false ->
  let found :=
    List.find (fun p => has_project_id i p
                        && negb (project_status_eqb (p_status p) Deleted))
              (projects (db w)) in
  (found = None ->
   createTask input c w =
     (Throw (Error "Project not found"), set_faults (tl (faults w)) w)) /\
  (forall p, found = Some p ->
     p_organizationId p <> cti_organizationId input ->
     createTask input c w =
       (Throw (Error "Project does not belong to this organization"),
        set_faults (tl (faults w)) w)).
Proof.
  intros Hi Hf found. subst found. split.
  - intros Hnone. unfold createTask.
    rewrite (bind_run _ _ _ _ _ (ProjectRepository_findById_available _ i w Hi Hf)).
    rewrite Hnone. reflexivity.
  - intros p Hsome Hne. unfold createTask.
    rewrite (bind_run _ _ _ _ _ (ProjectRepository_findById_available _ i w Hi Hf)).
    rewrite Hsome.
    destruct (String.eqb (p_organizationId p) (cti_organizationId input)) eqn:E.
    + apply String.eqb_eq in E. contradiction.
    + reflexivity.
Qed.

Lemma task_needs_a_project_of_its_organization_witness :
  fst (createTask (mkCreateTaskInput Sample.T Sample.E1 "write" None Sample.U) None
         Sample.workflow_T) = Throw (Error "Project not found") /\
  fst (createTask (mkCreateTaskInput Sample.V Sample.P1 "write" None Sample.U) None
         Sample.workflow_T) =
    Throw (Error "Project does not belong to this organization") /\
  fst (createTask
         (mkCreateTaskInput "{11111111-1111-4111-8111-111111111111}" Sample.P1
            "write" None Sample.U) None Sample.workflow_T) =
    Throw (Error "Project does not belong to this organization").
Proof.
  split; [|split].
  - destruct (task_needs_a_project_of_its_organization
                (mkCreateTaskInput Sample.T Sample.E1 "write" None Sample.U) None
                Sample.workflow_T Sample.E1 eq_refl eq_refl) as [Hnone _].
    rewrite (Hnone eq_refl). reflexivity.
  - destruct (task_needs_a_project_of_its_organization
                (mkCreateTaskInput Sample.V Sample.P1 "write" None Sample.U) None
                Sample.workflow_T Sample.P1 eq_refl eq_refl) as [_ Hother].
    rewrite (Hother (Sample.project Sample.P1 10) eq_refl); [reflexivity|].
    discriminate.
  - destruct (task_needs_a_project_of_its_organization
                (mkCreateTaskInput "{11111111-1111-4111-8111-111111111111}" Sample.P1
                   "write" None Sample.U) None
                Sample.workflow_T Sample.P1 eq_refl eq_refl) as [_ Hother].
    rewrite (Hother (Sample.project Sample.P1 10) eq_refl); [reflexivity|].
    discriminate.
Defined.

(** *** TaskRepository.update *)

Lemma find_map_update_row i title description status assignedTo now ts :
  List.find (has_task_id i)
            (List.map (update_row i title description status assignedTo now) ts)
  = option_map (update_row i title description status assignedTo now)
               (List.find (has_task_id i) ts).
Proof.
  induction ts as [|t rest IH]; cbn [List.map List.find option_map]; [reflexivity|].
  destruct (update_row_owner i title description status assignedTo now t)
    as (_ & _ & Eid).
  unfold has_task_id at 1. rewrite Eid. fold (has_task_id i t).
  destruct (has_task_id i t); [reflexivity|exact IH].
Qed.

Lemma map_update_row_absent i title description status assignedTo now ts :
  List.find (has_task_id i) ts = None ->
  List.map (update_row i title description status assignedTo now) ts = ts.
Proof.
  induction ts as [|t rest IH]; cbn [List.map List.find]; [reflexivity|].
  destruct (has_task_id i t) eqn:K; [discriminate|].
  intros H. unfold update_row at 1. rewrite K. f_equal. exact (IH H).
Qed.

Lemma TaskRepository_update_statement (id : string) (input : UpdateTaskInput)
    (w w1 : W) (found : option Task) :
  pool_query (fun d t =>
      obind (pg_varchar_opt 255 (uti_title input)) (fun title =>
      obind (pg_text_param_opt (uti_description input)) (fun description =>
      obind (pg_uuid_opt (uti_assignedTo input)) (fun assignedTo =>
      obind (pg_uuid id) (fun i =>
      let ts := List.map (update_row i title description
                            (uti_status input) assignedTo t) (tasks d) in
      Some (List.find (has_task_id i) ts, set_tasks ts d)))))) w
  = (Return found, w1) ->
  exists title assignedTo i,
    pg_varchar_opt 255 (uti_title input) = Some title /\
    pg_uuid_opt (uti_assignedTo input) = Some assignedTo /\
    pg_uuid id = Some i /\
    found = option_map (update_row i title (uti_description input) (uti_status input)
                          assignedTo (now w))
                       (List.find (has_task_id i) (tasks (db w))) /\
    db w1 = set_tasks (List.map (update_row i title (uti_description input)
                                   (uti_status input) assignedTo (now w))
                                (tasks (db w))) (db w).
Proof.
  intros H. apply pool_query_returns in H. destruct H as (d' & Hs & _ & ->).
  apply obind_some in Hs. destruct Hs as (title & Ht & Hs).
  apply obind_some in Hs. destruct Hs as (description & Hds & Hs).
  apply pg_text_param_opt_some in Hds. subst description.
  apply obind_some in Hs. destruct Hs as (assignedTo & Ha & Hs).
  apply obind_some in Hs. destruct Hs as (i & Hi & Hs).
  cbv zeta in Hs. inversion Hs; subst found d'. clear Hs.
  exists title, assignedTo, i. rewrite find_map_update_row. repeat split; assumption.
Qed.

(** X15.  What [TaskRepository.update] does to the task it returns.  The
    task is the row that had the id; its id, organization, project, creator
    and creation time are as before and [updatedAt] is the time of the
    statement.  A field that the input leaves [undefined] keeps its value; a
    title, description or assignee that is given is stored.  A status that is
    given is stored, and [completedAt] becomes the time of the statement for
    ['done'] and is cleared for any other status, so reopening a task loses
    its completion time.  A later lookup by the same id finds the returned
    task. *)
Theorem update_stores_what_the_input_defines
    (id : string) (input : UpdateTaskInput) (w w1 : W) (t' : Task) :
  TaskRepository_update id input w = (Return t', w1) ->
  exists i t,
    pg_uuid id = Some i /\
    List.find (has_task_id i) (tasks (db w)) = Some t /\
    List.find (has_task_id i) (tasks (db w1)) = Some t' /\
    t_id t' = t_id t /\ t_organizationId t' = t_organizationId t /\
    t_projectId t' = t_projectId t /\ t_createdBy t' = t_createdBy t /\
    t_createdAt t' = t_createdAt t /\ t_updatedAt t' = now w /\
    match uti_title input with
    | Some n => pg_varchar 255 n = Some (t_title t')
    | None => t_title t' = t_title t
    end /\
    match uti_description input with
    | Some s => t_description t' = Some s
    | None => t_description t' = t_description t
    end /\
    match uti_assignedTo input with
    | Some a => option_map Some (pg_uuid a) = Some (t_assignedTo t')
    | None => t_assignedTo t' = t_assignedTo t
    end /\
    match uti_status input with
    | Some Done => t_status t' = Done /\ t_completedAt t' = Some (now w)
    | Some s => t_status t' = s /\ t_completedAt t' = None
    | None => t_status t' = t_status t /\ t_completedAt t' = t_completedAt t
    end.
Proof.
  intros H. unfold TaskRepository_update in H. unfold bind in H.
  match type of H with
  | context [pool_query ?s w] => destruct (pool_query s w) as [[found|e] w2] eqn:E
  end; [|discriminate].
  destruct found as [t0|]; cbn [ret throw] in H; [|discriminate].
  inversion H; subst t0 w2. clear H.
  apply TaskRepository_update_statement in E.
  destruct E as (title & assignedTo & i & Ht & Ha & Hi & Hfound & Hd).
  destruct (List.find (has_task_id i) (tasks (db w))) as [t|] eqn:F;
    [|discriminate].
  cbn [option_map] in Hfound. inversion Hfound as [Et']. clear Hfound.
  exists i, t. split; [exact Hi|]. split; [exact F|]. split.
  { rewrite Hd. cbn [tasks set_tasks]. rewrite find_map_update_row, F. reflexivity. }
  apply List.find_some in F. destruct F as [_ K].
  unfold update_row. rewrite K.
  cbn [t_id t_organizationId t_projectId t_createdBy t_createdAt t_updatedAt
       t_title t_description t_assignedTo t_status t_completedAt].
  repeat split.
  - destruct (uti_title input) as [n|]; cbn in Ht.
    + apply obind_some in Ht. destruct Ht as (x & Hx & Ex). inversion Ex; subst.
      exact Hx.
    + inversion Ht. reflexivity.
  - destruct (uti_description input); reflexivity.
  - destruct (uti_assignedTo input) as [a|]; cbn in Ha.
    + apply obind_some in Ha. destruct Ha as (x & Hx & Ex). inversion Ex; subst.
      rewrite Hx. reflexivity.
    + inversion Ha. reflexivity.
  - destruct (uti_status input) as [[| | |]|]; split; reflexivity.
Qed.

Lemma update_stores_what_the_input_defines_witness :
  exists done reopened w1 w2,
    TaskRepository_update (Sample.numbered 501)
      (mkUpdateTaskInput None None (Some Done) (Some Sample.V))
      (Sample.workflow_without_entitlements 1 2) = (Return done, w1) /\
    t_status done = Done /\ t_completedAt done = Some 1000 /\
    TaskRepository_update (Sample.numbered 501)
      (mkUpdateTaskInput (Some "errand") None (Some InProgress) None)
      (Sample.later 2000 w1) = (Return reopened, w2) /\
    t_status reopened = InProgress /\ t_completedAt reopened = None /\
    t_assignedTo reopened = t_assignedTo done /\ t_updatedAt reopened = 2000.
Proof.
  destruct (TaskRepository_update (Sample.numbered 501)
              (mkUpdateTaskInput None None (Some Done) (Some Sample.V))
              (Sample.workflow_without_entitlements 1 2)) as [[done|e] w1] eqn:E1;
    [|vm_compute in E1; discriminate].
  destruct (TaskRepository_update (Sample.numbered 501)
              (mkUpdateTaskInput (Some "errand") None (Some InProgress) None)
              (Sample.later 2000 w1)) as [[reopened|e] w2] eqn:E2;
    [|vm_compute in E1; inversion E1; subst; vm_compute in E2; discriminate].
  destruct (update_stores_what_the_input_defines _ _ _ _ _ E1)
    as (i & t & Hi & _ & Hf & _ & _ & _ & _ & _ & _ & _ & _ & _ & Hs & Hc).
  destruct (update_stores_what_the_input_defines _ _ _ _ _ E2)
    as (i2 & t2 & Hi2 & Hf2 & _ & _ & _ & _ & _ & _ & Hu2 & _ & _ & Ha2 & Hs2 & Hc2).
  cbn [uti_assignedTo] in Ha2.
  assert (Et2 : t2 = done).
  { rewrite Hi in Hi2. inversion Hi2; subst i2.
    change (tasks (db (Sample.later 2000 w1))) with (tasks (db w1)) in Hf2.
    rewrite Hf in Hf2. inversion Hf2. reflexivity. }
  subst t2.
  exists done, reopened, w1, w2. repeat split; assumption.
Defined.

(** X16.  [TaskRepository.update] for an id that no task has never returns
    a task and leaves every row as it was, whatever the store does; when the
    store answers and PostgreSQL accepts the title, the description and the
    assignee of the input, the UPDATE matches nothing and
    [mapRowToTask(result.rows[0])] throws a TypeError, not a "not found"
    error. *)
Theorem update_of_a_missing_task_is_a_type_error
    (id i : string) (input : UpdateTaskInput) (w : W) :
  pg_uuid id = Some i ->
  List.find (has_task_id i) (tasks (db w)) = None ->
  (forall t, fst (TaskRepository_update id input w) <> Return t) /\
  db (snd (TaskRepository_update id input w)) = db w /\
  (hd false (faults w) = false ->
   pg_varchar_opt 255 (uti_title input) <> None ->
   pg_text_param_opt (uti_description input) <> None ->
   pg_uuid_opt (uti_assignedTo input) <> None ->
   fst (TaskRepository_update id input w) = Throw TypeError).
Proof.
  intros Hi Hnone. unfold TaskRepository_update, bind.
  match goal with
  | |- context [pool_query ?s w] => destruct (pool_query s w) as [[found|e] w2] eqn:E
  end.
  - pose proof E as E'. apply TaskRepository_update_statement in E'.
    destruct E' as (title & assignedTo & i' & Ht & Ha & Hi' & Hfound & Hd).
    rewrite Hi in Hi'. inversion Hi'; subst i'.
    rewrite Hnone in Hfound. cbn [option_map] in Hfound. subst found.
    cbn [fst snd throw]. split; [discriminate|]. split; [|reflexivity].
    rewrite Hd, (map_update_row_absent _ _ _ _ _ _ _ Hnone).
    destruct (db w); reflexivity.
  - cbn [fst snd]. split; [discriminate|]. split.
    + match type of E with
      | pool_query ?s w = _ => pose proof (pool_query_throw_db s w e) as Hdb
      end.
      rewrite E in Hdb. exact (Hdb eq_refl).
    + intros Hf Ht Hds Ha. exfalso.
      rewrite pool_query_available in E by exact Hf.
      unfold obind in E.
      destruct (pg_varchar_opt 255 (uti_title input)); [|congruence].
      destruct (pg_text_param_opt (uti_description input)); [|congruence].
      destruct (pg_uuid_opt (uti_assignedTo input)); [|congruence].
      rewrite Hi in E. discriminate.
Qed.

Lemma update_of_a_missing_task_is_a_type_error_witness :
  fst (TaskRepository_update Sample.E1 (mkUpdateTaskInput None None (Some Done) None)
         Sample.workflow_T) = Throw TypeError /\
  db (snd (TaskRepository_update Sample.E1
             (mkUpdateTaskInput None None (Some Done) None) Sample.workflow_T))
  = db Sample.workflow_T.
Proof.
  destruct (update_of_a_missing_task_is_a_type_error Sample.E1 Sample.E1
              (mkUpdateTaskInput None None (Some Done) None) Sample.workflow_T
              eq_refl eq_refl) as (_ & Hdb & Hte).
  split; [|exact Hdb].
  apply Hte; [reflexivity|discriminate|discriminate|discriminate].
Defined.

(** *** The lists of tasks *)







(** The row that [createTask] returns, read off the input. *)
Lemma created_task_ids (input : CreateTaskInput) (c : option string) (w w1 : W)
    (t : Task) :
  createTask input c w = (Return t, w1) ->
  pg_uuid (cti_organizationId input) = Some (t_organizationId t) /\
  pg_uuid (cti_createdBy input) = Some (t_createdBy t).
Proof.
  intros H. rewrite createTask_shape in H. unfold bind in H.
  repeat match type of H with
         | match ?m ?x with _ => _ end = _ =>
             let E := fresh "E" in
             destruct (m x) as [[?|?] ?] eqn:E; [|discriminate]
         | match (match ?m ?x with _ => _ end) with _ => _ end = _ =>
             let E := fresh "E" in
             destruct (m x) as [[?|?] ?] eqn:E; [|discriminate]
         end.
  cbn [ret] in H. inversion H; subst. clear H.
  destruct (TaskRepository_create_cases input w4)
    as [(x & F & _)|(o & p & n & cb & x & Ho & _ & _ & Hc & F & _)].
  - rewrite F in E3. inversion E3.
  - cbv zeta in F. rewrite F in E3. inversion E3; subst.
    split; [exact Ho|exact Hc].
Qed.

End TaskFacts.

(** ** workflow-service: the two POST routes *)

Module RequestFacts.

Import Workflow WorkflowFacts RouteFacts CacheFacts AccessFacts LimitFacts TaskFacts.

Lemma present_inv (h : option string) (s : string) :
  present h = Some s -> h = Some s /\ String.eqb s "" = false.
Proof.
  destruct h as [x|]; cbn; [|discriminate].
  destruct (String.eqb x "") eqn:E; [discriminate|].
  intros H. inversion H; subst. auto.
Qed.

(** When the middleware calls [next()] for a request that names an
    organization, the membership cache held a row for the organization and
    the user. *)
Lemma middleware_next_needs_membership (r : Request) (w w1 : W)
    (a : AuthenticatedRequest) (o : string) :
  present (or_else (x_organization_id r) (params_organizationId r)) = Some o ->
  createAuthMiddleware r w = (Return (Next a), w1) ->
  exists u o' u' row,
    present (x_user_id r) = Some u /\
    pg_uuid o = Some o' /\ pg_uuid u = Some u' /\
    List.find (membership_key o' u') (membership_cache (db w)) = Some row /\
    a = mkAuthenticated r u (or_else (x_organization_id r) (params_organizationId r)) /\
    db w1 = db w.
Proof.
  intros Ho H. unfold createAuthMiddleware, try_catch in H.
  destruct (bearer (authorization r)); cbn [negb] in H; [|inversion H].
  destruct (present (x_user_id r)) as [u|] eqn:Hu; [|inversion H].
  rewrite Ho in H. unfold verifyMembership, bind in H.
  unfold getMembership in H.
  match type of H with
  | context [pool_query ?s w] =>
      destruct (pool_query_cases s w) as [(w2 & E & _)|(found & d' & Hs & Hf & E)];
        rewrite E in H
  end; [inversion H|].
  apply obind_some in Hs. destruct Hs as (o' & Eo & Hs).
  apply obind_some in Hs. destruct Hs as (u' & Eu & Hs).
  inversion Hs; subst found d'. clear Hs.
  destruct (List.find (membership_key o' u') (membership_cache (db w))) as [row|] eqn:F;
    cbn [ret negb] in H; [|inversion H].
  inversion H; subst. exists u, o', u', row. repeat split; try assumption.
Qed.

Lemma error_reply_is_a_status (fallback : string) (e : Exn) :
  exists code body, error_reply fallback e = Status code body.
Proof. destruct e; cbn; eauto. Qed.

(** A project that [POST /projects] answers with was made by
    [createProject] for the organization of the header, when there is one. *)
Lemma post_projects_created (a : AuthenticatedRequest) (w w2 : W) (p : Project)
    (o : string) :
  present (x_organization_id (req a)) = Some o ->
  post_projects a w = (Return (CreatedProject p), w2) ->
  exists name description c w',
    createProject (mkCreateProjectInput o name description (req_userId a)) c w'
    = (Return p, w2) /\ db w' = db w.
Proof.
  intros Ho H. apply present_inv in Ho. destruct Ho as [Ho Ne].
  unfold post_projects, try_catch in H.
  match type of H with
  | match ?body w with _ => _ end = _ => destruct (body w) as [[x|e] w1] eqn:B
  end.
  2:{ destruct (error_reply_is_a_status "Failed to create project" e) as (c & b & E).
      cbn [ret] in H. rewrite E in H. inversion H. }
  inversion H; subst x w1. clear H.
  unfold request_correlation, request_organization in B.
  destruct (correlation_run (x_correlation_id (req a)) w)
    as (cid & w1 & Ec & Hd1 & _).
  rewrite (bind_run _ _ _ _ _ Ec) in B.
  destruct (createProjectSchema (body (req a))) as [input|]; cbn [parse] in B;
    [|inversion B].
  unfold bind at 1 in B. cbn [ret] in B.
  rewrite Ho in B. unfold header, js_or in B.
  do 2 (cbn [option_map truthy negb pg_text] in B; rewrite ?Ne in B).
  cbn [negb pg_text] in B.
  unfold bind in B.
  destruct (createProject
              (mkCreateProjectInput o (pb_name input) (pb_description input)
                 (req_userId a)) (Some cid) w1) as [[q|e] w3] eqn:C;
    cbn [ret] in B; inversion B; subst.
  exists (pb_name input), (pb_description input), (Some cid), w1. auto.
Qed.

Lemma post_tasks_created (a : AuthenticatedRequest) (w w2 : W) (t : Task)
    (o : string) :
  present (x_organization_id (req a)) = Some o ->
  post_tasks a w = (Return (CreatedTask t), w2) ->
  exists projectId title description c w',
    createTask (mkCreateTaskInput o projectId title description (req_userId a)) c w'
    = (Return t, w2) /\ db w' = db w.
Proof.
  intros Ho H. apply present_inv in Ho. destruct Ho as [Ho Ne].
  unfold post_tasks, try_catch in H.
  match type of H with
  | match ?body w with _ => _ end = _ => destruct (body w) as [[x|e] w1] eqn:B
  end.
  2:{ destruct (error_reply_is_a_status "Failed to create task" e) as (c & b & E).
      cbn [ret] in H. rewrite E in H. inversion H. }
  inversion H; subst x w1. clear H.
  unfold request_correlation, request_organization in B.
  destruct (correlation_run (x_correlation_id (req a)) w)
    as (cid & w1 & Ec & Hd1 & _).
  rewrite (bind_run _ _ _ _ _ Ec) in B.
  destruct (createTaskSchema (body (req a))) as [input|]; cbn [parse] in B;
    [|inversion B].
  unfold bind at 1 in B. cbn [ret] in B.
  rewrite Ho in B. unfold header, js_or in B.
  do 2 (cbn [option_map truthy negb pg_text] in B; rewrite ?Ne in B).
  cbn [negb pg_text] in B.
  destruct (body_prop "projectId" (body (req a))) as [pj|]; [|inversion B].
  destruct (negb (truthy (Some pj))); cbn [orb] in B; [inversion B|].
  unfold bind in B.
  destruct (createTask
              (mkCreateTaskInput o (pg_text pj) (tb_title input) (tb_description input)
                 (req_userId a)) (Some cid) w1) as [[q|e] w3] eqn:C;
    cbn [ret] in B; inversion B; subst.
  exists (pg_text pj), (tb_title input), (tb_description input), (Some cid), w1. auto.
Qed.

Lemma route_created (handler : AuthenticatedRequest -> M Db Response)
    (r : Request) (w w2 : W) (res : Response) :
  route handler r w = (Return res, w2) ->
  (exists code body, res = Status code body) \/
  (exists a w1, createAuthMiddleware r w = (Return (Next a), w1) /\
                handler a w1 = (Return res, w2)).
Proof.
  unfold route, bind.
  destruct (createAuthMiddleware r w) as [[[res'|a]|e] w1] eqn:M; cbn [ret].
  - intros H. inversion H; subst. left.
    unfold createAuthMiddleware, try_catch in M.
    destruct (bearer (authorization r)); cbn [negb] in M; [|inversion M; eauto].
    destruct (present (x_user_id r)); [|inversion M; eauto].
    destruct (present (or_else (x_organization_id r) (params_organizationId r)));
      [|inversion M].
    unfold bind in M.
    destruct (verifyMembership s0 s w) as [[[|]|e] w3]; cbn [negb ret] in M;
      inversion M; eauto.
  - intros H. right. exists a, w1. auto.
  - discriminate.
Qed.

(** X18.  With the organization in the [x-organization-id] header, the two
    POST routes create only for a cached member and only for the header's
    organization.  When [POST /projects] answers with a project, or
    [POST /tasks] with a task, for a request that carries the header: the
    membership cache held a row for the header's organization and the
    [x-user-id] user when the request came in, the row created belongs to the
    header's organization whatever organization the body names, and its
    creator is that user. *)
Theorem header_organization_is_verified_and_used
    (r : Request) (w w2 : W) (o : string) :
  present (x_organization_id r) = Some o ->
  let member (organization creator : string) :=
    pg_uuid o = Some organization /\
    exists u row,
      present (x_user_id r) = Some u /\ pg_uuid u = Some creator /\
      In row (membership_cache (db w)) /\
      mc_organizationId row = organization /\ mc_userId row = creator in
  (forall p, route post_projects r w = (Return (CreatedProject p), w2) ->
             member (p_organizationId p) (p_createdBy p)) /\
  (forall t, route post_tasks r w = (Return (CreatedTask t), w2) ->
             member (t_organizationId t) (t_createdBy t)).
Proof.
  intros Ho member. subst member.
  assert (Hor : present (or_else (x_organization_id r) (params_organizationId r))
                = Some o).
  { destruct (present_inv _ _ Ho) as [E N]. rewrite E, (or_else_header _ _ N).
    exact (present_some _ N). }
  split.
  - intros p H. destruct (route_created _ _ _ _ _ H)
      as [(c & b & E)|(a & w1 & M & Hh)]; [discriminate|].
    destruct (middleware_next_needs_membership r w w1 a o Hor M)
      as (u & o' & u' & row & Hu & Eo & Eu & F & Ea & Hd).
    assert (Hoa : present (x_organization_id (req a)) = Some o).
    { subst a. exact Ho. }
    destruct (post_projects_created a w1 w2 p o Hoa Hh)
      as (name & description & c & w' & C & _).
    destruct (created_project_ids _ _ _ _ _ C)
      as [Hpo Hpc].
    cbn [cpi_organizationId cpi_createdBy] in Hpo, Hpc.
    subst a. cbn [req_userId] in Hpc.
    apply List.find_some in F. destruct F as [Hin K].
    apply membership_key_true in K. destruct K as [Ko Ku].
    split; [exact Hpo|]. exists u, row.
    rewrite Eo in Hpo. rewrite Eu in Hpc. inversion Hpo. inversion Hpc.
    repeat split; try assumption; congruence.
  - intros t H. destruct (route_created _ _ _ _ _ H)
      as [(c & b & E)|(a & w1 & M & Hh)]; [discriminate|].
    destruct (middleware_next_needs_membership r w w1 a o Hor M)
      as (u & o' & u' & row & Hu & Eo & Eu & F & Ea & Hd).
    assert (Hoa : present (x_organization_id (req a)) = Some o).
    { subst a. exact Ho. }
    destruct (post_tasks_created a w1 w2 t o Hoa Hh)
      as (projectId & title & description & c & w' & C & _).
    destruct (created_task_ids _ _ _ _ _ C) as [Hto Htc].
    cbn [cti_organizationId cti_createdBy] in Hto, Htc.
    subst a. cbn [req_userId] in Htc.
    apply List.find_some in F. destruct F as [Hin K].
    apply membership_key_true in K. destruct K as [Ko Ku].
    split; [exact Hto|]. exists u, row.
    rewrite Eo in Hto. rewrite Eu in Htc. inversion Hto. inversion Htc.
    repeat split; try assumption; congruence.
Qed.

Lemma header_organization_is_verified_and_used_witness :
  exists p w2,
    route post_projects Sample.post_with_header_and_body Sample.workflow_T
    = (Return (CreatedProject p), w2) /\
    p_organizationId p = Sample.T /\ p_createdBy p = Sample.U.
Proof.
  destruct (route post_projects Sample.post_with_header_and_body Sample.workflow_T)
    as [[[code body|p|t]|e] w2] eqn:E; try (vm_compute in E; discriminate).
  destruct (header_organization_is_verified_and_used
              Sample.post_with_header_and_body Sample.workflow_T w2 Sample.T eq_refl)
    as [Hproject _].
  destruct (Hproject p E) as (Ho & u & row & Hu & Hc & _).
  exists p, w2. split; [reflexivity|].
  change (Some Sample.T = Some (p_organizationId p)) in Ho.
  inversion Hu; subst u.
  change (Some Sample.U = Some (p_createdBy p)) in Hc.
  split; congruence.
Defined.

Lemma correlation_unwritten {D} (c : option string) (w : World D) :
  exists cid w1, correlation c w = (Return cid, w1) /\ unwritten w w1.
Proof.
  destruct (correlation_run c w) as (cid & w1 & E & Hd & _ & _ & _ & Hl & Ho).
  exists cid, w1. unfold unwritten. auto.
Qed.

Lemma name_out_of_bounds (o : list (string * Json)) (n : string) :
  field "name" o = Some (JStr n) ->
  (String.length n = 0 \/ 255 < String.length n)%nat ->
  createProjectSchema (JObj o) = None.
Proof.
  intros Hn Hb. unfold createProjectSchema, string_1_255. cbn [Events.z_object obind].
  rewrite Hn. cbn [Events.z_string obind].
  destruct Hb as [Hb|Hb].
  - rewrite Hb. reflexivity.
  - apply Nat.leb_gt in Hb. rewrite Hb, andb_false_r. reflexivity.
Qed.

(** X19.  [POST /projects] answers 400 and writes nothing - no row, no log
    line, no message - when the body does not pass [createProjectSchema],
    and the body is checked first: the answer is "Validation error" also
    when no organization is named.  A name that is empty or longer than 255
    characters does not pass.  With a body that passes and no organization
    in the header or in the body, the answer is "Organization ID required". *)
Theorem project_request_is_checked_before_anything_is_written
    (a : AuthenticatedRequest) (w : W) :
  (createProjectSchema (body (req a)) = None ->
   fst (post_projects a w) = Return (Status 400 Validation) /\
   unwritten w (snd (post_projects a w))) /\
  (forall o n,
     body (req a) = JObj o -> field "name" o = Some (JStr n) ->
     (String.length n = 0 \/ 255 < String.length n)%nat ->
     createProjectSchema (body (req a)) = None) /\
  (createProjectSchema (body (req a)) <> None ->
   truthy (request_organization (req a)) = false ->
   fst (post_projects a w) = Return (Status 400 (Msg "Organization ID required")) /\
   unwritten w (snd (post_projects a w))).
Proof.
  destruct (correlation_unwritten (x_correlation_id (req a)) w)
    as (cid & w1 & Ec & U).
  split; [|split].
  - intros Hnone. unfold post_projects, try_catch, request_correlation.
    rewrite (bind_run _ _ _ _ _ Ec). rewrite Hnone. cbn. split; [reflexivity|exact U].
  - intros o n Hb Hn Hlen. rewrite Hb. exact (name_out_of_bounds o n Hn Hlen).
  - intros Hsome Horg. unfold post_projects, try_catch, request_correlation.
    rewrite (bind_run _ _ _ _ _ Ec).
    destruct (createProjectSchema (body (req a))) as [input|]; [|congruence].
    cbn [parse]. unfold bind at 1. cbn [ret].
    destruct (request_organization (req a)) as [org|] eqn:Eo.
    + rewrite Horg. cbn. split; [reflexivity|exact U].
    + cbn. split; [reflexivity|exact U].
Qed.

Lemma project_request_is_checked_before_anything_is_written_witness :
  let nameless :=
    mkAuthenticated
      (mkRequest (Some "Bearer token") (Some Sample.U) None None None
         (JObj [("name", JStr "")])) Sample.U None in
  let homeless :=
    mkAuthenticated
      (mkRequest (Some "Bearer token") (Some Sample.U) None None None
         (JObj [("name", JStr "roadmap")])) Sample.U None in
  fst (post_projects nameless Sample.workflow_T) = Return (Status 400 Validation) /\
  fst (post_projects homeless Sample.workflow_T) =
    Return (Status 400 (Msg "Organization ID required")) /\
  db (snd (post_projects homeless Sample.workflow_T)) = db Sample.workflow_T.
Proof.
  intros nameless homeless.
  destruct (project_request_is_checked_before_anything_is_written nameless
              Sample.workflow_T) as (Hinvalid & Hname & _).
  destruct (project_request_is_checked_before_anything_is_written homeless
              Sample.workflow_T) as (_ & _ & Hnone).
  split; [|split].
  - apply Hinvalid. apply (Hname [("name", JStr "")] ""); try reflexivity.
    left. reflexivity.
  - apply Hnone; [discriminate|reflexivity].
  - apply Hnone; [discriminate|reflexivity].
Defined.

End RequestFacts.

(** ** analytics-service: task status changes *)

Module AnalyticsFacts.

Import WorkflowFacts Events Analytics.

Lemma TaskStatusChanged_id (event : Json) (v : Validated TaskStatusChanged) :
  TaskStatusChangedEventSchema event = Some v ->
  is_uuid (ts_organizationId (data v)) = true.
Proof.
  unfold TaskStatusChangedEventSchema, extend, obind.
  destruct (z_object (Some event)) as [o|]; [|discriminate].
  destruct (BaseEventSchema "TaskStatusChanged" o) as [b|]; [|discriminate].
  destruct (z_object (field "data" o)) as [d|]; [|discriminate].
  unfold z_uuid, obind.
  destruct (z_string (field "organizationId" d)) as [x|]; [|discriminate].
  destruct (is_uuid x) eqn:Ex; [|discriminate].
  destruct (z_string (field "projectId" d)) as [y|]; [|discriminate].
  destruct (is_uuid y); [|discriminate].
  destruct (z_string (field "taskId" d)) as [z|]; [|discriminate].
  destruct (is_uuid z); [|discriminate].
  destruct (z_string (field "oldStatus" d)); [|discriminate].
  destruct (z_string (field "newStatus" d)); [|discriminate].
  destruct (z_string (field "changedBy" d)) as [a|]; [|discriminate].
  destruct (is_uuid a); [|discriminate].
  destruct (z_datetime (field "changedAt" d)); [|discriminate].
  intros H. inversion H; subst. cbn. exact Ex.
Qed.

(** A row without project conflicts with no row. *)
Lemma no_conflict_without_project o d rows :
  List.existsb (metrics_conflict o None d) rows = false.
Proof.
  induction rows as [|r rest IH]; cbn [List.existsb]; [reflexivity|].
  rewrite IH. unfold metrics_conflict. cbn. rewrite andb_false_r. reflexivity.
Qed.

(** The [updates] of a status change never name a project, and hold one
    counter at most. *)
Lemma status_updates_shape o oldStatus newStatus day :
  let u := status_updates o oldStatus newStatus day in
  organizationId u = Some o /\ projectId u = None /\ date u = Some day /\
  tasksCreated u = None /\ avgCompletionTimeHours u = None /\
  ((tasksCompleted u, tasksInProgress u) = (Some 1, None) \/
   (tasksCompleted u, tasksInProgress u) = (None, Some 1) \/
   (tasksCompleted u, tasksInProgress u) = (None, Some (-1)) \/
   (tasksCompleted u, tasksInProgress u) = (None, None)).
Proof.
  unfold status_updates.
  destruct (String.eqb newStatus "done" && negb (String.eqb oldStatus "done"));
    [cbn; tauto|].
  destruct (String.eqb newStatus "in_progress" && String.eqb oldStatus "todo");
    [cbn; tauto|].
  destruct (String.eqb oldStatus "in_progress"
            && negb (String.eqb newStatus "in_progress")); cbn; tauto.
Qed.

(** X20.  The counters of a status change never reach the row of the
    project.  [processTaskStatusChanged] passes no [projectId] to
    [upsertTaskMetrics], and a row without project conflicts with no row of
    [UNIQUE(organization_id, project_id, date)]: when a [TaskStatusChanged]
    event changes a counter, the store answering, the table grows by one new
    row of the organization and the day, without project, holding that one
    counter, and every row that was there - the row that counts the created
    tasks of the project among them - is as before. *)
Theorem status_change_is_counted_in_a_row_of_its_own
    (event : Json) (v : Validated TaskStatusChanged) (w : World Db) :
  TaskStatusChangedEventSchema event = Some v ->
  let u := status_updates (ts_organizationId (data v)) (ts_oldStatus (data v))
             (ts_newStatus (data v)) (today (now w)) in
  (2 < Object_keys_length u)%nat ->
  hd false (faults w) = false ->
  List.existsb (fun r => String.eqb (tm_id r) (uuids w (next w)))
               (task_metrics (db w)) = false ->
  exists row,
    task_metrics (db (snd (processTaskStatusChanged event w)))
    = (task_metrics (db w) ++ [row])%list /\
    tm_organizationId row = toLowerCase (ts_organizationId (data v)) /\
    tm_projectId row = None /\
    tm_date row = today (now w) /\
    tm_tasksCreated row = 0 /\
    tm_tasksCompleted row = or_zero (tasksCompleted u) /\
    tm_tasksInProgress row = or_zero (tasksInProgress u).
Proof.
  intros Hv u Hkeys Hf Hfresh.
  pose proof (TaskStatusChanged_id event v Hv) as Uo.
  destruct (status_updates_shape (ts_organizationId (data v))
              (ts_oldStatus (data v)) (ts_newStatus (data v)) (today (now w)))
    as (Eo & Ep & Ed & Ec & Ea & Hcount).
  fold u in Eo, Ep, Ed, Ec, Ea, Hcount.
  assert (Hrun : forall cp ip,
            tasksCompleted u = cp -> tasksInProgress u = ip ->
            pg_integer (or_zero cp) = Some (or_zero cp) ->
            pg_integer (or_zero ip) = Some (or_zero ip) ->
            task_metrics (db (snd (processTaskStatusChanged event w)))
            = (task_metrics (db w)
               ++ [mkTaskMetrics (uuids w (next w))
                     (toLowerCase (ts_organizationId (data v))) None
                     (today (now w)) 0 (or_zero cp) (or_zero ip) None
                     (now w) (now w)])%list).
  { intros cp ip Hcp Hip Icp Iip.
    unfold processTaskStatusChanged, try_catch.
    rewrite Hv. cbn [parse]. unfold bind at 1. cbn [ret].
    unfold bind at 1. unfold new_Date at 1. fold u.
    apply Nat.ltb_lt in Hkeys. rewrite Hkeys.
    unfold upsertTaskMetrics.
    destruct w as [d fs t g k l ob]. cbn [faults hd db now uuids next] in *.
    destruct fs as [|[|] fs]; try discriminate; run;
      rewrite Eo, Ep, Ed, Ec, Ea, Hcp, Hip; cbn [pg_uuid_opt or_zero];
      rewrite (pg_uuid_some _ Uo), Icp, Iip; cbn [pg_integer];
      cbn [andb Z.leb Z.compare];
      rewrite no_conflict_without_project, Hfresh; reflexivity. }
  destruct Hcount as [Hc|[Hc|[Hc|Hc]]]; injection Hc as Hc1 Hc2.
  - eexists. split; [exact (Hrun _ _ Hc1 Hc2 eq_refl eq_refl)|].
    rewrite Hc1, Hc2. repeat split.
  - eexists. split; [exact (Hrun _ _ Hc1 Hc2 eq_refl eq_refl)|].
    rewrite Hc1, Hc2. repeat split.
  - eexists. split; [exact (Hrun _ _ Hc1 Hc2 eq_refl eq_refl)|].
    rewrite Hc1, Hc2. repeat split.
  - exfalso. unfold Object_keys_length in Hkeys.
    rewrite Eo, Ep, Ed, Ec, Ea, Hc1, Hc2 in Hkeys. cbn in Hkeys.
    apply Nat.lt_irrefl in Hkeys. exact Hkeys.
Qed.

Lemma status_change_is_counted_in_a_row_of_its_own_witness :
  let created :=
    snd (processTaskCreated Sample.TaskCreated_P1 Sample.analytics_empty) in
  let done :=
    snd (processTaskStatusChanged (Sample.TaskStatusChanged_P1 "todo" "done") created) in
  List.map (fun r => (tm_projectId r, tm_tasksCreated r, tm_tasksCompleted r))
           (task_metrics (db done))
  = [(Some Sample.P1, 1, 0); (None, 0, 1)].
Proof.
  intros created done.
  destruct (status_change_is_counted_in_a_row_of_its_own
              (Sample.TaskStatusChanged_P1 "todo" "done") _ created eq_refl
              (proj1 (Nat.ltb_lt 2 3) eq_refl) eq_refl eq_refl)
    as (row & Hrows & _ & Hp & _ & Hc & Hcp & _).
  fold done in Hrows. rewrite Hrows, List.map_app. cbn [List.map].
  rewrite Hp, Hc, Hcp. reflexivity.
Defined.

(** X21.  What [processTaskStatusChanged] does not count.  A task that
    leaves ['done'] - reopened or cancelled - changes no row: the completed
    count is never taken back.  And for a task that goes from
    ['in_progress'] to ['done'] the first branch wins: the [updates] hold
    [tasksCompleted: 1] and no [tasksInProgress], so the in-progress count is
    not taken back either. *)
Theorem status_changes_that_take_nothing_back
    (event : Json) (v : Validated TaskStatusChanged) (w : World Db) :
  TaskStatusChangedEventSchema event = Some v ->
  (ts_oldStatus (data v) = "done" ->
   processTaskStatusChanged event w =
     logger_info "Processed TaskStatusChanged event" w) /\
  (ts_oldStatus (data v) = "in_progress" -> ts_newStatus (data v) = "done" ->
   forall day,
     status_updates (ts_organizationId (data v)) (ts_oldStatus (data v))
       (ts_newStatus (data v)) day
     = mkPartial (Some (ts_organizationId (data v))) None (Some day) None (Some 1)
         None None).
Proof.
  intros Hv. split.
  - intros Hold. unfold processTaskStatusChanged, try_catch.
    rewrite Hv. cbn [parse]. unfold bind at 1. cbn [ret].
    unfold bind at 1. unfold new_Date at 1.
    unfold status_updates. rewrite Hold.
    replace (String.eqb "done" "done") with true by reflexivity.
    replace (String.eqb "done" "todo") with false by reflexivity.
    replace (String.eqb "done" "in_progress") with false by reflexivity.
    cbn [negb andb]. rewrite !andb_false_r.
    cbn [Object_keys_length count_defined organizationId projectId date tasksCreated
         tasksCompleted tasksInProgress avgCompletionTimeHours Nat.add Nat.ltb Nat.leb].
    unfold bind, ret. reflexivity.
  - intros Hold Hnew day. unfold status_updates. rewrite Hold, Hnew. reflexivity.
Qed.

Lemma status_changes_that_take_nothing_back_witness :
  let done :=
    snd (processTaskStatusChanged (Sample.TaskStatusChanged_P1 "todo" "done")
           Sample.analytics_empty) in
  let reopened :=
    snd (processTaskStatusChanged (Sample.TaskStatusChanged_P1 "done" "todo") done) in
  List.map tm_tasksCompleted (task_metrics (db done)) = [1] /\
  db reopened = db done.
Proof.
  intros done reopened. split; [reflexivity|].
  destruct (status_changes_that_take_nothing_back
              (Sample.TaskStatusChanged_P1 "done" "todo") _ done eq_refl)
    as [Hleft _].
  unfold reopened. rewrite (Hleft eq_refl). reflexivity.
Defined.

(** *** Reading the metrics *)

Lemma TaskCreated_ids (event : Json) (v : Validated TaskCreated) :
  TaskCreatedEventSchema event = Some v ->
  is_uuid (tc_organizationId (data v)) = true /\
  is_uuid (tc_projectId (data v)) = true.
Proof.
  unfold TaskCreatedEventSchema, extend, obind.
  destruct (z_object (Some event)) as [o|]; [|discriminate].
  destruct (BaseEventSchema "TaskCreated" o) as [b|]; [|discriminate].
  destruct (z_object (field "data" o)) as [d|]; [|discriminate].
  unfold z_uuid, obind.
  destruct (z_string (field "organizationId" d)) as [x|]; [|discriminate].
  destruct (is_uuid x) eqn:Ex; [|discriminate].
  destruct (z_string (field "projectId" d)) as [y|]; [|discriminate].
  destruct (is_uuid y) eqn:Ey; [|discriminate].
  destruct (z_string (field "taskId" d)) as [z|]; [|discriminate].
  destruct (is_uuid z); [|discriminate].
  destruct (z_string (field "title" d)); [|discriminate].
  destruct (z_string (field "createdBy" d)) as [a|]; [|discriminate].
  destruct (is_uuid a); [|discriminate].
  destruct (z_datetime (field "createdAt" d)); [|discriminate].
  intros H. inversion H; subst. cbn. split; [exact Ex|exact Ey].
Qed.

Lemma pg_integer_some n m : pg_integer n = Some m -> m = n.
Proof.
  unfold pg_integer. destruct (_ && _); [|discriminate]. intros H. congruence.
Qed.

(** The row that [ON CONFLICT ... DO UPDATE] writes: the first row with the
    key, its counters raised. *)
Lemma update_conflicting_row o p d c cp ip avg t rows r' rows' :
  update_conflicting o p d c cp ip avg t rows = Some (r', rows') ->
  In r' rows' /\
  exists r0, In r0 rows /\ metrics_conflict o p d r0 = true /\
             tm_organizationId r' = tm_organizationId r0 /\
             tm_projectId r' = tm_projectId r0 /\
             tm_date r' = tm_date r0 /\
             tm_tasksCreated r' = tm_tasksCreated r0 + c.
Proof.
  revert r' rows'.
  induction rows as [|r rest IH]; intros r' rows'; cbn [update_conflicting];
    [discriminate|].
  destruct (metrics_conflict o p d r) eqn:K.
  - intros H. apply obind_some in H. destruct H as (x & Ex & H).
    injection H as Hr Hrows. subst x rows'. split; [left; reflexivity|].
    exists r. split; [left; reflexivity|]. split; [exact K|].
    unfold add_metrics in Ex.
    apply obind_some in Ex. destruct Ex as (c' & Ec & Ex).
    apply obind_some in Ex. destruct Ex as (cp' & Ecp & Ex).
    apply obind_some in Ex. destruct Ex as (ip' & Eip & Ex).
    injection Ex as Ex. subst r'.
    cbn [tm_organizationId tm_projectId tm_date tm_tasksCreated].
    repeat split. exact (pg_integer_some _ _ Ec).
  - intros H. apply obind_some in H. destruct H as ([x xs] & Ex & H).
    cbn [fst snd] in H. injection H as Hr Hrows. subst x rows'.
    destruct (IH _ _ Ex) as (Hin & r0 & Hr0 & Hrest).
    split; [right; exact Hin|]. exists r0. split; [right; exact Hr0|exact Hrest].
Qed.

Lemma In_insert_by_date x r sorted :
  In x (insert_by_date r sorted) <-> x = r \/ In x sorted.
Proof.
  induction sorted as [|q rest IH]; cbn [insert_by_date].
  - cbn. intuition.
  - destruct (tm_date q <? tm_date r); cbn [In].
    + intuition.
    + rewrite IH. intuition.
Qed.

Lemma In_order_by_date x rows : In x (order_by_date_desc rows) <-> In x rows.
Proof.
  unfold order_by_date_desc.
  induction rows as [|r rest IH]; cbn [List.fold_right]; [tauto|].
  rewrite In_insert_by_date, IH. cbn [In]. intuition.
Qed.

(** X30.  A task that analytics-service has counted is in the metrics it
    reports.  When [processTaskCreated] has logged that it processed a
    [TaskCreated] event, every later reading of [getTaskMetrics] for the
    organization of the event, over a period that holds the time of the
    processing, returns a row of the organization, the project and the day
    of the processing; its [tasksCreated] is 1 when the table had no row
    with that key, and one more than the count of such a row otherwise. *)
Theorem counted_task_is_reported
    (event : Json) (v : Validated TaskCreated) (w w2 w3 : World Db)
    (startDate endDate : Z) (rows : list TaskMetrics) :
  TaskCreatedEventSchema event = Some v ->
  logs (snd (processTaskCreated event w))
  = (logs w ++ [mkLog LInfo "Processed TaskCreated event"])%list ->
  db w2 = db (snd (processTaskCreated event w)) ->
  startDate <= now w <= endDate ->
  getTaskMetrics (tc_organizationId (data v)) startDate endDate w2
  = (Return rows, w3) ->
  let o := toLowerCase (tc_organizationId (data v)) in
  let p := toLowerCase (tc_projectId (data v)) in
  exists r,
    In r rows /\
    tm_organizationId r = o /\ tm_projectId r = Some p /\
    tm_date r = today (now w) /\
    ((List.existsb (metrics_conflict o (Some p) (today (now w)))
                   (task_metrics (db w)) = false /\ tm_tasksCreated r = 1) \/
     (exists r0, In r0 (task_metrics (db w)) /\
                 metrics_conflict o (Some p) (today (now w)) r0 = true /\
                 tm_tasksCreated r = tm_tasksCreated r0 + 1)).
Proof.
  intros Hv Hlog Hw2 Hrange Hget o p.
  destruct (TaskCreated_ids event v Hv) as [Uo Up].
  destruct (processTaskCreated event w) as [out wf] eqn:Hrun.
  cbn [snd] in Hlog, Hw2.
  (* the row that was written *)
  assert (Hrow : exists r,
            In r (task_metrics (db wf)) /\
            tm_organizationId r = o /\ tm_projectId r = Some p /\
            tm_date r = today (now w) /\
            ((List.existsb (metrics_conflict o (Some p) (today (now w)))
                           (task_metrics (db w)) = false /\ tm_tasksCreated r = 1) \/
             (exists r0, In r0 (task_metrics (db w)) /\
                         metrics_conflict o (Some p) (today (now w)) r0 = true /\
                         tm_tasksCreated r = tm_tasksCreated r0 + 1))).
  { unfold processTaskCreated, try_catch in Hrun.
    rewrite Hv in Hrun. cbn [parse] in Hrun. unfold bind at 1 in Hrun.
    cbn [ret] in Hrun.
    unfold bind at 1 in Hrun. unfold new_Date at 1 in Hrun.
    unfold upsertTaskMetrics in Hrun. unfold bind at 2 in Hrun.
    unfold randomUUID at 1 in Hrun.
    cbn [organizationId projectId date tasksCreated tasksCompleted tasksInProgress
         avgCompletionTimeHours or_zero] in Hrun.
    unfold bind at 1 in Hrun.
    lazymatch type of Hrun with
    | context [pool_query ?s ?wi] =>
        destruct (pool_query_cases s wi) as [(w1 & E & Hun)|(a & d' & Hs & _ & E)];
        rewrite E in Hrun
    end.
    - exfalso. unfold logger_error, log in Hrun. injection Hrun as _ Hwf.
      subst wf. cbn [logs] in Hlog. destruct Hun as (_ & _ & _ & _ & Hl & _).
      rewrite Hl in Hlog. cbn [logs] in Hlog.
      apply List.app_inv_head in Hlog. discriminate.
    - unfold logger_info, log in Hrun. injection Hrun as _ Hwf. subst wf.
      cbn [db set_db set_faults]. clear Hlog Hw2 E.
      cbn [db now] in Hs.
      cbn [obind] in Hs. rewrite (pg_uuid_some _ Uo) in Hs. cbn [obind] in Hs.
      cbn [pg_uuid_opt] in Hs. rewrite (pg_uuid_some _ Up) in Hs.
      cbn [obind] in Hs. fold o p in Hs.
      change (pg_integer 1) with (Some 1) in Hs.
      change (pg_integer 0) with (Some 0) in Hs. cbn [obind] in Hs.
      destruct (List.existsb (metrics_conflict o (Some p) (today (now w)))
                             (task_metrics (db w))) eqn:K.
      + apply obind_some in Hs. destruct Hs as ([r' rows'] & Eu & Hs).
        cbn [fst snd] in Hs. injection Hs as Ha Hd'. subst a d'.
        destruct (update_conflicting_row _ _ _ _ _ _ _ _ _ _ _ Eu)
          as (Hin & r0 & Hr0 & Hk & Ho & Hp & Hd & Hc).
        exists r'. split; [exact Hin|].
        pose proof Hk as Hk'.
        unfold metrics_conflict in Hk.
        apply andb_prop in Hk. destruct Hk as [Hk Hkd].
        apply andb_prop in Hk. destruct Hk as [Hko Hkp].
        apply String.eqb_eq in Hko. apply Z.eqb_eq in Hkd.
        destruct (tm_projectId r0) as [q|] eqn:Eq; [|discriminate].
        apply String.eqb_eq in Hkp.
        split; [congruence|]. split; [congruence|]. split; [congruence|].
        right. exists r0. split; [exact Hr0|]. split; [exact Hk'|exact Hc].
      + destruct (List.existsb
                    (fun r => String.eqb (tm_id r) (uuids w (next w)))
                    (task_metrics (db w))); [discriminate|].
        injection Hs as Ha Hd'. subst d'.
        eexists. split; [cbn [task_metrics]; apply List.in_or_app; right; left;
                         reflexivity|].
        cbn [tm_organizationId tm_projectId tm_date tm_tasksCreated].
        repeat split. left. split; reflexivity. }
  destruct Hrow as (r & Hin & Ho & Hp & Hd & Hcount).
  exists r. split; [|repeat split; assumption].
  unfold getTaskMetrics in Hget.
  apply pool_query_returns in Hget. destruct Hget as (d3 & Hs & _).
  rewrite (pg_uuid_some _ Uo) in Hs. cbn [obind] in Hs. injection Hs as Hrows _.
  rewrite <- Hrows. apply In_order_by_date. apply List.filter_In.
  rewrite Hw2. split; [exact Hin|].
  rewrite Ho, Hd. fold o. rewrite String.eqb_refl. cbn [andb].
  unfold today, pg_date. apply andb_true_intro. split; apply Z.leb_le.
  - apply Z.div_le_mono; [reflexivity|tauto].
  - apply Z.div_le_mono; [reflexivity|tauto].
Qed.

Lemma counted_task_is_reported_witness :
  let w1 := snd (processTaskCreated Sample.TaskCreated_P1 Sample.analytics_empty) in
  exists rows w3,
    getTaskMetrics Sample.T 0 2000 w1 = (Return rows, w3) /\
    exists r, In r rows /\ tm_projectId r = Some Sample.P1 /\ tm_tasksCreated r = 1.
Proof.
  intros w1.
  destruct (getTaskMetrics Sample.T 0 2000 w1) as [[rows|e] w3] eqn:G;
    [|vm_compute in G; discriminate].
  exists rows, w3. split; [reflexivity|].
  assert (Hrange : 0 <= now Sample.analytics_empty <= 2000).
  { split; apply Z.leb_le; reflexivity. }
  destruct (counted_task_is_reported Sample.TaskCreated_P1
              (mkValidated
                 (mkBase Sample.E1 "TaskCreated" "v1" Sample.instant
                    "workflow-service" Sample.K1 None (Some Sample.U)
                    (Some Sample.T))
                 (mkTaskCreated Sample.T Sample.P1 Sample.P2 "write the report"
                    Sample.U Sample.instant))
              Sample.analytics_empty w1 w3 0 2000 rows
              eq_refl eq_refl eq_refl Hrange G)
    as (r & Hin & _ & Hp & _ & [[_ Hc]|(r0 & [] & _)]).
  exists r. split; [exact Hin|]. split; [exact Hp|exact Hc].
Defined.

End AnalyticsFacts.

(** ** audit-service: the log and its queries *)

Module AuditFacts.

Import WorkflowFacts ConsumerFacts Audit.

Lemma unique_events_kept_refl d : unique_events_kept d d.
Proof. intros H. exact H. Qed.

Lemma unique_events_kept_trans a b c :
  unique_events_kept a b -> unique_events_kept b c -> unique_events_kept a c.
Proof. unfold unique_events_kept. auto. Qed.

Lemma append_only_refl d : append_only d d.
Proof. exists []. rewrite List.app_nil_r. reflexivity. Qed.

Lemma append_only_trans a b c :
  append_only a b -> append_only b c -> append_only a c.
Proof.
  intros [x Hx] [y Hy]. exists (x ++ y)%list. rewrite Hy, Hx, List.app_assoc.
  reflexivity.
Qed.

Lemma existsb_event_id_false e rows :
  List.existsb (has_event_id e) rows = false ->
  ~ In e (List.map al_eventId rows).
Proof.
  induction rows as [|r rest IH]; cbn [List.existsb List.map In]; [tauto|].
  intros H. apply orb_false_iff in H. destruct H as [K E].
  unfold has_event_id in K. apply String.eqb_neq in K.
  intros [F|F]; [congruence|]. exact (IH E F).
Qed.

(** The INSERT of [AuditRepository.create]: what it adds when it goes
    through. *)
Lemma create_statement (event : BaseEvent) (action resourceType : string)
    (resourceId : option string) (id : string) (d d' : Db) (t : Z) (row : AuditLog) :
  obind (eventId event) (fun e =>
  obind (pg_uuid e) (fun e =>
  obind (eventType event) (fun ty =>
  obind (pg_varchar 100 ty) (fun ty =>
  obind (eventVersion event) (fun v =>
  obind (pg_varchar 10 v) (fun v =>
  obind (source event) (fun s =>
  obind (pg_varchar 100 s) (fun s =>
  obind (correlationId event) (fun c =>
  obind (pg_uuid c) (fun c =>
  obind (pg_uuid_opt (traceId event)) (fun tr =>
  obind (pg_uuid_opt (userId event)) (fun u =>
  obind (pg_uuid_opt (organizationId event)) (fun o =>
  obind (pg_varchar 100 action) (fun a =>
  obind (pg_varchar 100 resourceType) (fun rt =>
  obind (pg_uuid_opt resourceId) (fun ri =>
  obind (pg_jsonb_object (raw event)) (fun details =>
    if List.existsb (has_event_id e) (audit_logs d)
       || List.existsb (fun r => String.eqb (al_id r) id) (audit_logs d)
    then None
    else
      let row := mkAuditLog id e ty v s c tr u o a rt ri (Some details) None None t in
      Some (row, mkDb (audit_logs d ++ [row]))))))))))))))))))) = Some (row, d') ->
  audit_logs d' = (audit_logs d ++ [row])%list /\
  ~ In (al_eventId row) (List.map al_eventId (audit_logs d)) /\
  option_map Some (obind (eventId event) pg_uuid) = Some (Some (al_eventId row)) /\
  pg_varchar 100 action = Some (al_action row) /\
  pg_varchar 100 resourceType = Some (al_resourceType row) /\
  option_map Some (pg_jsonb_object (raw event)) = Some (al_details row) /\
  al_createdAt row = t.
Proof.
  intros H.
  repeat match type of H with
         | obind ?x _ = Some _ =>
             let a := fresh "x" in
             let E := fresh "E" in
             apply obind_some in H; destruct H as (a & E & H)
         end.
  destruct (List.existsb (fun r => String.eqb (al_id r) id) (audit_logs d));
    [rewrite orb_true_r in H; discriminate|].
  destruct (List.existsb (has_event_id x0) (audit_logs d)) eqn:Ex; [discriminate|].
  cbn [orb] in H. cbv zeta in H. injection H as Hr Hd. subst row d'.
  cbn [audit_logs al_eventId al_action al_resourceType al_details al_createdAt].
  repeat split; try assumption.
  - exact (existsb_event_id_false _ _ Ex).
  - rewrite E. cbn [obind]. rewrite E0. reflexivity.
  - match goal with
    | K : pg_jsonb_object (raw event) = Some _ |- _ => rewrite K
    end. reflexivity.
Qed.

(** Walks [eachMessage] down to its statements: the SELECT changes no
    table, the INSERT is read by [create_statement]. *)
Ltac audit_frame refl trans insert :=
  unfold eachMessage, recordEvent, findByEventId, create, mapRowToAuditLog,
    JSON_parse_object, parseEventType, JSON_parse, logger_info, logger_error;
  repeat first
    [ apply log_on_db; exact refl
    | apply keeps_ret; exact (on_db_refl _ refl)
    | apply keeps_throw; exact (on_db_refl _ refl)
    | apply keeps_try_catch; [exact (on_db_trans _ trans)| |intros ?]
    | apply keeps_bind; [exact (on_db_trans _ trans)| |intros ?]
    | match goal with
      | |- keeps _ (match ?x with _ => _ end) => destruct x
      | |- keeps _ randomUUID => intros ?; apply refl
      end
    | apply pool_query_on_db;
        [ exact refl
        | let H := fresh "H" in
          intros ? ? ? ? H;
          first [ apply create_statement in H; insert H
                | revert H; unfold obind;
                  repeat match goal with
                         | |- context [match ?x with _ => _ end] => destruct x
                         end;
                  try discriminate; intros H; inversion H; subst; apply refl ] ] ].

(** X22.  The audit log is append-only and holds an event once.  Whatever
    message the consumer of audit-service is given and whatever the store
    does, [eachMessage] leaves every row of [audit_logs] that was there as it
    was - rows are only added at the end - and it keeps the event ids of the
    table distinct: a second delivery of an event adds no second row. *)
Theorem audit_log_is_append_only_and_unique
    (m : AuditMessage) (w : World Db) :
  append_only (db w) (db (snd (eachMessage m w))) /\
  (unique_events (db w) -> unique_events (db (snd (eachMessage m w)))).
Proof.
  split.
  - revert w. change (keeps (on_db append_only) (eachMessage m)).
    audit_frame append_only_refl append_only_trans
      ltac:(fun H => destruct H as (Hd & _); eexists; exact Hd).
  - revert w. change (keeps (on_db unique_events_kept) (eachMessage m)).
    audit_frame unique_events_kept_refl unique_events_kept_trans
      ltac:(fun H => destruct H as (Hd & Hnew & _);
                     let Hu := fresh "Hu" in
                     intros Hu; unfold unique_events in *;
                     rewrite Hd, List.map_app; apply NoDup_snoc; assumption).
Qed.

Lemma audit_log_is_append_only_and_unique_witness :
  let w1 := snd (eachMessage Sample.audit_member_added Sample.audit_empty) in
  unique_events (db w1) /\
  unique_events (db (snd (eachMessage Sample.audit_member_added w1))).
Proof.
  assert (H1 : unique_events
                 (db (snd (eachMessage Sample.audit_member_added
                             Sample.audit_empty)))).
  { apply (audit_log_is_append_only_and_unique Sample.audit_member_added
             Sample.audit_empty).
    constructor. }
  split; [exact H1|].
  exact (proj2 (audit_log_is_append_only_and_unique Sample.audit_member_added _) H1).
Defined.

Lemma parse_action_fits l : pg_varchar 100 (parse_action l) = Some (parse_action l).
Proof.
  unfold parse_action.
  repeat match goal with
         | |- context [if ?b then _ else _] => destruct b
         end; reflexivity.
Qed.

Lemma parse_resource_fits l :
  pg_varchar 100 (parse_resource l) = Some (parse_resource l).
Proof.
  unfold parse_resource.
  repeat match goal with
         | |- context [if ?b then _ else _] => destruct b
         end; reflexivity.
Qed.

Lemma find_event_id_none e rows :
  List.existsb (has_event_id e) rows = false ->
  List.find (has_event_id e) rows = None.
Proof.
  induction rows as [|r rest IH]; cbn [List.existsb List.find]; [reflexivity|].
  intros H. apply orb_false_iff in H. destruct H as [K E].
  rewrite K. exact (IH E).
Qed.

Lemma find_event_id_snoc e rows row :
  al_eventId row = e ->
  exists found, List.find (has_event_id e) (rows ++ [row]) = Some found.
Proof.
  intros He. induction rows as [|r rest IH]; cbn [List.app List.find].
  - unfold has_event_id at 1. rewrite He, String.eqb_refl. eauto.
  - destruct (has_event_id e r); [eauto|exact IH].
Qed.

(** What [mapRowToAuditLog] does with a row that holds details: it
    throws, and changes nothing. *)
Lemma mapRowToAuditLog_throws (row : AuditLog) (o : list (string * Json))
    (w : World Db) :
  al_details row = Some o ->
  exists e, mapRowToAuditLog row w = (Throw e, w) /\
            (e = SyntaxError \/ e = TypeError).
Proof.
  intros H. unfold mapRowToAuditLog, JSON_parse_object. rewrite H.
  destruct (field "toString" o); run; eauto.
Qed.

(** X23.  An event that audit-service has not seen is stored exactly once,
    and is never reported as audited.  When the store answers, PostgreSQL
    accepts the envelope (the ids read as UUIDs; the type, the version and
    the source are accepted by their VARCHAR columns; the event is an object
    that JSONB accepts) and no row of [audit_logs] holds the event id or the
    generated row id, handling the message appends one row: it holds the
    event id as PostgreSQL stores it, the action and the resource type that
    [parseEventType] reads off the event type, no resource id, the event as
    details and the current time.  [create] then throws on the details of
    the row it has inserted, so [eachMessage] logs "Failed to process
    event" and not "Event audited".  Handling the same message again, in any
    later state of the service with that table and whatever the store does,
    leaves the table as it is and logs the same error line again. *)
Theorem new_event_is_stored_once_and_logged_as_failed
    (tp : string) (event : BaseEvent) (e e' ty ty' v v' s s' c c' : string)
    (tr u o : option string) (details : list (string * Json)) (w : World Db) :
  eventId event = Some e -> pg_uuid e = Some e' ->
  eventType event = Some ty -> pg_varchar 100 ty = Some ty' ->
  eventVersion event = Some v -> pg_varchar 10 v = Some v' ->
  source event = Some s -> pg_varchar 100 s = Some s' ->
  correlationId event = Some c -> pg_uuid c = Some c' ->
  pg_uuid_opt (traceId event) = Some tr ->
  pg_uuid_opt (userId event) = Some u ->
  pg_uuid_opt (organizationId event) = Some o ->
  pg_jsonb_object (raw event) = Some details ->
  faults w = [] ->
  List.existsb (has_event_id e') (audit_logs (db w)) = false ->
  List.existsb (fun r => String.eqb (al_id r) (uuids w (next w)))
               (audit_logs (db w)) = false ->
  let m := mkAuditMessage tp (Parsed event) in
  let w1 := snd (eachMessage m w) in
  audit_logs (db w1) =
    (audit_logs (db w) ++
     [mkAuditLog (uuids w (next w)) e' ty' v' s' c' tr u o
        (parse_action (toLowerCase ty)) (parse_resource (toLowerCase ty)) None
        (Some details) None None (now w)])%list /\
  logs w1 = (logs w ++ [mkLog LError "Failed to process event"])%list /\
  forall w2 : World Db,
    db w2 = db w1 ->
    db (snd (eachMessage m w2)) = db w1 /\
    logs (snd (eachMessage m w2)) =
      (logs w2 ++ [mkLog LError "Failed to process event"])%list.
Proof.
  intros He He' Hty Hty' Hv Hv' Hs Hs' Hc Hc' Htr Hu Ho Hdet Hf Hnew Hid m w1.
  assert (Hfirst :
    audit_logs (db w1) =
      (audit_logs (db w) ++
       [mkAuditLog (uuids w (next w)) e' ty' v' s' c' tr u o
          (parse_action (toLowerCase ty)) (parse_resource (toLowerCase ty)) None
          (Some details) None None (now w)])%list /\
    logs w1 = (logs w ++ [mkLog LError "Failed to process event"])%list).
  { subst w1 m. destruct w as [d fs t g k l ob]. cbn [db faults uuids next now logs] in *.
    subst fs.
    unfold eachMessage, recordEvent, findByEventId, create, mapRowToAuditLog,
      JSON_parse_object, parseEventType, JSON_parse.
    cbn [value].
    do 12 (run; cbn [fst snd pg_uuid_opt orb al_details];
           rewrite ?He, ?He', ?Hty, ?Hty', ?Hv, ?Hv', ?Hs, ?Hs', ?Hc, ?Hc', ?Htr,
             ?Hu, ?Ho, ?Hdet, ?parse_action_fits, ?parse_resource_fits, ?Hnew, ?Hid,
             ?(find_event_id_none _ _ Hnew)).
    destruct (field "toString" details); run; split; reflexivity. }
  destruct Hfirst as [Hrows Hlogs].
  split; [exact Hrows|]. split; [exact Hlogs|].
  intros w2 Hw2.
  destruct (find_event_id_snoc e' (audit_logs (db w))
              (mkAuditLog (uuids w (next w)) e' ty' v' s' c' tr u o
                 (parse_action (toLowerCase ty)) (parse_resource (toLowerCase ty))
                 None (Some details) None None (now w)) eq_refl) as [found Hfound].
  rewrite <- Hrows, <- Hw2 in Hfound. rewrite <- Hw2.
  assert (Hd : exists x, al_details found = Some x).
  { pose proof (List.find_some _ _ Hfound) as [Hin K].
    rewrite Hw2, Hrows in Hin. apply List.in_app_or in Hin.
    destruct Hin as [Hin|[<-|[]]]; [|cbn; eauto].
    exfalso. unfold has_event_id in K. apply String.eqb_eq in K.
    apply (existsb_event_id_false _ _ Hnew).
    rewrite <- K. apply List.in_map. exact Hin. }
  destruct Hd as [x Hx].
  subst m. destruct w2 as [d2 fs2 t2 g2 k2 l2 ob2]. cbn [db logs] in *.
  unfold eachMessage, recordEvent, findByEventId, mapRowToAuditLog,
    JSON_parse_object, JSON_parse.
  cbn [value].
  destruct fs2 as [|[|] fs2]; run; try rewrite He; run; try rewrite He'; run;
    try rewrite Hfound; run; try rewrite Hx;
    try destruct (field "toString" x); run; split; reflexivity.
Qed.

Lemma new_event_is_stored_once_and_logged_as_failed_witness :
  let w1 := snd (eachMessage Sample.audit_member_added Sample.audit_empty) in
  let w2 := snd (eachMessage Sample.audit_member_added (Sample.later 2000 w1)) in
  List.map (fun r => (al_eventId r, al_action r, al_resourceType r))
           (audit_logs (db w1)) = [(Sample.E1, "added", "membership")] /\
  logs w1 = [mkLog LError "Failed to process event"] /\
  db w2 = db w1 /\
  logs w2 = [mkLog LError "Failed to process event";
             mkLog LError "Failed to process event"].
Proof.
  destruct (new_event_is_stored_once_and_logged_as_failed
              "organization.member.added"
              (Audit.mkBaseEvent (Some Sample.E1) (Some "MemberAdded") (Some "v1")
                 (Some "organization-service") (Some Sample.K1) None
                 (Some Sample.U) (Some Sample.T) Sample.MemberAdded_admin)
              Sample.E1 Sample.E1 "MemberAdded" "MemberAdded" "v1" "v1"
              "organization-service" "organization-service"
              Sample.K1 Sample.K1 None (Some Sample.U) (Some Sample.T)
              (match Sample.MemberAdded_admin with JObj x => x | _ => [] end)
              Sample.audit_empty
              eq_refl eq_refl eq_refl eq_refl eq_refl eq_refl eq_refl eq_refl
              eq_refl eq_refl eq_refl eq_refl eq_refl eq_refl eq_refl eq_refl eq_refl)
    as (Hrow & Hlog & Hagain).
  change Sample.audit_member_added with
    (mkAuditMessage "organization.member.added"
       (Parsed (Audit.mkBaseEvent (Some Sample.E1) (Some "MemberAdded") (Some "v1")
                  (Some "organization-service") (Some Sample.K1) None
                  (Some Sample.U) (Some Sample.T) Sample.MemberAdded_admin))).
  split; [rewrite Hrow; reflexivity|]. split; [exact Hlog|].
  destruct (Hagain
              (Sample.later 2000
                 (snd (eachMessage Sample.audit_member_added Sample.audit_empty)))
              eq_refl) as [Hdb Hlog2].
  split; [exact Hdb|]. refine (eq_trans Hlog2 _). vm_compute. reflexivity.
Defined.

Lemma In_firstn {A} (n : nat) (l : list A) (x : A) :
  In x (List.firstn n l) -> In x l.
Proof.
  intros H. rewrite <- (List.firstn_skipn n l). apply List.in_or_app. left. exact H.
Qed.

Lemma In_skipn {A} (n : nat) (l : list A) (x : A) :
  In x (List.skipn n l) -> In x l.
Proof.
  intros H. rewrite <- (List.firstn_skipn n l). apply List.in_or_app. right. exact H.
Qed.

Lemma In_insert_audit_row r x l :
  In x (insert_by_created r l) -> x = r \/ In x l.
Proof.
  induction l as [|q rest IH]; cbn [insert_by_created In].
  - intros [H|[]]. left. congruence.
  - destruct (al_createdAt q <? al_createdAt r); cbn [In].
    + intros [H|[H|H]]; auto.
    + intros [H|H]; [auto|]. destruct (IH H); auto.
Qed.

Lemma In_order_audit_rows x l : In x (order_by_created_desc l) -> In x l.
Proof.
  induction l as [|r rest IH]; cbn [order_by_created_desc List.fold_right In];
    [tauto|].
  intros H. apply In_insert_audit_row in H. destruct H as [H|H]; [auto|].
  right. exact (IH H).
Qed.

Lemma insert_audit_row_not_empty r l : insert_by_created r l <> [].
Proof.
  destruct l as [|q rest]; cbn [insert_by_created]; [discriminate|].
  destruct (al_createdAt q <? al_createdAt r); discriminate.
Qed.

(** [result.rows.map(...)]: it returns only when no row holds details, and
    never touches the world. *)
Lemma map_rows_outcome (rows : list AuditLog) (w : World Db) :
  snd (map_rows rows w) = w /\
  (forall rs, fst (map_rows rows w) = Return rs ->
     rs = List.map (set_details (Some [])) rows /\
     List.Forall (fun r => al_details r = None) rows) /\
  (forall r rest o, rows = r :: rest -> al_details r = Some o ->
     exists e, fst (map_rows rows w) = Throw e /\
               (e = SyntaxError \/ e = TypeError)).
Proof.
  induction rows as [|r rest IH]; cbn [map_rows].
  - split; [reflexivity|]. split.
    + intros rs H. injection H as <-. split; [reflexivity|constructor].
    + intros r rest o H. discriminate.
  - destruct IH as (IHw & IHr & _).
    rewrite bind_unfold.
    destruct (al_details r) as [o|] eqn:Ed.
    + destruct (mapRowToAuditLog_throws r o w Ed) as (e & He & Hk).
      rewrite He. cbn [fst snd]. split; [reflexivity|]. split; [discriminate|].
      intros r' rest' o' _ _. eauto.
    + assert (Hm : mapRowToAuditLog r w = (Return (set_details (Some []) r), w)).
      { unfold mapRowToAuditLog. rewrite Ed. reflexivity. }
      rewrite Hm, bind_unfold.
      destruct (map_rows rest w) as [[rs|e] w'] eqn:Hrest; cbn [fst snd ret] in *;
        subst w'; (split; [reflexivity|]); split.
      * intros rs' H. injection H as <-.
        destruct (IHr rs eq_refl) as [-> Hall].
        split; [reflexivity|]. constructor; assumption.
      * intros r' rest' o' H Ho. injection H as <- <-. congruence.
      * discriminate.
      * intros r' rest' o' H Ho. injection H as <- <-. congruence.
Qed.

Lemma filter_all {A} (f : A -> bool) (l : list A) :
  (forall x, f x = true) -> List.filter f l = l.
Proof.
  intros H. induction l as [|x rest IH]; cbn [List.filter]; [reflexivity|].
  rewrite H, IH. reflexivity.
Qed.

(** X24.  An audit query never returns a stored event.  [query] writes
    nothing, whatever happens.  It maps every selected row through
    [mapRowToAuditLog], which throws on a row that holds details: so a row
    it answers with stems from a row of the table whose [details] is NULL,
    and reads [{}] there; when every row of the table holds details - as
    every row does that [create] has inserted - it answers with no row at
    all; and listing the log without conditions, the store answering,
    throws a SyntaxError or a TypeError as soon as the log is not empty. *)
Theorem audit_query_never_returns_a_stored_event
    (q : AuditQuery) (w : World Db) :
  db (snd (AuditService_query q w)) = db w /\
  (forall rows w1,
     AuditService_query q w = (Return rows, w1) ->
     forall r, In r rows ->
       exists r0, In r0 (audit_logs (db w)) /\ al_details r0 = None /\
                  r = set_details (Some []) r0) /\
  (forall rows w1,
     (forall r0, In r0 (audit_logs (db w)) -> al_details r0 <> None) ->
     AuditService_query q w = (Return rows, w1) ->
     rows = []) /\
  (q = mkAuditQuery None None None None None None None None None ->
   hd false (faults w) = false ->
   audit_logs (db w) <> [] ->
   (forall r0, In r0 (audit_logs (db w)) -> al_details r0 <> None) ->
   exists e, fst (AuditService_query q w) = Throw e /\
             (e = SyntaxError \/ e = TypeError)).
Proof.
  assert (Hsel : forall rows w1,
            AuditService_query q w = (Return rows, w1) ->
            exists selected,
              (forall r0, In r0 selected -> In r0 (audit_logs (db w))) /\
              rows = List.map (set_details (Some [])) selected /\
              List.Forall (fun r => al_details r = None) selected).
  { intros rows w1 Hrun. unfold AuditService_query, query in Hrun.
    rewrite bind_unfold in Hrun.
    match type of Hrun with
    | context [pool_query ?s w] =>
        destruct (pool_query s w) as [[selected|e] w2] eqn:E; [|discriminate]
    end.
    apply pool_query_returns in E. destruct E as (d' & Hs & _ & _).
    pose proof (map_rows_outcome selected w2) as (_ & Hr & _).
    rewrite Hrun in Hr. destruct (Hr rows eq_refl) as [Hrows Hall].
    exists selected. split; [|split; assumption].
    apply obind_some in Hs. destruct Hs as (u & Eu & Hs).
    apply obind_some in Hs. destruct Hs as (o & Eo & Hs).
    apply obind_some in Hs. destruct Hs as (rt & Ert & Hs).
    apply obind_some in Hs. destruct Hs as (ri & Eri & Hs).
    apply obind_some in Hs. destruct Hs as (a & Ea & Hs).
    apply obind_some in Hs. destruct Hs as (limit & El & Hs).
    apply obind_some in Hs. destruct Hs as (offset & Eoff & Hs).
    injection Hs as Hsel Hd. subst selected.
    intros r0 H0.
    apply In_firstn, In_skipn, In_order_audit_rows, List.filter_In in H0.
    exact (proj1 H0). }
  split; [|split; [|split]].
  - unfold AuditService_query, query. rewrite bind_unfold.
    match goal with
    | |- context [pool_query ?s w] =>
        pose proof (pool_query_returns s w) as Hret;
        pose proof (pool_query_throw_db s w) as Hthrow;
        destruct (pool_query s w) as [[selected|e] w2] eqn:E
    end.
    + rewrite (proj1 (map_rows_outcome selected w2)).
      destruct (Hret w2 selected eq_refl) as (d' & Hs & _ & ->).
      repeat (apply obind_some in Hs; destruct Hs as (? & _ & Hs)).
      injection Hs as _ <-. destruct w; reflexivity.
    + exact (Hthrow e eq_refl).
  - intros rows w1 Hrun r Hr.
    destruct (Hsel rows w1 Hrun) as (selected & Hin & -> & Hall).
    apply List.in_map_iff in Hr. destruct Hr as (r0 & <- & H0).
    exists r0. split; [exact (Hin r0 H0)|]. split; [|reflexivity].
    rewrite List.Forall_forall in Hall. exact (Hall r0 H0).
  - intros rows w1 Hdet Hrun.
    destruct (Hsel rows w1 Hrun) as (selected & Hin & -> & Hall).
    destruct selected as [|r0 rest]; [reflexivity|]. exfalso.
    apply (Hdet r0 (Hin r0 (or_introl eq_refl))).
    inversion Hall. assumption.
  - intros -> Hf Hne Hdet. unfold AuditService_query, query. rewrite bind_unfold.
    rewrite pool_query_available by exact Hf.
    cbn [aq_userId aq_organizationId aq_resourceType aq_resourceId aq_action
         aq_startDate aq_endDate aq_limit aq_offset given number_or pg_uuid_opt
         pg_text_param_opt pg_row_count obind].
    cbn [Z.leb Z.compare andb Z.to_nat Pos.to_nat Pos.compare Pos.compare_cont
         Pos.iter_op Nat.add List.skipn].
    rewrite (filter_all _ (audit_logs (db w))) by reflexivity.
    destruct (audit_logs (db w)) as [|r0 rest] eqn:Hrows; [contradiction|].
    cbn [order_by_created_desc List.fold_right].
    fold (order_by_created_desc rest).
    pose proof (insert_audit_row_not_empty r0 (order_by_created_desc rest)) as Hn.
    pose proof (In_order_audit_rows) as Hin.
    specialize (fun x => Hin x (r0 :: rest)).
    cbn [order_by_created_desc List.fold_right] in Hin.
    fold (order_by_created_desc rest) in Hin.
    destruct (insert_by_created r0 (order_by_created_desc rest)) as [|x sorted];
      [contradiction|].
    change (List.firstn 100 (x :: sorted)) with (x :: List.firstn 99 sorted).
    destruct (al_details x) as [ox|] eqn:Ex.
    + destruct (map_rows_outcome (x :: List.firstn 99 sorted)
                  (set_db (db w) (set_faults (tl (faults w)) w)))
        as (_ & _ & Hth).
      exact (Hth x _ ox eq_refl Ex).
    + exfalso. apply (Hdet x); [|exact Ex].
      rewrite <- Hrows in *. apply Hin. left. reflexivity.
Qed.

Lemma audit_query_never_returns_a_stored_event_witness :
  let w1 := snd (eachMessage Sample.audit_member_added Sample.audit_empty) in
  let q := mkAuditQuery None None None None None None None None None in
  List.length (audit_logs (db w1)) = 1%nat /\
  (exists e, fst (AuditService_query q w1) = Throw e /\
             (e = SyntaxError \/ e = TypeError)) /\
  db (snd (AuditService_query q w1)) = db w1.
Proof.
  intros w1 q.
  destruct (audit_query_never_returns_a_stored_event q w1) as (Hdb & _ & _ & Hthrow).
  split; [reflexivity|]. split; [|exact Hdb].
  apply Hthrow; [reflexivity|reflexivity|vm_compute; discriminate|].
  intros r0 [<-|[]]. vm_compute. discriminate.
Defined.

End AuditFacts.

(** ** organization-service: deleting organizations and memberships *)

Module OrganizationFacts.

Import WorkflowFacts Organization.

Lemma membership_step_refl a : membership_step a a.
Proof. unfold membership_step. auto. Qed.

Lemma membership_step_trans a b c :
  membership_step a b -> membership_step b c -> membership_step a c.
Proof.
  unfold membership_step. intros (I1 & O1 & D1) (I2 & O2 & D2).
  repeat split; [congruence|congruence|auto].
Qed.

Lemma delete_membership_row_step i t a :
  membership_step a (delete_membership_row i t a).
Proof.
  unfold delete_membership_row, membership_step.
  destruct (String.eqb (m_id a) i && is_null (m_deletedAt a));
    cbn [m_id m_organizationId m_deletedAt]; repeat split; auto.
  intros _. discriminate.
Qed.

Lemma delete_membership_row_deletes i t a :
  m_id a = i -> m_deletedAt (delete_membership_row i t a) <> None.
Proof.
  intros Hi. unfold delete_membership_row. rewrite Hi, String.eqb_refl.
  destruct (m_deletedAt a) eqn:E; cbn [is_null andb m_deletedAt];
    [rewrite E|]; discriminate.
Qed.

Lemma In_insert_membership m x l :
  In x (insert_by_created m l) <-> x = m \/ In x l.
Proof.
  induction l as [|q rest IH]; cbn [insert_by_created].
  - cbn. intuition.
  - destruct (m_createdAt m <? m_createdAt q); cbn [In].
    + intuition.
    + rewrite IH. intuition.
Qed.

Lemma In_order_memberships x l : In x (order_by_created_asc l) <-> In x l.
Proof.
  unfold order_by_created_asc.
  induction l as [|m rest IH]; cbn [List.fold_right]; [tauto|].
  rewrite In_insert_membership, IH. cbn [In]. intuition.
Qed.

(** The loop of [deleteOrganization], when it comes to its end. *)
Lemma softDelete_each (ms : list Membership) : forall (w w1 : World Db),
  for_of ms (fun membership => MembershipRepository_softDelete (m_id membership)) w
  = (Return tt, w1) ->
  (forall m, In m ms -> pg_uuid (m_id m) = Some (m_id m)) ->
  organizations (db w1) = organizations (db w) /\
  outbox w1 = outbox w /\
  (forall b, In b (memberships (db w1)) ->
             exists a, In a (memberships (db w)) /\ membership_step a b) /\
  (forall b, In b (memberships (db w1)) -> In (m_id b) (List.map m_id ms) ->
             m_deletedAt b <> None).
Proof.
  induction ms as [|m rest IH]; intros w w1 Hrun Hids.
  - cbn [for_of] in Hrun. unfold ret in Hrun. inversion Hrun; subst.
    repeat split; [|intros b _ []].
    intros b Hb. exists b. split; [exact Hb|apply membership_step_refl].
  - cbn [for_of] in Hrun. unfold bind in Hrun.
    destruct (MembershipRepository_softDelete (m_id m) w) as [[[]|e] wa] eqn:E;
      [|discriminate].
    unfold MembershipRepository_softDelete in E.
    match type of E with
    | pool_query ?s w = _ => pose proof (pool_query_frame s w) as (_ & Hob & _)
    end.
    rewrite E in Hob. cbn [snd] in Hob.
    apply pool_query_returns in E. destruct E as (d' & Hs & _ & Hwa).
    rewrite (Hids m (or_introl eq_refl)) in Hs. cbn [obind] in Hs.
    injection Hs as Hd'.
    assert (Hdb : db wa = d') by (subst wa; destruct w; reflexivity).
    destruct (IH wa w1 Hrun (fun x Hx => Hids x (or_intror Hx)))
      as (Ho & Hout & Hsim & Hdel).
    rewrite Hdb in Ho, Hsim. subst d'. cbn [organizations memberships] in Ho, Hsim.
    split; [exact Ho|]. split; [congruence|]. split.
    + intros b Hb. destruct (Hsim b Hb) as (a & Ha & Hab).
      apply List.in_map_iff in Ha. destruct Ha as (a0 & Ea & Ha0).
      exists a0. split; [exact Ha0|].
      apply (membership_step_trans _ a); [|exact Hab].
      subst a. apply delete_membership_row_step.
    + intros b Hb Hin. cbn [List.map In] in Hin. destruct Hin as [Hin|Hin].
      * destruct (Hsim b Hb) as (a & Ha & Hi & _ & Hab).
        apply List.in_map_iff in Ha. destruct Ha as (a0 & Ea & Ha0).
        apply Hab. subst a.
        destruct (delete_membership_row_step (m_id m) (now w) a0) as (Hi0 & _).
        apply delete_membership_row_deletes. congruence.
      * exact (Hdel b Hb Hin).
Qed.

Lemma bind_assoc {D A B C} (m : M D A) (f : A -> M D B) (g : B -> M D C)
    (w : World D) :
  bind (bind m f) g w = bind m (fun a => bind (f a) g) w.
Proof.
  unfold bind. destruct (m w) as [[a|e] w1]; reflexivity.
Qed.

(** X25.  A deletion that comes to its end leaves nothing of the
    organization active.  When [deleteOrganization] returns and the ids of
    [memberships] are stored UUIDs, the organization id reads as a UUID [o],
    no row of [organizations] with id [o] and no row of [memberships] of
    organization [o] is without [deleted_at], and exactly one message has
    been handed to the producer: an [OrganizationDeleted] event on
    [organization.deleted].  The publisher of the service is taken to be
    [publish], the one of workflow-service. *)
Theorem completed_deletion_leaves_nothing_active
    (organizationId deletedBy : string) (correlationId : option string)
    (w w1 : World Db) :
  deleteOrganization publish organizationId deletedBy correlationId w
  = (Return tt, w1) ->
  stored_membership_ids (db w) ->
  exists o,
    pg_uuid organizationId = Some o /\
    (forall x, In x (organizations (db w1)) -> o_id x = o -> o_deletedAt x <> None) /\
    (forall m, In m (memberships (db w1)) -> m_organizationId m = o ->
               m_deletedAt m <> None) /\
    exists s, outbox w1 = (outbox w ++ [s])%list /\ is_OrganizationDeleted s.
Proof.
  intros Hrun Hids. unfold deleteOrganization in Hrun.
  unfold bind at 1 in Hrun.
  destruct (OrganizationRepository_softDelete organizationId deletedBy w)
    as [[[]|e] wa] eqn:E1; [|discriminate].
  unfold bind at 1 in Hrun.
  destruct (MembershipRepository_findByOrganization organizationId wa)
    as [[ms|e] wb] eqn:E2; [|discriminate].
  unfold bind at 1 in Hrun.
  destruct (for_of ms (fun membership => MembershipRepository_softDelete
                                           (m_id membership)) wb)
    as [[[]|e] wc] eqn:E3; [|discriminate].
  unfold OrganizationRepository_softDelete in E1.
  match type of E1 with
  | pool_query ?s w = _ => pose proof (pool_query_frame s w) as (_ & Hob1 & _)
  end.
  rewrite E1 in Hob1. cbn [snd] in Hob1.
  apply pool_query_returns in E1. destruct E1 as (da & Hsa & _ & Hwa).
  apply obind_some in Hsa. destruct Hsa as (o & Eo & Hsa). injection Hsa as Hda.
  assert (Hdba : db wa = da) by (subst wa; destruct w; reflexivity).
  unfold MembershipRepository_findByOrganization in E2.
  match type of E2 with
  | pool_query ?s wa = _ => pose proof (pool_query_frame s wa) as (_ & Hob2 & _)
  end.
  rewrite E2 in Hob2. cbn [snd] in Hob2.
  apply pool_query_returns in E2. destruct E2 as (db' & Hsb & _ & Hwb).
  rewrite Eo in Hsb. cbn [obind] in Hsb. injection Hsb as Hms Hdb'.
  assert (Hdbb : db wb = db wa) by (subst wb db'; destruct wa; reflexivity).
  assert (Hstored : forall m, In m ms -> pg_uuid (m_id m) = Some (m_id m)).
  { intros m Hm. rewrite <- Hms in Hm.
    apply (proj1 (In_order_memberships _ _)) in Hm.
    apply List.filter_In in Hm. destruct Hm as [Hm _].
    rewrite Hdba, <- Hda in Hm. cbn [memberships] in Hm.
    unfold stored_membership_ids in Hids. rewrite List.Forall_forall in Hids.
    exact (Hids m Hm). }
  destruct (softDelete_each ms wb wc E3 Hstored) as (Horg & Hob3 & Hsim & Hdel).
  (* the event *)
  unfold new_Date at 1 in Hrun. unfold bind at 1 in Hrun.
  rewrite <- bind_assoc in Hrun.
  destruct (LimitFacts.event_made correlationId "OrganizationDeleted"
              (OrganizationDeletedData organizationId deletedBy (now wc))
              "organization-service" (Some deletedBy) (Some organizationId) wc)
    as (ev & wd & Eev & Hty & _ & _ & _ & _ & _ & _ & _ & Hdbd & _ & Hobd & _).
  rewrite (bind_run _ _ _ _ _ Eev) in Hrun.
  destruct (LimitFacts.publish_cases "organization.deleted" ev wd)
    as [(w2 & Ep & _)|(w2 & Ep & Hdb2 & Hob2' & _)];
    rewrite Ep in Hrun; [discriminate|].
  injection Hrun as Hw1. subst w2.
  exists o. split; [exact Eo|].
  rewrite Hdb2, Hdbd. split; [|split].
  - intros x Hx Hxo. rewrite Horg, Hdbb, Hdba, <- Hda in Hx.
    cbn [organizations] in Hx. apply List.in_map_iff in Hx.
    destruct Hx as (x0 & Ex & _). subst x. unfold delete_organization_row in *.
    destruct (String.eqb (o_id x0) o && is_null (o_deletedAt x0)) eqn:B;
      cbn [o_id o_deletedAt] in *; [discriminate|].
    rewrite Hxo, String.eqb_refl in B. cbn [andb] in B.
    destruct (o_deletedAt x0); [discriminate|discriminate].
  - intros m Hm Hmo. destruct (Hsim m Hm) as (a & Ha & Hi & Hao & Hd).
    destruct (m_deletedAt a) eqn:Ed; [apply Hd; discriminate|].
    apply (Hdel m Hm). rewrite Hi. apply List.in_map.
    rewrite <- Hms. apply (proj2 (In_order_memberships _ _)). apply List.filter_In.
    rewrite Hdbb in Ha. split; [exact Ha|].
    rewrite <- Hao, Hmo, String.eqb_refl, Ed. reflexivity.
  - exists (mkSent "organization.deleted" (message_key ev) ev).
    split; [|split; [reflexivity|exact Hty]].
    rewrite Hob2', Hobd, Hob3, Hob2, Hob1. reflexivity.
Qed.

Lemma completed_deletion_leaves_nothing_active_witness :
  exists w1,
    deleteOrganization publish Sample.T Sample.V (Some Sample.K1)
      Sample.organization_T = (Return tt, w1) /\
    (forall m, In m (memberships (db w1)) -> m_organizationId m = Sample.T ->
               m_deletedAt m <> None) /\
    List.length (outbox w1) = 1%nat.
Proof.
  destruct (deleteOrganization publish Sample.T Sample.V (Some Sample.K1)
              Sample.organization_T) as [[[]|e] w1] eqn:E;
    [|vm_compute in E; discriminate].
  exists w1. split; [reflexivity|].
  assert (Hstored : stored_membership_ids (db Sample.organization_T)).
  { repeat constructor. }
  destruct (completed_deletion_leaves_nothing_active _ _ _ _ _ E Hstored)
    as (o & Eo & _ & Hm & s & Hob & _).
  change (Some Sample.T = Some o) in Eo. injection Eo as <-.
  split; [exact Hm|]. rewrite Hob. reflexivity.
Defined.

Lemma find_pair_after_delete o u t rows :
  List.find (fun m => String.eqb (m_organizationId m) o
                      && String.eqb (m_userId m) u
                      && is_null (m_deletedAt m))
            (List.map (delete_pair_row o u t) rows) = None.
Proof.
  induction rows as [|r rest IH]; cbn [List.map List.find]; [reflexivity|].
  rewrite IH. unfold delete_pair_row.
  destruct (String.eqb (m_organizationId r) o && String.eqb (m_userId r) u) eqn:K;
    cbn [andb].
  - destruct (is_null (m_deletedAt r)) eqn:N;
      cbn [m_organizationId m_userId m_deletedAt is_null];
      rewrite K; [reflexivity|rewrite N; reflexivity].
  - rewrite K. reflexivity.
Qed.

Lemma pair_stays o u t rows :
  List.existsb (fun m => String.eqb (m_organizationId m) o
                         && String.eqb (m_userId m) u)
               (List.map (delete_pair_row o u t) rows)
  = List.existsb (fun m => String.eqb (m_organizationId m) o
                           && String.eqb (m_userId m) u) rows.
Proof.
  induction rows as [|r rest IH]; cbn [List.map List.existsb]; [reflexivity|].
  rewrite IH. f_equal. unfold delete_pair_row.
  destruct (String.eqb (m_organizationId r) o && String.eqb (m_userId r) u
            && is_null (m_deletedAt r)); reflexivity.
Qed.

(** X26.  A member who was removed cannot be made a member again.  Once
    [softDeleteByOrganizationAndUser] has run for a pair that has a row in
    [memberships], [findByOrganizationAndUser] never finds a membership of
    the pair, while [create] for the pair always fails with a store error and
    adds no row: [UNIQUE(organization_id, user_id)] counts the deleted row. *)
Theorem removed_member_cannot_be_created_again
    (input : CreateMembershipInput) (o u : string) (w w1 : World Db) :
  pg_uuid (cmi_organizationId input) = Some o ->
  pg_uuid (cmi_userId input) = Some u ->
  List.existsb (fun m => String.eqb (m_organizationId m) o
                         && String.eqb (m_userId m) u) (memberships (db w)) = true ->
  MembershipRepository_softDeleteByOrganizationAndUser
    (cmi_organizationId input) (cmi_userId input) w = (Return tt, w1) ->
  forall w2 : World Db, db w2 = db w1 ->
    (forall found w3,
       MembershipRepository_findByOrganizationAndUser
         (cmi_organizationId input) (cmi_userId input) w2 = (Return found, w3) ->
       found = None) /\
    fst (MembershipRepository_create input w2) = Throw StoreError /\
    db (snd (MembershipRepository_create input w2)) = db w1.
Proof.
  intros Ho Hu Hrow Hdel w2 Hw2.
  unfold MembershipRepository_softDeleteByOrganizationAndUser in Hdel.
  apply pool_query_returns in Hdel. destruct Hdel as (d1 & Hs & _ & Hw1).
  rewrite Ho in Hs. cbn [obind] in Hs. rewrite Hu in Hs. cbn [obind] in Hs.
  injection Hs as Hd1.
  assert (Hdb1 : db w1 = d1) by (subst w1; destruct w; reflexivity).
  split; [|].
  - intros found w3 Hfind.
    unfold MembershipRepository_findByOrganizationAndUser in Hfind.
    apply pool_query_returns in Hfind. destruct Hfind as (d3 & Hs & _).
    rewrite Ho in Hs. cbn [obind] in Hs. rewrite Hu in Hs. cbn [obind] in Hs.
    injection Hs as Hfound _. rewrite <- Hfound, Hw2, Hdb1, <- Hd1.
    cbn [memberships]. apply find_pair_after_delete.
  - unfold MembershipRepository_create, bind, randomUUID.
    lazymatch goal with
    | |- fst (pool_query ?s ?wi) = _ /\ _ =>
        assert (Hdbi : db wi = db w2) by reflexivity;
        destruct (pool_query_cases s wi) as [(w3 & E & Hun)|(a & d3 & Hs & _)]
    end.
    + rewrite E. cbn [fst snd]. split; [reflexivity|].
      destruct Hun as (Hd & _). congruence.
    + exfalso. rewrite Ho in Hs. cbn [obind] in Hs. rewrite Hu in Hs.
      cbn [obind] in Hs.
      destruct (pg_varchar 50 (cmi_role input)); cbn [obind] in Hs; [|discriminate].
      rewrite Hdbi, Hw2, Hdb1, <- Hd1 in Hs. cbn [memberships organizations] in Hs.
      rewrite pair_stays, Hrow, !orb_true_r in Hs. discriminate.
Qed.

Lemma removed_member_cannot_be_created_again_witness :
  let input := mkCreateMembershipInput Sample.T Sample.U "member" in
  let w1 := snd (MembershipRepository_softDeleteByOrganizationAndUser
                   Sample.T Sample.U Sample.organization_T) in
  fst (MembershipRepository_findByOrganizationAndUser Sample.T Sample.U w1)
  = Return None /\
  fst (MembershipRepository_create input w1) = Throw StoreError.
Proof.
  intros input w1.
  destruct (removed_member_cannot_be_created_again input Sample.T Sample.U
              Sample.organization_T w1 eq_refl eq_refl eq_refl eq_refl w1 eq_refl)
    as (Hfind & Hcreate & _).
  split; [|exact Hcreate].
  destruct (MembershipRepository_findByOrganizationAndUser Sample.T Sample.U w1)
    as [[found|e] w3] eqn:E; [|vm_compute in E; discriminate].
  rewrite (Hfind found w3 E). reflexivity.
Defined.

Lemma find_new_organization i rows row :
  List.existsb (fun x => String.eqb (o_id x) i) rows = false ->
  o_id row = i -> o_deletedAt row = None ->
  List.find (fun x => String.eqb (o_id x) i && is_null (o_deletedAt x))
            (rows ++ [row]) = Some row.
Proof.
  intros Hnew Hi Hd.
  induction rows as [|r rest IH]; cbn [List.app List.find List.existsb] in *.
  - rewrite Hi, String.eqb_refl, Hd. reflexivity.
  - apply orb_false_iff in Hnew. destruct Hnew as [K Hrest].
    rewrite K. cbn [andb]. exact (IH Hrest).
Qed.

Lemma find_organization_after_delete i t rows :
  List.find (fun x => String.eqb (o_id x) i && is_null (o_deletedAt x))
            (List.map (delete_organization_row i t) rows) = None.
Proof.
  induction rows as [|r rest IH]; cbn [List.map List.find]; [reflexivity|].
  rewrite IH. unfold delete_organization_row.
  destruct (String.eqb (o_id r) i) eqn:K; cbn [andb].
  - destruct (is_null (o_deletedAt r)) eqn:N; cbn [o_id o_deletedAt is_null];
      rewrite K; [reflexivity|rewrite N; reflexivity].
  - rewrite K. reflexivity.
Qed.

(** X27.  An organization is found by its id from its creation to its
    deletion.  When [OrganizationRepository.create] returns a row whose
    generated id is a stored UUID, [findById] of that id answers with that
    very row in every state with the tables as [create] left them; once
    [softDelete] of the id has run in such a state, [findById] answers
    [null], although the row is still in the table. *)
Theorem created_organization_is_found_until_deleted
    (input : CreateOrganizationInput) (w w1 : World Db) (row : OrganizationRow) :
  OrganizationRepository_create input w = (Return row, w1) ->
  pg_uuid (o_id row) = Some (o_id row) ->
  (forall (w2 w3 : World Db) found,
     db w2 = db w1 ->
     OrganizationRepository_findById (o_id row) w2 = (Return found, w3) ->
     found = Some row) /\
  (forall (w2 w3 : World Db) deletedBy,
     db w2 = db w1 ->
     OrganizationRepository_softDelete (o_id row) deletedBy w2 = (Return tt, w3) ->
     List.length (organizations (db w3)) = List.length (organizations (db w1)) /\
     forall (w4 w5 : World Db) found,
       db w4 = db w3 ->
       OrganizationRepository_findById (o_id row) w4 = (Return found, w5) ->
       found = None).
Proof.
  intros Hrun Hid.
  unfold OrganizationRepository_create, bind, randomUUID in Hrun.
  cbv beta iota in Hrun.
  apply pool_query_returns in Hrun. destruct Hrun as (d1 & Hs & _ & Hw1).
  cbn [db now] in Hs.
  apply obind_some in Hs. destruct Hs as (n & En & Hs).
  apply obind_some in Hs. destruct Hs as (c & Ec & Hs).
  destruct (List.existsb (fun x => String.eqb (o_id x) (uuids w (next w)))
                         (organizations (db w))) eqn:Hnew; [discriminate|].
  cbv zeta in Hs. injection Hs as Hrow Hd1.
  assert (Hdb1 : db w1 = d1) by (subst w1; reflexivity).
  assert (Hi : o_id row = uuids w (next w)) by (subst row; reflexivity).
  assert (Hd : o_deletedAt row = None) by (subst row; reflexivity).
  split.
  - intros w2 w3 found Hw2 Hfind.
    unfold OrganizationRepository_findById in Hfind.
    apply pool_query_returns in Hfind. destruct Hfind as (d3 & Hs & _).
    rewrite Hid in Hs. cbn [obind] in Hs. injection Hs as Hfound _.
    rewrite <- Hfound, Hw2, Hdb1, <- Hd1. cbn [organizations].
    rewrite Hrow. apply find_new_organization; [|reflexivity|exact Hd].
    rewrite Hi. exact Hnew.
  - intros w2 w3 deletedBy Hw2 Hdel.
    unfold OrganizationRepository_softDelete in Hdel.
    apply pool_query_returns in Hdel. destruct Hdel as (d3 & Hs & _ & Hw3).
    rewrite Hid in Hs. cbn [obind] in Hs. injection Hs as Hd3.
    assert (Hdb3 : db w3 = d3) by (subst w3; destruct w2; reflexivity).
    split.
    + rewrite Hdb3, <- Hd3. cbn [organizations]. rewrite List.length_map, Hw2.
      reflexivity.
    + intros w4 w5 found Hw4 Hfind.
      unfold OrganizationRepository_findById in Hfind.
      apply pool_query_returns in Hfind. destruct Hfind as (d5 & Hs & _).
      rewrite Hid in Hs. cbn [obind] in Hs. injection Hs as Hfound _.
      rewrite <- Hfound, Hw4, Hdb3, <- Hd3. cbn [organizations].
      apply find_organization_after_delete.
Qed.

Lemma created_organization_is_found_until_deleted_witness :
  exists row w1,
    OrganizationRepository_create (mkCreateOrganizationInput "globex" Sample.V)
      Sample.organization_T = (Return row, w1) /\
    fst (OrganizationRepository_findById (o_id row) w1) = Return (Some row) /\
    fst (OrganizationRepository_findById (o_id row)
           (snd (OrganizationRepository_softDelete (o_id row) Sample.V w1)))
    = Return None.
Proof.
  destruct (OrganizationRepository_create (mkCreateOrganizationInput "globex" Sample.V)
              Sample.organization_T) as [[row|e] w1] eqn:E;
    [|vm_compute in E; discriminate].
  exists row, w1. split; [reflexivity|].
  assert (Hid : pg_uuid (o_id row) = Some (o_id row)).
  { vm_compute in E. inversion E. reflexivity. }
  destruct (created_organization_is_found_until_deleted _ _ _ _ E Hid)
    as [Hfound Hgone].
  split.
  - destruct (OrganizationRepository_findById (o_id row) w1)
      as [[found|e] w3] eqn:F.
    + rewrite (Hfound w1 w3 found eq_refl F). reflexivity.
    + exfalso. vm_compute in E. inversion E. subst. vm_compute in F. discriminate.
  - destruct (OrganizationRepository_softDelete (o_id row) Sample.V w1)
      as [[[]|e] w3] eqn:D.
    + destruct (Hgone w1 w3 Sample.V eq_refl D) as [_ Hnone]. cbn [snd].
      destruct (OrganizationRepository_findById (o_id row) w3)
        as [[found|e] w5] eqn:F.
      * rewrite (Hnone w3 w5 found eq_refl F). reflexivity.
      * exfalso. vm_compute in E. inversion E. subst. vm_compute in D.
        inversion D. subst. vm_compute in F. discriminate.
    + exfalso. vm_compute in E. inversion E. subst. vm_compute in D. discriminate.
Defined.

End OrganizationFacts.

(** ** workflow-service: what the consumer does with an event *)

Module DispatchFacts.

Import Workflow WorkflowFacts ConsumerFacts DeletionFacts Events.

Lemma extend_other_type {D} (lit : string)
    (data_schema : list (string * Json) -> option D) (event : Json) :
  event_type event <> Some (JStr lit) -> extend lit data_schema event = None.
Proof.
  intros Hty. unfold extend.
  destruct event as [|b|n|s|xs|o]; try reflexivity.
  all: cbn [z_object obind].
  all: try reflexivity.
  unfold BaseEventSchema.
  destruct (z_uuid (field "eventId" o)); cbn [obind]; [|reflexivity].
  unfold z_literal, z_string. cbn [event_type] in Hty.
  destruct (field "eventType" o) as [[|b'|n'|s'|xs'|fs']|]; cbn [obind];
    try reflexivity.
  destruct (String.eqb s' lit) eqn:E; cbn [obind]; [|reflexivity].
  apply String.eqb_eq in E. subst s'. exfalso. apply Hty. reflexivity.
Qed.

(** X28.  An event that is not of the type its topic carries changes
    nothing.  Each handler parses the event with the schema of its own event
    type, so a message on a topic whose event has another [eventType] (or
    none, or is no object), and any message on a topic without a handler, is
    acknowledged: [eachMessage] returns, the tables and the outbox are as
    before. *)
Theorem event_of_another_type_changes_no_table
    (tp : string) (event : Json) (w : W) :
  (forall ty, topic_event_type tp = Some ty -> event_type event <> Some (JStr ty)) ->
  fst (eachMessage (mkMessage tp (Text event)) w) = Return tt /\
  db (snd (eachMessage (mkMessage tp (Text event)) w)) = db w /\
  outbox (snd (eachMessage (mkMessage tp (Text event)) w)) = outbox w.
Proof.
  intros Hty. unfold topic_event_type in Hty.
  change (eachMessage (mkMessage tp (Text event)) w) with
    (try_catch
       (if String.eqb tp "organization.member.added" then handleMemberAdded event
        else if String.eqb tp "organization.member.removed"
             then handleMemberRemoved event
        else if String.eqb tp "organization.role.changed"
             then handleRoleChanged event
        else if String.eqb tp "billing.entitlements.updated"
             then handleEntitlementsUpdated event
        else if String.eqb tp "organization.deleted"
             then handleOrganizationDeleted event
        else ret tt)
       (fun _ => logger_error "Failed to process event") w).
  destruct (String.eqb tp "organization.member.added") eqn:E1.
  { unfold handleMemberAdded, MemberAddedEventSchema.
    rewrite (extend_other_type _ _ _ (Hty _ eq_refl)).
    destruct w; run; repeat split. }
  destruct (String.eqb tp "organization.member.removed") eqn:E2.
  { unfold handleMemberRemoved, MemberRemovedEventSchema.
    rewrite (extend_other_type _ _ _ (Hty _ eq_refl)).
    destruct w; run; repeat split. }
  destruct (String.eqb tp "organization.role.changed") eqn:E3.
  { unfold handleRoleChanged, RoleChangedEventSchema.
    rewrite (extend_other_type _ _ _ (Hty _ eq_refl)).
    destruct w; run; repeat split. }
  destruct (String.eqb tp "billing.entitlements.updated") eqn:E4.
  { unfold handleEntitlementsUpdated, EntitlementsUpdatedEventSchema.
    rewrite (extend_other_type _ _ _ (Hty _ eq_refl)).
    destruct w; run; repeat split. }
  destruct (String.eqb tp "organization.deleted") eqn:E5.
  { unfold handleOrganizationDeleted, OrganizationDeletedEventSchema.
    rewrite (extend_other_type _ _ _ (Hty _ eq_refl)).
    destruct w; run; repeat split. }
  destruct w; run; repeat split.
Qed.

Lemma event_of_another_type_changes_no_table_witness :
  db (snd (eachMessage (mkMessage "organization.member.removed"
                          (Text Sample.MemberAdded_admin)) Sample.workflow_T))
  = db Sample.workflow_T.
Proof.
  apply (event_of_another_type_changes_no_table "organization.member.removed"
           Sample.MemberAdded_admin Sample.workflow_T).
  intros ty E. vm_compute in E. injection E as E. subst ty.
  vm_compute. discriminate.
Defined.

(** *** The projects after a handled [OrganizationDeleted] event *)

Lemma In_order_by_created_desc_rev p ps :
  In p ps -> In p (order_by_created_desc ps).
Proof.
  unfold order_by_created_desc.
  assert (Hins : forall q sorted x,
            x = q \/ In x sorted -> In x (insert_by_created q sorted)).
  { intros q sorted x. induction sorted as [|y rest IH]; cbn [insert_by_created].
    - intros [H|[]]. left. auto.
    - destruct (p_createdAt y <? p_createdAt q); cbn [In].
      + intros [H|[H|H]]; auto.
      + intros [H|[H|H]]; auto. }
  induction ps as [|x rest IH]; cbn [List.fold_right In]; [tauto|].
  intros [H|H]; apply Hins; [left; auto|right; auto].
Qed.

Lemma archive_row_own_id t p :
  archive_row (p_id p) t (archive_row (p_id p) t p) = archive_row (p_id p) t p.
Proof.
  unfold archive_row, has_project_id. rewrite String.eqb_refl. cbn [p_id].
  rewrite String.eqb_refl. reflexivity.
Qed.

(** [archive] for each of [ids] archives the rows whose id is among them
    and leaves every other row as it is. *)
Lemma archive_all_map (ids : list string) (t : Z) : forall ps,
  archive_all ids t ps =
  List.map (fun p => if List.existsb (String.eqb (p_id p)) ids
                     then archive_row (p_id p) t p else p) ps.
Proof.
  unfold archive_all.
  induction ids as [|i rest IH]; intros ps; cbn [List.fold_left List.existsb].
  - symmetry. apply List.map_id.
  - rewrite IH, List.map_map. apply List.map_ext. intros p.
    assert (Hr : archive_row i t p =
                 if String.eqb (p_id p) i then archive_row (p_id p) t p else p).
    { unfold archive_row, has_project_id. rewrite String.eqb_refl. reflexivity. }
    rewrite Hr. destruct (String.eqb (p_id p) i); cbn [orb]; [|reflexivity].
    rewrite archive_row_id.
    destruct (List.existsb (String.eqb (p_id p)) rest); [|reflexivity].
    apply archive_row_own_id.
Qed.

Lemma archive_run (i : string) (w : W) :
  faults w = [] ->
  pg_uuid i = Some i ->
  In i (List.map p_id (projects (db w))) ->
  exists p w',
    ProjectRepository_archive i w = (Return p, w') /\
    faults w' = [] /\ now w' = now w /\ outbox w' = outbox w /\
    projects (db w') = List.map (archive_row i (now w)) (projects (db w)) /\
    tasks (db w') = tasks (db w) /\
    membership_cache (db w') = membership_cache (db w) /\
    entitlements_cache (db w') = entitlements_cache (db w).
Proof.
  intros Hf Hu Hin.
  assert (Hin' : In i (List.map p_id (List.map (archive_row i (now w)) (projects (db w))))).
  { rewrite map_id_archive_row. exact Hin. }
  destruct (find_by_id _ _ Hin') as [p Hp].
  exists p.
  exists (set_db (set_projects (List.map (archive_row i (now w)) (projects (db w)))
                               (db w)) w).
  split.
  - unfold ProjectRepository_archive.
    rewrite (bind_run _ _ w
               (set_db (set_projects (List.map (archive_row i (now w))
                                               (projects (db w))) (db w)) w)
               (Some p)); [reflexivity|].
    apply pool_query_quiet; [exact Hf|].
    unfold obind. rewrite Hu, Hp. reflexivity.
  - destruct w as [d fs t g k l ob]. destruct d.
    cbn [faults db set_db set_projects projects tasks membership_cache
         entitlements_cache now outbox] in *.
    repeat split. exact Hf.
Qed.

Lemma archive_each_run (found : list Project) : forall (w : W),
  faults w = [] ->
  (forall p, In p found ->
             pg_uuid (p_id p) = Some (p_id p) /\
             In (p_id p) (List.map p_id (projects (db w)))) ->
  exists w',
    archive_each found w = (Return tt, w') /\
    faults w' = [] /\ now w' = now w /\ outbox w' = outbox w /\
    projects (db w') = archive_all (List.map p_id found) (now w) (projects (db w)) /\
    tasks (db w') = tasks (db w) /\
    membership_cache (db w') = membership_cache (db w) /\
    entitlements_cache (db w') = entitlements_cache (db w).
Proof.
  induction found as [|p rest IH]; intros w Hf Hall.
  - exists w. repeat split. exact Hf.
  - destruct (Hall p (or_introl eq_refl)) as [Hu Hin].
    destruct (archive_run (p_id p) w Hf Hu Hin)
      as (q & w1 & Hrun & Hf1 & Hn1 & Ho1 & Hp1 & Ht1 & Hm1 & He1).
    destruct (IH w1 Hf1) as (w2 & Hrest & Hf2 & Hn2 & Ho2 & Hp2 & Ht2 & Hm2 & He2).
    { intros x Hx. destruct (Hall x (or_intror Hx)) as [Hxu Hxin].
      split; [exact Hxu|]. rewrite Hp1, map_id_archive_row. exact Hxin. }
    exists w2. split.
    + unfold archive_each in *. cbn [for_of].
      rewrite (bind_run _ _ w w1 tt).
      2:{ rewrite (bind_run _ _ _ _ _ Hrun). reflexivity. }
      exact Hrest.
    + rewrite Hp2, Hp1, Hn1. cbn [List.map archive_all List.fold_left].
      repeat split; congruence.
Qed.

Lemma same_id_same_row (ps : list Project) (a b : Project) :
  List.NoDup (List.map p_id ps) -> In a ps -> In b ps -> p_id a = p_id b -> a = b.
Proof.
  induction ps as [|x rest IH]; cbn [List.map In]; [tauto|].
  intros Hn Ha Hb Hid. inversion Hn as [|y ys Hx Hrest]; subst.
  destruct Ha as [Ha|Ha], Hb as [Hb|Hb].
  - congruence.
  - subst a. exfalso. apply Hx. rewrite Hid. apply List.in_map. exact Hb.
  - subst b. exfalso. apply Hx. rewrite <- Hid. apply List.in_map. exact Ha.
  - exact (IH Hrest Ha Hb Hid).
Qed.

(** X29.  A handled [OrganizationDeleted] event leaves the organization
    without an active project and no other organization's project changed.
    When the store answers, the ids of [projects] are stored UUIDs and no two
    rows share one, then after [handleOrganizationDeleted] no project of the
    organization of the event is [active], the projects of every other
    organization are the rows they were, and no row was added or removed. *)
Theorem OrganizationDeleted_archives_the_projects_of_its_organization
    (event : Json) (v : Validated OrganizationDeleted) (w : W) :
  OrganizationDeletedEventSchema event = Some v ->
  faults w = [] ->
  stored_ids (db w) ->
  List.NoDup (List.map p_id (projects (db w))) ->
  let o := toLowerCase (od_organizationId (data v)) in
  let w1 := snd (handleOrganizationDeleted event w) in
  (forall p, In p (projects (db w1)) -> p_organizationId p = o ->
             p_status p <> Active) /\
  (forall p, p_organizationId p <> o ->
             (In p (projects (db w1)) <-> In p (projects (db w)))) /\
  List.map p_id (projects (db w1)) = List.map p_id (projects (db w)).
Proof.
  intros Hv Hf Hids Hnd o w1.
  pose proof (OrganizationDeleted_id event v Hv) as Ho.
  set (org := od_organizationId (data v)) in *.
  set (found := order_by_created_desc
                  (List.filter
                     (fun p => String.eqb (p_organizationId p) o
                               && negb (project_status_eqb (p_status p) Deleted))
                     (projects (db w)))).
  assert (Hfind : ProjectRepository_findByOrganization org w = (Return found, w)).
  { unfold ProjectRepository_findByOrganization.
    rewrite (pool_query_quiet _ w found (db w) Hf).
    - destruct w; reflexivity.
    - unfold obind. rewrite (pg_uuid_some _ Ho). reflexivity. }
  assert (Hfound : forall p, In p found ->
            In p (projects (db w)) /\ p_organizationId p = o).
  { intros p Hp. apply In_order_by_created_desc in Hp.
    apply List.filter_In in Hp. destruct Hp as [Hp Hc]. split; [exact Hp|].
    apply andb_prop in Hc. destruct Hc as [Hc _]. apply String.eqb_eq. exact Hc. }
  destruct (archive_each_run found w Hf)
    as (w2 & Hloop & Hf2 & Hn2 & _ & Hp2 & _ & _ & He2).
  { intros p Hp. destruct (Hfound p Hp) as [Hin _]. split.
    - unfold stored_ids in Hids. rewrite List.Forall_forall in Hids. exact (Hids p Hin).
    - apply List.in_map. exact Hin. }
  set (d3 := set_entitlements_cache
               (List.filter (fun r => negb (entitlements_key o r))
                            (entitlements_cache (db w2))) (db w2)).
  assert (Hdel : deleteEntitlements org w2 = (Return tt, set_db d3 w2)).
  { unfold deleteEntitlements. apply pool_query_quiet; [exact Hf2|].
    unfold obind. rewrite (pg_uuid_some _ Ho). reflexivity. }
  assert (Hrun : handleOrganizationDeleted event w =
                 (Return tt,
                  snd (logger_info "Organization deleted - projects archived"
                         (set_db d3 w2)))).
  { unfold handleOrganizationDeleted. apply try_catch_run.
    rewrite Hv. cbn [parse]. unfold bind at 1. cbn [ret]. fold org.
    rewrite (bind_run _ _ _ _ _ Hfind).
    fold (archive_each found).
    rewrite (bind_run _ _ _ _ _ Hloop).
    rewrite (bind_run _ _ _ _ _ Hdel). reflexivity. }
  assert (Hprojects : projects (db w1) =
            List.map (fun p => if List.existsb (String.eqb (p_id p))
                                               (List.map p_id found)
                               then archive_row (p_id p) (now w) p else p)
                     (projects (db w))).
  { subst w1. rewrite Hrun. unfold logger_info, log, d3.
    cbn [snd db set_db]. destruct (db w2) eqn:Edb2.
    cbn [set_entitlements_cache projects] in *. rewrite Hp2.
    apply archive_all_map. }
  assert (Hc : forall a, In a (projects (db w)) ->
            List.existsb (String.eqb (p_id a)) (List.map p_id found) = true ->
            p_organizationId a = o).
  { intros a Ha Hex. apply List.existsb_exists in Hex.
    destruct Hex as (i & Hi & Ei). apply String.eqb_eq in Ei.
    apply List.in_map_iff in Hi. destruct Hi as (f & Ef & Hfin).
    destruct (Hfound f Hfin) as [Hfp Hfo].
    assert (a = f) by (apply (same_id_same_row _ _ _ Hnd Ha Hfp); congruence).
    congruence. }
  assert (Harch : forall a, p_status (archive_row (p_id a) (now w) a) = Archived /\
                            p_organizationId (archive_row (p_id a) (now w) a)
                            = p_organizationId a /\
                            p_id (archive_row (p_id a) (now w) a) = p_id a).
  { intros a. unfold archive_row, has_project_id. rewrite String.eqb_refl.
    repeat split. }
  split; [|split].
  - intros p Hp Hpo. rewrite Hprojects in Hp. apply List.in_map_iff in Hp.
    destruct Hp as (a & Ea & Ha).
    destruct (List.existsb (String.eqb (p_id a)) (List.map p_id found)) eqn:Hex.
    + subst p. destruct (Harch a) as (Hs & _). rewrite Hs. discriminate.
    + subst p. intros Hact.
      assert (Hin : In a found).
      { apply In_order_by_created_desc_rev. apply List.filter_In.
        split; [exact Ha|]. rewrite Hpo, String.eqb_refl, Hact. reflexivity. }
      assert (Hex' : List.existsb (String.eqb (p_id a)) (List.map p_id found) = true).
      { apply List.existsb_exists. exists (p_id a).
        split; [apply List.in_map; exact Hin|apply String.eqb_refl]. }
      congruence.
  - intros p Hpo. rewrite Hprojects. split.
    + intros Hp. apply List.in_map_iff in Hp. destruct Hp as (a & Ea & Ha).
      destruct (List.existsb (String.eqb (p_id a)) (List.map p_id found)) eqn:Hex.
      * exfalso. apply Hpo. subst p. destruct (Harch a) as (_ & Hpo' & _).
        rewrite Hpo'. exact (Hc a Ha Hex).
      * subst p. exact Ha.
    + intros Hp. apply List.in_map_iff. exists p. split; [|exact Hp].
      destruct (List.existsb (String.eqb (p_id p)) (List.map p_id found)) eqn:Hex;
        [|reflexivity].
      exfalso. apply Hpo. exact (Hc p Hp Hex).
  - rewrite Hprojects, List.map_map. apply List.map_ext. intros a.
    destruct (List.existsb _ _); [|reflexivity]. apply Harch.
Qed.

Lemma OrganizationDeleted_archives_the_projects_of_its_organization_witness :
  let w1 := snd (handleOrganizationDeleted Sample.OrganizationDeleted_T
                   Sample.workflow_T) in
  List.map p_id (projects (db w1)) = [Sample.P1; Sample.P2] /\
  forall p, In p (projects (db w1)) -> p_organizationId p = Sample.T ->
            p_status p <> Active.
Proof.
  assert (Hids : stored_ids (db Sample.workflow_T)) by (repeat constructor).
  assert (Hnd : List.NoDup (List.map p_id (projects (db Sample.workflow_T)))).
  { repeat constructor; cbn; intuition discriminate. }
  destruct (OrganizationDeleted_archives_the_projects_of_its_organization
              Sample.OrganizationDeleted_T
              (mkValidated
                 (mkBase Sample.E1 "OrganizationDeleted" "v1" Sample.instant
                    "organization-service" Sample.K1 None (Some Sample.U)
                    (Some Sample.T))
                 (mkOrganizationDeleted Sample.T Sample.V Sample.instant))
              Sample.workflow_T eq_refl eq_refl Hids Hnd)
    as (Hactive & _ & Hsame).
  split; [exact Hsame|exact Hactive].
Defined.

End DispatchFacts.
